(** * Restly: the daily activity analysis and its dashboard scores

    A shallow embedding of [daily_summary.py] (class [ActivityAnalyzer] and
    [main]), of the data part of [dashboard_server.py] ([get_dashboard_data],
    the summary endpoint and the bars of the hourly chart), of
    [ai_summary.py] (the configuration, the summary generator and the
    interactive setup) and of [setup_gemini.py].

    Conventions of the embedding.
    - A decoded JSON value is a [pyval]; a Python [dict] is an association
      list in insertion order, which is the order Python iterates it in.
    - A Python [str] is its UTF-8 byte string; comparing byte strings
      lexicographically is comparing code points lexicographically.
    - A Python [float] is the exact rational value of a binary64 number.
      Every float operation rounds its exact result to 53 significant bits,
      ties to even ([fl]).  Infinities, NaN, subnormal numbers and the sign
      of zero are outside the model.  An int that is too large for a float
      raises [OverflowError] where it is divided ([truediv]); that is the one
      place where the program hands an int of the input to a float
      operation.
    - A computation that can raise returns a [result]; [try]/[except] is
      [catching].
    - Library functions whose definitions live outside the repository
      ([json.loads], [str.strip], [datetime.fromisoformat]) are parameters of
      the sections that use them; [fromisoformat_std] is an instance for the
      format that [datetime.isoformat] writes. *)

From Stdlib Require Import ZArith QArith Qround Qabs Qpower.
From Stdlib Require Import List String Ascii Bool Lia Lqa.
From Stdlib Require Import DecimalString Permutation Sorted.
Import ListNotations.

Local Open Scope string_scope.
Local Open Scope list_scope.
Local Open Scope Z_scope.

(** ** Exceptions *)

Inductive exn : Type :=
| AttributeError | KeyError | TypeError | ValueError | ZeroDivisionError
| OverflowError
| UnicodeDecodeError     (** a subclass of [ValueError] *)
| JSONDecodeError        (** [json.JSONDecodeError], a subclass of [ValueError] *)
| RecursionError.

Inductive result (A : Type) : Type :=
| Ok (a : A)
| Raise (e : exn).
Arguments Ok {A} a.
Arguments Raise {A} e.

Definition bind {A B : Type} (c : result A) (k : A -> result B) : result B :=
  match c with
  | Ok a => k a
  | Raise e => Raise e
  end.

Declare Scope py_scope.
Delimit Scope py_scope with py.
Notation "x <- c ;; k" := (bind c (fun x => k))
  (at level 61, c at next level, right associativity) : py_scope.
Local Open Scope py_scope.

Definition exn_eqb (a b : exn) : bool :=
  match a, b with
  | AttributeError, AttributeError | KeyError, KeyError | TypeError, TypeError
  | ValueError, ValueError | ZeroDivisionError, ZeroDivisionError
  | OverflowError, OverflowError | UnicodeDecodeError, UnicodeDecodeError
  | JSONDecodeError, JSONDecodeError | RecursionError, RecursionError => true
  | _, _ => false
  end.

(** [isinstance(e, cls)] *)
Definition is_instance (e cls : exn) : bool :=
  exn_eqb e cls
  || match cls, e with
     | ValueError, UnicodeDecodeError | ValueError, JSONDecodeError => true
     | _, _ => false
     end.

(** [try: c except (caught...): handler] *)
Definition catching {A : Type} (caught : list exn) (c : result A) (handler : A) : result A :=
  match c with
  | Ok a => Ok a
  | Raise e => if existsb (is_instance e) caught then Ok handler else Raise e
  end.

(** ** Numbers *)

(** Round to the nearest integer, ties to even. *)
Definition rhe (q : Q) : Z :=
  let f := Qfloor q in
  match Qcompare (q - inject_Z f) (1 # 2) with
  | Lt => f
  | Gt => f + 1
  | Eq => if Z.even f then f else f + 1
  end.

(** [floor (log2 q)] for [0 < q]. *)
Definition ilog2 (q : Q) : Z :=
  let e := Z.log2 (Qnum q) - Z.log2 (Zpos (Qden q)) in
  if Qle_bool (2 ^ e) q then e else e - 1.

(** The binary64 number nearest to [q]. *)
Definition fl (q : Q) : Q :=
  if Qeq_bool q 0 then 0%Q else
  let a := Qabs q in
  let s := 52 - ilog2 a in
  let m := (inject_Z (rhe (a * 2 ^ s)) / 2 ^ s)%Q in
  Qred (if Qle_bool 0 q then m else (- m)%Q).

(** A Python number: [int] is unbounded, [float] is binary64. *)
Inductive num : Type :=
| NInt (z : Z)
| NFloat (q : Q).

Definition to_Q (n : num) : Q :=
  match n with
  | NInt z => inject_Z z
  | NFloat q => q
  end.

(** [float(n)] for an int that has a float. *)
Definition to_float (n : num) : Q :=
  match n with
  | NInt z => fl (inject_Z z)
  | NFloat q => q
  end.

(** The largest binary64 number, [sys.float_info.max]. *)
Definition float_max : Q := inject_Z (2 ^ 1024 - 2 ^ 971).

(** The least integer that does not round to a binary64 number: the midpoint
    between [float_max] and [2 ^ 1024]. *)
Definition overflow_threshold : Z := 2 ^ 1024 - 2 ^ 970.

(** The largest relative error of one rounding, [2 ^ -53]. *)
Definition unit_roundoff : Q := 1 # 9007199254740992.

(** The rounded value [q] has a binary64 exponent. *)
Definition in_float_range (q : Q) : bool := Qle_bool (Qabs q) float_max.

(** The operand of a float operation as a float: an int that rounds to
    more than [float_max] raises [OverflowError]. *)
Definition float_of (n : num) : result Q :=
  match n with
  | NInt z =>
      if in_float_range (fl (inject_Z z)) then Ok (fl (inject_Z z)) else Raise OverflowError
  | NFloat q => Ok q
  end.

(** [a / b].  Between two ints the exact quotient is rounded once, and a
    quotient that rounds to more than [float_max] raises [OverflowError];
    otherwise both operands are taken as floats, the left one first. *)
Definition truediv (a b : num) : result num :=
  match a, b with
  | NInt x, NInt y =>
      if y =? 0 then Raise ZeroDivisionError
      else if in_float_range (fl (inject_Z x / inject_Z y))
           then Ok (NFloat (fl (inject_Z x / inject_Z y)))
           else Raise OverflowError
  | _, _ =>
      x <- float_of a ;;
      y <- float_of b ;;
      if Qeq_bool y 0 then Raise ZeroDivisionError else Ok (NFloat (fl (x / y)))
  end.

(** [a / b] between two ints that the program has counted or measured
    itself: numbers of records of the day and the microseconds between two
    [datetime] values.  A list holds fewer than [2 ^ 63] items and two dates
    are fewer than [2 ^ 59] microseconds apart, so the quotient is far below
    [float_max] and the division is the rounding of the exact quotient. *)
Definition truediv_small (x y : Z) : result num :=
  if y =? 0 then Raise ZeroDivisionError
  else Ok (NFloat (fl (inject_Z x / inject_Z y))).

(** [n / k] for an int [k] does not overflow: an int [n] has a quotient that
    rounds to a float. *)
Definition has_quotient (n : num) (k : Z) : bool :=
  match n with
  | NInt z => in_float_range (fl (inject_Z z / inject_Z k))
  | NFloat _ => true
  end.

(** [a * b] and [a + b].  Between an int and a float the int is taken as a
    float; the program does so with scores, counts and the constants 100 and
    25 only, which all have one. *)
Definition mul (a b : num) : num :=
  match a, b with
  | NInt x, NInt y => NInt (x * y)
  | _, _ => NFloat (fl (to_float a * to_float b))
  end.

Definition add (a b : num) : num :=
  match a, b with
  | NInt x, NInt y => NInt (x + y)
  | _, _ => NFloat (fl (to_float a + to_float b))
  end.

(** [a < b]; Python compares an int with a float exactly. *)
Definition num_ltb (a b : num) : bool :=
  negb (Qle_bool (to_Q b) (to_Q a)).

(** [min(a, b)] and [max(a, b)]: the first argument wins unless the second is
    strictly smaller (greater). *)
Definition min2 (a b : num) : num := if num_ltb b a then b else a.
Definition max2 (a b : num) : num := if num_ltb a b then b else a.

(** [round(x, 1)]: an int is returned unchanged; a float is rounded, on its
    exact value, to one decimal, ties to even, and the decimal is read back as
    a float. *)
Definition round1 (x : num) : num :=
  match x with
  | NInt z => NInt z
  | NFloat q => NFloat (fl (inject_Z (rhe (q * 10)) / 10))
  end.

(** The float literal [0.3]. *)
Definition float_0_3 : Q := Eval vm_compute in fl (3 # 10).

Definition in_0_100 (x : num) : Prop := (0 <= to_Q x)%Q /\ (to_Q x <= 100)%Q.

(** ** Values *)

Inductive key : Type :=
| KStr (s : string)
| KInt (z : Z).

#[warnings="-register-all"]
Inductive pyval : Type :=
| VNone
| VBool (b : bool)
| VInt (z : Z)
| VFloat (q : Q)
| VStr (s : string)
| VList (l : list pyval)
| VDict (d : list (key * pyval)).

Definition key_eqb (a b : key) : bool :=
  match a, b with
  | KStr s, KStr t => String.eqb s t
  | KInt x, KInt y => Z.eqb x y
  | _, _ => false
  end.

(** Insertion-ordered maps, generic in the keys and the stored values. *)
Section Assoc.
Context {K A : Type} (eqb : K -> K -> bool).

Fixpoint assoc_get (d : list (K * A)) (k : K) : option A :=
  match d with
  | [] => None
  | (k', v) :: d' => if eqb k' k then Some v else assoc_get d' k
  end.

(** [d[k] = v]: an existing key keeps its place, a new one goes last. *)
Fixpoint assoc_set (d : list (K * A)) (k : K) (v : A) : list (K * A) :=
  match d with
  | [] => [(k, v)]
  | (k', v') :: d' =>
      if eqb k' k then (k', v) :: d' else (k', v') :: assoc_set d' k v
  end.
End Assoc.

Definition dict_get {A : Type} (d : list (key * A)) (k : key) : option A :=
  assoc_get key_eqb d k.

Definition dict_mem {A : Type} (d : list (key * A)) (k : key) : bool :=
  match dict_get d k with Some _ => true | None => false end.

Definition of_num (n : num) : pyval :=
  match n with
  | NInt z => VInt z
  | NFloat q => VFloat q
  end.

(** The numeric reading of a value ([bool] is a subclass of [int]); anything
    else in an arithmetic position is a [TypeError]. *)
Definition as_num (v : pyval) : result num :=
  match v with
  | VBool b => Ok (NInt (if b then 1 else 0))
  | VInt z => Ok (NInt z)
  | VFloat q => Ok (NFloat q)
  | _ => Raise TypeError
  end.

(** [v.get(k, default)] *)
Definition py_get (v : pyval) (k : string) (default : pyval) : result pyval :=
  match v with
  | VDict d => Ok (match dict_get d (KStr k) with Some x => x | None => default end)
  | _ => Raise AttributeError
  end.

(** [v.get(hour, default)] for an integer key *)
Definition py_get_int (v : pyval) (k : Z) (default : pyval) : result pyval :=
  match v with
  | VDict d => Ok (match dict_get d (KInt k) with Some x => x | None => default end)
  | _ => Raise AttributeError
  end.

(** [v[k]] for a string [k] *)
Definition py_getitem (v : pyval) (k : string) : result pyval :=
  match v with
  | VDict d => match dict_get d (KStr k) with Some x => Ok x | None => Raise KeyError end
  | _ => Raise TypeError
  end.

(** Is [needle] a substring of [s]? *)
Fixpoint is_substring (needle s : string) : bool :=
  String.prefix needle s ||
  match s with
  | EmptyString => false
  | String _ s' => is_substring needle s'
  end.

Definition is_str (k : string) (v : pyval) : bool :=
  match v with
  | VStr s => String.eqb s k
  | _ => false
  end.

(** [k in v] for a string [k] *)
Definition py_contains (v : pyval) (k : string) : result bool :=
  match v with
  | VDict d => Ok (dict_mem d (KStr k))
  | VList l => Ok (existsb (is_str k) l)
  | VStr s => Ok (is_substring k s)
  | _ => Raise TypeError
  end.

(** Truth value of a value used as a condition. *)
Definition truthy (v : pyval) : bool :=
  match v with
  | VNone => false
  | VBool b => b
  | VInt z => negb (z =? 0)
  | VFloat q => negb (Qeq_bool q 0)
  | VStr s => negb (String.eqb s "")
  | VList l => match l with [] => false | _ => true end
  | VDict d => match d with [] => false | _ => true end
  end.

Definition num_of (v : pyval) : option num :=
  match v with
  | VBool b => Some (NInt (if b then 1 else 0))
  | VInt z => Some (NInt z)
  | VFloat q => Some (NFloat q)
  | _ => None
  end.

(** [a == b] *)
Fixpoint py_eq (a b : pyval) {struct a} : bool :=
  match a, b with
  | VNone, VNone => true
  | VStr s, VStr t => String.eqb s t
  | VList l, VList m =>
      (fix go (l m : list pyval) {struct l} : bool :=
         match l, m with
         | [], [] => true
         | x :: l', y :: m' => py_eq x y && go l' m'
         | _, _ => false
         end) l m
  | VDict d, VDict e =>
      Nat.eqb (List.length d) (List.length e) &&
      (fix go (d : list (key * pyval)) : bool :=
         match d with
         | [] => true
         | (k, v) :: d' =>
             match dict_get e k with
             | Some w => py_eq v w
             | None => false
             end && go d'
         end) d
  | _, _ =>
      match num_of a, num_of b with
      | Some x, Some y => Qeq_bool (to_Q x) (to_Q y)
      | _, _ => false
      end
  end.

(** [a < b]: defined between two strings, two numbers and two lists. *)
Fixpoint py_lt (a b : pyval) {struct a} : result bool :=
  match a, b with
  | VStr s, VStr t => Ok (String.ltb s t)
  | VList l, VList m =>
      (fix go (l m : list pyval) {struct l} : result bool :=
         match l, m with
         | [], [] => Ok false
         | [], _ :: _ => Ok true
         | _ :: _, [] => Ok false
         | x :: l', y :: m' => if py_eq x y then go l' m' else py_lt x y
         end) l m
  | _, _ =>
      match num_of a, num_of b with
      | Some x, Some y => Ok (num_ltb x y)
      | _, _ => Raise TypeError
      end
  end.

(** [a > b] *)
Definition py_gt (a b : pyval) : result bool := py_lt b a.

(** [min(l, key=keyf)] and [max(l, key=keyf)]: one scan from the left; the
    running choice is replaced only by a strictly better item. *)
Section Extremum.
Context {A : Type} (keyf : A -> result pyval) (better : pyval -> pyval -> result bool).

Fixpoint extremum_from (cur : A) (kcur : pyval) (rest : list A) : result A :=
  match rest with
  | [] => Ok cur
  | x :: rest' =>
      kx <- keyf x ;;
      b <- better kx kcur ;;
      if b then extremum_from x kx rest' else extremum_from cur kcur rest'
  end.

Definition extremum (l : list A) : result A :=
  match l with
  | [] => Raise ValueError
  | x :: rest => kx <- keyf x ;; extremum_from x kx rest
  end.
End Extremum.

Definition py_min_by {A : Type} (keyf : A -> result pyval) := extremum keyf py_lt.
Definition py_max_by {A : Type} (keyf : A -> result pyval) := extremum keyf py_gt.

(** ** Strings *)

(** [s.replace('Z', '+00:00')] *)
Fixpoint replace_Z (s : string) : string :=
  match s with
  | EmptyString => EmptyString
  | String c s' =>
      if Ascii.eqb c "Z" then ("+00:00" ++ replace_Z s')%string else String c (replace_Z s')
  end.

(** [str(z)] *)
Definition str_of_Z (z : Z) : string := NilZero.string_of_int (Z.to_int z).

(** [f"{h:02d}"] *)
Definition fmt_02d (h : Z) : string :=
  if (0 <=? h) && (h <? 10) then ("0" ++ str_of_Z h)%string else str_of_Z h.

(** [sep.join(l)] *)
Fixpoint join (sep : string) (l : list string) : string :=
  match l with
  | [] => ""
  | [x] => x
  | x :: l' => (x ++ sep ++ join sep l')%string
  end.

(** ** Dates and times *)

Record datetime : Type := mk_datetime {
  year : Z; month : Z; day : Z;
  hour : Z; minute : Z; second : Z; microsecond : Z;
  utcoffset : option Z   (** microseconds east of UTC; [None] for a naive value *)
}.

Definition is_leap (y : Z) : bool :=
  (y mod 4 =? 0) && (negb (y mod 100 =? 0) || (y mod 400 =? 0)).

Definition days_in_month (y m : Z) : Z :=
  if m =? 2 then (if is_leap y then 29 else 28)
  else if (m =? 4) || (m =? 6) || (m =? 9) || (m =? 11) then 30 else 31.

Definition days_before_year (y : Z) : Z :=
  let y1 := y - 1 in y1 * 365 + y1 / 4 - y1 / 100 + y1 / 400.

Definition days_before_month (y m : Z) : Z :=
  fold_left (fun acc k => acc + days_in_month y (Z.of_nat k))
            (seq 1 (Z.to_nat (m - 1))) 0.

Definition toordinal (d : datetime) : Z :=
  days_before_year (year d) + days_before_month (year d) (month d) + day d.

(** Microseconds from the start of day 0 to the wall-clock fields. *)
Definition wall_us (d : datetime) : Z :=
  (((toordinal d * 24 + hour d) * 60 + minute d) * 60 + second d) * 1000000
  + microsecond d.

(** [a - b] as a number of microseconds; a naive and an aware value do not
    subtract. *)
Definition dt_sub (a b : datetime) : result Z :=
  match utcoffset a, utcoffset b with
  | None, None => Ok (wall_us a - wall_us b)
  | Some oa, Some ob => Ok ((wall_us a - oa) - (wall_us b - ob))
  | _, _ => Raise TypeError
  end.

(** [timedelta.total_seconds()] *)
Definition total_seconds (us : Z) : result num :=
  truediv_small us 1000000.

(** An instance of [datetime.fromisoformat] for
    [YYYY-MM-DD(T| )HH:MM:SS[.fff[fff]][(+|-)HH:MM]]; [None] is [ValueError]. *)
Definition digit (c : ascii) : option Z :=
  let n := Z.of_nat (nat_of_ascii c) in
  if (48 <=? n) && (n <=? 57) then Some (n - 48) else None.

Fixpoint digits (n : nat) (l : list ascii) (acc : Z) : option (Z * list ascii) :=
  match n with
  | O => Some (acc, l)
  | S n' =>
      match l with
      | c :: l' =>
          match digit c with
          | Some d => digits n' l' (acc * 10 + d)
          | None => None
          end
      | [] => None
      end
  end.

Definition expect (c : ascii) (l : list ascii) : option (list ascii) :=
  match l with
  | c' :: l' => if Ascii.eqb c c' then Some l' else None
  | [] => None
  end.

Definition obind {A B : Type} (o : option A) (k : A -> option B) : option B :=
  match o with
  | Some a => k a
  | None => None
  end.

Definition parse_fraction (l : list ascii) : option (Z * list ascii) :=
  match l with
  | "."%char :: l' =>
      match digits 6 l' 0 with
      | Some r => Some r
      | None => obind (digits 3 l' 0) (fun '(ms, r) => Some (ms * 1000, r))
      end
  | _ => Some (0, l)
  end.

Definition parse_offset (l : list ascii) : option (option Z) :=
  match l with
  | [] => Some None
  | c :: l' =>
      obind (if Ascii.eqb c "+" then Some 1
             else if Ascii.eqb c "-" then Some (-1) else None) (fun sign =>
      obind (digits 2 l' 0) (fun '(hh, l1) =>
      obind (expect ":" l1) (fun l2 =>
      obind (digits 2 l2 0) (fun '(mm, l3) =>
      match l3 with
      | [] => if (hh <? 24) && (mm <? 60)
              then Some (Some (sign * (hh * 3600 + mm * 60) * 1000000))
              else None
      | _ => None
      end))))
  end.

Definition fromisoformat_std (s : string) : option datetime :=
  obind (digits 4 (list_ascii_of_string s) 0) (fun '(y, l) =>
  obind (expect "-" l) (fun l =>
  obind (digits 2 l 0) (fun '(mo, l) =>
  obind (expect "-" l) (fun l =>
  obind (digits 2 l 0) (fun '(d, l) =>
  obind (match l with
         | c :: l' => if Ascii.eqb c "T" || Ascii.eqb c " " then Some l' else None
         | [] => None
         end) (fun l =>
  obind (digits 2 l 0) (fun '(h, l) =>
  obind (expect ":" l) (fun l =>
  obind (digits 2 l 0) (fun '(mi, l) =>
  obind (expect ":" l) (fun l =>
  obind (digits 2 l 0) (fun '(sec, l) =>
  obind (parse_fraction l) (fun '(us, l) =>
  obind (parse_offset l) (fun off =>
  if (1 <=? y) && (1 <=? mo) && (mo <=? 12) && (1 <=? d) && (d <=? days_in_month y mo)
     && (h <? 24) && (mi <? 60) && (sec <? 60)
  then Some (mk_datetime y mo d h mi sec us off)
  else None))))))))))))).

(** ** The analyzer: [daily_summary.py] *)

(** [sorted(items, key=lambda x: x[1], reverse=True)]: the sort is stable, so
    items with equal counts keep the order they have in [items]. *)
Fixpoint insert_desc (x : Z * Z) (l : list (Z * Z)) : list (Z * Z) :=
  match l with
  | [] => [x]
  | y :: l' => if snd x <? snd y then y :: insert_desc x l' else x :: y :: l'
  end.

Definition sorted_by_count_desc (items : list (Z * Z)) : list (Z * Z) :=
  fold_right insert_desc [] items.

(** The local variables of [analyze_daily_patterns]. *)
Record tally : Type := mk_tally {
  break_count : Z;
  break_completed_count : Z;
  deep_work_sessions : Z;
  commands_used : Z;
  pause_events : Z;
  break_types : list (string * Z);
  hourly_activity : list (Z * Z);
  reschedule_count : Z
}.

Definition init_tally : tally :=
  mk_tally 0 0 0 0 0 [("eye_care", 0); ("custom_message", 0)] [] 0.

(** [if break_type in break_types: break_types[break_type] += 1]; a list or a
    dict is not hashable. *)
Definition count_break_type (bt : list (string * Z)) (break_type : pyval)
  : result (list (string * Z)) :=
  match break_type with
  | VStr s =>
      Ok (match assoc_get String.eqb bt s with
          | Some n => assoc_set String.eqb bt s (n + 1)
          | None => bt
          end)
  | VList _ | VDict _ => Raise TypeError
  | _ => Ok bt
  end.

(** [hourly_activity[hour] = hourly_activity.get(hour, 0) + 1] *)
Definition bump_hour (h : list (Z * Z)) (hr : Z) : list (Z * Z) :=
  assoc_set Z.eqb h hr
    (match assoc_get Z.eqb h hr with Some n => n | None => 0 end + 1).

Definition low_compliance_msg : string :=
  "Low break compliance detected - consider adjusting break duration or frequency".
Definition high_compliance_msg : string :=
  "Excellent break compliance! You're taking good care of your eyes".
Definition deep_work_msg (n : Z) : string :=
  "Used " ++ str_of_Z n ++ " deep work session(s) - great for focused productivity".
Definition reschedule_msg : string :=
  "Frequent break rescheduling detected - consider adjusting default intervals".
Definition pause_msg : string :=
  "Multiple pause/resume events - consider if current settings match your workflow".
Definition commands_msg : string :=
  "Active user of voice commands - you're making the most of Restly's features!".
Definition peak_hours_msg (peak_hours : list (Z * Z)) : string :=
  "Most active hours: "
  ++ join ", " (map (fun x => (fmt_02d (fst x) ++ ":00")%string) peak_hours).

Definition hours_dict (h : list (Z * Z)) : pyval :=
  VDict (map (fun x => (KInt (fst x), VInt (snd x))) h).
Definition types_dict (bt : list (string * Z)) : pyval :=
  VDict (map (fun x => (KStr (fst x), VInt (snd x))) bt).

Definition recommendations_needed : list pyval :=
  [VStr "break_frequency"; VStr "work_session_optimization";
   VStr "eye_health_habits"; VStr "productivity_improvements"].

(** The sample histogram the dashboard shows for a day without data. *)
Definition sample_hours : list (key * pyval) :=
  [(KInt 9, VInt 3); (KInt 10, VInt 5); (KInt 11, VInt 4);
   (KInt 14, VInt 2); (KInt 15, VInt 4); (KInt 16, VInt 3)].

(** The activity log of one date, as [load_daily_activities] finds it.  The
    lines are those that the iteration over the file yields before it ends:
    at the end of the file or at an [IOError], for [Lines]; at bytes that are
    not UTF-8, for [Undecodable]. *)
Inductive log_file : Type :=
| Missing
| Unreadable                     (** opening it raises [IOError] *)
| Lines (lines : list string)
| Undecodable (lines : list string).

Definition key_val (k : key) : pyval :=
  match k with
  | KStr s => VStr s
  | KInt z => VInt z
  end.

(** [v.items()], [v.values()], [v.keys()] need a dict. *)
Definition dict_of (v : pyval) : result (list (key * pyval)) :=
  match v with
  | VDict d => Ok d
  | _ => Raise AttributeError
  end.

(** [sum(values)] *)
Fixpoint py_sum (acc : num) (l : list pyval) : result num :=
  match l with
  | [] => Ok acc
  | v :: l' => n <- as_num v ;; py_sum (add acc n) l'
  end.

(** Run [f] over [l] from the left, stopping at the first exception. *)
Fixpoint fold_result {A B : Type} (f : A -> B -> result A) (l : list B) (a : A) : result A :=
  match l with
  | [] => Ok a
  | b :: l' => a' <- f a b ;; fold_result f l' a'
  end.

Section Reader.
(** [json.loads]: the value decoded, or the exception raised, which is
    [JSONDecodeError] for a text that is not JSON. *)
Variable json_loads : string -> result pyval.
(** [str.strip] *)
Variable strip : string -> string.

(** One iteration of the loop over the lines: a line on which [json.loads]
    raises [JSONDecodeError] is skipped with a warning, any other exception
    is not caught. *)
Definition read_line (activities : list pyval) (line : string) : result (list pyval) :=
  let line := strip line in
  if negb (String.eqb line "") then
    catching [JSONDecodeError]
      (activity <- json_loads line ;;
       Ok (activities ++ [activity]))
      activities
  else Ok activities.

(** [load_daily_activities], on the log file found for the date.  The
    [IOError] of a file that cannot be read is caught; the
    [UnicodeDecodeError] of one that is not UTF-8 is not. *)
Definition load_daily_activities (log : log_file) : result (list pyval) :=
  match log with
  | Missing => Ok []
  | Unreadable => Ok []
  | Lines lines => fold_result read_line lines []
  | Undecodable lines =>
      _ <- fold_result read_line lines [] ;;
      Raise UnicodeDecodeError
  end.
End Reader.

Record scores : Type := mk_scores {
  work_score : num; break_score : num; focus_score : num; overall_score : num
}.

(** In the functions below that start with
    [activities = self.load_daily_activities(date)], the argument [activities]
    is the value that call returns. The call can raise; the functions that
    begin with the call itself are [generate_daily_summary_of],
    [prepare_ai_summary_data_of] and [get_dashboard_data_of]. *)
Section Restly.
(** [datetime.fromisoformat]: [None] is [ValueError]. *)
Variable fromisoformat : string -> option datetime.

(** [datetime.fromisoformat(timestamp.replace('Z', '+00:00'))] *)
Definition parse_timestamp (timestamp : pyval) : result datetime :=
  match timestamp with
  | VStr s =>
      match fromisoformat (replace_Z s) with
      | Some dt => Ok dt
      | None => Raise ValueError
      end
  | _ => Raise AttributeError
  end.

(** One iteration of the loop over the activities. *)
Definition process (t : tally) (activity : pyval) : result tally :=
  timestamp <- py_get activity "timestamp" (VStr "") ;;
  event_type <- py_get activity "event_type" (VStr "") ;;
  event_data <- py_get activity "event_data" (VDict []) ;;
  hourly <- catching [ValueError; AttributeError]
              (dt <- parse_timestamp timestamp ;;
               Ok (bump_hour (hourly_activity t) (hour dt)))
              (hourly_activity t) ;;
  let t := mk_tally (break_count t) (break_completed_count t) (deep_work_sessions t)
                    (commands_used t) (pause_events t) (break_types t) hourly
                    (reschedule_count t) in
  if is_str "break_shown" event_type then
    break_type <- py_get event_data "break_type" (VStr "unknown") ;;
    bt <- count_break_type (break_types t) break_type ;;
    Ok (mk_tally (break_count t + 1) (break_completed_count t) (deep_work_sessions t)
                 (commands_used t) (pause_events t) bt (hourly_activity t)
                 (reschedule_count t))
  else if is_str "break_completed" event_type then
    Ok (mk_tally (break_count t) (break_completed_count t + 1) (deep_work_sessions t)
                 (commands_used t) (pause_events t) (break_types t) (hourly_activity t)
                 (reschedule_count t))
  else if is_str "session_started" event_type then
    session_type <- py_get event_data "session_type" VNone ;;
    if is_str "deep_work" session_type then
      Ok (mk_tally (break_count t) (break_completed_count t) (deep_work_sessions t + 1)
                   (commands_used t) (pause_events t) (break_types t) (hourly_activity t)
                   (reschedule_count t))
    else Ok t
  else if is_str "command_received" event_type then
    Ok (mk_tally (break_count t) (break_completed_count t) (deep_work_sessions t)
                 (commands_used t + 1) (pause_events t) (break_types t) (hourly_activity t)
                 (reschedule_count t))
  else if is_str "pause_toggled" event_type then
    Ok (mk_tally (break_count t) (break_completed_count t) (deep_work_sessions t)
                 (commands_used t) (pause_events t + 1) (break_types t) (hourly_activity t)
                 (reschedule_count t))
  else if is_str "break_rescheduled" event_type then
    Ok (mk_tally (break_count t) (break_completed_count t) (deep_work_sessions t)
                 (commands_used t) (pause_events t) (break_types t) (hourly_activity t)
                 (reschedule_count t + 1))
  else Ok t.

(** [final_work_minutes], read from the last activity. *)
Definition final_work_minutes_of (activities : list pyval) : result pyval :=
  let last_activity := last activities VNone in
  has <- py_contains last_activity "system_state" ;;
  if has : bool then
    system_state <- py_getitem last_activity "system_state" ;;
    py_get system_state "total_work_minutes_today" (VInt 0)
  else Ok (VInt 0).

(** [break_compliance], before it is rounded. *)
Definition compliance_of (t : tally) : result num :=
  if 0 <? break_count t then
    q <- truediv_small (break_completed_count t) (break_count t) ;;
    Ok (mul q (NInt 100))
  else Ok (NInt 0).

Definition peak_hours_of (t : tally) : list (Z * Z) :=
  firstn 3 (sorted_by_count_desc (hourly_activity t)).

Definition insights_of (t : tally) (break_compliance : num) : list string :=
  (if num_ltb break_compliance (NInt 50) then [low_compliance_msg]
   else if num_ltb (NInt 90) break_compliance then [high_compliance_msg]
   else [])
  ++ (if 0 <? deep_work_sessions t then [deep_work_msg (deep_work_sessions t)] else [])
  ++ (if num_ltb (mul (NInt (break_count t)) (NFloat float_0_3))
                 (NInt (reschedule_count t))
      then [reschedule_msg] else [])
  ++ (if 3 <? pause_events t then [pause_msg] else [])
  ++ (if 5 <? commands_used t then [commands_msg] else [])
  ++ (match peak_hours_of t with
      | [] => []
      | peak_hours => [peak_hours_msg peak_hours]
      end).

Definition analyze_daily_patterns (activities : list pyval) : result pyval :=
  match activities with
  | [] =>
      Ok (VDict [(KStr "total_breaks", VInt 0);
                 (KStr "total_work_minutes", VInt 0);
                 (KStr "break_compliance", VFloat 0);
                 (KStr "deep_work_sessions", VInt 0);
                 (KStr "commands_used", VInt 0);
                 (KStr "pause_events", VInt 0);
                 (KStr "break_types", VDict []);
                 (KStr "hourly_activity", VDict []);
                 (KStr "insights", VList [])])
  | _ :: _ =>
      final_work_minutes <- final_work_minutes_of activities ;;
      t <- fold_result process activities init_tally ;;
      break_compliance <- compliance_of t ;;
      let insights := insights_of t break_compliance in
      Ok (VDict [(KStr "total_breaks", VInt (break_count t));
                 (KStr "breaks_completed", VInt (break_completed_count t));
                 (KStr "total_work_minutes", final_work_minutes);
                 (KStr "break_compliance", of_num (round1 break_compliance));
                 (KStr "deep_work_sessions", VInt (deep_work_sessions t));
                 (KStr "commands_used", VInt (commands_used t));
                 (KStr "pause_events", VInt (pause_events t));
                 (KStr "break_types", types_dict (break_types t));
                 (KStr "hourly_activity", hours_dict (hourly_activity t));
                 (KStr "reschedule_count", VInt (reschedule_count t));
                 (KStr "insights", VList (map VStr insights))])
  end.

Definition timestamp_key (x : pyval) : result pyval := py_get x "timestamp" (VStr "").

(** [datetime.fromisoformat(activity["timestamp"].replace('Z', '+00:00'))] *)
Definition timestamp_of (activity : pyval) : result datetime :=
  ts <- py_getitem activity "timestamp" ;;
  parse_timestamp ts.

(** [active_duration], before it is rounded. *)
Definition active_duration_of (activities : list pyval) : result num :=
  match activities with
  | [] => Ok (NInt 0)
  | _ :: _ =>
      first_activity <- py_min_by timestamp_key activities ;;
      last_activity <- py_max_by timestamp_key activities ;;
      catching [ValueError; KeyError]
        (start_time <- timestamp_of first_activity ;;
         end_time <- timestamp_of last_activity ;;
         delta <- dt_sub end_time start_time ;;
         secs <- total_seconds delta ;;
         truediv secs (NInt 3600))
        (NInt 0)
  end.

(** [generate_daily_summary]; [date] is [date.strftime("%Y-%m-%d")], [now] is
    [datetime.now().isoformat()]. *)
Definition generate_daily_summary (date : string) (activities : list pyval)
           (now : string) : result pyval :=
  analysis <- analyze_daily_patterns activities ;;
  active_duration <- active_duration_of activities ;;
  Ok (VDict [(KStr "date", VStr date);
             (KStr "total_activities", VInt (Z.of_nat (List.length activities)));
             (KStr "active_duration_hours", of_num (round1 active_duration));
             (KStr "analysis", analysis);
             (KStr "raw_activities", VList activities);
             (KStr "generated_at", VStr now)]).

(** [max(d.items(), key=lambda x: x[1])[0] if cond else "none"] *)
Definition preferred_break_type_of (cond : pyval) (break_types : pyval) : result pyval :=
  if truthy cond then
    items <- dict_of break_types ;;
    best <- py_max_by (fun x : key * pyval => Ok (snd x)) items ;;
    Ok (key_val (fst best))
  else Ok (VStr "none").

(** [prepare_ai_summary_data] *)
Definition prepare_ai_summary_data (date : string) (activities : list pyval)
           (now : string) : result pyval :=
  summary <- generate_daily_summary date activities now ;;
  date' <- py_getitem summary "date" ;;
  analysis <- py_getitem summary "analysis" ;;
  total_work_minutes <- py_getitem analysis "total_work_minutes" ;;
  break_compliance <- py_getitem analysis "break_compliance" ;;
  deep_work <- py_getitem analysis "deep_work_sessions" ;;
  breaks_completed <- py_getitem analysis "breaks_completed" ;;
  total_breaks <- py_getitem analysis "total_breaks" ;;
  commands <- py_getitem analysis "commands_used" ;;
  pauses <- py_getitem analysis "pause_events" ;;
  reschedules <- py_getitem analysis "reschedule_count" ;;
  bt <- py_getitem analysis "break_types" ;;
  preferred <- preferred_break_type_of bt bt ;;
  hourly <- py_getitem analysis "hourly_activity" ;;
  hourly_items <- dict_of hourly ;;
  insights <- py_getitem analysis "insights" ;;
  Ok (VDict [(KStr "date", date');
             (KStr "productivity_metrics",
              VDict [(KStr "total_work_minutes", total_work_minutes);
                     (KStr "break_compliance_rate", break_compliance);
                     (KStr "deep_work_sessions", deep_work);
                     (KStr "total_breaks_taken", breaks_completed);
                     (KStr "total_breaks_suggested", total_breaks)]);
             (KStr "behavior_patterns",
              VDict [(KStr "commands_used", commands);
                     (KStr "pause_resume_events", pauses);
                     (KStr "break_reschedules", reschedules);
                     (KStr "preferred_break_type", preferred);
                     (KStr "peak_activity_hours",
                      VList (map (fun x => key_val (fst x)) hourly_items))]);
             (KStr "insights", insights);
             (KStr "recommendations_needed", VList recommendations_needed)]).

(** ** The dashboard: [dashboard_server.py] *)

(** The score block of [get_dashboard_data].  The analyzer stores an int
    under [deep_work_sessions]; repetition of a sequence by [*] is not
    modelled. *)
Definition scores_of (analysis : pyval) : result scores :=
  work_minutes <- py_get analysis "total_work_minutes" (VInt 0) ;;
  break_compliance <- py_get analysis "break_compliance" (VInt 0) ;;
  deep_work <- py_get analysis "deep_work_sessions" (VInt 0) ;;
  wm <- as_num work_minutes ;;
  q <- truediv wm (NInt 480) ;;
  let work_score := min2 (NInt 100) (mul q (NInt 100)) in
  break_score <- as_num break_compliance ;;
  dw <- as_num deep_work ;;
  let focus_score := min2 (NInt 100) (mul dw (NInt 25)) in
  overall_score <- truediv (add (add work_score break_score) focus_score) (NInt 3) ;;
  Ok (mk_scores work_score break_score focus_score overall_score).

(** The [hourly_data] list of [get_dashboard_data]. *)
Definition hourly_entry (hourly_activity : pyval) (hr : Z) : result pyval :=
  count <- py_get_int hourly_activity hr (VInt 0) ;;
  Ok (VDict [(KStr "hour", VInt hr);
             (KStr "activity_count", count);
             (KStr "label", VStr (fmt_02d hr ++ ":00"))]).

Definition range24 : list Z := map Z.of_nat (seq 0 24).

Definition hourly_data_of (analysis : pyval) : result (list pyval) :=
  hourly_activity <- py_get analysis "hourly_activity" (VDict []) ;;
  use_sample <- (if negb (truthy hourly_activity) then Ok true
                 else d <- dict_of hourly_activity ;;
                      total <- py_sum (NInt 0) (map snd d) ;;
                      Ok (Qeq_bool (to_Q total) 0)) ;;
  let hourly_activity := if use_sample : bool then VDict sample_hours else hourly_activity in
  fold_result (fun hourly_data hr =>
                 entry <- hourly_entry hourly_activity hr ;;
                 Ok (hourly_data ++ [entry]))
              range24 [].

Definition rounded (v : pyval) : result pyval :=
  n <- as_num v ;; Ok (of_num (round1 n)).

(** [get_dashboard_data]; [ai_summary] is what the summary subprocess left
    in the variable of that name. *)
Definition get_dashboard_data (date : string) (activities : list pyval)
           (now ai_summary : string) : result pyval :=
  analysis <- analyze_daily_patterns activities ;;
  work_minutes <- py_get analysis "total_work_minutes" (VInt 0) ;;
  break_compliance <- py_get analysis "break_compliance" (VInt 0) ;;
  deep_work <- py_get analysis "deep_work_sessions" (VInt 0) ;;
  sc <- scores_of analysis ;;
  hourly_data <- hourly_data_of analysis ;;
  wm <- as_num work_minutes ;;
  work_hours <- truediv wm (NInt 60) ;;
  compliance1 <- rounded break_compliance ;;
  total_breaks <- py_get analysis "total_breaks" (VInt 0) ;;
  breaks_completed <- py_get analysis "breaks_completed" (VInt 0) ;;
  commands <- py_get analysis "commands_used" (VInt 0) ;;
  pauses <- py_get analysis "pause_events" (VInt 0) ;;
  goal_arg <- py_get analysis "total_breaks" (VInt 1) ;;
  goal <- as_num goal_arg ;;
  insights <- py_get analysis "insights" (VList []) ;;
  bt <- py_get analysis "break_types" (VDict []) ;;
  reschedules <- py_get analysis "reschedule_count" (VInt 0) ;;
  bt_cond <- py_get analysis "break_types" VNone ;;
  preferred <- preferred_break_type_of bt_cond bt ;;
  Ok (VDict [(KStr "date", VStr date);
             (KStr "timestamp", VStr now);
             (KStr "metrics",
              VDict [(KStr "work_minutes", work_minutes);
                     (KStr "work_hours", of_num (round1 work_hours));
                     (KStr "break_compliance", compliance1);
                     (KStr "deep_work_sessions", deep_work);
                     (KStr "total_breaks", total_breaks);
                     (KStr "breaks_completed", breaks_completed);
                     (KStr "commands_used", commands);
                     (KStr "pause_events", pauses)]);
             (KStr "scores",
              VDict [(KStr "work_score", of_num (round1 (work_score sc)));
                     (KStr "break_score", of_num (round1 (break_score sc)));
                     (KStr "focus_score", of_num (round1 (focus_score sc)));
                     (KStr "overall_score", of_num (round1 (overall_score sc)))]);
             (KStr "rings",
              VDict [(KStr "work",
                      VDict [(KStr "current", work_minutes);
                             (KStr "goal", VInt 480);
                             (KStr "percentage", of_num (round1 (work_score sc)));
                             (KStr "color", VStr "#74B9FF")]);
                     (KStr "breaks",
                      VDict [(KStr "current", breaks_completed);
                             (KStr "goal", of_num (max2 (NInt 1) goal));
                             (KStr "percentage", of_num (round1 (break_score sc)));
                             (KStr "color", VStr "#FFEAA7")]);
                     (KStr "focus",
                      VDict [(KStr "current", deep_work);
                             (KStr "goal", VInt 4);
                             (KStr "percentage", of_num (round1 (focus_score sc)));
                             (KStr "color", VStr "#A29BFE")])]);
             (KStr "hourly_activity", VList hourly_data);
             (KStr "insights", insights);
             (KStr "ai_summary", VStr ai_summary);
             (KStr "break_types", bt);
             (KStr "behavior_patterns",
              VDict [(KStr "commands_used", commands);
                     (KStr "pause_resume_events", pauses);
                     (KStr "break_reschedules", reschedules);
                     (KStr "preferred_break_type", preferred)])]).
End Restly.

(** ** The quantities the specification speaks of

    Counts taken directly over the event sequence, independently of the loop
    of [analyze_daily_patterns]. *)

(** The field [k] of a document, when it has one. *)
Definition lookup (doc : pyval) (k : string) : option pyval :=
  match doc with
  | VDict d => dict_get d (KStr k)
  | _ => None
  end.

(** 1 for [true], 0 for [false]. *)
Definition b2z (b : bool) : Z := if b then 1 else 0.

(** The field [k] of an event, [default] when it has none. *)
Definition field_or (e : pyval) (k : string) (default : pyval) : pyval :=
  match lookup e k with
  | Some v => v
  | None => default
  end.

(** The event is of type [ty]. *)
Definition has_type (ty : string) (e : pyval) : bool :=
  is_str ty (field_or e "event_type" (VStr "")).

(** The number of events that satisfy [p]. *)
Definition count_where (p : pyval -> bool) (evs : list pyval) : Z :=
  Z.of_nat (List.length (filter p evs)).

(** The number of events of type [ty]. *)
Definition count_events (ty : string) (evs : list pyval) : Z :=
  count_where (has_type ty) evs.

(** A [session_started] event whose [session_type] is [deep_work]. *)
Definition is_deep_work (e : pyval) : bool :=
  has_type "session_started" e
  && is_str "deep_work" (field_or (field_or e "event_data" (VDict [])) "session_type" VNone).

(** A [break_shown] event whose [break_type] is [bt]. *)
Definition shows_break (bt : string) (e : pyval) : bool :=
  has_type "break_shown" e
  && is_str bt (field_or (field_or e "event_data" (VDict [])) "break_type" (VStr "unknown")).

(** An event as section 3 of the specification types it: an object whose
    [event_data] and [system_state], when present, are objects, and whose
    [break_type] is a scalar. *)
Definition well_typed_event (e : pyval) : bool :=
  match e with
  | VDict d =>
      match dict_get d (KStr "event_data") with
      | None => true
      | Some (VDict ed) =>
          match dict_get ed (KStr "break_type") with
          | Some (VList _) | Some (VDict _) => false
          | _ => true
          end
      | Some _ => false
      end
      && match dict_get d (KStr "system_state") with
         | None | Some (VDict _) => true
         | Some _ => false
         end
  | _ => false
  end.

Section Quantities.
Variable fromisoformat : string -> option datetime.

(** The hour of the event's timestamp, when the timestamp parses. *)
Definition hour_of (e : pyval) : option Z :=
  match parse_timestamp fromisoformat (field_or e "timestamp" (VStr "")) with
  | Ok dt => Some (hour dt)
  | Raise _ => None
  end.

(** The event's timestamp parses and its hour is [h]. *)
Definition at_hour (h : Z) (e : pyval) : bool :=
  match hour_of e with
  | Some h' => h' =? h
  | None => false
  end.

(** The histogram after one more event. *)
Definition hourly_after (h : list (Z * Z)) (e : pyval) : list (Z * Z) :=
  match hour_of e with
  | Some hr => bump_hour h hr
  | None => h
  end.

(** The histogram the loop builds from [h0] over [evs]. *)
Definition histogram (evs : list pyval) (h0 : list (Z * Z)) : list (Z * Z) :=
  fold_left hourly_after evs h0.

(** The hours of the events whose timestamp parses, in event order. *)
Definition hours (evs : list pyval) : list Z :=
  flat_map (fun e => match hour_of e with Some hr => [hr] | None => [] end) evs.

(** The event has a timestamp that parses. *)
Definition has_hour (e : pyval) : bool :=
  match hour_of e with
  | Some _ => true
  | None => false
  end.
End Quantities.

(** The distinct elements of [l], each at the place of its first occurrence. *)
Fixpoint first_seen (l : list Z) : list Z :=
  match l with
  | [] => []
  | x :: l' => x :: filter (fun y => negb (y =? x)) (first_seen l')
  end.

(** [y] is one of [keys]. *)
Definition seen (keys : list Z) (y : Z) : bool := existsb (Z.eqb y) keys.

(** [a] may stand before [b] in a list sorted by descending count. *)
Definition count_ge (a b : Z * Z) : Prop := snd b <= snd a.

(** The entry has count [c]. *)
Definition has_count (c : Z) (x : Z * Z) : bool := snd x =? c.

(** The count stored for hour [hr], 0 when there is none. *)
Definition get0 (h : list (Z * Z)) (hr : Z) : Z :=
  match assoc_get Z.eqb h hr with
  | Some n => n
  | None => 0
  end.

(** The sample histogram, as a function of the hour. *)
Definition sample_count (hr : Z) : Z :=
  if hr =? 9 then 3 else if hr =? 10 then 5 else if hr =? 11 then 4
  else if hr =? 14 then 2 else if hr =? 15 then 4 else if hr =? 16 then 3 else 0.

(** One entry of the dashboard's [hourly_activity] list. *)
Definition hourly_item (hr count : Z) : pyval :=
  VDict [(KStr "hour", VInt hr);
         (KStr "activity_count", VInt count);
         (KStr "label", VStr (fmt_02d hr ++ ":00"))].

(** The count the dashboard shows for hour [hr]: the number of events at that
    hour when some timestamp of the day parses, the sample count otherwise. *)
Definition expected_count (fromisoformat : string -> option datetime)
           (evs : list pyval) (hr : Z) : Z :=
  if existsb (has_hour fromisoformat) evs
  then count_where (at_hour fromisoformat hr) evs
  else sample_count hr.

(** The last event's [total_work_minutes_today], when present, is a number. *)
Definition work_minutes_typed (e : pyval) : bool :=
  match lookup e "system_state" with
  | Some ss =>
      match lookup ss "total_work_minutes_today" with
      | None | Some (VInt _) | Some (VFloat _) | Some (VBool _) => true
      | Some _ => false
      end
  | None => true
  end.

(** The break-type counts after one more event. *)
Definition types_after (bt : list (string * Z)) (e : pyval) : list (string * Z) :=
  map (fun x => (fst x, snd x + b2z (shows_break (fst x) e))) bt.

(** The break-type map has its two keys, in declaration order. *)
Definition types_shape (bt : list (string * Z)) : Prop :=
  map fst bt = ["eye_care"; "custom_message"].

(** The field [k2] of the field [k1] of a document. *)
Definition lookup2 (doc : pyval) (k1 k2 : string) : option pyval :=
  match lookup doc k1 with
  | Some d => lookup d k2
  | None => None
  end.

(** The break type with the larger count, [eye_care] on a tie. *)
Definition preferred_of_counts (eye_care custom_message : Z) : string :=
  if custom_message <=? eye_care then "eye_care" else "custom_message".

(** A field of a returned document. *)
Definition result_field (r : result pyval) (k : string) : option pyval :=
  match r with
  | Ok doc => lookup doc k
  | Raise _ => None
  end.

(** A nested field of a returned document. *)
Definition result_field2 (r : result pyval) (k1 k2 : string) : option pyval :=
  match r with
  | Ok doc => lookup2 doc k1 k2
  | Raise _ => None
  end.

(** One score of a computed score block. *)
Definition score_field (f : scores -> num) (r : result scores) : option num :=
  match r with
  | Ok sc => Some (f sc)
  | Raise _ => None
  end.

(** An event that carries only its type. *)
Definition ev (ty : string) : pyval := VDict [(KStr "event_type", VStr ty)].

(** A [break_shown] event of break type [bt]. *)
Definition shown (bt : string) : pyval :=
  VDict [(KStr "event_type", VStr "break_shown");
         (KStr "event_data", VDict [(KStr "break_type", VStr bt)])].

(** An event that carries a timestamp and a type. *)
Definition ev_at (ts ty : string) : pyval :=
  VDict [(KStr "timestamp", VStr ts); (KStr "event_type", VStr ty)].

(** ** The quantities of the summary *)

(** The raw timestamp string of an event, empty when it has none: the key by
    which [generate_daily_summary] picks the first and the last event. *)
Definition raw_timestamp (e : pyval) : string :=
  match lookup e "timestamp" with
  | Some (VStr s) => s
  | _ => ""
  end.

(** The event is an object whose timestamp, when present, is a string. *)
Definition timestamp_typed (e : pyval) : bool :=
  match e with
  | VDict d =>
      match dict_get d (KStr "timestamp") with
      | None | Some (VStr _) => true
      | Some _ => false
      end
  | _ => false
  end.

(** [(d2 - d1).total_seconds() / 3600] *)
Definition hours_between (d1 d2 : datetime) : result num :=
  delta <- dt_sub d2 d1 ;;
  secs <- total_seconds delta ;;
  truediv secs (NInt 3600).

(** The value carries a UTC offset. *)
Definition is_aware (d : datetime) : bool :=
  match utcoffset d with
  | Some _ => true
  | None => false
  end.

Section SummaryQuantities.
Variable fromisoformat : string -> option datetime.

(** The parsed timestamp of an event, when it has one that parses. *)
Definition parsed_timestamp (e : pyval) : option datetime :=
  match lookup e "timestamp" with
  | Some (VStr s) => fromisoformat (replace_Z s)
  | _ => None
  end.

(** The hours from [first] to [last]; 0 when either has no parsed timestamp. *)
Definition duration_between (first last : pyval) : result num :=
  match parsed_timestamp first, parsed_timestamp last with
  | Some d1, Some d2 => hours_between d1 d2
  | _, _ => Ok (NInt 0)
  end.

(** The parsed timestamps of the day are all naive or all aware. *)
Definition uniform_awareness (evs : list pyval) : bool :=
  let ds := flat_map (fun e => match parsed_timestamp e with
                               | Some d => [d]
                               | None => []
                               end) evs in
  forallb is_aware ds || forallb (fun d => negb (is_aware d)) ds.

(** The events on which [generate_daily_summary] returns a document. *)
Definition summary_ready (evs : list pyval) : bool :=
  forallb well_typed_event evs && forallb timestamp_typed evs && uniform_awareness evs.
End SummaryQuantities.

(** ** The quantities of the log reader *)

Section ReaderQuantities.
Variable json_loads : string -> result pyval.
Variable strip : string -> string.

(** The record a line decodes to: none for a blank line and for a line on
    which [json.loads] raises. *)
Definition decoded (line : string) : option pyval :=
  if String.eqb (strip line) "" then None
  else match json_loads (strip line) with
       | Ok v => Some v
       | Raise _ => None
       end.

(** The exception that [json.loads] raises on the line and that the reader
    does not catch: any but [JSONDecodeError]. *)
Definition escaping (line : string) : option exn :=
  if String.eqb (strip line) "" then None
  else match json_loads (strip line) with
       | Ok _ => None
       | Raise e => if exn_eqb e JSONDecodeError then None else Some e
       end.

(** The exception that ends the reading of the lines: that of the first
    line on which [json.loads] raises another than [JSONDecodeError]. *)
Fixpoint first_escaping (lines : list string) : option exn :=
  match lines with
  | [] => None
  | line :: lines' =>
      match escaping line with
      | Some e => Some e
      | None => first_escaping lines'
      end
  end.

(** On every line [json.loads] returns or raises [JSONDecodeError]. *)
Definition decodable (lines : list string) : bool :=
  match first_escaping lines with
  | None => true
  | Some _ => false
  end.

(** The line decodes to a record. *)
Definition decodes (line : string) : bool :=
  match decoded line with
  | Some _ => true
  | None => false
  end.

(** The records of the lines that decode, in line order. *)
Definition records (lines : list string) : list pyval :=
  flat_map (fun line => match decoded line with
                        | Some v => [v]
                        | None => []
                        end) lines.
End ReaderQuantities.

(** The keys of a document, in order. *)
Definition doc_keys (doc : pyval) : list key :=
  match doc with
  | VDict d => map fst d
  | _ => []
  end.

(** An instance of [str.strip] for ASCII text: the white space of ASCII is
    the characters 9 to 13 and 28 to 32. *)
Definition is_space (c : ascii) : bool :=
  let n := nat_of_ascii c in
  ((9 <=? n)%nat && (n <=? 13)%nat) || ((28 <=? n)%nat && (n <=? 32)%nat).

(** Drop the leading white space. *)
Fixpoint lstrip (l : list ascii) : list ascii :=
  match l with
  | c :: l' => if is_space c then lstrip l' else l
  | [] => []
  end.

Definition strip_ascii (s : string) : string :=
  string_of_list_ascii (rev (lstrip (rev (lstrip (list_ascii_of_string s))))).

(** An instance of [json.loads] on three texts: the empty object and the
    number 5, which decode, and an object that is opened and not closed,
    which does not. *)
Definition json_loads_sample (s : string) : result pyval :=
  if String.eqb s "{}" then Ok (VDict [])
  else if String.eqb s "5" then Ok (VInt 5)
  else Raise JSONDecodeError.

(** ** More quantities of the analysis *)

(** A [break_shown] event of one of the two break types that are counted. *)
Definition known_break (e : pyval) : bool :=
  shows_break "eye_care" e || shows_break "custom_message" e.

(** The work-minutes snapshot of a record: [total_work_minutes_today] of its
    [system_state], 0 when either is missing. *)
Definition work_minutes_snapshot (e : pyval) : pyval :=
  match lookup e "system_state" with
  | Some ss => field_or ss "total_work_minutes_today" (VInt 0)
  | None => VInt 0
  end.

(** The work minutes of the day can be divided by 60, and so by 480: when
    they are an int, it is below 60 times the overflow threshold. *)
Definition work_minutes_fit (evs : list pyval) : bool :=
  match as_num (work_minutes_snapshot (last evs VNone)) with
  | Ok wm => has_quotient wm 60
  | Raise _ => true
  end.

(** The record is a JSON object. *)
Definition is_object (v : pyval) : bool :=
  match v with
  | VDict _ => true
  | _ => false
  end.

(** [sum] of a list of counts. *)
Definition total (l : list Z) : Z := fold_right Z.add 0 l.

(** The value is a string. *)
Definition is_text (v : pyval) : bool :=
  match v with
  | VStr _ => true
  | _ => false
  end.

(** The field [k3] of the field [k2] of the field [k1] of a document. *)
Definition lookup3 (doc : pyval) (k1 k2 k3 : string) : option pyval :=
  match lookup2 doc k1 k2 with
  | Some d => lookup d k3
  | None => None
  end.

(** The lines that the iteration over a log yields. *)
Definition lines_of (log : log_file) : list string :=
  match log with
  | Lines lines | Undecodable lines => lines
  | Missing | Unreadable => []
  end.

(** ** The formula of the specification *)

(** [break_compliance] as the specification words it: 0 when [total] is 0,
    else [round(100 * completed / total, 1)]. *)
Definition claimed_compliance (completed total : Z) : result num :=
  if total =? 0 then Ok (NInt 0)
  else q <- truediv (NInt (100 * completed)) (NInt total) ;; Ok (round1 q).

(** ** The analyzer on the log of a date

    [generate_daily_summary(date)], [prepare_ai_summary_data(date)] and
    [get_dashboard_data(date)] as the source has them: the call of the
    reader, which can raise, followed by the function of the activities. *)
Section OnLog.
Variable json_loads : string -> result pyval.
Variable strip : string -> string.
Variable fromisoformat : string -> option datetime.

Definition generate_daily_summary_of (log : log_file) (date now : string) : result pyval :=
  activities <- load_daily_activities json_loads strip log ;;
  generate_daily_summary fromisoformat date activities now.

Definition prepare_ai_summary_data_of (log : log_file) (date now : string) : result pyval :=
  activities <- load_daily_activities json_loads strip log ;;
  prepare_ai_summary_data fromisoformat date activities now.

Definition get_dashboard_data_of (log : log_file) (date now ai_summary : string)
  : result pyval :=
  activities <- load_daily_activities json_loads strip log ;;
  get_dashboard_data fromisoformat date activities now ai_summary.
End OnLog.

(** ** The command line of [daily_summary.py]

    What [main] computes between the parsing of its arguments and the output
    of its result.  A date is the proleptic Gregorian ordinal of its day
    ([date.toordinal()]): the code uses the target date only through
    [strftime("%Y-%m-%d")] and the subtraction of whole days. *)

(** What can go wrong outside the operations on values. *)
Inductive failure : Type :=
| Py (e : exn)                      (** one of the exceptions above *)
| ValueErrorMsg (msg : string)      (** [raise ValueError(msg)] *)
| ImportErrorMsg (msg : string)     (** [raise ImportError(msg)] *)
| ExceptionMsg (msg : string)       (** [raise Exception(msg)] *)
| IndexError
| HttpError (msg : string).         (** raised by the HTTP client *)

Inductive outcome (A : Type) : Type :=
| Done (a : A)
| Fail (f : failure).
Arguments Done {A} a.
Arguments Fail {A} f.

Definition obind' {A B : Type} (c : outcome A) (k : A -> outcome B) : outcome B :=
  match c with
  | Done a => k a
  | Fail f => Fail f
  end.

Notation "x <<- c ;; k" := (obind' c (fun x => k))
  (at level 61, c at next level, right associativity) : py_scope.

Definition lift {A : Type} (r : result A) : outcome A :=
  match r with
  | Ok a => Done a
  | Raise e => Fail (Py e)
  end.

(** The ordinal of 9999-12-31, the last day of [datetime]. *)
Definition max_ordinal : Z := 3652059.

(** [date - timedelta(days=k)]: [OverflowError] for a number of days or a
    date out of range. *)
Definition minus_days (d k : Z) : outcome Z :=
  if Z.abs k <=? 999999999 then
    if (1 <=? d - k) && (d - k <=? max_ordinal) then Done (d - k)
    else Fail (Py OverflowError)
  else Fail (Py OverflowError).

Section Main.
Variable json_loads : string -> result pyval.
Variable strip : string -> string.
Variable fromisoformat : string -> option datetime.
(** The activity log of each day. *)
Variable logs : Z -> log_file.
(** [date.strftime("%Y-%m-%d")] of each day. *)
Variable strftime : Z -> string.
(** [datetime.now().isoformat()] at the time the summary of a day is made. *)
Variable clock : Z -> string.

(** The summary of one day, in the format asked for. *)
Definition summary_for (ai_format : bool) (d : Z) : result pyval :=
  if ai_format
  then prepare_ai_summary_data_of json_loads strip fromisoformat (logs d) (strftime d) (clock d)
  else generate_daily_summary_of json_loads strip fromisoformat (logs d) (strftime d) (clock d).

(** The loop [for i in range(args.days)]. *)
Fixpoint summaries_from (ai_format : bool) (target_date : Z) (range : list Z)
         (summaries : list pyval) : outcome (list pyval) :=
  match range with
  | [] => Done summaries
  | i :: range' =>
      current_date <<- minus_days target_date i ;;
      summary <<- lift (summary_for ai_format current_date) ;;
      summaries_from ai_format target_date range' (summaries ++ [summary])
  end.

(** [range(n)] *)
Definition py_range (n : Z) : list Z := map Z.of_nat (seq 0 (Z.to_nat n)).

(** The value of [result] in [main]. *)
Definition main_result (ai_format : bool) (target_date days : Z) : outcome pyval :=
  summaries <<- summaries_from ai_format target_date (py_range days) [] ;;
  match summaries with
  | [summary] => Done summary
  | _ =>
      start <<- minus_days target_date (days - 1) ;;
      Done (VDict [(KStr "multi_day_summary", VBool true);
                   (KStr "date_range",
                    VStr (strftime start ++ " to " ++ strftime target_date));
                   (KStr "days", VList summaries)])
  end.
End Main.

(** ** The AI configuration: [ai_summary.py], class [AIConfig] *)

Definition newline : string := String (ascii_of_nat 10) "".

(** The default system prompt, line by line. *)
Definition default_system_prompt : string :=
  join newline
  ["You are a helpful assistant that analyzes computer usage and eye health data from Restly, ";
   "an application that helps users take breaks and care for their eyes while working on computers.";
   "";
   "Your task is to:";
   "1. Analyze the provided daily activity data";
   "2. Generate a personalized, encouraging summary of the user's day";
   "3. Provide specific, actionable recommendations for improving eye health and productivity";
   "4. Highlight positive behaviors and suggest gentle improvements for areas that need attention";
   "";
   "Keep the tone friendly, supportive, and motivating. Focus on health benefits and productivity improvements.";
   "The summary should be SHORT and concise (50-100 words maximum). Use bullet points and be direct.";
   "";
   "Consider factors like:";
   "- Break compliance rate and consistency";
   "- Use of deep work sessions";
   "- Peak activity times";
   "- Break rescheduling patterns";
   "- Overall work-life balance indicators";
   "";
   "Format the response as a brief summary with 2-3 bullet points maximum."].

(** The float literals [0.7] and [0.8]. *)
Definition float_0_7 : Q := Eval vm_compute in fl (7 # 10).
Definition float_0_8 : Q := Eval vm_compute in fl (8 # 10).

(** The items of [default_config], in the order of the dict literal. *)
Definition default_items : list (string * pyval) :=
  [("provider", VStr "gemini");
   ("api_key", VStr "");
   ("model", VStr "gemini-1.5-flash");
   ("base_url", VStr "");
   ("max_tokens", VInt 1000);
   ("temperature", VFloat float_0_7);
   ("system_prompt", VStr default_system_prompt)].

Definition dict_of_items (items : list (string * pyval)) : pyval :=
  VDict (map (fun kv => (KStr (fst kv), snd kv)) items).

Definition default_config : pyval := dict_of_items default_items.

(** The configuration file as the process finds it.  Creating the directory
    of the file is taken to succeed. *)
Record disk : Type := mk_disk {
  file_text : option string;   (** the content of the file; [None] when there is none *)
  can_read : bool;             (** [open(file, 'r')] succeeds *)
  can_write : bool             (** [open(file, 'w')] succeeds *)
}.

(** [config[key] = value] *)
Definition py_setitem (v : pyval) (k : string) (x : pyval) : result pyval :=
  match v with
  | VDict d => Ok (VDict (assoc_set key_eqb d (KStr k) x))
  | _ => Raise TypeError
  end.

(** [if key not in config: config[key] = value] *)
Definition merge_default (config : pyval) (item : string * pyval) : result pyval :=
  has <- py_contains config (fst item) ;;
  if has : bool then Ok config else py_setitem config (fst item) (snd item).

Section Config.
(** [json.load(f)] on a file that holds these bytes: the value decoded, or
    the exception raised, which is [JSONDecodeError] for a text that is not
    JSON and [UnicodeDecodeError] for bytes that are not UTF-8. *)
Variable json_load : string -> result pyval.
(** The text that [json.dump(config, f, indent=2, ensure_ascii=False)] writes. *)
Variable json_dump : pyval -> string.

(** [_save_config]: an [IOError] is reported and swallowed. *)
Definition save_config (d : disk) (config : pyval) : disk :=
  if can_write d
  then mk_disk (Some (json_dump config))
               (match file_text d with Some _ => can_read d | None => true end)
               true
  else d.

(** [_load_config]: the disk afterwards and the configuration returned.
    Of what [json.load] raises, [JSONDecodeError] is caught, as is the
    [IOError] of a file that cannot be read; any other exception is not. *)
Definition load_config (d : disk) : disk * result pyval :=
  match file_text d with
  | None => (save_config d default_config, Ok default_config)
  | Some s =>
      if can_read d then
        (d, catching [JSONDecodeError]
              (config <- json_load s ;;
               fold_result merge_default default_items config)
              default_config)
      else (d, Ok default_config)
  end.

(** [AIConfig.get] *)
Definition config_get (config : pyval) (k : string) (default : pyval) : result pyval :=
  py_get config k default.

(** [AIConfig.set]: the disk and the configuration afterwards. *)
Definition config_set (d : disk) (config : pyval) (k : string) (value : pyval)
  : result (disk * pyval) :=
  config' <- py_setitem config k value ;;
  Ok (save_config d config', config').
End Config.

(** ** The summary generator: [ai_summary.py], class [AISummaryGenerator] *)

(** What is handed to [client.post]; the timeout is the constant 30.0. *)
Record request : Type := mk_request {
  url : string;
  headers : pyval;
  payload : pyval
}.

(** What comes back: a response with its status code and body, or an
    exception of the HTTP client. *)
Inductive reply : Type :=
| Response (status_code : Z) (body : string)
| NoResponse (msg : string).

(** [v[0]] *)
Definition index0 (v : pyval) : outcome pyval :=
  match v with
  | VList (x :: _) => Done x
  | VList [] => Fail IndexError
  | VStr (String c _) => Done (VStr (String c ""))
  | VStr EmptyString => Fail IndexError
  | VDict d =>
      match dict_get d (KInt 0) with
      | Some x => Done x
      | None => Fail (Py KeyError)
      end
  | _ => Fail (Py TypeError)
  end.

Definition request_text : string :=
  "Please analyze this daily activity data and provide a summary:".

Definition httpx_missing_msg : string :=
  "httpx is required for API calls. Install with: pip install httpx".

Section Generator.
(** [response.json()] on the body: the value decoded, or the exception
    raised, which is [JSONDecodeError] for a body that is not JSON. *)
Variable json_loads : string -> result pyval.
(** [json.dumps(activity_data, indent=2)] *)
Variable json_dumps : pyval -> string.
(** [str(v)] for a float, a list or a dict. *)
Variable repr_other : pyval -> string.
(** The characters of a string, each as a string. *)
Variable characters : string -> list string.
(** The HTTP exchange. *)
Variable send : request -> reply.

(** [str(v)], as an f-string field renders a value. *)
Definition py_str (v : pyval) : string :=
  match v with
  | VStr s => s
  | VInt z => str_of_Z z
  | VNone => "None"
  | VBool true => "True"
  | VBool false => "False"
  | _ => repr_other v
  end.

(** [api_key = self.config.get("api_key")] and the check that follows. *)
Definition require_api_key (config : pyval) (msg : string) : outcome pyval :=
  api_key <<- lift (config_get config "api_key" VNone) ;;
  if truthy api_key then Done api_key else Fail (ValueErrorMsg msg).

(** [f"{prompt}\n\nPlease analyze ...:\n\n{json.dumps(activity_data, indent=2)}"] *)
Definition user_message (system_prompt activity_data : pyval) : string :=
  py_str system_prompt ++ newline ++ newline ++ request_text ++ newline ++ newline
  ++ json_dumps activity_data.

(** The request of [_generate_openai_summary]. *)
Definition openai_request (config activity_data : pyval) : outcome request :=
  api_key <<- require_api_key config "OpenAI API key not configured" ;;
  model <<- lift (config_get config "model" (VStr "gpt-4")) ;;
  base_url <<- lift (config_get config "base_url" (VStr "https://api.openai.com/v1")) ;;
  system_prompt <<- lift (config_get config "system_prompt" VNone) ;;
  max_tokens <<- lift (config_get config "max_tokens" (VInt 1000)) ;;
  temperature <<- lift (config_get config "temperature" (VFloat float_0_7)) ;;
  Done (mk_request
          (py_str base_url ++ "/chat/completions")
          (VDict [(KStr "Authorization", VStr ("Bearer " ++ py_str api_key));
                  (KStr "Content-Type", VStr "application/json")])
          (VDict [(KStr "model", model);
                  (KStr "messages",
                   VList [VDict [(KStr "role", VStr "system");
                                 (KStr "content", system_prompt)];
                          VDict [(KStr "role", VStr "user");
                                 (KStr "content",
                                  VStr (request_text ++ newline ++ newline
                                        ++ json_dumps activity_data))]]);
                  (KStr "max_tokens", max_tokens);
                  (KStr "temperature", temperature)])).

(** The request of [_generate_anthropic_summary]. *)
Definition anthropic_request (config activity_data : pyval) : outcome request :=
  api_key <<- require_api_key config "Anthropic API key not configured" ;;
  model <<- lift (config_get config "model" (VStr "claude-3-sonnet-20240229")) ;;
  base_url <<- lift (config_get config "base_url" (VStr "https://api.anthropic.com")) ;;
  system_prompt <<- lift (config_get config "system_prompt" VNone) ;;
  max_tokens <<- lift (config_get config "max_tokens" (VInt 1000)) ;;
  temperature <<- lift (config_get config "temperature" (VFloat float_0_7)) ;;
  Done (mk_request
          (py_str base_url ++ "/v1/messages")
          (VDict [(KStr "x-api-key", api_key);
                  (KStr "Content-Type", VStr "application/json");
                  (KStr "anthropic-version", VStr "2023-06-01")])
          (VDict [(KStr "model", model);
                  (KStr "max_tokens", max_tokens);
                  (KStr "temperature", temperature);
                  (KStr "messages",
                   VList [VDict [(KStr "role", VStr "user");
                                 (KStr "content",
                                  VStr (user_message system_prompt activity_data))]])])).

(** The request of [_generate_gemini_summary]. *)
Definition gemini_request (config activity_data : pyval) : outcome request :=
  api_key <<- require_api_key config "Google Gemini API key not configured" ;;
  model <<- lift (config_get config "model" (VStr "gemini-1.5-flash")) ;;
  base_url <<- lift (config_get config "base_url"
                       (VStr "https://generativelanguage.googleapis.com")) ;;
  system_prompt <<- lift (config_get config "system_prompt" VNone) ;;
  temperature <<- lift (config_get config "temperature" (VFloat float_0_7)) ;;
  max_tokens <<- lift (config_get config "max_tokens" (VInt 1000)) ;;
  Done (mk_request
          (py_str base_url ++ "/v1beta/models/" ++ py_str model
           ++ ":generateContent?key=" ++ py_str api_key)
          (VDict [(KStr "Content-Type", VStr "application/json")])
          (VDict [(KStr "contents",
                   VList [VDict [(KStr "parts",
                                  VList [VDict [(KStr "text",
                                                 VStr (user_message system_prompt
                                                         activity_data))]])]]);
                  (KStr "generationConfig",
                   VDict [(KStr "temperature", temperature);
                          (KStr "maxOutputTokens", max_tokens);
                          (KStr "topP", VFloat float_0_8);
                          (KStr "topK", VInt 10)])])).

(** [client.post(...)], the status check that follows and [response.json()]. *)
Definition exchange (api : string) (req : request) : outcome pyval :=
  match send req with
  | NoResponse msg => Fail (HttpError msg)
  | Response status_code body =>
      if negb (status_code =? 200)
      then Fail (ExceptionMsg (api ++ " API error: " ++ str_of_Z status_code
                               ++ " - " ++ body))
      else lift (json_loads body)
  end.

Definition generate_openai_summary (config activity_data : pyval) : outcome pyval :=
  req <<- openai_request config activity_data ;;
  result <<- exchange "OpenAI" req ;;
  choices <<- lift (py_getitem result "choices") ;;
  choice <<- index0 choices ;;
  message <<- lift (py_getitem choice "message") ;;
  lift (py_getitem message "content").

Definition generate_anthropic_summary (config activity_data : pyval) : outcome pyval :=
  req <<- anthropic_request config activity_data ;;
  result <<- exchange "Anthropic" req ;;
  content <<- lift (py_getitem result "content") ;;
  block <<- index0 content ;;
  lift (py_getitem block "text").

Definition generate_gemini_summary (config activity_data : pyval) : outcome pyval :=
  req <<- gemini_request config activity_data ;;
  result <<- exchange "Gemini" req ;;
  has <<- lift (py_contains result "candidates") ;;
  if negb has then Fail (ExceptionMsg "No response generated from Gemini API") else
  candidates <<- lift (py_getitem result "candidates") ;;
  if negb (truthy candidates)
  then Fail (ExceptionMsg "No response generated from Gemini API") else
  candidate <<- index0 candidates ;;
  content <<- lift (py_getitem candidate "content") ;;
  parts <<- lift (py_getitem content "parts") ;;
  part <<- index0 parts ;;
  lift (py_getitem part "text").

(** [insights[:3]], as the [for] loop walks it.  A dict is not sliced:
    [TypeError] before Python 3.12. *)
Definition first_three (insights : pyval) : result (list pyval) :=
  match insights with
  | VList l => Ok (firstn 3 l)
  | VStr s => Ok (map VStr (firstn 3 (characters s)))
  | _ => Raise TypeError
  end.

(** [_generate_local_summary] *)
Definition generate_local_summary (activity_data : pyval) : result string :=
  metrics <- py_get activity_data "productivity_metrics" (VDict []) ;;
  patterns <- py_get activity_data "behavior_patterns" (VDict []) ;;
  insights <- py_get activity_data "insights" (VList []) ;;
  work_minutes <- py_get metrics "total_work_minutes" (VInt 0) ;;
  break_compliance <- py_get metrics "break_compliance_rate" (VInt 0) ;;
  deep_work_sessions <- py_get metrics "deep_work_sessions" (VInt 0) ;;
  date <- py_get activity_data "date" (VStr "today") ;;
  deep <- py_gt deep_work_sessions (VInt 0) ;;
  let summary :=
    ("# Daily Summary for " ++ py_str date ++ newline
     ++ newline
     ++ "## Overview" ++ newline
     ++ "Today you worked for " ++ py_str work_minutes ++ " minutes with a "
     ++ py_str break_compliance ++ "% break compliance rate. " ++ newline
     ++ (if deep : bool
         then "You completed " ++ py_str deep_work_sessions
              ++ " deep work session(s) - great for focused productivity!"
         else "Consider using deep work sessions for better focus.") ++ newline
     ++ newline
     ++ "## Key Insights" ++ newline)%string in
  top <- first_three insights ;;
  let summary :=
    fold_left (fun s insight => (s ++ "- " ++ py_str insight ++ newline)%string)
              top summary in
  compliant <- py_gt break_compliance (VInt 80) ;;
  commands <- py_get patterns "commands_used" (VInt 0) ;;
  active <- py_gt commands (VInt 2) ;;
  Ok (summary ++ newline
      ++ "## Recommendations" ++ newline
      ++ "- " ++ (if compliant : bool
                  then "Excellent break compliance! Keep it up!"
                  else "Try to improve break compliance for better eye health")
      ++ newline
      ++ "- " ++ (if active : bool
                  then "You're making good use of Restly's features"
                  else "Explore Restly's voice commands for easier control")
      ++ newline
      ++ "- Take regular 20-second breaks to look at something 20 feet away (20-20-20 rule)"
      ++ newline
      ++ newline
      ++ "*This summary was generated locally. For more detailed AI analysis, configure an API key.*"
      ++ newline)%string.

(** [AISummaryGenerator.__init__] *)
Definition generator_init (httpx_available : bool) (config : pyval) : outcome unit :=
  if httpx_available then Done tt else
  provider <<- lift (config_get config "provider" VNone) ;;
  if negb (existsb (py_eq provider) [VStr "local"; VNone])
  then Fail (ImportErrorMsg httpx_missing_msg)
  else Done tt.

(** [generate_summary] *)
Definition generate_summary (config activity_data : pyval) : outcome pyval :=
  provider <<- lift (config_get config "provider" (VStr "gemini")) ;;
  if py_eq provider (VStr "openai") then generate_openai_summary config activity_data
  else if py_eq provider (VStr "anthropic") then generate_anthropic_summary config activity_data
  else if py_eq provider (VStr "gemini") then generate_gemini_summary config activity_data
  else if py_eq provider (VStr "local") then
    summary <<- lift (generate_local_summary activity_data) ;; Done (VStr summary)
  else Fail (ValueErrorMsg ("Unsupported AI provider: " ++ py_str provider)).
End Generator.

(** ** Running the generator: [generate_ai_summary_for_date] and [main] *)

Section AiMain.
Variable json_loads : string -> result pyval.
Variable json_dump : pyval -> string.
Variable json_dumps : pyval -> string.
Variable repr_other : pyval -> string.
Variable characters : string -> list string.
Variable send : request -> reply.
Variable fromisoformat : string -> option datetime.

(** [generate_ai_summary_for_date]: the disk afterwards and the summary. *)
Definition generate_ai_summary_for_date (httpx_available : bool) (d : disk)
           (date : string) (activities : list pyval) (now : string)
  : disk * outcome pyval :=
  match prepare_ai_summary_data fromisoformat date activities now with
  | Raise e => (d, Fail (Py e))
  | Ok activity_data =>
      match load_config json_loads json_dump d with
      | (d', Raise e) => (d', Fail (Py e))
      | (d', Ok config) =>
          (d', _ <<- generator_init httpx_available config ;;
               generate_summary json_loads json_dumps repr_other characters send
                                config activity_data)
      end
  end.

(** [main] of [ai_summary.py] when called with [--date] only: the disk
    afterwards, the exit code and what was written to the standard output. *)
Definition ai_main (httpx_available : bool) (d : disk)
           (date : string) (activities : list pyval) (now : string)
  : disk * (Z * string) :=
  match generate_ai_summary_for_date httpx_available d date activities now with
  | (d', Done summary) => (d', (0, (py_str repr_other summary ++ newline)%string))
  | (d', Fail _) => (d', (1, ""))
  end.
End AiMain.

(** ** The dashboard and the summary script *)

(** What [subprocess.run] gives: a completed process or an exception, of
    which [msg] is the text. *)
Inductive run_result : Type :=
| Completed (returncode : Z) (stdout stderr : string)
| RunError (msg : string).

(** The variable [ai_summary] of [get_dashboard_data] after the [try] block. *)
Definition ai_summary_of (script_exists : bool) (run : run_result) : string :=
  if script_exists then
    match run with
    | Completed returncode stdout _ => if returncode =? 0 then stdout else ""
    | RunError msg => "Error generating AI summary: " ++ msg
    end
  else "".

(** The object that [api_summary_handler] answers with. *)
Definition api_summary_body (run : run_result) : pyval :=
  match run with
  | Completed returncode stdout stderr =>
      if returncode =? 0 then VDict [(KStr "summary", VStr stdout)]
      else VDict [(KStr "error", VStr stderr)]
  | RunError msg => VDict [(KStr "error", VStr msg)]
  end.

(** The height, in percent, of the bar of one hour in the chart that
    [renderDashboard] draws: [counts] are the [activity_count]s of the 24
    entries, [count] is the one of the hour. *)
Definition max_count (counts : list Z) : Z := fold_left Z.max counts 1.

Definition bar_height (counts : list Z) (count : Z) : num :=
  if 0 <? count
  then max2 (NInt 20)
            (NFloat (fl (fl (inject_Z count / inject_Z (max_count counts)) * 100)))
  else NInt 5.

(** ** The setup scripts *)

(** The system prompt that [setup_gemini.py] writes, line by line. *)
Definition gemini_system_prompt : string :=
  join newline
  ["You are a helpful assistant that analyzes computer usage and eye health data from Restly, ";
   "an application that helps users take breaks and care for their eyes while working on computers.";
   "";
   "Your task is to:";
   "1. Analyze the provided daily activity data";
   "2. Generate a personalized, encouraging summary of the user's day";
   "3. Provide specific, actionable recommendations for improving eye health and productivity";
   "4. Highlight positive behaviors and suggest gentle improvements for areas that need attention";
   "";
   "Keep the tone friendly, supportive, and motivating. Focus on health benefits and productivity improvements.";
   "The summary should be concise but informative (200-400 words).";
   "";
   "Consider factors like:";
   "- Break compliance rate and consistency";
   "- Use of deep work sessions";
   "- Peak activity times";
   "- Break rescheduling patterns";
   "- Overall work-life balance indicators";
   "";
   "Format the response in markdown with clear sections for Summary, Insights, and Recommendations."].

(** The configuration that [setup_gemini_api_key] writes. *)
Definition gemini_config (api_key : string) : pyval :=
  dict_of_items
    [("provider", VStr "gemini");
     ("api_key", VStr api_key);
     ("model", VStr "gemini-1.5-flash");
     ("base_url", VStr "");
     ("max_tokens", VInt 1000);
     ("temperature", VFloat float_0_7);
     ("system_prompt", VStr gemini_system_prompt)].

(** [provider_map.get(provider_choice, "local")] *)
Definition provider_of_choice (choice : string) : string :=
  if String.eqb choice "1" then "openai"
  else if String.eqb choice "2" then "anthropic"
  else if String.eqb choice "3" then "gemini"
  else "local".

(** The model taken when the answer is blank. *)
Definition default_model (provider : string) : string :=
  if String.eqb provider "openai" then "gpt-4"
  else if String.eqb provider "gemini" then "gemini-1.5-flash"
  else "claude-3-sonnet-20240229".

Section Setup.
Variable json_loads : string -> result pyval.
Variable json_dump : pyval -> string.
Variable strip : string -> string.

(** [setup_gemini_api_key]: [answer] is what [input] returned; the disk
    afterwards and the value returned.  [os.chmod] on the file just written
    is taken to succeed. *)
Definition setup_gemini_api_key (d : disk) (answer : string) : disk * bool :=
  let api_key := strip answer in
  if String.eqb api_key "" then (d, false)
  else if can_write d
       then (mk_disk (Some (json_dump (gemini_config api_key))) true true, true)
       else (d, false).

(** [setup_ai_config]: the three answers are what the calls of [input]
    return, of which the last two are made for a provider other than
    ["local"] only; the disk and the configuration afterwards. *)
Definition setup_ai_config (d : disk) (choice key_answer model_answer : string)
  : disk * result pyval :=
  let provider := provider_of_choice (strip choice) in
  match load_config json_loads json_dump d with
  | (d0, Raise e) => (d0, Raise e)
  | (d0, Ok config) =>
      match config_set json_dump d0 config "provider" (VStr provider) with
      | Raise e => (d0, Raise e)
      | Ok (d1, config1) =>
          if String.eqb provider "local" then (d1, Ok config1) else
          match config_set json_dump d1 config1 "api_key" (VStr (strip key_answer)) with
          | Raise e => (d1, Raise e)
          | Ok (d2, config2) =>
              let model := if String.eqb (strip model_answer) ""
                           then default_model provider else strip model_answer in
              match config_set json_dump d2 config2 "model" (VStr model) with
              | Raise e => (d2, Raise e)
              | Ok (d3, config3) => (d3, Ok config3)
              end
          end
      end
  end.
End Setup.

(** ** Quantities of the configuration *)

(** The configuration after the defaults of [items] were merged into the
    entries [c] of the file. *)
Fixpoint merge_items (items : list (string * pyval)) (c : list (key * pyval))
  : list (key * pyval) :=
  match items with
  | [] => c
  | (k, v) :: items' =>
      merge_items items' (if dict_mem c (KStr k) then c else c ++ [(KStr k, v)])
  end.

(** The names of the seven settings. *)
Definition default_keys : list string := map fst default_items.

(** The configuration has all seven settings. *)
Definition complete_config (c : list (key * pyval)) : bool :=
  forallb (fun k => dict_mem c (KStr k)) default_keys.

(** ** Quantities of the generator *)

(** The name under which a provider reports a missing key. *)
Definition provider_name (provider : string) : string :=
  if String.eqb provider "openai" then "OpenAI"
  else if String.eqb provider "anthropic" then "Anthropic"
  else "Google Gemini".

(** The provider is one of the three that are called over HTTP. *)
Definition is_api_provider (provider : string) : bool :=
  String.eqb provider "openai" || String.eqb provider "anthropic"
  || String.eqb provider "gemini".

(** The value stored under [k], [None] when there is none. *)
Definition setting (c : list (key * pyval)) (k : string) : pyval :=
  match dict_get c (KStr k) with
  | Some v => v
  | None => VNone
  end.

(** The name under which a provider reports a failed request. *)
Definition api_label (provider : string) : string :=
  if String.eqb provider "openai" then "OpenAI"
  else if String.eqb provider "anthropic" then "Anthropic"
  else "Gemini".

(** The line of the local summary for one insight. *)
Definition insight_line (insight : string) : string :=
  "- " ++ insight ++ newline.

(** The texts of a list, one after the other. *)
Definition concat_text (l : list string) : string := fold_right String.append "" l.

(** * Properties *)

(** ** Rounding *)

Lemma rhe_le (q : Q) (k : Z) : (q <= inject_Z k)%Q -> rhe q <= k.
Proof.
  intro H. unfold rhe.
  assert (Hf : Qfloor q <= k).
  { rewrite <- (Qfloor_Z k). now apply Qfloor_resp_le. }
  destruct (Z.eq_dec (Qfloor q) k) as [E|E].
  - assert (Hq : (q - inject_Z (Qfloor q) < 1 # 2)%Q).
    { rewrite E. lra. }
    rewrite Qlt_alt in Hq. rewrite Hq. lia.
  - destruct (Qcompare _ _); [destruct (Z.even _)| |]; lia.
Qed.

Lemma rhe_ge (q : Q) (k : Z) : (inject_Z k <= q)%Q -> k <= rhe q.
Proof.
  intro H. unfold rhe.
  assert (Hf : k <= Qfloor q).
  { rewrite <- (Qfloor_Z k). now apply Qfloor_resp_le. }
  destruct (Qcompare _ _); [destruct (Z.even _)| |]; lia.
Qed.

Lemma Qpow2_pos (s : Z) : (0 < 2 ^ s)%Q.
Proof. apply Qpower_0_lt. reflexivity. Qed.

Lemma ilog2_le52 (q : Q) : (0 < q)%Q -> (q < inject_Z (2 ^ 53))%Q -> ilog2 q <= 52.
Proof.
  intros Hpos Hq. unfold ilog2.
  destruct q as [n d]. cbn [Qnum Qden].
  assert (Hn : 0 < n) by (unfold Qlt in Hpos; cbn in Hpos; lia).
  set (e := Z.log2 n - Z.log2 (Z.pos d)).
  assert (He : e <= 53).
  { assert (Hz : n < 2 ^ 53 * Z.pos d).
    { unfold Qlt in Hq. cbn [Qnum Qden inject_Z] in Hq. lia. }
    assert (Hl : Z.log2 n <= Z.log2 (2 ^ 53 * Z.pos d)) by (apply Z.log2_le_mono; lia).
    rewrite Z.mul_comm, Z.log2_mul_pow2 in Hl by lia. lia. }
  destruct (Qle_bool (2 ^ e) (n # d)) eqn:Hb; [|lia].
  apply Qle_bool_iff in Hb.
  destruct (Z.eq_dec e 53) as [E|E]; [exfalso|lia].
  rewrite E in Hb. change (2 ^ 53)%Q with (inject_Z (2 ^ 53)) in Hb. lra.
Qed.

Lemma Qabs_nonneg_eq (q : Q) : (0 <= q)%Q -> Qabs q = q.
Proof.
  destruct q as [n d]. unfold Qle. cbn. intro H.
  rewrite Z.abs_eq by lia. reflexivity.
Qed.

(** Rounding keeps the sign. *)
Lemma fl_nonneg (q : Q) : (0 <= q)%Q -> (0 <= fl q)%Q.
Proof.
  intro H. unfold fl.
  destruct (Qeq_bool q 0); [lra|].
  rewrite Qred_correct.
  apply Qle_bool_iff in H. rewrite H. apply Qle_bool_iff in H.
  rewrite (Qabs_nonneg_eq q H).
  set (s := 52 - ilog2 q).
  pose proof (Qpow2_pos s) as Hs.
  apply Qle_shift_div_l; [exact Hs|].
  rewrite Qmult_0_l. change 0%Q with (inject_Z 0). rewrite <- Zle_Qle.
  apply rhe_ge. change (inject_Z 0) with 0%Q. apply Qmult_le_0_compat; lra.
Qed.

(** Rounding never crosses an integer below [2^53]: such an integer is a
    binary64 number. *)
Lemma fl_le_int (q : Q) (b : Z) :
  (0 <= q)%Q -> (q <= inject_Z b)%Q -> b < 2 ^ 53 -> (fl q <= inject_Z b)%Q.
Proof.
  intros H0 Hb Hlt. unfold fl.
  destruct (Qeq_bool q 0) eqn:Hz; [lra|].
  rewrite Qred_correct.
  assert (Hpos : (0 < q)%Q).
  { apply Qeq_bool_neq in Hz. lra. }
  apply Qle_bool_iff in H0. rewrite H0. apply Qle_bool_iff in H0.
  rewrite (Qabs_nonneg_eq q H0).
  assert (Hs : 0 <= 52 - ilog2 q).
  { assert (ilog2 q <= 52); [|lia]. apply ilog2_le52; [exact Hpos|].
    rewrite Zlt_Qlt in Hlt. lra. }
  set (s := 52 - ilog2 q) in *.
  pose proof (Qpow2_pos s) as Hp.
  apply Qle_shift_div_r; [exact Hp|].
  assert (E : (inject_Z b * 2 ^ s == inject_Z (b * 2 ^ s))%Q).
  { rewrite inject_Z_mult, Zpower_Qpower by exact Hs. reflexivity. }
  rewrite E. rewrite <- Zle_Qle. apply rhe_le. rewrite <- E.
  apply Qmult_le_compat_r; lra.
Qed.

(** ** More on rounding: lower bounds *)

Lemma inject_Z_pred (k : Z) : (inject_Z (k - 1) == inject_Z k - 1)%Q.
Proof.
  unfold Z.sub. rewrite inject_Z_plus, inject_Z_opp. reflexivity.
Qed.

Lemma rhe_ge_half (q : Q) (k : Z) : (inject_Z k - (1 # 2) < q)%Q -> k <= rhe q.
Proof.
  intro H. unfold rhe.
  assert (Hf : k - 1 <= Qfloor q).
  { rewrite <- (Qfloor_Z (k - 1)). apply Qfloor_resp_le.
    rewrite inject_Z_pred. lra. }
  destruct (Z.eq_dec (Qfloor q) (k - 1)) as [E|E].
  - assert (Hq : ((1 # 2) < q - inject_Z (Qfloor q))%Q).
    { rewrite E, inject_Z_pred. lra. }
    apply Qgt_alt in Hq. rewrite Hq. lia.
  - destruct (Qcompare _ _); [destruct (Z.even _)| |]; lia.
Qed.

Lemma ilog2_lt_pow (q : Q) (k : Z) :
  (0 < q)%Q -> 0 <= k -> (q < inject_Z (2 ^ k))%Q -> ilog2 q <= k - 1.
Proof.
  intros Hpos Hk Hq. unfold ilog2.
  destruct q as [n d]. cbn [Qnum Qden].
  assert (Hn : 0 < n) by (unfold Qlt in Hpos; cbn in Hpos; lia).
  set (e := Z.log2 n - Z.log2 (Z.pos d)).
  assert (He : e <= k).
  { assert (Hz : n < 2 ^ k * Z.pos d).
    { unfold Qlt in Hq. cbn [Qnum Qden inject_Z] in Hq. lia. }
    assert (Hl : Z.log2 n <= Z.log2 (2 ^ k * Z.pos d)) by (apply Z.log2_le_mono; lia).
    rewrite Z.mul_comm, Z.log2_mul_pow2 in Hl by lia. lia. }
  destruct (Qle_bool (2 ^ e) (n # d)) eqn:Hb; [|lia].
  apply Qle_bool_iff in Hb.
  destruct (Z.eq_dec e k) as [E|E]; [exfalso|lia].
  rewrite E in Hb. change (2 ^ k)%Q with (inject_Z 2 ^ k)%Q in Hb.
  rewrite <- Zpower_Qpower in Hb by exact Hk. lra.
Qed.

(** [ilog2] does not underestimate: [q < 2 ^ (ilog2 q + 1)]. *)
Lemma ilog2_upper (q : Q) : (0 < q)%Q -> (q < 2 ^ (ilog2 q + 1))%Q.
Proof.
  intro Hpos. unfold ilog2. destruct q as [n d]. cbn [Qnum Qden].
  assert (Hn : 0 < n) by (unfold Qlt in Hpos; cbn in Hpos; lia).
  set (e := Z.log2 n - Z.log2 (Z.pos d)).
  destruct (Qle_bool (2 ^ e) (n # d)) eqn:Hb.
  - replace (e + 1) with ((Z.log2 n + 1) - Z.log2 (Z.pos d)) by (unfold e; lia).
    rewrite Qpower_minus by discriminate.
    pose proof (Z.log2_nonneg n) as L1. pose proof (Z.log2_nonneg (Z.pos d)) as L2.
    change 2%Q with (inject_Z 2). rewrite <- !Zpower_Qpower by lia.
    pose proof (Z.log2_spec n Hn) as [_ Sn].
    pose proof (Z.log2_spec (Z.pos d) eq_refl) as [Sd _].
    replace (Z.succ (Z.log2 n)) with (Z.log2 n + 1) in Sn by lia.
    set (A := 2 ^ (Z.log2 n + 1)) in *. set (B := 2 ^ Z.log2 (Z.pos d)) in *.
    assert (HB : 0 < B) by (unfold B; apply Z.pow_pos_nonneg; lia).
    apply Qlt_shift_div_l.
    + change 0%Q with (inject_Z 0). now rewrite <- Zlt_Qlt.
    + unfold Qlt, Qmult. cbn [Qnum Qden inject_Z]. nia.
  - replace (e - 1 + 1) with e by lia.
    destruct (Qlt_le_dec (n # d) (2 ^ e)) as [L|L]; [exact L|].
    apply Qle_bool_iff in L. congruence.
Qed.

(** Rounding never crosses, from above, an integer below [2^53]. *)
Lemma fl_ge_int (q : Q) (b : Z) :
  0 <= b -> (inject_Z b <= q)%Q -> (q < inject_Z (2 ^ 53))%Q -> (inject_Z b <= fl q)%Q.
Proof.
  intros Hb0 Hb Hlt.
  assert (H0 : (0 <= q)%Q).
  { rewrite Zle_Qle in Hb0. change (inject_Z 0) with 0%Q in Hb0. lra. }
  unfold fl.
  destruct (Qeq_bool q 0) eqn:Hz.
  - apply Qeq_bool_iff in Hz. lra.
  - rewrite Qred_correct.
    assert (Hpos : (0 < q)%Q).
    { apply Qeq_bool_neq in Hz. lra. }
    apply Qle_bool_iff in H0. rewrite H0. apply Qle_bool_iff in H0.
    rewrite (Qabs_nonneg_eq q H0).
    assert (Hs : 0 <= 52 - ilog2 q).
    { pose proof (ilog2_lt_pow q 53 Hpos ltac:(lia) Hlt). lia. }
    set (s := 52 - ilog2 q) in *.
    pose proof (Qpow2_pos s) as Hp.
    apply Qle_shift_div_l; [exact Hp|].
    assert (E : (inject_Z b * 2 ^ s == inject_Z (b * 2 ^ s))%Q).
    { rewrite inject_Z_mult, Zpower_Qpower by exact Hs. reflexivity. }
    rewrite E. rewrite <- Zle_Qle. apply rhe_ge. rewrite <- E.
    apply Qmult_le_compat_r; lra.
Qed.

(** Rounding never crosses a multiple of 1/16 from below, for a value below
    [2^49]. *)
Lemma fl_le_sixteenth (q : Q) (b : Z) :
  (0 <= q)%Q -> (q <= inject_Z b / 16)%Q -> (q < inject_Z (2 ^ 49))%Q ->
  (fl q <= inject_Z b / 16)%Q.
Proof.
  intros H0 Hb Hlt. unfold fl.
  destruct (Qeq_bool q 0) eqn:Hz; [lra|].
  rewrite Qred_correct.
  assert (Hpos : (0 < q)%Q).
  { apply Qeq_bool_neq in Hz. lra. }
  apply Qle_bool_iff in H0. rewrite H0. apply Qle_bool_iff in H0.
  rewrite (Qabs_nonneg_eq q H0).
  assert (Hs : 4 <= 52 - ilog2 q).
  { pose proof (ilog2_lt_pow q 49 Hpos ltac:(lia) Hlt). lia. }
  set (s := 52 - ilog2 q) in *.
  pose proof (Qpow2_pos s) as Hp.
  apply Qle_shift_div_r; [exact Hp|].
  assert (Es : (2 ^ s == 16 * inject_Z (2 ^ (s - 4)))%Q).
  { rewrite Zpower_Qpower by lia. change (inject_Z 2) with 2%Q.
    replace s with (4 + (s - 4)) at 1 by lia.
    rewrite Qpower_plus by discriminate. reflexivity. }
  assert (E : (inject_Z b / 16 * 2 ^ s == inject_Z (b * 2 ^ (s - 4)))%Q).
  { rewrite Es, inject_Z_mult. field. }
  rewrite E. rewrite <- Zle_Qle. apply rhe_le. rewrite <- E.
  apply Qmult_le_compat_r; lra.
Qed.

(** A value that lies below an integer [r] by [r / (3 * 2^53)], less than half
    a unit in the last place, rounds to [r]. *)
Lemma fl_tie (q : Q) (r : Z) :
  0 < r -> r < 2 ^ 52 ->
  (q == inject_Z r - inject_Z r * (1 # 27021597764222976))%Q ->
  (inject_Z r <= fl q)%Q.
Proof.
  intros Hr Hr52 Hq.
  assert (Hrq : (0 < inject_Z r)%Q).
  { change 0%Q with (inject_Z 0). now rewrite <- Zlt_Qlt. }
  assert (Hpos : (0 < q)%Q) by lra.
  assert (Hlt : (q < inject_Z (2 ^ 53))%Q).
  { assert (inject_Z r < inject_Z (2 ^ 53))%Q by (rewrite <- Zlt_Qlt; lia). lra. }
  unfold fl.
  destruct (Qeq_bool q 0) eqn:Hz.
  { apply Qeq_bool_iff in Hz. lra. }
  rewrite Qred_correct.
  assert (H0 : (0 <= q)%Q) by lra.
  apply Qle_bool_iff in H0. rewrite H0. apply Qle_bool_iff in H0.
  rewrite (Qabs_nonneg_eq q H0).
  pose proof (ilog2_upper q Hpos) as HU.
  assert (Hs : 0 <= 52 - ilog2 q).
  { pose proof (ilog2_lt_pow q 53 Hpos ltac:(lia) Hlt). lia. }
  set (e := ilog2 q) in *. set (s := 52 - e) in *.
  pose proof (Qpow2_pos s) as HP. pose proof (Qpow2_pos (e + 1)) as HU0.
  assert (HPU : (2 ^ s * 2 ^ (e + 1) == 9007199254740992)%Q).
  { rewrite <- Qpower_plus by discriminate.
    replace (s + (e + 1)) with 53 by (unfold s; lia). reflexivity. }
  set (P := (2 ^ s)%Q) in *. set (U := (2 ^ (e + 1))%Q) in *.
  apply Qle_shift_div_l; [exact HP|].
  assert (E : (inject_Z r * P == inject_Z (r * 2 ^ s))%Q).
  { unfold P. rewrite inject_Z_mult, Zpower_Qpower by exact Hs. reflexivity. }
  rewrite E. rewrite <- Zle_Qle. apply rhe_ge_half. rewrite <- E.
  assert (H2 : (2 * inject_Z r < 3 * U)%Q) by lra.
  assert (H3 : (2 * inject_Z r * P < 3 * U * P)%Q).
  { apply Qmult_lt_compat_r; assumption. }
  assert (H4 : (3 * U * P == 27021597764222976)%Q).
  { rewrite <- Qmult_assoc, (Qmult_comm U P), HPU. reflexivity. }
  rewrite H4 in H3.
  assert (H5 : (q * P == inject_Z r * P - inject_Z r * P * (1 # 27021597764222976))%Q).
  { rewrite Hq. ring. }
  rewrite H5. set (X := (inject_Z r * P)%Q) in *.
  assert (H6 : (2 * X < 27021597764222976)%Q).
  { unfold X. rewrite Qmult_assoc. exact H3. }
  lra.
Qed.

Lemma fl_zero (q : Q) : (q == 0)%Q -> fl q = 0%Q.
Proof.
  intro H. unfold fl. apply Qeq_bool_iff in H. now rewrite H.
Qed.

(** ** Rounding is monotone *)

Lemma rhe_lower (x : Q) : (x - (1 # 2) <= inject_Z (rhe x))%Q.
Proof.
  unfold rhe.
  pose proof (Qfloor_le x) as Hf. pose proof (Qlt_floor x) as Hc.
  rewrite inject_Z_plus in Hc. change (inject_Z 1) with 1%Q in Hc.
  destruct (Qcompare_spec (x - inject_Z (Qfloor x)) (1 # 2)) as [E|L|G].
  - destruct (Z.even (Qfloor x)); [|rewrite inject_Z_plus; change (inject_Z 1) with 1%Q]; lra.
  - lra.
  - rewrite inject_Z_plus. change (inject_Z 1) with 1%Q. lra.
Qed.

Lemma rhe_upper (x : Q) : (inject_Z (rhe x) <= x + (1 # 2))%Q.
Proof.
  unfold rhe.
  pose proof (Qfloor_le x) as Hf. pose proof (Qlt_floor x) as Hc.
  rewrite inject_Z_plus in Hc. change (inject_Z 1) with 1%Q in Hc.
  destruct (Qcompare_spec (x - inject_Z (Qfloor x)) (1 # 2)) as [E|L|G].
  - destruct (Z.even (Qfloor x)); [|rewrite inject_Z_plus; change (inject_Z 1) with 1%Q]; lra.
  - lra.
  - rewrite inject_Z_plus. change (inject_Z 1) with 1%Q. lra.
Qed.

Lemma rhe_comp (x y : Q) : (x == y)%Q -> rhe x = rhe y.
Proof.
  intro E. unfold rhe. rewrite (Qfloor_comp x y E).
  assert (Ec : ((x - inject_Z (Qfloor y)) ?= (1 # 2))%Q = ((y - inject_Z (Qfloor y)) ?= (1 # 2))%Q).
  { apply Qcompare_comp; [rewrite E|]; reflexivity. }
  rewrite Ec. reflexivity.
Qed.

Lemma rhe_mono (x y : Q) : (x <= y)%Q -> rhe x <= rhe y.
Proof.
  intro H.
  destruct (Qlt_le_dec (inject_Z (rhe x) - (1 # 2)) y) as [L|L].
  - now apply rhe_ge_half.
  - pose proof (rhe_upper x) as Hx.
    assert (E : (x == y)%Q) by lra.
    rewrite (rhe_comp x y E). lia.
Qed.

(** [ilog2] does not overestimate: [2 ^ ilog2 q <= q]. *)
Lemma ilog2_lower (q : Q) : (0 < q)%Q -> (2 ^ ilog2 q <= q)%Q.
Proof.
  intro Hpos. unfold ilog2. destruct q as [n d]. cbn [Qnum Qden].
  assert (Hn : 0 < n) by (unfold Qlt in Hpos; cbn in Hpos; lia).
  set (e := Z.log2 n - Z.log2 (Z.pos d)).
  destruct (Qle_bool (2 ^ e) (n # d)) eqn:Hb.
  - now apply Qle_bool_iff.
  - replace (e - 1) with (Z.log2 n - (Z.log2 (Z.pos d) + 1)) by (unfold e; lia).
    rewrite Qpower_minus by discriminate.
    pose proof (Z.log2_nonneg n) as L1. pose proof (Z.log2_nonneg (Z.pos d)) as L2.
    change 2%Q with (inject_Z 2). rewrite <- !Zpower_Qpower by lia.
    pose proof (Z.log2_spec n Hn) as [Sn _].
    pose proof (Z.log2_spec (Z.pos d) eq_refl) as [_ Sd].
    replace (Z.succ (Z.log2 (Z.pos d))) with (Z.log2 (Z.pos d) + 1) in Sd by lia.
    set (A := 2 ^ Z.log2 n) in *. set (B := 2 ^ (Z.log2 (Z.pos d) + 1)) in *.
    assert (HB : 0 < B) by (unfold B; apply Z.pow_pos_nonneg; lia).
    assert (HA : 0 < A) by (unfold A; apply Z.pow_pos_nonneg; lia).
    apply Qle_shift_div_r.
    + change 0%Q with (inject_Z 0). now rewrite <- Zlt_Qlt.
    + unfold Qle, Qmult. cbn [Qnum Qden inject_Z]. nia.
Qed.

Lemma ilog2_mono (p q : Q) : (0 < p)%Q -> (p <= q)%Q -> ilog2 p <= ilog2 q.
Proof.
  intros Hp Hpq.
  assert (Hq : (0 < q)%Q) by lra.
  pose proof (ilog2_lower p Hp) as Lp. pose proof (ilog2_upper q Hq) as Uq.
  assert (H : (2 ^ ilog2 p < 2 ^ (ilog2 q + 1))%Q) by lra.
  apply Qpower_lt_compat_l_inv in H; [lia|reflexivity].
Qed.

(** The value of [fl] on a positive number. *)
Lemma fl_pos (q : Q) :
  (0 < q)%Q -> (fl q == inject_Z (rhe (q * 2 ^ (52 - ilog2 q))) / 2 ^ (52 - ilog2 q))%Q.
Proof.
  intro Hpos. unfold fl.
  destruct (Qeq_bool q 0) eqn:Hz.
  { apply Qeq_bool_iff in Hz. lra. }
  rewrite Qred_correct.
  assert (H0 : (0 <= q)%Q) by lra.
  apply Qle_bool_iff in H0. rewrite H0. apply Qle_bool_iff in H0.
  rewrite (Qabs_nonneg_eq q H0). reflexivity.
Qed.

Lemma Qpow2_split (a b : Z) : (2 ^ (a + b) == 2 ^ a * 2 ^ b)%Q.
Proof. apply Qpower_plus. discriminate. Qed.

(** A positive number rounds into the binade it lies in. *)
Lemma fl_binade (q : Q) :
  (0 < q)%Q -> (2 ^ ilog2 q <= fl q)%Q /\ (fl q <= 2 ^ (ilog2 q + 1))%Q.
Proof.
  intro Hpos. rewrite (fl_pos q Hpos).
  pose proof (ilog2_lower q Hpos) as L. pose proof (ilog2_upper q Hpos) as U.
  set (e := ilog2 q) in *. set (s := 52 - e).
  pose proof (Qpow2_pos s) as Hs.
  assert (E52 : (2 ^ e * 2 ^ s == inject_Z (2 ^ 52))%Q).
  { rewrite <- Qpow2_split. replace (e + s) with 52 by (unfold s; lia). reflexivity. }
  assert (E53 : (2 ^ (e + 1) * 2 ^ s == inject_Z (2 ^ 53))%Q).
  { rewrite <- Qpow2_split. replace (e + 1 + s) with 53 by (unfold s; lia). reflexivity. }
  split.
  - apply Qle_shift_div_l; [exact Hs|]. rewrite E52. rewrite <- Zle_Qle.
    apply rhe_ge. rewrite <- E52. apply Qmult_le_compat_r; lra.
  - apply Qle_shift_div_r; [exact Hs|]. rewrite E53. rewrite <- Zle_Qle.
    apply rhe_le. rewrite <- E53. apply Qmult_le_compat_r; lra.
Qed.

(** Rounding is monotone on the non-negative numbers. *)
Lemma fl_mono (p q : Q) : (0 <= p)%Q -> (p <= q)%Q -> (fl p <= fl q)%Q.
Proof.
  intros H0 Hpq.
  destruct (Qeq_dec p 0) as [Ez|Hnz].
  { rewrite (fl_zero p Ez). apply fl_nonneg. lra. }
  assert (Hp : (0 < p)%Q) by lra.
  assert (Hq : (0 < q)%Q) by lra.
  pose proof (ilog2_mono p q Hp Hpq) as Hm.
  destruct (Z.eq_dec (ilog2 p) (ilog2 q)) as [E|E].
  - rewrite (fl_pos p Hp), (fl_pos q Hq), E.
    set (s := 52 - ilog2 q). pose proof (Qpow2_pos s) as Hs.
    apply Qmult_le_compat_r.
    + rewrite <- Zle_Qle. apply rhe_mono. apply Qmult_le_compat_r; lra.
    + apply Qlt_le_weak, Qinv_lt_0_compat, Hs.
  - destruct (fl_binade p Hp) as [_ Up]. destruct (fl_binade q Hq) as [Lq _].
    assert (Hpow : (2 ^ (ilog2 p + 1) <= 2 ^ ilog2 q)%Q).
    { apply Qpower_le_compat_l; [lia|discriminate]. }
    lra.
Qed.

(** Rounding does not cross a binary64 number. *)
Lemma fl_le_float (q y : Q) : (0 <= q)%Q -> (q <= y)%Q -> (fl y == y)%Q -> (fl q <= y)%Q.
Proof.
  intros H0 H E. rewrite <- E. now apply fl_mono.
Qed.

Lemma fl_ge_float (q y : Q) : (0 <= y)%Q -> (y <= q)%Q -> (fl y == y)%Q -> (y <= fl q)%Q.
Proof.
  intros H0 H E. rewrite <- E. now apply fl_mono.
Qed.

(** The relative error of one rounding is at most [2 ^ -53]. *)
Lemma fl_error (q : Q) :
  (0 <= q)%Q ->
  (q * (1 - unit_roundoff) <= fl q)%Q /\ (fl q <= q * (1 + unit_roundoff))%Q.
Proof.
  intro H0.
  destruct (Qeq_dec q 0) as [Ez|Hnz].
  { rewrite (fl_zero q Ez). rewrite Ez. split; lra. }
  assert (Hpos : (0 < q)%Q) by lra.
  rewrite (fl_pos q Hpos).
  pose proof (ilog2_lower q Hpos) as L.
  set (e := ilog2 q) in *. set (s := 52 - e).
  pose proof (Qpow2_pos s) as Hs.
  assert (E52 : (2 ^ e * 2 ^ s == inject_Z (2 ^ 52))%Q).
  { rewrite <- Qpow2_split. replace (e + s) with 52 by (unfold s; lia). reflexivity. }
  pose proof (rhe_lower (q * 2 ^ s)) as Rl. pose proof (rhe_upper (q * 2 ^ s)) as Ru.
  assert (HX : (inject_Z (2 ^ 52) <= q * 2 ^ s)%Q).
  { rewrite <- E52. apply Qmult_le_compat_r; lra. }
  change (inject_Z (2 ^ 52)) with 4503599627370496%Q in HX.
  generalize dependent (inject_Z (rhe (q * 2 ^ s))). intros R Rl Ru.
  generalize dependent (2 ^ s)%Q. intros P Hs _ Rl Ru HX.
  unfold unit_roundoff. split.
  - apply Qle_shift_div_l; [exact Hs|].
    assert (E : (q * (1 - (1 # 9007199254740992)) * P
                 == q * P - (q * P) * (1 # 9007199254740992))%Q) by ring.
    rewrite E. generalize dependent (q * P)%Q. intros X Rl Ru HX. lra.
  - apply Qle_shift_div_r; [exact Hs|].
    assert (E : (q * (1 + (1 # 9007199254740992)) * P
                 == q * P + (q * P) * (1 # 9007199254740992))%Q) by ring.
    rewrite E. generalize dependent (q * P)%Q. intros X Rl Ru HX. lra.
Qed.

(** ** The exponent range *)

Lemma fl_float_max : fl float_max = float_max.
Proof. vm_compute. reflexivity. Qed.

Lemma fl_threshold : (fl (inject_Z overflow_threshold) == inject_Z (2 ^ 1024))%Q.
Proof. vm_compute. reflexivity. Qed.

Lemma fl_abs (q : Q) : (Qabs (fl q) == fl (Qabs q))%Q.
Proof.
  unfold fl at 1.
  destruct (Qeq_bool q 0) eqn:Hz.
  { apply Qeq_bool_iff in Hz. rewrite (fl_zero (Qabs q)); [reflexivity|].
    rewrite Hz. reflexivity. }
  assert (Hnz : ~ (q == 0)%Q).
  { intro E. apply Qeq_bool_iff in E. congruence. }
  assert (Ha : (0 < Qabs q)%Q).
  { pose proof (Qabs_nonneg q) as N.
    destruct (Qeq_dec (Qabs q) 0) as [E|E]; [|lra].
    exfalso. apply Hnz. pose proof (Qle_Qabs q) as L1.
    pose proof (Qle_Qabs (- q)) as L2. rewrite Qabs_opp in L2. lra. }
  rewrite Qred_correct. rewrite (fl_pos _ Ha).
  set (m := (inject_Z (rhe (Qabs q * 2 ^ (52 - ilog2 (Qabs q)))) / 2 ^ (52 - ilog2 (Qabs q)))%Q).
  assert (Hm : (0 <= m)%Q).
  { unfold m. apply Qle_shift_div_l; [apply Qpow2_pos|].
    rewrite Qmult_0_l. change 0%Q with (inject_Z 0). rewrite <- Zle_Qle.
    apply rhe_ge. change (inject_Z 0) with 0%Q.
    apply Qmult_le_0_compat; [lra|]. apply Qlt_le_weak, Qpow2_pos. }
  destruct (Qle_bool 0 q).
  - apply Qabs_pos. exact Hm.
  - rewrite Qabs_opp. apply Qabs_pos. exact Hm.
Qed.

Lemma in_float_range_le (q : Q) : (Qabs q <= float_max)%Q -> in_float_range (fl q) = true.
Proof.
  intro H. unfold in_float_range. apply Qle_bool_iff. rewrite fl_abs.
  apply fl_le_float; [apply Qabs_nonneg|exact H|]. now rewrite fl_float_max.
Qed.

Lemma in_float_range_ge (q : Q) :
  (inject_Z overflow_threshold <= Qabs q)%Q -> in_float_range (fl q) = false.
Proof.
  intro H. unfold in_float_range.
  destruct (Qle_bool (Qabs (fl q)) float_max) eqn:E; [|reflexivity].
  apply Qle_bool_iff in E. rewrite fl_abs in E.
  assert (H1 : (fl (inject_Z overflow_threshold) <= fl (Qabs q))%Q).
  { apply fl_mono; [discriminate|exact H]. }
  rewrite fl_threshold in H1.
  assert (H2 : (float_max < inject_Z (2 ^ 1024))%Q) by reflexivity.
  lra.
Qed.

Lemma ilog2_unique (q : Q) (e : Z) :
  (2 ^ e <= q)%Q -> (q < 2 ^ (e + 1))%Q -> ilog2 q = e.
Proof.
  intros L U.
  assert (Hpos : (0 < q)%Q) by (pose proof (Qpow2_pos e); lra).
  pose proof (ilog2_lower q Hpos) as L'. pose proof (ilog2_upper q Hpos) as U'.
  assert (H1 : (2 ^ e < 2 ^ (ilog2 q + 1))%Q) by lra.
  assert (H2 : (2 ^ ilog2 q < 2 ^ (e + 1))%Q) by lra.
  apply Qpower_lt_compat_l_inv in H1; [|reflexivity].
  apply Qpower_lt_compat_l_inv in H2; [|reflexivity]. lia.
Qed.

(** Below the midpoint between [float_max] and [2 ^ 1024] a number rounds to
    a float. *)
Lemma fl_below_threshold (q : Q) :
  (0 <= q)%Q -> (q < inject_Z overflow_threshold)%Q -> (fl q <= float_max)%Q.
Proof.
  intros H0 Hlt.
  destruct (Qlt_le_dec float_max q) as [Hgt|Hle].
  2:{ apply fl_le_float; [exact H0|exact Hle|]. now rewrite fl_float_max. }
  assert (E : ilog2 q = 1023).
  { apply ilog2_unique.
    - assert (H : (2 ^ 1023 <= float_max)%Q) by (vm_compute; discriminate). lra.
    - assert (H : (inject_Z overflow_threshold <= 2 ^ (1023 + 1))%Q)
        by (vm_compute; discriminate). lra. }
  assert (Hpos : (0 < q)%Q).
  { assert (H : (0 < float_max)%Q) by reflexivity. lra. }
  rewrite (fl_pos q Hpos), E.
  set (P := (2 ^ (52 - 1023))%Q).
  assert (HP : (0 < P)%Q) by apply Qpow2_pos.
  assert (ET : (inject_Z overflow_threshold * P == inject_Z (2 ^ 53) - (1 # 2))%Q)
    by (vm_compute; reflexivity).
  assert (EM : (float_max * P == inject_Z (2 ^ 53 - 1))%Q) by (vm_compute; reflexivity).
  assert (Hq : (q * P < inject_Z overflow_threshold * P)%Q).
  { apply Qmult_lt_compat_r; assumption. }
  pose proof (rhe_upper (q * P)) as Ru.
  assert (Hr : rhe (q * P) <= 2 ^ 53 - 1).
  { assert (Hs : (inject_Z (rhe (q * P)) < inject_Z (2 ^ 53))%Q) by lra.
    rewrite <- Zlt_Qlt in Hs. lia. }
  apply Qle_shift_div_r; [exact HP|]. rewrite EM. now rewrite <- Zle_Qle.
Qed.

Lemma in_float_range_lt (q : Q) :
  (Qabs q < inject_Z overflow_threshold)%Q -> in_float_range (fl q) = true.
Proof.
  intro H. unfold in_float_range. apply Qle_bool_iff. rewrite fl_abs.
  apply fl_below_threshold; [apply Qabs_nonneg|exact H].
Qed.

(** An int has a quotient by [k] exactly when it is below [k] times the
    threshold. *)
Lemma has_quotient_int (z k : Z) :
  0 < k -> has_quotient (NInt z) k = (Z.abs z <? k * overflow_threshold).
Proof.
  intro Hk. cbn [has_quotient].
  assert (Hkq : (0 < inject_Z k)%Q).
  { change 0%Q with (inject_Z 0). now rewrite <- Zlt_Qlt. }
  assert (Ea : (Qabs (inject_Z z / inject_Z k) == inject_Z (Z.abs z) / inject_Z k)%Q).
  { unfold Qdiv. rewrite Qabs_Qmult. rewrite (Qabs_pos (/ inject_Z k)).
    - apply Qmult_comp; [|reflexivity]. unfold Qabs, inject_Z. reflexivity.
    - apply Qlt_le_weak, Qinv_lt_0_compat, Hkq. }
  destruct (Z.ltb_spec (Z.abs z) (k * overflow_threshold)) as [L|G].
  - apply in_float_range_lt. rewrite Ea. apply Qlt_shift_div_r; [exact Hkq|].
    rewrite <- inject_Z_mult, <- Zlt_Qlt. lia.
  - apply in_float_range_ge. rewrite Ea. apply Qle_shift_div_l; [exact Hkq|].
    rewrite <- inject_Z_mult, <- Zle_Qle. lia.
Qed.

(** Division of an int by an int: when the quotient has a float, and when not. *)
Lemma truediv_int (x y : Z) :
  y <> 0 -> (Qabs (inject_Z x / inject_Z y) <= float_max)%Q ->
  truediv (NInt x) (NInt y) = Ok (NFloat (fl (inject_Z x / inject_Z y))).
Proof.
  intros Hy H. unfold truediv. apply Z.eqb_neq in Hy. rewrite Hy.
  now rewrite in_float_range_le.
Qed.

Lemma truediv_int_overflow (x y : Z) :
  y <> 0 -> (inject_Z overflow_threshold <= Qabs (inject_Z x / inject_Z y))%Q ->
  truediv (NInt x) (NInt y) = Raise OverflowError.
Proof.
  intros Hy H. unfold truediv. apply Z.eqb_neq in Hy. rewrite Hy.
  now rewrite in_float_range_ge.
Qed.


(** ** The loop of the analyzer *)

Lemma bind_ok {A B : Type} (c : result A) (k : A -> result B) (b : B) :
  bind c k = Ok b -> exists a, c = Ok a /\ k a = Ok b.
Proof. destruct c as [a|e]; simpl; [eauto | discriminate]. Qed.

Lemma truediv_small_ok (x y : Z) :
  y <> 0 -> truediv_small x y = Ok (NFloat (fl (inject_Z x / inject_Z y))).
Proof.
  intro H. unfold truediv_small. apply Z.eqb_neq in H. now rewrite H.
Qed.

Lemma is_str_true (k : string) (v : pyval) : is_str k v = true -> v = VStr k.
Proof.
  destruct v; simpl; try discriminate.
  intro H. apply String.eqb_eq in H. now subst.
Qed.

Lemma is_str_other (a b : string) (v : pyval) :
  is_str a v = true -> a <> b -> is_str b v = false.
Proof.
  intros H Hab. apply is_str_true in H. subst v. simpl.
  now apply String.eqb_neq.
Qed.

Section Loop.
Variable fromisoformat : string -> option datetime.

Lemma parse_timestamp_raises (ts : pyval) (e : exn) :
  parse_timestamp fromisoformat ts = Raise e ->
  e = ValueError \/ e = AttributeError.
Proof.
  unfold parse_timestamp. destruct ts; try (intros [= <-]; now right).
  destruct (fromisoformat _); [discriminate | intros [= <-]; now left].
Qed.

Lemma hourly_caught (d : list (key * pyval)) (h : list (Z * Z)) :
  catching [ValueError; AttributeError]
    (dt <- parse_timestamp fromisoformat
             (match dict_get d (KStr "timestamp") with Some x => x | None => VStr "" end) ;;
     Ok (bump_hour h (hour dt))) h
  = Ok (hourly_after fromisoformat h (VDict d)).
Proof.
  unfold hourly_after, hour_of, field_or, lookup.
  destruct (parse_timestamp _ _) as [dt|e] eqn:E; simpl; [reflexivity|].
  apply parse_timestamp_raises in E. destruct E as [->| ->]; reflexivity.
Qed.

Lemma count_break_type_shape (bt bt' : list (string * Z)) (v : pyval) :
  types_shape bt -> count_break_type bt v = Ok bt' ->
  bt' = map (fun x => (fst x, snd x + b2z (is_str (fst x) v))) bt.
Proof.
  unfold types_shape. intros Hs H.
  destruct bt as [|[k1 a] [|[k2 b] [|? ?]]]; try discriminate.
  injection Hs as -> ->.
  destruct v; try discriminate;
    try (injection H as <-; cbn [map fst snd is_str b2z]; now rewrite !Z.add_0_r).
  unfold count_break_type in H. cbn [assoc_get] in H.
  cbn [map fst snd is_str].
  rewrite (String.eqb_sym s "eye_care"), (String.eqb_sym s "custom_message").
  destruct (String.eqb "eye_care" s) eqn:E1.
  - cbn [assoc_set] in H. rewrite E1 in H. injection H as <-.
    apply String.eqb_eq in E1. subst s.
    change (String.eqb "custom_message" "eye_care") with false.
    cbn [b2z]. now rewrite Z.add_0_r.
  - destruct (String.eqb "custom_message" s) eqn:E2.
    + cbn [assoc_set] in H. rewrite E1, E2 in H. injection H as <-.
      cbn [b2z]. now rewrite Z.add_0_r.
    + injection H as <-. cbn [b2z]. now rewrite !Z.add_0_r.
Qed.

(** What one iteration does to each local variable. *)
Lemma process_fields (t t' : tally) (e : pyval) :
  types_shape (break_types t) ->
  process fromisoformat t e = Ok t' ->
  break_count t' = break_count t + b2z (has_type "break_shown" e)
  /\ break_completed_count t' = break_completed_count t + b2z (has_type "break_completed" e)
  /\ deep_work_sessions t' = deep_work_sessions t + b2z (is_deep_work e)
  /\ commands_used t' = commands_used t + b2z (has_type "command_received" e)
  /\ pause_events t' = pause_events t + b2z (has_type "pause_toggled" e)
  /\ reschedule_count t' = reschedule_count t + b2z (has_type "break_rescheduled" e)
  /\ hourly_activity t' = hourly_after fromisoformat (hourly_activity t) e
  /\ break_types t' = types_after (break_types t) e.
Proof.
  intros Hs H. destruct e; try discriminate.
  unfold process in H. cbn [py_get bind] in H.
  rewrite hourly_caught in H. cbn [bind] in H.
  unfold is_deep_work, types_after, shows_break, has_type, field_or, lookup.
  set (ty := match dict_get d (KStr "event_type") with Some x => x | None => VStr "" end) in *.
  set (ed := match dict_get d (KStr "event_data") with Some x => x | None => VDict [] end) in *.
  cbn [break_count break_completed_count deep_work_sessions commands_used pause_events
       break_types hourly_activity reschedule_count] in H.
  destruct (is_str "break_shown" ty) eqn:E1.
  { rewrite !(is_str_other _ _ _ E1) by discriminate.
    apply bind_ok in H as (bv & Hbv & H). apply bind_ok in H as (bt & Hbt & H).
    injection H as <-. cbn.
    apply (count_break_type_shape _ _ _ Hs) in Hbt.
    destruct ed; try discriminate. injection Hbv as <-.
    rewrite Hbt. repeat split; lia. }
  destruct (is_str "break_completed" ty) eqn:E2.
  { rewrite !(is_str_other _ _ _ E2) by discriminate.
    injection H as <-. cbn. repeat split; try lia.
    rewrite <- (map_id (break_types t)) at 1. apply map_ext. intros [k n]. cbn. f_equal. lia. }
  destruct (is_str "session_started" ty) eqn:E3.
  { rewrite !(is_str_other _ _ _ E3) by discriminate.
    apply bind_ok in H as (sv & Hsv & H).
    destruct ed; try discriminate. injection Hsv as <-.
    cbn [andb].
    destruct (is_str "deep_work" _) eqn:E; injection H as <-; cbn; repeat split; try lia;
      rewrite <- (map_id (break_types t)) at 1; apply map_ext; intros [k n]; cbn; f_equal; lia. }
  cbn [andb].
  destruct (is_str "command_received" ty) eqn:E4.
  { rewrite !(is_str_other _ _ _ E4) by discriminate.
    injection H as <-. cbn. repeat split; try lia.
    rewrite <- (map_id (break_types t)) at 1. apply map_ext. intros [k n]. cbn. f_equal. lia. }
  destruct (is_str "pause_toggled" ty) eqn:E5.
  { rewrite !(is_str_other _ _ _ E5) by discriminate.
    injection H as <-. cbn. repeat split; try lia.
    rewrite <- (map_id (break_types t)) at 1. apply map_ext. intros [k n]. cbn. f_equal. lia. }
  destruct (is_str "break_rescheduled" ty) eqn:E6;
    injection H as <-; cbn; repeat split; try lia;
    rewrite <- (map_id (break_types t)) at 1; apply map_ext; intros [k n]; cbn; f_equal; lia.
Qed.
End Loop.

Lemma count_where_cons (p : pyval -> bool) (e : pyval) (evs : list pyval) :
  count_where p (e :: evs) = b2z (p e) + count_where p evs.
Proof.
  unfold count_where. cbn [filter]. destruct (p e); cbn [List.length b2z]; lia.
Qed.

Lemma count_where_nonneg (p : pyval -> bool) (evs : list pyval) : 0 <= count_where p evs.
Proof. unfold count_where. lia. Qed.

Lemma count_where_app (p : pyval -> bool) (l1 l2 : list pyval) :
  count_where p (l1 ++ l2) = count_where p l1 + count_where p l2.
Proof.
  unfold count_where. rewrite filter_app, length_app. lia.
Qed.

Section LoopTotal.
Variable fromisoformat : string -> option datetime.

Lemma types_after_shape (bt : list (string * Z)) (e : pyval) :
  types_shape bt -> types_shape (types_after bt e).
Proof.
  unfold types_shape, types_after. intro H. rewrite map_map. exact H.
Qed.

(** What the whole loop leaves in each local variable. *)
Lemma loop_fields (evs : list pyval) (t t' : tally) :
  types_shape (break_types t) ->
  fold_result (process fromisoformat) evs t = Ok t' ->
  break_count t' = break_count t + count_events "break_shown" evs
  /\ break_completed_count t' = break_completed_count t + count_events "break_completed" evs
  /\ deep_work_sessions t' = deep_work_sessions t + count_where is_deep_work evs
  /\ commands_used t' = commands_used t + count_events "command_received" evs
  /\ pause_events t' = pause_events t + count_events "pause_toggled" evs
  /\ reschedule_count t' = reschedule_count t + count_events "break_rescheduled" evs
  /\ hourly_activity t' = fold_left (hourly_after fromisoformat) evs (hourly_activity t)
  /\ break_types t'
     = map (fun x => (fst x, snd x + count_where (shows_break (fst x)) evs)) (break_types t).
Proof.
  revert t. induction evs as [|e evs IH]; intros t Hs H.
  - injection H as <-. unfold count_events, count_where. cbn.
    repeat split; try lia.
    rewrite <- (map_id (break_types t)) at 1. apply map_ext.
    intros [k n]. cbn. f_equal. lia.
  - cbn [fold_result] in H. apply bind_ok in H as (t1 & H1 & H).
    apply (process_fields _ _ _ _ Hs) in H1.
    destruct H1 as (F1 & F2 & F3 & F4 & F5 & F6 & F7 & F8).
    assert (Hs1 : types_shape (break_types t1)).
    { rewrite F8. now apply types_after_shape. }
    apply (IH _ Hs1) in H.
    destruct H as (G1 & G2 & G3 & G4 & G5 & G6 & G7 & G8).
    unfold count_events in *.
    rewrite !count_where_cons.
    repeat split; try lia.
    + cbn [fold_left]. now rewrite <- F7.
    + rewrite G8, F8. unfold types_after. rewrite map_map. apply map_ext.
      intros [k n]. cbn [fst snd]. rewrite count_where_cons. f_equal. lia.
Qed.
End LoopTotal.

(** ** The analyzer returns on well-typed events *)

Section Totality.
Variable fromisoformat : string -> option datetime.

Lemma process_total (t : tally) (e : pyval) :
  well_typed_event e = true -> exists t', process fromisoformat t e = Ok t'.
Proof.
  intro H. destruct e; try discriminate. cbn [well_typed_event] in H.
  apply andb_prop in H as [Hed _].
  unfold process. cbn [py_get bind]. rewrite hourly_caught. cbn [bind].
  destruct (dict_get d (KStr "event_data")) as [ed|] eqn:Eed.
  - destruct ed; try discriminate. cbn [py_get bind].
    repeat match goal with
           | |- exists _, (if ?b then _ else _) = _ => destruct b
           | |- exists _, Ok _ = Ok _ => eexists; reflexivity
           end.
    destruct (dict_get d0 (KStr "break_type")) as [bv|]; cbn [bind].
    + destruct bv; try discriminate; cbn [count_break_type bind]; eexists; reflexivity.
    + cbn [count_break_type bind]. eexists; reflexivity.
  - cbn [py_get dict_get assoc_get bind count_break_type].
    repeat match goal with
           | |- exists _, (if ?b then _ else _) = _ => destruct b
           | |- exists _, Ok _ = Ok _ => eexists; reflexivity
           end.
Qed.

Lemma loop_total (evs : list pyval) (t : tally) :
  forallb well_typed_event evs = true ->
  exists t', fold_result (process fromisoformat) evs t = Ok t'.
Proof.
  revert t. induction evs as [|e evs IH]; intros t H.
  - eexists; reflexivity.
  - cbn [forallb] in H. apply andb_prop in H as [He Hevs].
    destruct (process_total t e He) as [t1 H1].
    cbn [fold_result]. rewrite H1. cbn [bind]. now apply IH.
Qed.

Lemma last_well_typed (e : pyval) (evs : list pyval) :
  forallb well_typed_event (e :: evs) = true ->
  well_typed_event (last (e :: evs) VNone) = true.
Proof.
  intro H. rewrite forallb_forall in H. apply H.
  destruct (exists_last (l := e :: evs)) as (l' & a & E); [discriminate|].
  rewrite E, last_last. apply in_or_app. right. now left.
Qed.

Lemma final_work_minutes_total (e : pyval) (evs : list pyval) :
  forallb well_typed_event (e :: evs) = true ->
  exists v, final_work_minutes_of (e :: evs) = Ok v.
Proof.
  intro H. apply last_well_typed in H. unfold final_work_minutes_of.
  destruct (last (e :: evs) VNone); try discriminate.
  cbn [well_typed_event] in H. apply andb_prop in H as [_ H].
  cbn [py_contains bind]. unfold dict_mem.
  destruct (dict_get d (KStr "system_state")) as [ss|] eqn:E.
  - cbn [py_getitem]. rewrite E. cbn [bind].
    destruct ss; try discriminate. cbn [py_get]. eexists; reflexivity.
  - eexists; reflexivity.
Qed.

Lemma compliance_total (t : tally) : exists x, compliance_of t = Ok x.
Proof.
  unfold compliance_of. destruct (0 <? break_count t) eqn:E; [|eexists; reflexivity].
  apply Z.ltb_lt in E. rewrite truediv_small_ok by lia.
  cbn [bind]. eexists; reflexivity.
Qed.

Lemma analyze_total (evs : list pyval) :
  forallb well_typed_event evs = true ->
  exists doc, analyze_daily_patterns fromisoformat evs = Ok doc.
Proof.
  intro H. destruct evs as [|e evs]; [eexists; reflexivity|].
  unfold analyze_daily_patterns.
  destruct (final_work_minutes_total e evs H) as [v ->].
  destruct (loop_total (e :: evs) init_tally H) as [t ->]. cbn [bind].
  destruct (compliance_total t) as [x ->].
  cbn [bind]. eexists; reflexivity.
Qed.

(** The shape of the analysis of a non-empty sequence. *)
Lemma analyze_cons (e : pyval) (evs : list pyval) (doc : pyval) :
  analyze_daily_patterns fromisoformat (e :: evs) = Ok doc ->
  exists v t x,
    final_work_minutes_of (e :: evs) = Ok v
    /\ fold_result (process fromisoformat) (e :: evs) init_tally = Ok t
    /\ compliance_of t = Ok x
    /\ doc = VDict [(KStr "total_breaks", VInt (break_count t));
                    (KStr "breaks_completed", VInt (break_completed_count t));
                    (KStr "total_work_minutes", v);
                    (KStr "break_compliance", of_num (round1 x));
                    (KStr "deep_work_sessions", VInt (deep_work_sessions t));
                    (KStr "commands_used", VInt (commands_used t));
                    (KStr "pause_events", VInt (pause_events t));
                    (KStr "break_types", types_dict (break_types t));
                    (KStr "hourly_activity", hours_dict (hourly_activity t));
                    (KStr "reschedule_count", VInt (reschedule_count t));
                    (KStr "insights", VList (map VStr (insights_of t x)))].
Proof.
  unfold analyze_daily_patterns. intro H.
  apply bind_ok in H as (v & Hv & H). apply bind_ok in H as (t & Ht & H).
  apply bind_ok in H as (x & Hx & H). injection H as <-.
  exists v, t, x. repeat split; assumption.
Qed.
End Totality.

(** ** Break compliance *)

Lemma fl_100 : fl (inject_Z 100) = 100%Q.
Proof. vm_compute. reflexivity. Qed.

Lemma rhe_times_10_le (q : Q) (b : Z) : (q <= inject_Z b)%Q -> rhe (q * 10) <= b * 10.
Proof.
  intro H. apply rhe_le. rewrite inject_Z_mult. change (inject_Z 10) with 10%Q. lra.
Qed.

(** [round(x, 1)] keeps a non-negative float non-negative and below any
    integer bound that [x] respects. *)
Lemma round1_bounds (x : num) :
  (0 <= to_Q x)%Q ->
  (0 <= to_Q (round1 x))%Q
  /\ forall b : Z, 0 <= b < 2 ^ 53 -> (to_Q x <= inject_Z b)%Q -> (to_Q (round1 x) <= inject_Z b)%Q.
Proof.
  intro H0. destruct x as [z|q]; cbn [round1 to_Q] in *.
  - split; [exact H0 | intros; assumption].
  - assert (Hr : 0 <= rhe (q * 10)).
    { apply rhe_ge. change (inject_Z 0) with 0%Q. lra. }
    assert (Hq : (0 <= inject_Z (rhe (q * 10)) / 10)%Q).
    { apply Qle_shift_div_l; [reflexivity|]. rewrite Zle_Qle in Hr.
      change (inject_Z 0) with 0%Q in Hr. lra. }
    split; [now apply fl_nonneg|].
    intros b Hb Hle. apply fl_le_int; [exact Hq| |lia].
    apply Qle_shift_div_r; [reflexivity|].
    pose proof (rhe_times_10_le q b Hle) as Hk. rewrite Zle_Qle in Hk.
    rewrite inject_Z_mult in Hk. exact Hk.
Qed.

Lemma compliance_value (t : tally) (x : num) :
  0 <= break_completed_count t -> 0 <= break_count t ->
  compliance_of t = Ok x ->
  (0 <= to_Q x)%Q
  /\ (break_count t = 0 -> x = NInt 0)
  /\ (0 < break_count t ->
      x = NFloat (fl (fl (inject_Z (break_completed_count t) / inject_Z (break_count t))
                      * 100)))
  /\ (break_completed_count t <= break_count t -> (to_Q x <= 100)%Q).
Proof.
  intros Hc Ht H. unfold compliance_of in H.
  destruct (0 <? break_count t) eqn:E.
  - apply Z.ltb_lt in E. rewrite truediv_small_ok in H by lia. cbn [bind] in H.
    injection H as <-.
    assert (Hden : (0 < inject_Z (break_count t))%Q).
    { change 0%Q with (inject_Z 0). now rewrite <- Zlt_Qlt. }
    assert (Hnum : (0 <= inject_Z (break_completed_count t))%Q).
    { change 0%Q with (inject_Z 0). now rewrite <- Zle_Qle. }
    assert (Hquot : (0 <= inject_Z (break_completed_count t) / inject_Z (break_count t))%Q).
    { apply Qle_shift_div_l; [exact Hden|]. lra. }
    cbn [mul to_float to_Q]. rewrite fl_100.
    pose proof (fl_nonneg _ Hquot) as Ha.
    repeat split.
    + apply fl_nonneg. apply Qmult_le_0_compat; [exact Ha|discriminate].
    + lia.
    + intro Hle.
      assert (Hone : (fl (inject_Z (break_completed_count t) / inject_Z (break_count t))
                      <= inject_Z 1)%Q).
      { apply fl_le_int; [exact Hquot| |reflexivity].
        apply Qle_shift_div_r; [exact Hden|]. rewrite Zle_Qle in Hle.
        change (inject_Z 1) with 1%Q. lra. }
      change (inject_Z 1) with 1%Q in Hone.
      change 100%Q with (inject_Z 100). apply fl_le_int; [|  |reflexivity].
      * apply Qmult_le_0_compat; [exact Ha|discriminate].
      * change (inject_Z 100) with 100%Q. lra.
  - injection H as <-. apply Z.ltb_ge in E. cbn [to_Q].
    repeat split; try discriminate; try reflexivity; lia.
Qed.

Lemma init_tally_shape : types_shape (break_types init_tally).
Proof. reflexivity. Qed.

(** The percentage [r * 100], computed with two roundings, is within the
    relative error [2 ^ -51] of the exact one. *)
Lemma percent_error (r : Q) :
  (0 <= r)%Q ->
  (100 * r * (1 - 4 * unit_roundoff) <= fl (fl r * 100))%Q
  /\ (fl (fl r * 100) <= 100 * r * (1 + 4 * unit_roundoff))%Q.
Proof.
  intro Hr. pose proof (fl_nonneg r Hr) as Ha.
  destruct (fl_error r Hr) as [L1 U1].
  assert (Hp : (0 <= fl r * 100)%Q) by (apply Qmult_le_0_compat; [exact Ha|discriminate]).
  destruct (fl_error (fl r * 100) Hp) as [L2 U2].
  unfold unit_roundoff in *.
  generalize dependent (fl (fl r * 100)). intros p L2 U2.
  generalize dependent (fl r). intros a Ha L1 U1 Hp L2 U2.
  split; lra.
Qed.

(** [round(q, 1)] is the float of a number with one decimal that is within
    0.05 of [q]. *)
Lemma round1_error (q : Q) :
  round1 (NFloat q) = NFloat (fl (inject_Z (rhe (q * 10)) / 10))
  /\ (q - (1 # 20) <= inject_Z (rhe (q * 10)) / 10)%Q
  /\ (inject_Z (rhe (q * 10)) / 10 <= q + (1 # 20))%Q.
Proof.
  split; [reflexivity|].
  pose proof (rhe_lower (q * 10)) as L. pose proof (rhe_upper (q * 10)) as U.
  split.
  - apply Qle_shift_div_l; [reflexivity|]. lra.
  - apply Qle_shift_div_r; [reflexivity|]. lra.
Qed.

Lemma fl_1 : fl 1 = 1%Q.
Proof. vm_compute. reflexivity. Qed.

(** From a ratio of 1 on the rounded percentage is at least 100, and from a
    ratio of 1.001 on it is above 100. *)
Lemma percent_above (r : Q) :
  (1 <= r)%Q ->
  (100 <= to_Q (round1 (NFloat (fl (fl r * 100)))))%Q
  /\ ((1001 # 1000) <= r -> 100 < to_Q (round1 (NFloat (fl (fl r * 100)))))%Q.
Proof.
  intro Hr. cbn [round1 to_Q].
  assert (M : forall r0 : Q, (0 <= r0)%Q -> (r0 <= r)%Q ->
            (fl (inject_Z (rhe (fl (fl r0 * 100) * 10)) / 10)
             <= fl (inject_Z (rhe (fl (fl r * 100) * 10)) / 10))%Q).
  { intros r0 H0 Hle.
    pose proof (fl_nonneg r0 H0) as A0.
    pose proof (fl_mono r0 r H0 Hle) as A1.
    assert (B0 : (0 <= fl r0 * 100)%Q)
      by (apply Qmult_le_0_compat; [exact A0|discriminate]).
    assert (B1 : (fl (fl r0 * 100) <= fl (fl r * 100))%Q) by (apply fl_mono; lra).
    pose proof (fl_nonneg _ B0) as C0.
    assert (C1 : rhe (fl (fl r0 * 100) * 10) <= rhe (fl (fl r * 100) * 10))
      by (apply rhe_mono; lra).
    assert (C2 : 0 <= rhe (fl (fl r0 * 100) * 10)).
    { apply rhe_ge. change (inject_Z 0) with 0%Q. lra. }
    rewrite Zle_Qle in C1, C2. change (inject_Z 0) with 0%Q in C2.
    apply fl_mono.
    - apply Qle_shift_div_l; [reflexivity|]. lra.
    - apply Qmult_le_compat_r; [exact C1|discriminate]. }
  split.
  - pose proof (M 1%Q ltac:(discriminate) Hr) as H.
    assert (E : (fl (inject_Z (rhe (fl (fl 1 * 100) * 10)) / 10) == 100)%Q)
      by (vm_compute; reflexivity).
    rewrite E in H. exact H.
  - intro Hr'. pose proof (M (1001 # 1000)%Q ltac:(discriminate) Hr') as H.
    assert (E : (100 < fl (inject_Z (rhe (fl (fl (1001 # 1000) * 100) * 10)) / 10))%Q)
      by (vm_compute; reflexivity).
    lra.
Qed.

(** C1 (amended).  The analyzer returns on every well-typed event sequence,
    whatever the relation between the number of completed and of shown breaks.
    Whenever it returns, [break_compliance] is a non-negative number.  It is
    0 when no break was shown.  Otherwise it is
    [round(breaks_completed / total_breaks * 100, 1)], evaluated in binary64
    in this order: the float of a number with one decimal that lies within
    0.05 of the exact percentage, up to the relative error [2 ^ -51] of the
    two roundings before.  It lies in [0,100] whenever
    [breaks_completed <= total_breaks]; it is at least 100 when
    [breaks_completed >= total_breaks] and above 100 from a ratio of 1.001
    on, since nothing clamps it. *)
Theorem break_compliance_spec (fromisoformat : string -> option datetime) (evs : list pyval) :
  (forallb well_typed_event evs = true ->
   exists doc, analyze_daily_patterns fromisoformat evs = Ok doc)
  /\ forall doc, analyze_daily_patterns fromisoformat evs = Ok doc ->
     exists x : num,
       lookup doc "break_compliance" = Some (of_num x)
       /\ (0 <= to_Q x)%Q
       /\ (count_events "break_shown" evs = 0 -> (to_Q x == 0)%Q)
       /\ (0 < count_events "break_shown" evs ->
           x = round1 (NFloat (fl (fl (inject_Z (count_events "break_completed" evs)
                                       / inject_Z (count_events "break_shown" evs))
                                   * 100)))
           /\ exists k : Z,
                x = NFloat (fl (inject_Z k / 10))
                /\ (Qabs (inject_Z k / 10
                          - 100 * (inject_Z (count_events "break_completed" evs)
                                   / inject_Z (count_events "break_shown" evs)))
                    <= (1 # 20)
                       + 100 * (inject_Z (count_events "break_completed" evs)
                                / inject_Z (count_events "break_shown" evs))
                         * (4 * unit_roundoff))%Q)
       /\ (count_events "break_completed" evs <= count_events "break_shown" evs ->
           (to_Q x <= 100)%Q)
       /\ (0 < count_events "break_shown" evs ->
           count_events "break_shown" evs <= count_events "break_completed" evs ->
           (100 <= to_Q x)%Q)
       /\ (0 < count_events "break_shown" evs ->
           1001 * count_events "break_shown" evs
           <= 1000 * count_events "break_completed" evs ->
           (100 < to_Q x)%Q).
Proof.
  split; [apply analyze_total|].
  intros doc H. destruct evs as [|e evs].
  - injection H as <-. exists (NFloat 0). cbn [lookup of_num to_Q].
    unfold count_events, count_where. cbn.
    repeat split; try reflexivity; try discriminate; try (intro; lia); try lia.
  - apply analyze_cons in H as (v & t & x & _ & Ht & Hx & ->).
    apply (loop_fields _ _ _ _ init_tally_shape) in Ht.
    destruct Ht as (F1 & F2 & _). cbn [init_tally break_count break_completed_count] in F1, F2.
    rewrite Z.add_0_l in F1, F2.
    pose proof (count_where_nonneg (has_type "break_shown") (e :: evs)) as N1.
    pose proof (count_where_nonneg (has_type "break_completed") (e :: evs)) as N2.
    fold (count_events "break_shown" (e :: evs)) in N1.
    fold (count_events "break_completed" (e :: evs)) in N2.
    rewrite <- F1 in *. rewrite <- F2 in *.
    destruct (compliance_value t x N2 N1 Hx) as (P0 & Pz & Pq & P100).
    destruct (round1_bounds x P0) as [R0 R100].
    set (c := break_completed_count t) in *. set (n := break_count t) in *.
    assert (Hratio : 0 < n -> (0 <= inject_Z c / inject_Z n)%Q).
    { intro Hp. apply Qle_shift_div_l.
      - change 0%Q with (inject_Z 0). now rewrite <- Zlt_Qlt.
      - rewrite Qmult_0_l. change 0%Q with (inject_Z 0). now rewrite <- Zle_Qle. }
    exists (round1 x). split; [reflexivity|]. split; [exact R0|].
    split; [intro Hz; rewrite (Pz Hz); reflexivity|].
    split; [|split; [|split]].
    + intro Hp. rewrite (Pq Hp). split; [reflexivity|].
      set (r := (inject_Z c / inject_Z n)%Q) in *.
      destruct (round1_error (fl (fl r * 100))) as (E & L & U).
      exists (rhe (fl (fl r * 100) * 10)). split; [exact E|].
      destruct (percent_error r (Hratio Hp)) as [PL PU].
      apply Qabs_Qle_condition. unfold unit_roundoff in *.
      generalize dependent (inject_Z (rhe (fl (fl r * 100) * 10)) / 10)%Q.
      generalize dependent (fl (fl r * 100)). intros. split; lra.
    + intro Hle. apply (R100 100); [lia|]. apply P100. exact Hle.
    + intros Hp Hle. rewrite (Pq Hp). apply percent_above.
      apply Qle_shift_div_l.
      * change 0%Q with (inject_Z 0). now rewrite <- Zlt_Qlt.
      * rewrite Qmult_1_l. now rewrite <- Zle_Qle.
    + intros Hp Hle. rewrite (Pq Hp). apply percent_above.
      * apply Qle_shift_div_l.
        -- change 0%Q with (inject_Z 0). now rewrite <- Zlt_Qlt.
        -- rewrite Qmult_1_l. rewrite <- Zle_Qle. lia.
      * apply Qle_shift_div_l.
        -- change 0%Q with (inject_Z 0). now rewrite <- Zlt_Qlt.
        -- assert (H1 : (inject_Z (1001 * n) <= inject_Z (1000 * c))%Q)
             by (now rewrite <- Zle_Qle).
           rewrite !inject_Z_mult in H1.
           change (inject_Z 1001) with 1001%Q in H1.
           change (inject_Z 1000) with 1000%Q in H1. lra.
Qed.

Lemma break_compliance_spec_witness :
  exists x : num,
    result_field (analyze_daily_patterns fromisoformat_std
                    [ev "break_shown"; ev "break_shown"; ev "break_completed"])
                 "break_compliance" = Some (of_num x)
    /\ (to_Q x <= 100)%Q.
Proof.
  destruct (break_compliance_spec fromisoformat_std
              [ev "break_shown"; ev "break_shown"; ev "break_completed"]) as [Htot Hspec].
  destruct (Htot eq_refl) as [doc Hdoc].
  destruct (Hspec doc Hdoc) as (x & Hx & _ & _ & _ & H100 & _).
  exists x. rewrite Hdoc. split; [exact Hx|].
  apply H100. vm_compute. discriminate.
Defined.

(** C1, as stated, fails in two ways.  One break shown and two completed
    give 200.0, which is not in [0,100].  And within
    [breaks_completed <= total_breaks] the value is not always
    [round(100 * breaks_completed / total_breaks, 1)]: for 23 breaks
    completed of 80 shown the code returns 28.7, the formula of the claim
    gives 28.8. *)
Lemma break_compliance_counterexamples :
  (result_field (analyze_daily_patterns fromisoformat_std
                   [ev "break_shown"; ev "break_completed"; ev "break_completed"])
                "break_compliance" = Some (VFloat 200)
   /\ ~ (200 <= 100)%Q)
  /\ (result_field (analyze_daily_patterns fromisoformat_std
                      (repeat (ev "break_shown") 80 ++ repeat (ev "break_completed") 23))
                   "break_compliance" = Some (VFloat (fl (287 # 10)))
      /\ claimed_compliance 23 80 = Ok (NFloat (fl (288 # 10)))
      /\ ~ (fl (287 # 10) == fl (288 # 10))%Q).
Proof.
  split; [split; [vm_compute; reflexivity|intro H; vm_compute in H; now apply H]|].
  split; [vm_compute; reflexivity|].
  split; [vm_compute; reflexivity|].
  intro H. vm_compute in H. discriminate H.
Qed.

(** ** The insight list *)

Lemma in_map_VStr (m : string) (l : list string) : In (VStr m) (map VStr l) <-> In m l.
Proof.
  rewrite in_map_iff. split.
  - intros (x & [= ->] & H). exact H.
  - intro H. exists m. now split.
Qed.

(** The reschedule warning is in the list exactly when rule 4 holds: no other
    rule produces that string. *)
Lemma reschedule_msg_in (t : tally) (x : num) :
  In reschedule_msg (insights_of t x)
  <-> num_ltb (mul (NInt (break_count t)) (NFloat float_0_3))
              (NInt (reschedule_count t)) = true.
Proof.
  unfold insights_of. rewrite !in_app_iff. split.
  - intros [H|[H|[H|[H|[H|H]]]]].
    + destruct (num_ltb x (NInt 50)); [|destruct (num_ltb (NInt 90) x)];
        cbn [In] in H; try contradiction; destruct H as [H|[]]; discriminate H.
    + destruct (0 <? deep_work_sessions t); cbn [In] in H; try contradiction.
      destruct H as [H|[]]. discriminate H.
    + destruct (num_ltb _ _); [reflexivity|contradiction].
    + destruct (3 <? pause_events t); cbn [In] in H; try contradiction.
      destruct H as [H|[]]. discriminate H.
    + destruct (5 <? commands_used t); cbn [In] in H; try contradiction.
      destruct H as [H|[]]. discriminate H.
    + destruct (peak_hours_of t); cbn [In] in H; try contradiction.
      destruct H as [H|[]]. discriminate H.
  - intro H. right. right. left. rewrite H. now left.
Qed.

Lemma rule4_without_breaks (r : Z) :
  num_ltb (mul (NInt 0) (NFloat float_0_3)) (NInt r) = (0 <? r).
Proof.
  change (mul (NInt 0) (NFloat float_0_3)) with (NFloat 0).
  unfold num_ltb, Qle_bool. cbn [to_Q inject_Z Qnum Qden].
  destruct (Z.leb_spec (r * 1) (0 * 1)); destruct (Z.ltb_spec 0 r); cbn [negb]; try reflexivity; lia.
Qed.

(** The float [0.3] lies [1 / (5 * 2^54)] below three tenths. *)
Lemma float_0_3_value : (float_0_3 == (3 # 10) - (1 # 90071992547409920))%Q.
Proof. reflexivity. Qed.

(** Rule 4 in exact arithmetic: with fewer than [2^50] breaks shown, the
    float comparison [r > t * 0.3] decides [10 * r > 3 * t]. *)
Lemma rule4_exact (t r : Z) :
  0 <= t < 2 ^ 50 -> 0 <= r ->
  num_ltb (mul (NInt t) (NFloat float_0_3)) (NInt r) = true <-> 3 * t < 10 * r.
Proof.
  intros [Ht0 Ht] Hr.
  cbn [mul to_float]. unfold num_ltb. cbn [to_Q].
  assert (Htq0 : (0 <= inject_Z t)%Q).
  { change 0%Q with (inject_Z 0). now rewrite <- Zle_Qle. }
  assert (Htq : (inject_Z t < 1125899906842624)%Q).
  { change 1125899906842624%Q with (inject_Z (2 ^ 50)). now rewrite <- Zlt_Qlt. }
  assert (Hft : (fl (inject_Z t) == inject_Z t)%Q).
  { apply Qle_antisym.
    - apply fl_le_int; [exact Htq0|apply Qle_refl|lia].
    - apply fl_ge_int; [exact Ht0|apply Qle_refl|].
      change (inject_Z (2 ^ 53)) with 9007199254740992%Q. lra. }
  pose proof float_0_3_value as Hc.
  set (c := float_0_3) in *. set (q := (fl (inject_Z t) * c)%Q).
  assert (Hq : (q == inject_Z t * c)%Q) by (unfold q; now rewrite Hft).
  assert (Hq' : (q == inject_Z t * (3 # 10) - inject_Z t * (1 # 90071992547409920))%Q).
  { rewrite Hq, Hc. ring. }
  assert (Hq0 : (0 <= q)%Q) by lra.
  assert (Hq49 : (q < inject_Z (2 ^ 49))%Q).
  { change (inject_Z (2 ^ 49)) with 562949953421312%Q. lra. }
  split.
  - intro H. apply negb_true_iff in H.
    destruct (Z_lt_le_dec (3 * t) (10 * r)) as [L|L]; [exact L|exfalso].
    assert (Hge : (inject_Z r <= fl q)%Q).
    { destruct (Z.eq_dec (10 * r) (3 * t)) as [E|E].
      - destruct (Z.eq_dec r 0) as [->|Hr0]; [now apply fl_nonneg|].
        apply fl_tie; [lia|lia|].
        assert (Et : (inject_Z t * 3 == inject_Z r * 10)%Q).
        { change 3%Q with (inject_Z 3). change 10%Q with (inject_Z 10).
          rewrite <- !inject_Z_mult. apply inject_Z_injective. lia. } 
        rewrite Hq'. lra.
      - assert (L' : 10 * r + 1 <= 3 * t) by lia.
        rewrite Zle_Qle, inject_Z_plus, !inject_Z_mult in L'.
        change (inject_Z 10) with 10%Q in L'. change (inject_Z 3) with 3%Q in L'.
        change (inject_Z 1) with 1%Q in L'.
        apply fl_ge_int; [exact Hr| |].
        + lra.
        + change (inject_Z (2 ^ 53)) with 9007199254740992%Q. lra. }
    apply Qle_bool_iff in Hge. congruence.
  - intro L. apply negb_true_iff.
    destruct (Qle_bool (inject_Z r) (fl q)) eqn:E; [exfalso|reflexivity].
    apply Qle_bool_iff in E.
    assert (L' : 3 * t + 1 <= 10 * r) by lia.
    rewrite Zle_Qle, inject_Z_plus, !inject_Z_mult in L'.
    change (inject_Z 10) with 10%Q in L'. change (inject_Z 3) with 3%Q in L'.
    change (inject_Z 1) with 1%Q in L'.
    assert (Hb : (fl q <= inject_Z (16 * r - 1) / 16)%Q).
    { apply fl_le_sixteenth; [exact Hq0| |exact Hq49].
      apply Qle_shift_div_l; [reflexivity|].
      unfold Z.sub. rewrite inject_Z_plus, inject_Z_mult.
      change (inject_Z 16) with 16%Q. change (inject_Z (- (1))) with (-1)%Q. lra. }
    assert (Hb' : (inject_Z (16 * r - 1) / 16 < inject_Z r)%Q).
    { apply Qlt_shift_div_r; [reflexivity|].
      unfold Z.sub. rewrite inject_Z_plus, inject_Z_mult.
      change (inject_Z 16) with 16%Q. change (inject_Z (- (1))) with (-1)%Q. lra. }
    lra.
Qed.

(** C6 (amended).  The frequent-reschedule warning is emitted exactly when
    [reschedule_count > total_breaks * 0.3] holds for the float product, which
    for fewer than [2^50] shown breaks is exactly
    [10 * reschedule_count > 3 * total_breaks].  When no break was shown the
    condition is [reschedule_count > 0]: the warning is emitted as soon as
    one [break_rescheduled] event exists. *)
Theorem reschedule_warning_spec (fromisoformat : string -> option datetime)
        (evs : list pyval) (doc : pyval) :
  analyze_daily_patterns fromisoformat evs = Ok doc ->
  exists insights : list string,
    lookup doc "insights" = Some (VList (map VStr insights))
    /\ (In reschedule_msg insights
        <-> num_ltb (mul (NInt (count_events "break_shown" evs)) (NFloat float_0_3))
                    (NInt (count_events "break_rescheduled" evs)) = true)
    /\ (count_events "break_shown" evs < 2 ^ 50 ->
        (In reschedule_msg insights
         <-> 3 * count_events "break_shown" evs
             < 10 * count_events "break_rescheduled" evs))
    /\ (count_events "break_shown" evs = 0 ->
        (In reschedule_msg insights <-> 0 < count_events "break_rescheduled" evs)).
Proof.
  intro H.
  assert (Hmain : exists insights : list string,
             lookup doc "insights" = Some (VList (map VStr insights))
             /\ (In reschedule_msg insights
                 <-> num_ltb (mul (NInt (count_events "break_shown" evs)) (NFloat float_0_3))
                             (NInt (count_events "break_rescheduled" evs)) = true)).
  { destruct evs as [|e evs].
    - injection H as <-. exists []. split; [reflexivity|].
      split; [contradiction|]. intro H. vm_compute in H. discriminate H.
    - apply analyze_cons in H as (v & t & x & _ & Ht & _ & ->).
      apply (loop_fields _ _ _ _ init_tally_shape) in Ht.
      destruct Ht as (F1 & _ & _ & _ & _ & F6 & _).
      cbn [init_tally break_count reschedule_count] in F1, F6.
      rewrite Z.add_0_l in F1, F6.
      exists (insights_of t x). split; [reflexivity|].
      rewrite reschedule_msg_in, F1, F6. reflexivity. }
  destruct Hmain as (insights & Hl & Hiff).
  exists insights. split; [exact Hl|]. split; [exact Hiff|]. split.
  - intro Hb. rewrite Hiff. apply rule4_exact.
    + split; [apply count_where_nonneg|exact Hb].
    + apply count_where_nonneg.
  - intro Hz. rewrite Hiff, Hz, rule4_without_breaks. apply Z.ltb_lt.
Qed.

Lemma reschedule_warning_spec_witness :
  In reschedule_msg [low_compliance_msg; reschedule_msg]
  <-> 0 < count_events "break_rescheduled" [ev "command_received"; ev "break_rescheduled"].
Proof.
  destruct (reschedule_warning_spec fromisoformat_std
              [ev "command_received"; ev "break_rescheduled"] _ eq_refl)
    as (insights & Hl & _ & _ & Hz).
  injection Hl as Hl.
  assert (E : insights = [low_compliance_msg; reschedule_msg]).
  { vm_compute in Hl.
    destruct insights as [|a [|b [|c l]]]; try discriminate Hl.
    injection Hl as <- <-. reflexivity. }
  rewrite <- E. apply Hz. reflexivity.
Defined.

(** C6, as stated, fails: a sequence without any [break_shown] event, with one
    [break_rescheduled] event, gets the warning. *)
Lemma reschedule_warning_without_breaks :
  count_events "break_shown" [ev "break_rescheduled"] = 0
  /\ result_field (analyze_daily_patterns fromisoformat_std [ev "break_rescheduled"])
                  "insights"
     = Some (VList [VStr low_compliance_msg; VStr reschedule_msg]).
Proof. split; vm_compute; reflexivity. Qed.

(** ** The empty day *)

(** C3: for the empty sequence the returned dictionary has no
    [breaks_completed] and no [reschedule_count] entry (every entry it has is
    zero or empty), the AI projection, which subscripts both, raises
    [KeyError], and the analysis of a non-empty sequence has both entries. *)
Theorem empty_analysis_lacks_counters (fromisoformat : string -> option datetime)
        (date now : string) :
  analyze_daily_patterns fromisoformat []
  = Ok (VDict [(KStr "total_breaks", VInt 0);
               (KStr "total_work_minutes", VInt 0);
               (KStr "break_compliance", VFloat 0);
               (KStr "deep_work_sessions", VInt 0);
               (KStr "commands_used", VInt 0);
               (KStr "pause_events", VInt 0);
               (KStr "break_types", VDict []);
               (KStr "hourly_activity", VDict []);
               (KStr "insights", VList [])])
  /\ result_field (analyze_daily_patterns fromisoformat []) "breaks_completed" = None
  /\ result_field (analyze_daily_patterns fromisoformat []) "reschedule_count" = None
  /\ prepare_ai_summary_data fromisoformat date [] now = Raise KeyError
  /\ forall e evs doc,
       analyze_daily_patterns fromisoformat (e :: evs) = Ok doc ->
       lookup doc "breaks_completed" = Some (VInt (count_events "break_completed" (e :: evs)))
       /\ lookup doc "reschedule_count"
          = Some (VInt (count_events "break_rescheduled" (e :: evs))).
Proof.
  repeat split; try reflexivity;
    apply analyze_cons in H as (v & t & x & _ & Ht & _ & ->);
    apply (loop_fields _ _ _ _ init_tally_shape) in Ht;
    destruct Ht as (_ & F2 & _ & _ & _ & F6 & _);
    cbn [init_tally break_completed_count reschedule_count] in F2, F6;
    rewrite Z.add_0_l in F2, F6; cbn [lookup]; [rewrite <- F2 | rewrite <- F6]; reflexivity.
Qed.

(** ** The preferred break type *)

Ltac bind_inv H :=
  repeat (let x := fresh "x" in
          let E := fresh "E" in
          apply bind_ok in H as (x & E & H));
  repeat match goal with
         | E : Ok _ = Ok _ |- _ => injection E as <-
         end.

Lemma preferred_of_types (a b : Z) :
  preferred_break_type_of (types_dict [("eye_care", a); ("custom_message", b)])
                          (types_dict [("eye_care", a); ("custom_message", b)])
  = Ok (VStr (preferred_of_counts a b)).
Proof.
  unfold preferred_break_type_of, preferred_of_counts, types_dict.
  cbn [map fst snd truthy dict_of bind py_max_by extremum extremum_from py_gt py_lt num_of].
  unfold num_ltb, Qle_bool. cbn [to_Q inject_Z Qnum Qden].
  rewrite !Z.mul_1_r.
  destruct (b <=? a); reflexivity.
Qed.

Lemma loop_types (fromisoformat : string -> option datetime) (evs : list pyval) (t : tally) :
  fold_result (process fromisoformat) evs init_tally = Ok t ->
  break_types t = [("eye_care", count_where (shows_break "eye_care") evs);
                   ("custom_message", count_where (shows_break "custom_message") evs)].
Proof.
  intro H. apply (loop_fields _ _ _ _ init_tally_shape) in H.
  destruct H as (_ & _ & _ & _ & _ & _ & _ & F8). rewrite F8. reflexivity.
Qed.

(** C9 (amended).  In the AI projection and in the dashboard document,
    [preferred_break_type] is the key with the maximum count in the
    analysis's [break_types] map, [eye_care] on a tie, which includes the map
    whose counts are all zero.  The sentinel ["none"] stands for the empty
    map only, which is the map of the empty event sequence. *)
Theorem preferred_break_type_spec (fromisoformat : string -> option datetime)
        (date now ai_summary : string) (evs : list pyval) :
  (forall doc,
      prepare_ai_summary_data fromisoformat date evs now = Ok doc ->
      lookup2 doc "behavior_patterns" "preferred_break_type"
      = Some (VStr (preferred_of_counts (count_where (shows_break "eye_care") evs)
                                        (count_where (shows_break "custom_message") evs))))
  /\ (forall doc,
         get_dashboard_data fromisoformat date evs now ai_summary = Ok doc ->
         lookup doc "break_types"
         = Some (match evs with
                 | [] => VDict []
                 | _ :: _ =>
                     types_dict [("eye_care", count_where (shows_break "eye_care") evs);
                                 ("custom_message",
                                  count_where (shows_break "custom_message") evs)]
                 end)
         /\ lookup2 doc "behavior_patterns" "preferred_break_type"
            = Some (VStr (match evs with
                          | [] => "none"
                          | _ :: _ =>
                              preferred_of_counts
                                (count_where (shows_break "eye_care") evs)
                                (count_where (shows_break "custom_message") evs)
                          end))).
Proof.
  split; intros doc H.
  - unfold prepare_ai_summary_data in H.
    apply bind_ok in H as (summary & Hs & H).
    unfold generate_daily_summary in Hs.
    apply bind_ok in Hs as (analysis & Ha & Hs). apply bind_ok in Hs as (dur & _ & Hs).
    injection Hs as <-.
    cbn [py_getitem dict_get assoc_get key_eqb String.eqb Ascii.eqb Bool.eqb bind] in H.
    destruct evs as [|e evs].
    + injection Ha as <-. vm_compute in H. discriminate H.
    + apply analyze_cons in Ha as (v & t & x & _ & Ht & _ & ->).
      cbn [py_getitem dict_get assoc_get key_eqb String.eqb Ascii.eqb Bool.eqb bind] in H.
      rewrite (loop_types _ _ _ Ht), preferred_of_types in H.
      cbn [bind hours_dict dict_of] in H. injection H as <-. reflexivity.
  - unfold get_dashboard_data in H.
    apply bind_ok in H as (analysis & Ha & H).
    destruct evs as [|e evs].
    + injection Ha as <-.
      cbn [py_get dict_get assoc_get key_eqb String.eqb Ascii.eqb Bool.eqb bind] in H.
      change (preferred_break_type_of (VDict []) (VDict [])) with (Ok (VStr "none")) in H.
      bind_inv H. split; reflexivity.
    + apply analyze_cons in Ha as (v & t & x & _ & Ht & _ & ->).
      cbn [py_get dict_get assoc_get key_eqb String.eqb Ascii.eqb Bool.eqb bind] in H.
      rewrite (loop_types _ _ _ Ht), preferred_of_types in H.
      bind_inv H. split; reflexivity.
Qed.

Lemma preferred_break_type_spec_witness :
  exists doc,
    prepare_ai_summary_data fromisoformat_std "2024-01-01"
      [shown "custom_message"; shown "eye_care"; shown "custom_message"]
      "2024-01-02T00:00:00" = Ok doc
    /\ lookup2 doc "behavior_patterns" "preferred_break_type" = Some (VStr "custom_message").
Proof.
  destruct (prepare_ai_summary_data fromisoformat_std "2024-01-01"
              [shown "custom_message"; shown "eye_care"; shown "custom_message"]
              "2024-01-02T00:00:00") as [doc|e] eqn:E;
    [|vm_compute in E; discriminate E].
  exists doc. split; [reflexivity|].
  destruct (preferred_break_type_spec fromisoformat_std "2024-01-01" "2024-01-02T00:00:00" ""
              [shown "custom_message"; shown "eye_care"; shown "custom_message"])
    as [Hai _].
  rewrite (Hai doc E). vm_compute. reflexivity.
Defined.

(** C9, as stated, fails: when every count is zero the map is not empty and
    the answer is [eye_care], not the sentinel. *)
Lemma preferred_break_type_all_zero :
  result_field (analyze_daily_patterns fromisoformat_std [ev "command_received"]) "break_types"
  = Some (VDict [(KStr "eye_care", VInt 0); (KStr "custom_message", VInt 0)])
  /\ result_field2 (prepare_ai_summary_data fromisoformat_std "2024-01-01"
                      [ev "command_received"] "2024-01-02T00:00:00")
                   "behavior_patterns" "preferred_break_type"
     = Some (VStr "eye_care")
  /\ result_field2 (get_dashboard_data fromisoformat_std "2024-01-01"
                      [ev "command_received"] "2024-01-02T00:00:00" "")
                   "behavior_patterns" "preferred_break_type"
     = Some (VStr "eye_care")
  /\ VStr "eye_care" <> VStr "none".
Proof. repeat split; try (vm_compute; reflexivity). discriminate. Qed.

(** ** The hourly histogram *)

Lemma assoc_get_set (h : list (Z * Z)) (k k' v : Z) :
  assoc_get Z.eqb (assoc_set Z.eqb h k v) k'
  = if k =? k' then Some v else assoc_get Z.eqb h k'.
Proof.
  induction h as [|[k0 v0] h IH]; cbn [assoc_set assoc_get].
  - reflexivity.
  - destruct (Z.eqb_spec k0 k) as [->|Hne]; cbn [assoc_get].
    + destruct (Z.eqb_spec k k'); reflexivity.
    + rewrite IH. destruct (Z.eqb_spec k0 k') as [->|]; [|reflexivity].
      destruct (Z.eqb_spec k k'); [congruence|reflexivity].
Qed.

Lemma assoc_get_in (h : list (Z * Z)) (k : Z) :
  assoc_get Z.eqb h k = None <-> ~ In k (map fst h).
Proof.
  induction h as [|[k0 v0] h IH]; cbn [assoc_get map fst In].
  - tauto.
  - destruct (Z.eqb_spec k0 k); split; intro H; try discriminate; tauto.
Qed.

Lemma assoc_set_keys (h : list (Z * Z)) (k v : Z) :
  map fst (assoc_set Z.eqb h k v)
  = match assoc_get Z.eqb h k with
    | Some _ => map fst h
    | None => map fst h ++ [k]
    end.
Proof.
  induction h as [|[k0 v0] h IH]; cbn [assoc_set assoc_get map fst app].
  - reflexivity.
  - destruct (Z.eqb_spec k0 k); cbn [map fst]; [reflexivity|].
    rewrite IH. destruct (assoc_get Z.eqb h k); reflexivity.
Qed.

Lemma assoc_set_values (h : list (Z * Z)) (k v : Z) (P : Z -> Prop) :
  P v -> Forall P (map snd h) -> Forall P (map snd (assoc_set Z.eqb h k v)).
Proof.
  intros Hv. induction h as [|[k0 v0] h IH]; cbn [assoc_set map snd]; intro H.
  - now constructor.
  - inversion H; subst.
    destruct (k0 =? k); cbn [map snd]; constructor; auto.
Qed.

Section Histogram.
Variable fromisoformat : string -> option datetime.

Lemma get0_after (h : list (Z * Z)) (e : pyval) (hr : Z) :
  get0 (hourly_after fromisoformat h e) hr = get0 h hr + b2z (at_hour fromisoformat hr e).
Proof.
  unfold hourly_after, at_hour. destruct (hour_of fromisoformat e) as [hr'|].
  - unfold get0, bump_hour. rewrite assoc_get_set.
    destruct (Z.eqb_spec hr' hr) as [->|]; cbn [b2z]; [reflexivity|lia].
  - cbn [b2z]. lia.
Qed.

(** The count stored for an hour is the number of events at that hour. *)
Lemma histogram_get0 (evs : list pyval) (h0 : list (Z * Z)) (hr : Z) :
  get0 (histogram fromisoformat evs h0) hr = get0 h0 hr + count_where (at_hour fromisoformat hr) evs.
Proof.
  unfold histogram. revert h0. induction evs as [|e evs IH]; intro h0; cbn [fold_left].
  - unfold count_where. cbn. lia.
  - rewrite IH, get0_after, count_where_cons. lia.
Qed.

Lemma positive_after (h : list (Z * Z)) (e : pyval) :
  Forall (fun n => 0 < n) (map snd h) ->
  Forall (fun n => 0 < n) (map snd (hourly_after fromisoformat h e)).
Proof.
  intro H. unfold hourly_after. destruct (hour_of fromisoformat e) as [hr|]; [|exact H].
  unfold bump_hour. apply assoc_set_values; [|exact H].
  destruct (assoc_get Z.eqb h hr) as [n|] eqn:E; [|lia].
  assert (Hin : In n (map snd h)).
  { clear H. induction h as [|[k0 v0] h IH]; cbn [assoc_get] in E; [discriminate|].
    destruct (k0 =? hr); [injection E as ->; now left | right; auto]. }
  rewrite Forall_forall in H. specialize (H n Hin). lia.
Qed.

(** Every stored count is positive: the histogram is sparse. *)
Lemma histogram_positive (evs : list pyval) (h0 : list (Z * Z)) :
  Forall (fun n => 0 < n) (map snd h0) ->
  Forall (fun n => 0 < n) (map snd (histogram fromisoformat evs h0)).
Proof.
  unfold histogram. revert h0. induction evs as [|e evs IH]; intros h0 H; cbn [fold_left].
  - exact H.
  - apply IH, positive_after, H.
Qed.

Lemma histogram_get (evs : list pyval) (hr : Z) :
  assoc_get Z.eqb (histogram fromisoformat evs []) hr
  = if 0 <? count_where (at_hour fromisoformat hr) evs
    then Some (count_where (at_hour fromisoformat hr) evs) else None.
Proof.
  pose proof (histogram_get0 evs [] hr) as G.
  pose proof (histogram_positive evs [] (Forall_nil _)) as P.
  unfold get0 in G. cbn [assoc_get] in G. rewrite Z.add_0_l in G.
  destruct (assoc_get Z.eqb (histogram fromisoformat evs []) hr) as [n|] eqn:E.
  - assert (Hin : In n (map snd (histogram fromisoformat evs []))).
    { clear G P. induction (histogram fromisoformat evs []) as [|[k0 v0] h IH]; cbn [assoc_get] in E;
        [discriminate|].
      destruct (k0 =? hr); [injection E as ->; now left | right; auto]. }
    rewrite Forall_forall in P. specialize (P n Hin).
    rewrite <- G. destruct (Z.ltb_spec 0 n); [reflexivity|lia].
  - rewrite <- G. reflexivity.
Qed.
End Histogram.

(** ** The dashboard's hourly list *)

Lemma hours_dict_get (h : list (Z * Z)) (hr : Z) :
  dict_get (map (fun x => (KInt (fst x), VInt (snd x))) h) (KInt hr)
  = option_map VInt (assoc_get Z.eqb h hr).
Proof.
  unfold dict_get. induction h as [|[k v] h IH]; cbn [map assoc_get fst snd key_eqb].
  - reflexivity.
  - destruct (k =? hr); [reflexivity|exact IH].
Qed.

Lemma py_sum_hours (h : list (Z * Z)) (a : Z) :
  py_sum (NInt a) (map snd (map (fun x => (KInt (fst x), VInt (snd x))) h))
  = Ok (NInt (a + fold_right Z.add 0 (map snd h))).
Proof.
  revert a. induction h as [|[k v] h IH]; intro a; cbn [map snd fst py_sum fold_right].
  - now rewrite Z.add_0_r.
  - cbn [as_num bind add]. rewrite IH. do 2 f_equal. lia.
Qed.

Lemma sum_positive (l : list Z) :
  l <> [] -> Forall (fun n => 0 < n) l -> 0 < fold_right Z.add 0 l.
Proof.
  intros Hne H. destruct l as [|a l]; [contradiction|].
  inversion H as [|? ? Ha Hl]; subst. cbn [fold_right].
  assert (0 <= fold_right Z.add 0 l); [|lia].
  clear -Hl. induction Hl; cbn [fold_right]; lia.
Qed.

Lemma hourly_loop (d : list (key * pyval)) (l : list Z) (acc : list pyval) :
  fold_result (fun hourly_data hr =>
                 entry <- hourly_entry (VDict d) hr ;;
                 Ok (hourly_data ++ [entry])) l acc
  = Ok (acc ++ map (fun hr =>
                      VDict [(KStr "hour", VInt hr);
                             (KStr "activity_count",
                              match dict_get d (KInt hr) with
                              | Some x => x
                              | None => VInt 0
                              end);
                             (KStr "label", VStr (fmt_02d hr ++ ":00"))]) l).
Proof.
  revert acc. induction l as [|hr l IH]; intro acc; cbn [fold_result map].
  - now rewrite app_nil_r.
  - unfold hourly_entry at 1. cbn [py_get_int bind]. rewrite IH, <- app_assoc. reflexivity.
Qed.

Lemma sample_lookup (hr : Z) :
  match dict_get sample_hours (KInt hr) with
  | Some x => x
  | None => VInt 0
  end = VInt (sample_count hr).
Proof.
  unfold sample_count, sample_hours, dict_get. cbn [assoc_get key_eqb].
  rewrite !(Z.eqb_sym hr).
  repeat match goal with
         | |- context [?a =? hr] => destruct (a =? hr); [reflexivity|]
         end.
  reflexivity.
Qed.

Section Dashboard.
Variable fromisoformat : string -> option datetime.

Lemma loop_histogram (evs : list pyval) (t : tally) :
  fold_result (process fromisoformat) evs init_tally = Ok t ->
  hourly_activity t = histogram fromisoformat evs [].
Proof.
  intro H. apply (loop_fields _ _ _ _ init_tally_shape) in H.
  destruct H as (_ & _ & _ & _ & _ & _ & F7 & _). exact F7.
Qed.

Lemma histogram_same (evs : list pyval) (h0 : list (Z * Z)) :
  existsb (has_hour fromisoformat) evs = false -> histogram fromisoformat evs h0 = h0.
Proof.
  unfold histogram. revert h0. induction evs as [|e evs IH]; intros h0 H; cbn [fold_left].
  - reflexivity.
  - cbn [existsb] in H. apply orb_false_elim in H as [He Hevs].
    rewrite IH by exact Hevs. unfold hourly_after. unfold has_hour in He.
    destruct (hour_of fromisoformat e); [discriminate|reflexivity].
Qed.

Lemma histogram_nonempty (evs : list pyval) :
  existsb (has_hour fromisoformat) evs = true -> histogram fromisoformat evs [] <> [].
Proof.
  intros H E. apply existsb_exists in H as (e & Hin & He).
  unfold has_hour in He. destruct (hour_of fromisoformat e) as [hr|] eqn:Ehr; [|discriminate].
  pose proof (histogram_get fromisoformat evs hr) as G. rewrite E in G. cbn [assoc_get] in G.
  assert (0 < count_where (at_hour fromisoformat hr) evs).
  { unfold count_where.
    assert (Hf : In e (filter (at_hour fromisoformat hr) evs)).
    { apply filter_In. split; [exact Hin|]. unfold at_hour. rewrite Ehr. apply Z.eqb_refl. }
    destruct (filter (at_hour fromisoformat hr) evs); [contradiction|]. cbn [List.length]. lia. }
  destruct (Z.ltb_spec 0 (count_where (at_hour fromisoformat hr) evs)); [discriminate|lia].
Qed.

(** The hourly list, for the analysis of any event sequence. *)
Lemma hourly_data_spec (evs : list pyval) (analysis : pyval) :
  analyze_daily_patterns fromisoformat evs = Ok analysis ->
  hourly_data_of analysis
  = Ok (map (fun hr => hourly_item hr (expected_count fromisoformat evs hr)) range24).
Proof.
  intro H.
  assert (Hsample : existsb (has_hour fromisoformat) evs = false ->
            fold_result (fun hourly_data hr =>
                 entry <- hourly_entry (VDict sample_hours) hr ;;
                 Ok (hourly_data ++ [entry])) range24 []
            = Ok (map (fun hr => hourly_item hr (expected_count fromisoformat evs hr)) range24)).
  { intro Hno. rewrite hourly_loop. cbn [app]. f_equal. apply map_ext. intro hr.
    unfold hourly_item, expected_count. rewrite Hno, sample_lookup. reflexivity. }
  destruct evs as [|e evs].
  - injection H as <-. apply (Hsample eq_refl).
  - apply analyze_cons in H as (v & t & x & _ & Ht & _ & ->).
    apply loop_histogram in Ht.
    unfold hourly_data_of.
    cbn [py_get dict_get assoc_get key_eqb String.eqb Ascii.eqb Bool.eqb bind].
    rewrite Ht.
    destruct (existsb (has_hour fromisoformat) (e :: evs)) eqn:Ex.
    + pose proof (histogram_nonempty _ Ex) as Hne.
      pose proof (histogram_positive fromisoformat (e :: evs) [] (Forall_nil _)) as Hpos.
      set (h := histogram fromisoformat (e :: evs) []) in *.
      assert (Htruthy : truthy (hours_dict h) = true).
      { unfold hours_dict. destruct h; [contradiction|reflexivity]. }
      rewrite Htruthy. cbn [negb]. unfold hours_dict at 1. cbn [dict_of bind].
      rewrite py_sum_hours. cbn [bind to_Q].
      assert (Hsum : 0 < 0 + fold_right Z.add 0 (map snd h)).
      { rewrite Z.add_0_l. apply sum_positive; [|exact Hpos].
        destruct h; [contradiction|discriminate]. }
      assert (Hq : Qeq_bool (inject_Z (0 + fold_right Z.add 0 (map snd h))) 0 = false).
      { destruct (Qeq_bool _ 0) eqn:Eq; [|reflexivity].
        apply Qeq_bool_iff in Eq. unfold Qeq in Eq. cbn [Qnum Qden inject_Z] in Eq. lia. }
      rewrite Hq. unfold hours_dict. rewrite hourly_loop. cbn [app]. f_equal.
      apply map_ext. intro hr. unfold hourly_item, expected_count. rewrite Ex.
      rewrite hours_dict_get. unfold h. rewrite histogram_get.
      pose proof (count_where_nonneg (at_hour fromisoformat hr) (e :: evs)).
      destruct (Z.ltb_spec 0 (count_where (at_hour fromisoformat hr) (e :: evs)));
        cbn [option_map]; [reflexivity|].
      replace (count_where (at_hour fromisoformat hr) (e :: evs)) with 0 by lia.
      reflexivity.
    + rewrite (histogram_same _ _ Ex). cbn [hours_dict map truthy negb bind].
      apply (Hsample eq_refl).
Qed.
End Dashboard.

(** ** Scores *)

Lemma fl_3 : fl (inject_Z 3) = 3%Q.
Proof. vm_compute. reflexivity. Qed.

Lemma fl_480 : fl (inject_Z 480) = 480%Q.
Proof. vm_compute. reflexivity. Qed.

Lemma fl_60 : fl (inject_Z 60) = 60%Q.
Proof. vm_compute. reflexivity. Qed.

(** Division by a non-zero int constant that has a float: it returns when
    the dividend has a quotient, and raises [OverflowError] otherwise. *)
Lemma truediv_const (x : num) (k : Z) :
  k <> 0 -> in_float_range (fl (inject_Z k)) = true ->
  Qeq_bool (fl (inject_Z k)) 0 = false ->
  has_quotient x k = true ->
  truediv x (NInt k)
  = Ok (NFloat (match x with
                | NInt z => fl (inject_Z z / inject_Z k)
                | NFloat q => fl (q / fl (inject_Z k))
                end)).
Proof.
  intros Hk Hr Hz Hx. unfold truediv. destruct x as [z|q].
  - apply Z.eqb_neq in Hk. rewrite Hk. cbn [has_quotient] in Hx. now rewrite Hx.
  - cbn [float_of bind]. rewrite Hr. cbn [bind]. now rewrite Hz.
Qed.

Lemma truediv_const_overflow (x : num) (k : Z) :
  k <> 0 -> has_quotient x k = false -> truediv x (NInt k) = Raise OverflowError.
Proof.
  intros Hk Hx. destruct x as [z|q]; [|discriminate Hx].
  unfold truediv. apply Z.eqb_neq in Hk. rewrite Hk. cbn [has_quotient] in Hx.
  now rewrite Hx.
Qed.

(** A quotient that is bounded by a float exists. *)
Lemma has_quotient_bounded (x : num) (k : Z) :
  0 < k -> (Qabs (to_Q x) <= inject_Z k * float_max)%Q -> has_quotient x k = true.
Proof.
  intros Hk H. destruct x as [z|q]; [|reflexivity]. cbn [has_quotient to_Q] in *.
  assert (Hkq : (0 < inject_Z k)%Q).
  { change 0%Q with (inject_Z 0). now rewrite <- Zlt_Qlt. }
  apply in_float_range_le. unfold Qdiv. rewrite Qabs_Qmult.
  rewrite (Qabs_pos (/ inject_Z k)) by (apply Qlt_le_weak, Qinv_lt_0_compat, Hkq).
  apply Qle_shift_div_r; [exact Hkq|]. lra.
Qed.

Lemma to_float_bounds (a : num) (B : Z) :
  (0 <= to_Q a)%Q -> (to_Q a <= inject_Z B)%Q -> B < 2 ^ 53 ->
  (0 <= to_float a)%Q /\ (to_float a <= inject_Z B)%Q.
Proof.
  intros H0 HB Hlt. destruct a as [z|q]; cbn [to_Q to_float] in *.
  - split; [now apply fl_nonneg | now apply fl_le_int].
  - now split.
Qed.

Lemma add_bounds (a b : num) (A B : Z) :
  (0 <= to_Q a)%Q -> (to_Q a <= inject_Z A)%Q ->
  (0 <= to_Q b)%Q -> (to_Q b <= inject_Z B)%Q ->
  A < 2 ^ 53 -> B < 2 ^ 53 -> A + B < 2 ^ 53 ->
  (0 <= to_Q (add a b))%Q /\ (to_Q (add a b) <= inject_Z (A + B))%Q.
Proof.
  intros Ha0 HaA Hb0 HbB HA HB HAB.
  destruct (to_float_bounds a A Ha0 HaA HA) as [Fa0 FaA].
  destruct (to_float_bounds b B Hb0 HbB HB) as [Fb0 FbB].
  assert (Hsum : (0 <= to_float a + to_float b)%Q /\
                 (to_float a + to_float b <= inject_Z (A + B))%Q).
  { rewrite inject_Z_plus. split; lra. }
  destruct Hsum as [S0 SAB].
  assert (Hfl : (0 <= fl (to_float a + to_float b))%Q /\
                (fl (to_float a + to_float b) <= inject_Z (A + B))%Q).
  { split; [now apply fl_nonneg | now apply fl_le_int]. }
  destruct a as [x|p], b as [y|q]; cbn [add to_Q]; try exact Hfl.
  cbn [to_Q] in Ha0, HaA, Hb0, HbB. rewrite !inject_Z_plus. split; lra.
Qed.

Lemma min2_100 (x : num) : (0 <= to_Q x)%Q -> in_0_100 (min2 (NInt 100) x).
Proof.
  intro H. unfold in_0_100, min2, num_ltb. cbn [to_Q].
  destruct (Qle_bool (inject_Z 100) (to_Q x)) eqn:E; cbn [negb to_Q].
  - split; [discriminate|apply Qle_refl].
  - split; [exact H|].
    destruct (Qlt_le_dec (to_Q x) (inject_Z 100)) as [L|L]; [now apply Qlt_le_weak|].
    apply Qle_bool_iff in L. congruence.
Qed.

Lemma truediv_const_bounds (x : num) (k B : Z) :
  0 < k -> fl (inject_Z k) = inject_Z k -> in_float_range (inject_Z k) = true ->
  (0 <= to_Q x)%Q -> (to_Q x <= inject_Z (B * k))%Q -> 0 <= B < 2 ^ 53 ->
  exists q, truediv x (NInt k) = Ok q /\ (0 <= to_Q q)%Q /\ (to_Q q <= inject_Z B)%Q.
Proof.
  intros Hk Hfl Hr H0 HB Hlt.
  assert (Hkq : (0 < inject_Z k)%Q).
  { change 0%Q with (inject_Z 0). now rewrite <- Zlt_Qlt. }
  rewrite inject_Z_mult in HB.
  rewrite truediv_const.
  2:{ lia. }
  2:{ now rewrite Hfl. }
  2:{ rewrite Hfl. destruct (Qeq_bool (inject_Z k) 0) eqn:E; [|reflexivity].
      apply Qeq_bool_iff in E. lra. }
  2:{ apply has_quotient_bounded; [exact Hk|]. rewrite (Qabs_pos _ H0).
      assert (HB53 : (inject_Z B <= inject_Z (2 ^ 53))%Q) by (rewrite <- Zle_Qle; lia).
      assert (HM : (inject_Z (2 ^ 53) <= float_max)%Q) by (vm_compute; discriminate).
      assert (HB0 : (0 <= inject_Z B)%Q)
        by (change 0%Q with (inject_Z 0); rewrite <- Zle_Qle; lia).
      assert (Hmul : (inject_Z B * inject_Z k <= float_max * inject_Z k)%Q).
      { apply Qmult_le_compat_r; lra. }
      lra. }
  eexists. split; [reflexivity|]. cbn [to_Q].
  assert (Hquot : (0 <= to_Q x / inject_Z k)%Q /\ (to_Q x / inject_Z k <= inject_Z B)%Q).
  { split; [apply Qle_shift_div_l | apply Qle_shift_div_r]; try exact Hkq; lra. }
  destruct Hquot as [Q0 QB].
  destruct x as [z|q]; cbn [to_Q] in *; rewrite ?Hfl;
    (split; [now apply fl_nonneg | now apply fl_le_int]).
Qed.

(** The score block returns whenever its three inputs are numbers and its
    two divisions do not overflow. *)
Lemma scores_total (analysis wmv bcv dwv : pyval) (wm bc dw : num) :
  lookup analysis "total_work_minutes" = Some wmv ->
  lookup analysis "break_compliance" = Some bcv ->
  lookup analysis "deep_work_sessions" = Some dwv ->
  as_num wmv = Ok wm -> as_num bcv = Ok bc -> as_num dwv = Ok dw ->
  has_quotient wm 480 = true ->
  exists q,
    truediv wm (NInt 480) = Ok q
    /\ (has_quotient (add (add (min2 (NInt 100) (mul q (NInt 100))) bc)
                          (min2 (NInt 100) (mul dw (NInt 25)))) 3 = true ->
        exists o,
          truediv (add (add (min2 (NInt 100) (mul q (NInt 100))) bc)
                       (min2 (NInt 100) (mul dw (NInt 25)))) (NInt 3) = Ok o
          /\ scores_of analysis
             = Ok (mk_scores (min2 (NInt 100) (mul q (NInt 100))) bc
                             (min2 (NInt 100) (mul dw (NInt 25))) o)).
Proof.
  intros L1 L2 L3 N1 N2 N3 Hq.
  destruct analysis; try discriminate. cbn [lookup] in L1, L2, L3.
  unfold scores_of. cbn [py_get]. rewrite L1, L2, L3. cbn [bind]. rewrite N1. cbn [bind].
  rewrite (truediv_const wm 480) by (try discriminate; try reflexivity; exact Hq).
  cbn [bind]. rewrite N2, N3. cbn [bind].
  eexists. split; [reflexivity|]. intro Ho.
  rewrite (truediv_const _ 3) by (try discriminate; try reflexivity; exact Ho).
  cbn [bind]. eexists. split; reflexivity.
Qed.

(** For every analysis whose [total_work_minutes] and [deep_work_sessions]
    are non-negative, whose work minutes can be divided by 480 and whose
    [break_compliance] lies in [0,100], the score block returns
    [work_score], [break_score], [focus_score] and [overall_score] in
    [0,100]; [break_score] is the analysis's [break_compliance] unchanged and
    [overall_score] is [(work_score + break_score + focus_score) / 3]. *)
Lemma scores_in_range (analysis wmv bcv : pyval) (wm bc : num) (dw : Z) :
  lookup analysis "total_work_minutes" = Some wmv ->
  lookup analysis "break_compliance" = Some bcv ->
  lookup analysis "deep_work_sessions" = Some (VInt dw) ->
  as_num wmv = Ok wm -> as_num bcv = Ok bc ->
  (0 <= to_Q wm)%Q -> has_quotient wm 480 = true -> 0 <= dw -> in_0_100 bc ->
  exists sc : scores,
    scores_of analysis = Ok sc
    /\ in_0_100 (work_score sc) /\ in_0_100 (break_score sc)
    /\ in_0_100 (focus_score sc) /\ in_0_100 (overall_score sc)
    /\ break_score sc = bc
    /\ truediv (add (add (work_score sc) (break_score sc)) (focus_score sc)) (NInt 3)
       = Ok (overall_score sc).
Proof.
  intros L1 L2 L3 N1 N2 Hwm Hwq Hdw Hbc.
  destruct (scores_total analysis wmv bcv (VInt dw) wm bc (NInt dw) L1 L2 L3 N1 N2 eq_refl Hwq)
    as (q & Hq & Hsc).
  assert (Hq0 : (0 <= to_Q q)%Q).
  { rewrite truediv_const in Hq by (try discriminate; try reflexivity; exact Hwq).
    injection Hq as <-. cbn [to_Q].
    destruct wm as [z|p]; cbn [to_Q] in Hwm; rewrite ?fl_480; apply fl_nonneg;
      (apply Qle_shift_div_l; [reflexivity|]); lra. }
  assert (Hws : in_0_100 (min2 (NInt 100) (mul q (NInt 100)))).
  { apply min2_100. destruct q as [z|p]; cbn [mul to_Q to_float] in *.
    - rewrite inject_Z_mult. change (inject_Z 100) with 100%Q. lra.
    - rewrite fl_100. apply fl_nonneg. lra. }
  assert (Hfs : in_0_100 (min2 (NInt 100) (mul (NInt dw) (NInt 25)))).
  { apply min2_100. cbn [mul to_Q]. change 0%Q with (inject_Z 0). rewrite <- Zle_Qle. lia. }
  set (ws := min2 (NInt 100) (mul q (NInt 100))) in *.
  set (fs := min2 (NInt 100) (mul (NInt dw) (NInt 25))) in *.
  destruct Hws as [W0 W1], Hfs as [F0 F1], Hbc as [B0 B1].
  destruct (add_bounds ws bc 100 100 W0 W1 B0 B1) as [S0 S1]; try reflexivity.
  destruct (add_bounds (add ws bc) fs 200 100 S0 S1 F0 F1) as [T0 T1]; try reflexivity.
  destruct (truediv_const_bounds (add (add ws bc) fs) 3 100) as (o' & Ho' & O0 & O1);
    try reflexivity; try assumption; try lia.
  destruct Hsc as (o & Ho & Hsc).
  { apply has_quotient_bounded; [lia|]. rewrite (Qabs_pos _ T0).
    assert (HM : (inject_Z (200 + 100) <= 3 * float_max)%Q) by (vm_compute; discriminate).
    change (inject_Z 3) with 3%Q. lra. }
  rewrite Ho in Ho'. injection Ho' as <-.
  exists (mk_scores ws bc fs o). cbn [work_score break_score focus_score overall_score].
  unfold in_0_100. repeat split; assumption.
Qed.

Lemma scores_in_range_witness :
  exists sc : scores,
    scores_of (VDict [(KStr "total_work_minutes", VInt 50);
                      (KStr "break_compliance", VFloat 100);
                      (KStr "deep_work_sessions", VInt 1)]) = Ok sc
    /\ in_0_100 (overall_score sc).
Proof.
  destruct (scores_in_range
              (VDict [(KStr "total_work_minutes", VInt 50);
                      (KStr "break_compliance", VFloat 100);
                      (KStr "deep_work_sessions", VInt 1)])
              (VInt 50) (VFloat 100) (NInt 50) (NFloat 100) 1
              eq_refl eq_refl eq_refl eq_refl eq_refl)
    as (sc & Hsc & _ & _ & _ & Ho & _).
  - vm_compute. discriminate.
  - vm_compute. reflexivity.
  - lia.
  - split; vm_compute; discriminate.
  - exists sc. split; assumption.
Defined.

(** C2.  The score block does not keep [break_score] within [0,100], as its
    comment and the [min(100, ...)] of its two other scores promise: the
    analysis of one break shown and two completed has non-negative work
    minutes and deep-work sessions, and its [break_score] is 200. *)
Lemma break_score_above_100 :
  result_field (analyze_daily_patterns fromisoformat_std
                  [ev "break_shown"; ev "break_completed"; ev "break_completed"])
               "total_work_minutes" = Some (VInt 0)
  /\ result_field (analyze_daily_patterns fromisoformat_std
                     [ev "break_shown"; ev "break_completed"; ev "break_completed"])
                  "deep_work_sessions" = Some (VInt 0)
  /\ score_field break_score
       (analysis <- analyze_daily_patterns fromisoformat_std
                      [ev "break_shown"; ev "break_completed"; ev "break_completed"] ;;
        scores_of analysis)
     = Some (NFloat 200)
  /\ ~ in_0_100 (NFloat 200).
Proof.
  repeat split; try (vm_compute; reflexivity).
  intros [_ H]. vm_compute in H. now apply H.
Qed.

(** ** The dashboard document *)

Lemma as_num_of_num (n : num) : as_num (of_num n) = Ok n.
Proof. destruct n; reflexivity. Qed.

Lemma final_work_minutes_value (l : list pyval) (v : pyval) :
  final_work_minutes_of l = Ok v -> v = work_minutes_snapshot (last l VNone).
Proof.
  unfold final_work_minutes_of, work_minutes_snapshot. intro H.
  apply bind_ok in H as (has & Hhas & H).
  destruct (last l VNone) as [| | | | |l0|d]; try discriminate.
  - cbn [lookup]. destruct has; [discriminate|]. now injection H as <-.
  - cbn [lookup]. destruct has; [discriminate|]. now injection H as <-.
  - cbn [py_contains] in Hhas. injection Hhas as <-. cbn [lookup].
    unfold dict_mem in H.
    destruct (dict_get d (KStr "system_state")) as [ss|] eqn:E.
    + cbn [py_getitem] in H. rewrite E in H. cbn [bind] in H.
      destruct ss; try discriminate. cbn [py_get] in H. injection H as <-.
      reflexivity.
    + now injection H as <-.
Qed.

Section DashboardTotal.
Variable fromisoformat : string -> option datetime.

Lemma final_work_minutes_numeric (e : pyval) (evs : list pyval) :
  forallb well_typed_event (e :: evs) = true ->
  work_minutes_typed (last (e :: evs) VNone) = true ->
  exists v wm, final_work_minutes_of (e :: evs) = Ok v /\ as_num v = Ok wm.
Proof.
  intros H Hw. apply last_well_typed in H. unfold final_work_minutes_of.
  destruct (last (e :: evs) VNone); try discriminate.
  cbn [well_typed_event] in H. apply andb_prop in H as [_ H].
  unfold work_minutes_typed in Hw. cbn [lookup] in Hw.
  cbn [py_contains bind]. unfold dict_mem.
  destruct (dict_get d (KStr "system_state")) as [ss|] eqn:E.
  - cbn [py_getitem]. rewrite E. cbn [bind].
    destruct ss; try discriminate. cbn [py_get]. cbn [lookup] in Hw.
    destruct (dict_get d0 (KStr "total_work_minutes_today")) as [v|].
    + destruct v; try discriminate; eexists _, _; split; reflexivity.
    + eexists _, _; split; reflexivity.
  - eexists _, _; split; reflexivity.
Qed.

Lemma has_quotient_480 (wm : num) : has_quotient wm 60 = true -> has_quotient wm 480 = true.
Proof.
  destruct wm as [z|q]; [|reflexivity].
  rewrite !has_quotient_int by lia. intro H. apply Z.ltb_lt in H. apply Z.ltb_lt.
  assert (HT : 0 < overflow_threshold) by reflexivity. lia.
Qed.

Lemma has_quotient_60 (wm : num) : has_quotient wm 480 = false -> has_quotient wm 60 = false.
Proof.
  intro H. destruct (has_quotient wm 60) eqn:E; [|reflexivity].
  apply has_quotient_480 in E. congruence.
Qed.

(** The sum of the three scores can be divided by 3. *)
Lemma sum_has_quotient (p : Q) (bc : num) (d : Z) :
  has_quotient bc 1 = true -> 0 <= d ->
  has_quotient (add (add (min2 (NInt 100) (NFloat p)) bc) (min2 (NInt 100) (NInt d))) 3
  = true.
Proof.
  intros Hbc Hd. unfold min2.
  destruct (num_ltb (NFloat p) (NInt 100)); [destruct bc; reflexivity|].
  destruct bc as [b|b]; [|reflexivity].
  rewrite has_quotient_int in Hbc by lia. apply Z.ltb_lt in Hbc.
  assert (HT : 200 < overflow_threshold) by reflexivity.
  destruct (num_ltb (NInt d) (NInt 100)) eqn:E; cbn [add];
    rewrite has_quotient_int by lia; apply Z.ltb_lt; [|lia].
  unfold num_ltb in E. cbn [to_Q] in E. apply negb_true_iff in E.
  assert (Hlt : d < 100).
  { destruct (Z_lt_le_dec d 100) as [L|L]; [exact L|].
    rewrite Zle_Qle in L. apply Qle_bool_iff in L. congruence. }
  lia.
Qed.

(** The compliance is the int 0 or a float. *)
Lemma compliance_shape (t : tally) (x : num) :
  compliance_of t = Ok x -> has_quotient (round1 x) 1 = true.
Proof.
  unfold compliance_of. destruct (0 <? break_count t) eqn:E.
  - apply Z.ltb_lt in E. rewrite truediv_small_ok by lia. cbn [bind].
    intros [= <-]. reflexivity.
  - intros [= <-]. vm_compute. reflexivity.
Qed.

Lemma final_work_minutes_untyped (e0 : pyval) (evs : list pyval) :
  forallb well_typed_event (e0 :: evs) = true ->
  work_minutes_typed (last (e0 :: evs) VNone) = false ->
  exists v, final_work_minutes_of (e0 :: evs) = Ok v /\ as_num v = Raise TypeError.
Proof.
  intros H Hw. apply last_well_typed in H. unfold final_work_minutes_of.
  destruct (last (e0 :: evs) VNone); try discriminate.
  cbn [well_typed_event] in H. apply andb_prop in H as [_ H].
  unfold work_minutes_typed in Hw. cbn [lookup] in Hw.
  cbn [py_contains bind]. unfold dict_mem.
  destruct (dict_get d (KStr "system_state")) as [ss|] eqn:E; [|discriminate Hw].
  cbn [py_getitem]. rewrite E. cbn [bind].
  destruct ss; try discriminate. cbn [py_get]. cbn [lookup] in Hw.
  destruct (dict_get d0 (KStr "total_work_minutes_today")) as [v|]; [|discriminate Hw].
  destruct v; try discriminate; eexists; split; reflexivity.
Qed.

(** On a day whose events are well-typed the dashboard returns a document
    when the work-minutes snapshot is a number that can be divided; it raises
    [OverflowError] when the snapshot is an int too large for that, and
    [TypeError] when it is not a number. *)
Lemma dashboard_total (date now ai_summary : string) (evs : list pyval) :
  forallb well_typed_event evs = true ->
  (work_minutes_typed (last evs VNone) = true -> work_minutes_fit evs = true ->
   exists doc, get_dashboard_data fromisoformat date evs now ai_summary = Ok doc)
  /\ (work_minutes_typed (last evs VNone) = true -> work_minutes_fit evs = false ->
      get_dashboard_data fromisoformat date evs now ai_summary = Raise OverflowError)
  /\ (work_minutes_typed (last evs VNone) = false ->
      get_dashboard_data fromisoformat date evs now ai_summary = Raise TypeError).
Proof.
  intro Hwt. destruct evs as [|e evs].
  { split; [intros _ _; vm_compute; eexists; reflexivity|].
    split; [intros _ H; vm_compute in H; discriminate H|intro H; discriminate H]. }
  destruct (analyze_total fromisoformat (e :: evs) Hwt) as [analysis Ha].
  pose proof (hourly_data_spec fromisoformat _ _ Ha) as Hh.
  unfold get_dashboard_data. rewrite Ha. cbn [bind].
  apply analyze_cons in Ha as (v' & t & x & Hv' & Ht & Hx & ->).
  pose proof (final_work_minutes_value _ _ Hv') as Ev.
  pose proof (compliance_shape t x Hx) as Hbc.
  pose proof (loop_fields _ _ _ _ init_tally_shape Ht) as (_ & _ & F3 & _).
  cbn [init_tally deep_work_sessions] in F3. rewrite Z.add_0_l in F3.
  pose proof (count_where_nonneg is_deep_work (e :: evs)) as Hdw. rewrite <- F3 in Hdw.
  split; [|split].
  - intros Hwm Hfit.
    destruct (final_work_minutes_numeric e evs Hwt Hwm) as (v & wm & Hv & Hnum).
    rewrite Hv in Hv'. injection Hv' as <-.
    unfold work_minutes_fit in Hfit. rewrite <- Ev, Hnum in Hfit.
    match goal with
    | |- context [scores_of ?a] =>
        destruct (scores_total a v (of_num (round1 x)) (VInt (deep_work_sessions t))
                    wm (round1 x) (NInt (deep_work_sessions t))
                    eq_refl eq_refl eq_refl Hnum (as_num_of_num _) eq_refl
                    (has_quotient_480 wm Hfit))
          as (q & Hq & Hsc)
    end.
    rewrite truediv_const in Hq
      by (try discriminate; try reflexivity; exact (has_quotient_480 wm Hfit)).
    injection Hq as <-. cbn [mul to_float] in Hsc.
    destruct Hsc as (o & _ & Hsc).
    { apply sum_has_quotient; [exact Hbc|lia]. }
    rewrite Hsc, Hh.
    cbn [py_get dict_get assoc_get key_eqb String.eqb Ascii.eqb Bool.eqb bind].
    rewrite Hnum. cbn [bind].
    rewrite (truediv_const wm 60) by (try discriminate; try reflexivity; exact Hfit).
    unfold rounded. rewrite as_num_of_num. cbn [bind as_num].
    rewrite (loop_types _ _ _ Ht), preferred_of_types. cbn [bind].
    eexists. reflexivity.
  - intros Hwm Hfit.
    destruct (final_work_minutes_numeric e evs Hwt Hwm) as (v & wm & Hv & Hnum).
    rewrite Hv in Hv'. injection Hv' as <-.
    unfold work_minutes_fit in Hfit. rewrite <- Ev, Hnum in Hfit.
    cbn [py_get dict_get assoc_get key_eqb String.eqb Ascii.eqb Bool.eqb bind].
    destruct (has_quotient wm 480) eqn:H480.
    + match goal with
      | |- context [scores_of ?a] =>
          destruct (scores_total a v (of_num (round1 x)) (VInt (deep_work_sessions t))
                      wm (round1 x) (NInt (deep_work_sessions t))
                      eq_refl eq_refl eq_refl Hnum (as_num_of_num _) eq_refl H480)
            as (q & Hq & Hsc)
      end.
      rewrite truediv_const in Hq by (try discriminate; try reflexivity; exact H480).
      injection Hq as <-. cbn [mul to_float] in Hsc.
      destruct Hsc as (o & _ & Hsc).
      { apply sum_has_quotient; [exact Hbc|lia]. }
      rewrite Hsc, Hh. cbn [bind]. rewrite Hnum. cbn [bind].
      rewrite (truediv_const_overflow wm 60) by (try discriminate; exact Hfit).
      reflexivity.
    + unfold scores_of.
      cbn [py_get dict_get assoc_get key_eqb String.eqb Ascii.eqb Bool.eqb bind].
      rewrite Hnum. cbn [bind].
      rewrite (truediv_const_overflow wm 480) by (try discriminate; exact H480).
      reflexivity.
  - intro Hwm.
    destruct (final_work_minutes_untyped e evs Hwt Hwm) as (v & Hv & Hnum).
    rewrite Hv in Hv'. injection Hv' as <-.
    cbn [py_get dict_get assoc_get key_eqb String.eqb Ascii.eqb Bool.eqb bind].
    unfold scores_of.
    cbn [py_get dict_get assoc_get key_eqb String.eqb Ascii.eqb Bool.eqb bind].
    rewrite Hnum. reflexivity.
Qed.
End DashboardTotal.

(** C5 (amended).  On a day whose events, as the reader returns them, are
    well-typed the dashboard returns a document exactly when the work-minutes snapshot of the last
    event is absent or a number and, if it is an int, can be divided by 60
    (it is below 60 times the overflow threshold in absolute value): a
    snapshot of another type raises [TypeError], a larger int
    [OverflowError].  In every document the dashboard returns,
    [hourly_activity] lists the 24 hours 0..23 once each, in order.  When at
    least one event of the day has a timestamp that parses, the
    [activity_count] of an hour is the number of events at that hour, 0 for
    an hour without events; when none has (a day with no events at all
    included) the counts are those of the fixed sample histogram 9:3, 10:5,
    11:4, 14:2, 15:4, 16:3. *)
Theorem hourly_activity_document (fromisoformat : string -> option datetime)
        (date now ai_summary : string) (evs : list pyval) :
  range24 = [0; 1; 2; 3; 4; 5; 6; 7; 8; 9; 10; 11; 12; 13; 14; 15; 16; 17; 18; 19; 20;
             21; 22; 23]
  /\ (forallb well_typed_event evs = true ->
      (work_minutes_typed (last evs VNone) = true -> work_minutes_fit evs = true ->
       exists doc, get_dashboard_data fromisoformat date evs now ai_summary = Ok doc)
      /\ (work_minutes_typed (last evs VNone) = true -> work_minutes_fit evs = false ->
          get_dashboard_data fromisoformat date evs now ai_summary = Raise OverflowError)
      /\ (work_minutes_typed (last evs VNone) = false ->
          get_dashboard_data fromisoformat date evs now ai_summary = Raise TypeError))
  /\ (forall z : Z,
         work_minutes_snapshot (last evs VNone) = VInt z ->
         work_minutes_fit evs = (Z.abs z <? 60 * overflow_threshold))
  /\ forall doc,
       get_dashboard_data fromisoformat date evs now ai_summary = Ok doc ->
       lookup doc "hourly_activity"
       = Some (VList (map (fun hr => hourly_item hr (expected_count fromisoformat evs hr))
                          range24)).
Proof.
  split; [reflexivity|]. split; [apply dashboard_total|].
  split.
  { intros z Hz. unfold work_minutes_fit. rewrite Hz. apply (has_quotient_int z 60). lia. }
  intros doc H. unfold get_dashboard_data in H.
  apply bind_ok in H as (analysis & Ha & H).
  rewrite (hourly_data_spec fromisoformat _ _ Ha) in H.
  bind_inv H. reflexivity.
Qed.

Lemma hourly_activity_document_witness :
  exists doc,
    get_dashboard_data fromisoformat_std "2024-01-01"
      [ev_at "2024-01-01T09:15:00" "break_shown"; ev_at "2024-01-01T09:40:00" "break_completed";
       ev_at "2024-01-01T13:05:00" "command_received"] "2024-01-02T00:00:00" "" = Ok doc
    /\ lookup doc "hourly_activity"
       = Some (VList (map (fun hr => hourly_item hr (if hr =? 9 then 2
                                                      else if hr =? 13 then 1 else 0))
                          range24)).
Proof.
  destruct (hourly_activity_document fromisoformat_std "2024-01-01" "2024-01-02T00:00:00" ""
              [ev_at "2024-01-01T09:15:00" "break_shown";
               ev_at "2024-01-01T09:40:00" "break_completed";
               ev_at "2024-01-01T13:05:00" "command_received"]) as (_ & Htot & _ & Hdoc).
  destruct (Htot eq_refl) as [Hret _].
  destruct (Hret eq_refl eq_refl) as [doc Hd]. exists doc. split; [exact Hd|].
  rewrite (Hdoc doc Hd). vm_compute. reflexivity.
Defined.

(** C5, as stated, fails: on a day with no events the counts are not all
    zero; hour 9 is listed with count 3. *)
Lemma hourly_activity_sample_on_empty_day :
  exists l,
    result_field (get_dashboard_data fromisoformat_std "2024-01-01" [] "2024-01-02T00:00:00" "")
                 "hourly_activity" = Some (VList l)
    /\ nth 9 l VNone = hourly_item 9 3
    /\ hourly_item 9 3 <> hourly_item 9 0.
Proof.
  eexists. split; [vm_compute; reflexivity|]. split; [vm_compute; reflexivity|discriminate].
Qed.

(** ** The stable descending sort *)

Lemma insert_desc_perm (x : Z * Z) (l : list (Z * Z)) : Permutation (insert_desc x l) (x :: l).
Proof.
  induction l as [|y l IH]; cbn [insert_desc]; [reflexivity|].
  destruct (snd x <? snd y); [|reflexivity].
  rewrite IH. apply perm_swap.
Qed.

Lemma sorted_perm (items : list (Z * Z)) : Permutation (sorted_by_count_desc items) items.
Proof.
  induction items as [|x items IH]; cbn; [constructor|].
  rewrite insert_desc_perm. now constructor.
Qed.

Lemma insert_desc_sorted (x : Z * Z) (l : list (Z * Z)) :
  StronglySorted count_ge l -> StronglySorted count_ge (insert_desc x l).
Proof.
  induction 1 as [|y l Hl IH Hy]; cbn [insert_desc].
  - repeat constructor.
  - destruct (Z.ltb_spec (snd x) (snd y)).
    + constructor; [exact IH|].
      rewrite Forall_forall. intros z Hz.
      apply (Permutation_in _ (insert_desc_perm x l)) in Hz. destruct Hz as [<-|Hz].
      * unfold count_ge. lia.
      * rewrite Forall_forall in Hy. now apply Hy.
    + constructor; [now constructor|].
      constructor; [unfold count_ge; lia|].
      rewrite Forall_forall in *. intros z Hz. specialize (Hy z Hz).
      unfold count_ge in *. lia.
Qed.

(** The result is in descending order of count. *)
Lemma sorted_descending (items : list (Z * Z)) :
  StronglySorted count_ge (sorted_by_count_desc items).
Proof.
  induction items as [|x items IH]; cbn; [constructor|now apply insert_desc_sorted].
Qed.

Lemma insert_desc_filter (c : Z) (x : Z * Z) (l : list (Z * Z)) :
  filter (has_count c) (insert_desc x l) = filter (has_count c) (x :: l).
Proof.
  induction l as [|y l IH]; cbn [insert_desc]; [reflexivity|].
  destruct (Z.ltb_spec (snd x) (snd y)) as [Hlt|]; [|reflexivity].
  cbn [filter] in *. rewrite IH. unfold has_count.
  destruct (Z.eqb_spec (snd x) c); destruct (Z.eqb_spec (snd y) c); try reflexivity. lia.
Qed.

(** The sort is stable: the entries of any one count keep the order they have
    in the input. *)
Lemma sorted_stable (c : Z) (items : list (Z * Z)) :
  filter (has_count c) (sorted_by_count_desc items) = filter (has_count c) items.
Proof.
  induction items as [|x items IH]; cbn [sorted_by_count_desc fold_right]; [reflexivity|].
  fold (sorted_by_count_desc items). rewrite insert_desc_filter. cbn [filter]. now rewrite IH.
Qed.

(** ** The order of the histogram *)

Lemma filter_filter {A : Type} (p q : A -> bool) (l : list A) :
  filter p (filter q l) = filter (fun x => q x && p x) l.
Proof.
  induction l as [|x l IH]; cbn [filter]; [reflexivity|].
  destruct (q x); cbn [filter andb]; rewrite IH; reflexivity.
Qed.

Lemma seen_app (k : list Z) (hr y : Z) : seen (k ++ [hr]) y = seen k y || (y =? hr).
Proof.
  unfold seen. rewrite existsb_app. cbn [existsb]. now rewrite orb_false_r.
Qed.

Lemma seen_get (h : list (Z * Z)) (hr : Z) :
  seen (map fst h) hr = match assoc_get Z.eqb h hr with Some _ => true | None => false end.
Proof.
  unfold seen. induction h as [|[k v] h IH]; cbn [map fst existsb assoc_get]; [reflexivity|].
  rewrite (Z.eqb_sym hr k). destruct (k =? hr); [reflexivity|exact IH].
Qed.

Section Order.
Variable fromisoformat : string -> option datetime.

Lemma histogram_keys_from (evs : list pyval) (h0 : list (Z * Z)) :
  map fst (histogram fromisoformat evs h0)
  = map fst h0
    ++ filter (fun y => negb (seen (map fst h0) y)) (first_seen (hours fromisoformat evs)).
Proof.
  unfold histogram. revert h0.
  induction evs as [|e evs IH]; intro h0; cbn [fold_left hours flat_map].
  - cbn. now rewrite app_nil_r.
  - fold (hours fromisoformat evs). rewrite IH. unfold hourly_after.
    destruct (hour_of fromisoformat e) as [hr|]; [|reflexivity].
    cbn [app first_seen filter]. unfold bump_hour. rewrite assoc_set_keys.
    rewrite filter_filter. pose proof (seen_get h0 hr) as Hs.
    destruct (assoc_get Z.eqb h0 hr) as [n|]; rewrite Hs; cbn [negb].
    + f_equal. apply filter_ext_in. intros y _.
      destruct (Z.eqb_spec y hr) as [->|]; cbn [negb andb]; [|reflexivity].
      now rewrite Hs.
    + rewrite <- app_assoc. cbn [app]. do 2 f_equal. apply filter_ext. intro y.
      rewrite seen_app, negb_orb. apply andb_comm.
Qed.

(** The histogram lists the hours in the order of their first appearance in
    the event sequence. *)
Lemma histogram_keys (evs : list pyval) :
  map fst (histogram fromisoformat evs []) = first_seen (hours fromisoformat evs).
Proof.
  rewrite histogram_keys_from. cbn [map app]. 
  rewrite <- (filter_ext (fun _ => true)) by reflexivity.
  induction (first_seen (hours fromisoformat evs)) as [|x l IH]; cbn [filter]; congruence.
Qed.

Lemma histogram_entry (evs : list pyval) (hr c : Z) :
  In (hr, c) (histogram fromisoformat evs []) ->
  c = count_where (at_hour fromisoformat hr) evs /\ 0 < c.
Proof.
  intro Hin.
  pose proof (histogram_keys evs) as Hk.
  pose proof (histogram_get fromisoformat evs hr) as Hg.
  assert (Hnd : NoDup (map fst (histogram fromisoformat evs []))).
  { rewrite Hk. clear. induction (hours fromisoformat evs) as [|x l IH]; cbn [first_seen].
    - constructor.
    - constructor.
      + rewrite filter_In. intros [_ H]. now rewrite Z.eqb_refl in H.
      + now apply NoDup_filter. }
  assert (Hget : assoc_get Z.eqb (histogram fromisoformat evs []) hr = Some c).
  { clear Hk Hg. induction (histogram fromisoformat evs []) as [|[k v] h IH];
      [contradiction|].
    cbn [map fst] in Hnd. inversion Hnd as [|? ? Hnotin Hnd']; subst.
    cbn [assoc_get]. destruct Hin as [[= -> ->]|Hin].
    - now rewrite Z.eqb_refl.
    - destruct (Z.eqb_spec k hr) as [->|]; [|now apply IH].
      exfalso. apply Hnotin. apply (in_map fst) in Hin. exact Hin. }
  rewrite Hget in Hg.
  destruct (Z.ltb_spec 0 (count_where (at_hour fromisoformat hr) evs)); [|discriminate].
  injection Hg as ->. split; [reflexivity|assumption].
Qed.
End Order.

(** ** The most-active-hours insight *)

(** The insight list ends with the most-active-hours insight when there are
    peak hours, and no earlier entry has its form. *)
Lemma insights_peak (t : tally) (x : num) :
  exists rest,
    insights_of t x
    = rest ++ match peak_hours_of t with
              | [] => []
              | _ :: _ => [peak_hours_msg (peak_hours_of t)]
              end
    /\ forall p, ~ In (peak_hours_msg p) rest.
Proof.
  unfold insights_of.
  match goal with
  | |- exists rest, ?a ++ ?b ++ ?c ++ ?d ++ ?e ++ _ = _ /\ _ =>
      exists (a ++ b ++ c ++ d ++ e)
  end.
  split.
  - rewrite <- !app_assoc. do 5 f_equal. destruct (peak_hours_of t); reflexivity.
  - intros p H. rewrite !in_app_iff in H.
    destruct H as [H|[H|[H|[H|H]]]].
    + destruct (num_ltb x (NInt 50)); [|destruct (num_ltb (NInt 90) x)];
        cbn [In] in H; try contradiction; destruct H as [H|[]]; discriminate H.
    + destruct (0 <? deep_work_sessions t); cbn [In] in H; try contradiction.
      destruct H as [H|[]]. discriminate H.
    + destruct (num_ltb _ _); cbn [In] in H; try contradiction.
      destruct H as [H|[]]. discriminate H.
    + destruct (3 <? pause_events t); cbn [In] in H; try contradiction.
      destruct H as [H|[]]. discriminate H.
    + destruct (5 <? commands_used t); cbn [In] in H; try contradiction.
      destruct H as [H|[]]. discriminate H.
Qed.

(** C8 (amended).  The most-active-hours insight is emitted, as the last
    insight, exactly when the hourly histogram is non-empty.  It lists the
    first three entries of the histogram sorted by descending count with a
    stable sort: entries with equal counts keep the order of the histogram,
    which is the order in which the hours first appeared in the event
    sequence.  The rendered list is therefore a function of the counts and of
    that order of first appearance, not of the counts alone. *)
Theorem peak_hours_spec (fromisoformat : string -> option datetime)
        (evs : list pyval) (doc : pyval) :
  analyze_daily_patterns fromisoformat evs = Ok doc ->
  exists rest : list string,
    lookup doc "insights"
    = Some (VList (map VStr
         (rest ++ match histogram fromisoformat evs [] with
                  | [] => []
                  | _ :: _ =>
                      [peak_hours_msg
                         (firstn 3 (sorted_by_count_desc (histogram fromisoformat evs [])))]
                  end)))
    /\ (forall p, ~ In (peak_hours_msg p) rest)
    /\ Permutation (sorted_by_count_desc (histogram fromisoformat evs []))
                   (histogram fromisoformat evs [])
    /\ StronglySorted count_ge (sorted_by_count_desc (histogram fromisoformat evs []))
    /\ (forall c,
           filter (has_count c) (sorted_by_count_desc (histogram fromisoformat evs []))
           = filter (has_count c) (histogram fromisoformat evs []))
    /\ map fst (histogram fromisoformat evs []) = first_seen (hours fromisoformat evs)
    /\ (forall hr c,
           In (hr, c) (histogram fromisoformat evs []) ->
           c = count_where (at_hour fromisoformat hr) evs /\ 0 < c).
Proof.
  intro H.
  assert (Hins : exists rest : list string,
             lookup doc "insights"
             = Some (VList (map VStr
                  (rest ++ match histogram fromisoformat evs [] with
                           | [] => []
                           | _ :: _ =>
                               [peak_hours_msg
                                  (firstn 3 (sorted_by_count_desc
                                               (histogram fromisoformat evs [])))]
                           end)))
             /\ (forall p, ~ In (peak_hours_msg p) rest)).
  { destruct evs as [|e evs].
    - injection H as <-. exists []. split; [reflexivity|]. intros p [].
    - apply analyze_cons in H as (v & t & x & _ & Ht & _ & ->).
      apply loop_histogram in Ht.
      destruct (insights_peak t x) as (rest & Hrest & Hno).
      exists rest. split; [|exact Hno].
      cbn [lookup dict_get assoc_get key_eqb String.eqb Ascii.eqb Bool.eqb].
      rewrite Hrest. unfold peak_hours_of. rewrite Ht.
      set (h := histogram fromisoformat (e :: evs) []).
      pose proof (sorted_perm h) as Hp.
      destruct h as [|y h'].
      + reflexivity.
      + destruct (sorted_by_count_desc (y :: h')) as [|z s] eqn:Es.
        * apply Permutation_nil in Hp. discriminate Hp.
        * reflexivity. }
  destruct Hins as (rest & Hl & Hno).
  exists rest. split; [exact Hl|]. split; [exact Hno|].
  split; [apply sorted_perm|]. split; [apply sorted_descending|].
  split; [intro c; apply sorted_stable|].
  split; [apply histogram_keys|apply histogram_entry].
Qed.

Lemma peak_hours_spec_witness :
  exists doc rest,
    analyze_daily_patterns fromisoformat_std
      [ev_at "2024-01-01T14:05:00" "command_received";
       ev_at "2024-01-01T09:10:00" "command_received";
       ev_at "2024-01-01T09:50:00" "command_received"] = Ok doc
    /\ lookup doc "insights"
       = Some (VList (map VStr (rest ++ ["Most active hours: 09:00, 14:00"]))).
Proof.
  destruct (analyze_daily_patterns fromisoformat_std
              [ev_at "2024-01-01T14:05:00" "command_received";
               ev_at "2024-01-01T09:10:00" "command_received";
               ev_at "2024-01-01T09:50:00" "command_received"]) as [doc|e] eqn:E;
    [|vm_compute in E; discriminate E].
  destruct (peak_hours_spec fromisoformat_std _ doc E) as (rest & Hl & _).
  exists doc, rest. split; [reflexivity|].
  rewrite Hl. vm_compute. reflexivity.
Defined.

(** C8, as stated, fails: one event at hour 10 followed by one at hour 9 is
    rendered in the order 10, 9, and the same two events in the other order
    are rendered in the order 9, 10, although the two histograms hold the
    same counts. *)
Lemma peak_hours_tie_order :
  result_field (analyze_daily_patterns fromisoformat_std
                  [ev_at "2024-01-01T10:00:00" "command_received";
                   ev_at "2024-01-01T09:00:00" "command_received"]) "insights"
  = Some (VList [VStr low_compliance_msg; VStr "Most active hours: 10:00, 09:00"])
  /\ result_field (analyze_daily_patterns fromisoformat_std
                     [ev_at "2024-01-01T09:00:00" "command_received";
                      ev_at "2024-01-01T10:00:00" "command_received"]) "insights"
     = Some (VList [VStr low_compliance_msg; VStr "Most active hours: 09:00, 10:00"])
  /\ "Most active hours: 10:00, 09:00" <> "Most active hours: 09:00, 10:00".
Proof.
  repeat split; try (vm_compute; reflexivity). discriminate.
Qed.

(** ** The order of strings *)

Lemma ascii_compare_trans (a b c : ascii) :
  Ascii.compare a b = Lt -> Ascii.compare b c = Lt -> Ascii.compare a c = Lt.
Proof.
  unfold Ascii.compare. rewrite !N.compare_lt_iff. apply N.lt_trans.
Qed.

Lemma string_compare_trans (a b c : string) :
  String.compare a b = Lt -> String.compare b c = Lt -> String.compare a c = Lt.
Proof.
  revert b c. induction a as [|x a IH]; intros [|y b] [|z c]; cbn [String.compare];
    try discriminate; try reflexivity.
  destruct (Ascii.compare x y) eqn:Exy; try discriminate;
    destruct (Ascii.compare y z) eqn:Eyz; try discriminate; intros H1 H2.
  - apply Ascii.compare_eq_iff in Exy, Eyz. subst.
    assert (E : Ascii.compare z z = Eq) by (unfold Ascii.compare; apply N.compare_refl).
    rewrite E. now apply (IH b c).
  - apply Ascii.compare_eq_iff in Exy. subst. now rewrite Eyz.
  - apply Ascii.compare_eq_iff in Eyz. subst. now rewrite Exy.
  - now rewrite (ascii_compare_trans x y z Exy Eyz).
Qed.

Lemma string_compare_refl (a : string) : String.compare a a = Eq.
Proof.
  induction a as [|x a IH]; cbn [String.compare]; [reflexivity|].
  assert (E : Ascii.compare x x = Eq) by (unfold Ascii.compare; apply N.compare_refl).
  now rewrite E.
Qed.

Lemma ltb_asym (a b : string) : String.ltb a b = true -> String.ltb b a = false.
Proof.
  unfold String.ltb. rewrite (String.compare_antisym b a).
  destruct (String.compare a b); cbn; congruence.
Qed.

(** "Not less" is transitive. *)
Lemma nltb_trans (a b c : string) :
  String.ltb a b = false -> String.ltb b c = false -> String.ltb a c = false.
Proof.
  unfold String.ltb. intros H1 H2.
  destruct (String.compare a c) eqn:Eac; try reflexivity. exfalso.
  destruct (String.compare a b) eqn:Eab; try discriminate;
    destruct (String.compare b c) eqn:Ebc; try discriminate.
  - apply String.compare_eq_iff in Eab, Ebc. subst.
    rewrite string_compare_refl in Eac. discriminate.
  - apply String.compare_eq_iff in Eab. subst. congruence.
  - apply String.compare_eq_iff in Ebc. subst. congruence.
  - rewrite String.compare_antisym in Eab, Ebc.
    destruct (String.compare b a) eqn:Eba; try discriminate.
    destruct (String.compare c b) eqn:Ecb; try discriminate.
    pose proof (string_compare_trans c b a Ecb Eba) as Eca.
    rewrite String.compare_antisym, Eca in Eac. discriminate.
Qed.


(** ** Scanning for the first and the last event *)

Section Scan.
Variable lt : string -> string -> bool.
Variable better : pyval -> pyval -> result bool.
Hypothesis better_str : forall a b, better (VStr a) (VStr b) = Ok (lt a b).
Hypothesis lt_asym : forall a b, lt a b = true -> lt b a = false.
Hypothesis nlt_trans : forall a b c, lt a b = false -> lt b c = false -> lt a c = false.

Lemma timestamp_key_typed (e : pyval) :
  timestamp_typed e = true -> timestamp_key e = Ok (VStr (raw_timestamp e)).
Proof.
  destruct e; try discriminate. unfold timestamp_key, raw_timestamp. cbn [py_get lookup timestamp_typed].
  destruct (dict_get d (KStr "timestamp")) as [v|]; [|reflexivity].
  destruct v; try discriminate. reflexivity.
Qed.

Lemma scan_from (cur : pyval) (rest : list pyval) :
  timestamp_typed cur = true ->
  forallb timestamp_typed rest = true ->
  exists r,
    extremum_from timestamp_key better cur (VStr (raw_timestamp cur)) rest = Ok r
    /\ In r (cur :: rest)
    /\ forall y, In y (cur :: rest) -> lt (raw_timestamp y) (raw_timestamp r) = false.
Proof.
  revert cur. induction rest as [|x rest IH]; intros cur Hc Hr.
  - exists cur. split; [reflexivity|]. split; [now left|].
    intros y [<-|[]].
    destruct (lt (raw_timestamp cur) (raw_timestamp cur)) eqn:E; [|reflexivity].
    now rewrite (lt_asym _ _ E) in E.
  - cbn [forallb] in Hr. apply andb_prop in Hr as [Hx Hr].
    cbn [extremum_from]. rewrite (timestamp_key_typed x Hx). cbn [bind].
    rewrite better_str. cbn [bind].
    destruct (lt (raw_timestamp x) (raw_timestamp cur)) eqn:E.
    + destruct (IH x Hx Hr) as (r & Hrun & Hin & Hmin).
      exists r. split; [exact Hrun|]. split; [right; exact Hin|].
      intros y [<-|Hy]; [|now apply Hmin].
      apply (nlt_trans _ (raw_timestamp x)); [now apply lt_asym|].
      apply Hmin. now left.
    + destruct (IH cur Hc Hr) as (r & Hrun & Hin & Hmin).
      exists r. split; [exact Hrun|].
      split; [destruct Hin as [<-|Hin]; [now left|right; now right]|].
      intros y [<-|[<-|Hy]].
      * apply Hmin. now left.
      * apply (nlt_trans _ (raw_timestamp cur)); [exact E|]. apply Hmin. now left.
      * apply Hmin. now right.
Qed.

Lemma scan (evs : list pyval) :
  evs <> [] ->
  forallb timestamp_typed evs = true ->
  exists r,
    extremum timestamp_key better evs = Ok r
    /\ In r evs
    /\ forall y, In y evs -> lt (raw_timestamp y) (raw_timestamp r) = false.
Proof.
  intros Hne H. destruct evs as [|e evs]; [contradiction|].
  cbn [forallb] in H. apply andb_prop in H as [He Hevs].
  cbn [extremum]. rewrite (timestamp_key_typed e He). cbn [bind].
  now apply scan_from.
Qed.
End Scan.

(** [min] picks an event whose raw timestamp no event's is below. *)
Lemma min_by_timestamp (evs : list pyval) :
  evs <> [] ->
  forallb timestamp_typed evs = true ->
  exists r,
    py_min_by timestamp_key evs = Ok r
    /\ In r evs
    /\ forall y, In y evs -> String.ltb (raw_timestamp y) (raw_timestamp r) = false.
Proof.
  apply (scan String.ltb py_lt).
  - reflexivity.
  - apply ltb_asym.
  - apply nltb_trans.
Qed.

(** [max] picks an event whose raw timestamp is below no event's. *)
Lemma max_by_timestamp (evs : list pyval) :
  evs <> [] ->
  forallb timestamp_typed evs = true ->
  exists r,
    py_max_by timestamp_key evs = Ok r
    /\ In r evs
    /\ forall y, In y evs -> String.ltb (raw_timestamp r) (raw_timestamp y) = false.
Proof.
  apply (scan (fun a b => String.ltb b a) py_gt).
  - reflexivity.
  - intros a b. apply ltb_asym.
  - intros a b c H1 H2. now apply (nltb_trans c b a).
Qed.

(** ** The active duration *)

(** The hours of a number of microseconds: two divisions, neither of which
    can fail. *)
Lemma hours_of_microseconds (us : Z) :
  (secs <- total_seconds us ;; truediv secs (NInt 3600))
  = Ok (NFloat (fl (fl (inject_Z us / inject_Z 1000000) / 3600))).
Proof.
  unfold total_seconds. rewrite truediv_small_ok by discriminate. cbn [bind].
  rewrite truediv_const by (try discriminate; reflexivity).
  assert (E : fl (inject_Z 3600) = 3600%Q) by (vm_compute; reflexivity).
  now rewrite E.
Qed.

Lemma hours_between_cases (d1 d2 : datetime) :
  (exists x, hours_between d1 d2 = Ok x) \/ hours_between d1 d2 = Raise TypeError.
Proof.
  unfold hours_between, dt_sub.
  destruct (utcoffset d2), (utcoffset d1); cbn [bind]; try (right; reflexivity);
    rewrite hours_of_microseconds; left; eexists; reflexivity.
Qed.

Lemma hours_between_aware (d1 d2 : datetime) :
  is_aware d1 = is_aware d2 -> exists x, hours_between d1 d2 = Ok x.
Proof.
  intro H. destruct (hours_between_cases d1 d2) as [Hx|Hx]; [exact Hx|exfalso].
  unfold hours_between, dt_sub, is_aware in *.
  destruct (utcoffset d2), (utcoffset d1); try discriminate H;
    cbn [bind] in Hx; rewrite hours_of_microseconds in Hx; discriminate Hx.
Qed.


Section Duration.
Variable fromisoformat : string -> option datetime.

Lemma timestamp_of_typed (e : pyval) :
  timestamp_typed e = true ->
  match parsed_timestamp fromisoformat e with
  | Some d => timestamp_of fromisoformat e = Ok d
  | None => timestamp_of fromisoformat e = Raise KeyError
            \/ timestamp_of fromisoformat e = Raise ValueError
  end.
Proof.
  destruct e; try discriminate.
  unfold timestamp_of, parsed_timestamp. cbn [timestamp_typed lookup py_getitem].
  destruct (dict_get d (KStr "timestamp")) as [v|]; [|intros _; now left].
  destruct v; try discriminate. intros _. cbn [bind parse_timestamp].
  destruct (fromisoformat (replace_Z s)); [reflexivity|now right].
Qed.

(** The [try] block of [generate_daily_summary], on the first and the last
    event. *)
Lemma duration_caught (first last : pyval) :
  timestamp_typed first = true -> timestamp_typed last = true ->
  catching [ValueError; KeyError]
    (start_time <- timestamp_of fromisoformat first ;;
     end_time <- timestamp_of fromisoformat last ;;
     delta <- dt_sub end_time start_time ;;
     secs <- total_seconds delta ;;
     truediv secs (NInt 3600))
    (NInt 0)
  = duration_between fromisoformat first last.
Proof.
  intros Hf Hl. unfold duration_between.
  pose proof (timestamp_of_typed first Hf) as Tf.
  pose proof (timestamp_of_typed last Hl) as Tl.
  destruct (parsed_timestamp fromisoformat first) as [d1|].
  - rewrite Tf. cbn [bind].
    destruct (parsed_timestamp fromisoformat last) as [d2|].
    + rewrite Tl. cbn [bind]. fold (hours_between d1 d2).
      destruct (hours_between_cases d1 d2) as [[x ->]| ->]; reflexivity.
    + destruct Tl as [-> | ->]; reflexivity.
  - destruct Tf as [-> | ->]; reflexivity.
Qed.

Lemma typed_in (evs : list pyval) (e : pyval) :
  forallb timestamp_typed evs = true -> In e evs -> timestamp_typed e = true.
Proof. intros H Hin. rewrite forallb_forall in H. now apply H. Qed.

(** The active duration of a non-empty day whose timestamps are strings. *)
Lemma active_duration_typed (evs : list pyval) :
  evs <> [] ->
  forallb timestamp_typed evs = true ->
  exists first last,
    In first evs /\ In last evs
    /\ (forall y, In y evs -> String.ltb (raw_timestamp y) (raw_timestamp first) = false)
    /\ (forall y, In y evs -> String.ltb (raw_timestamp last) (raw_timestamp y) = false)
    /\ active_duration_of fromisoformat evs = duration_between fromisoformat first last.
Proof.
  intros Hne H.
  destruct (min_by_timestamp evs Hne H) as (first & Hmin & Hfin & Hfmin).
  destruct (max_by_timestamp evs Hne H) as (last & Hmax & Hlin & Hlmax).
  exists first, last. repeat split; try assumption.
  unfold active_duration_of. destruct evs as [|e evs]; [contradiction|].
  rewrite Hmin, Hmax. cbn [bind].
  apply duration_caught; eapply typed_in; eassumption.
Qed.

Lemma uniform_awareness_in (evs : list pyval) (e1 e2 : pyval) (d1 d2 : datetime) :
  uniform_awareness fromisoformat evs = true ->
  In e1 evs -> In e2 evs ->
  parsed_timestamp fromisoformat e1 = Some d1 ->
  parsed_timestamp fromisoformat e2 = Some d2 ->
  is_aware d1 = is_aware d2.
Proof.
  unfold uniform_awareness. intros H H1 H2 P1 P2.
  set (ds := flat_map _ evs) in H.
  assert (I1 : In d1 ds).
  { apply in_flat_map. exists e1. split; [exact H1|]. rewrite P1. now left. }
  assert (I2 : In d2 ds).
  { apply in_flat_map. exists e2. split; [exact H2|]. rewrite P2. now left. }
  apply orb_prop in H as [H|H]; rewrite forallb_forall in H;
    pose proof (H d1 I1) as A1; pose proof (H d2 I2) as A2.
  - congruence.
  - destruct (is_aware d1), (is_aware d2); try reflexivity; discriminate.
Qed.

Lemma active_duration_total (evs : list pyval) :
  forallb timestamp_typed evs = true ->
  uniform_awareness fromisoformat evs = true ->
  exists x, active_duration_of fromisoformat evs = Ok x.
Proof.
  intros H Hu. destruct evs as [|e evs]; [eexists; reflexivity|].
  destruct (active_duration_typed (e :: evs)) as (first & last & Hf & Hl & _ & _ & ->);
    [discriminate|exact H|].
  unfold duration_between.
  destruct (parsed_timestamp fromisoformat first) as [d1|] eqn:P1; [|eexists; reflexivity].
  destruct (parsed_timestamp fromisoformat last) as [d2|] eqn:P2; [|eexists; reflexivity].
  apply hours_between_aware.
  exact (uniform_awareness_in (e :: evs) first last d1 d2 Hu Hf Hl P1 P2).
Qed.

(** [generate_daily_summary] returns on every ready day. *)
Lemma summary_total (date now : string) (evs : list pyval) :
  summary_ready fromisoformat evs = true ->
  exists doc, generate_daily_summary fromisoformat date evs now = Ok doc.
Proof.
  unfold summary_ready. intro H.
  apply andb_prop in H as [H Hu]. apply andb_prop in H as [Hw Ht].
  destruct (analyze_total fromisoformat evs Hw) as [analysis Ha].
  destruct (active_duration_total evs Ht Hu) as [x Hx].
  unfold generate_daily_summary. rewrite Ha, Hx. cbn [bind]. eexists; reflexivity.
Qed.

(** The shape of a returned summary. *)
Lemma summary_shape (date now : string) (evs : list pyval) (doc : pyval) :
  generate_daily_summary fromisoformat date evs now = Ok doc ->
  exists analysis x,
    analyze_daily_patterns fromisoformat evs = Ok analysis
    /\ active_duration_of fromisoformat evs = Ok x
    /\ doc = VDict [(KStr "date", VStr date);
                    (KStr "total_activities", VInt (Z.of_nat (List.length evs)));
                    (KStr "active_duration_hours", of_num (round1 x));
                    (KStr "analysis", analysis);
                    (KStr "raw_activities", VList evs);
                    (KStr "generated_at", VStr now)].
Proof.
  unfold generate_daily_summary. intro H.
  apply bind_ok in H as (analysis & Ha & H). apply bind_ok in H as (x & Hx & H).
  injection H as <-. exists analysis, x. repeat split; assumption.
Qed.
End Duration.




(** ** The log reader *)

Section ReaderFacts.
Variable json_loads : string -> result pyval.
Variable strip : string -> string.

(** One line: it ends the reading, or adds its record, or is skipped. *)
Lemma read_line_cases (acc : list pyval) (line : string) :
  read_line json_loads strip acc line
  = match escaping json_loads strip line with
    | Some e => Raise e
    | None => Ok (acc ++ match decoded json_loads strip line with
                         | Some v => [v]
                         | None => []
                         end)
    end.
Proof.
  unfold read_line, escaping, decoded. cbv zeta.
  destruct (String.eqb (strip line) ""); cbn [negb]; [now rewrite app_nil_r|].
  destruct (json_loads (strip line)) as [v|e]; cbn [bind catching]; [reflexivity|].
  unfold is_instance. cbn [existsb].
  destruct e; cbn; try reflexivity; now rewrite app_nil_r.
Qed.

Lemma load_from (lines : list string) (acc : list pyval) :
  fold_result (read_line json_loads strip) lines acc
  = match first_escaping json_loads strip lines with
    | Some e => Raise e
    | None => Ok (acc ++ records json_loads strip lines)
    end.
Proof.
  revert acc.
  induction lines as [|l lines IH]; intro acc;
    cbn [fold_result first_escaping records flat_map].
  - now rewrite app_nil_r.
  - fold (records json_loads strip lines). rewrite read_line_cases.
    destruct (escaping json_loads strip l) as [e|]; cbn [bind]; [reflexivity|].
    rewrite IH. destruct (first_escaping json_loads strip lines); [reflexivity|].
    now rewrite <- app_assoc.
Qed.

(** The reader on a log that reads as text: it returns the records of the
    lines that decode, unless [json.loads] raises on a line an exception
    that is not caught. *)
Lemma load_lines (lines : list string) :
  load_daily_activities json_loads strip (Lines lines)
  = match first_escaping json_loads strip lines with
    | Some e => Raise e
    | None => Ok (records json_loads strip lines)
    end.
Proof. unfold load_daily_activities. now rewrite load_from. Qed.

(** The reader on a log that is not UTF-8 raises. *)
Lemma load_undecodable (lines : list string) :
  load_daily_activities json_loads strip (Undecodable lines)
  = match first_escaping json_loads strip lines with
    | Some e => Raise e
    | None => Raise UnicodeDecodeError
    end.
Proof.
  unfold load_daily_activities. rewrite load_from.
  now destruct (first_escaping json_loads strip lines).
Qed.


(** What the reader returns, when it returns. *)
Lemma load_ok (log : log_file) (evs : list pyval) :
  load_daily_activities json_loads strip log = Ok evs ->
  evs = match log with
        | Lines lines => records json_loads strip lines
        | _ => []
        end.
Proof.
  destruct log as [| |lines|lines].
  - now intros [= <-].
  - now intros [= <-].
  - rewrite load_lines. destruct (first_escaping _ _ _); [discriminate|now intros [= <-]].
  - rewrite load_undecodable. destruct (first_escaping _ _ _); discriminate.
Qed.

(** Removing the lines that do not decode changes nothing. *)
Lemma records_filter (lines : list string) :
  records json_loads strip (filter (decodes json_loads strip) lines)
  = records json_loads strip lines.
Proof.
  unfold records, decodes. induction lines as [|l lines IH]; cbn [filter flat_map]; [reflexivity|].
  destruct (decoded json_loads strip l) as [v|] eqn:E; cbn [flat_map app].
  - rewrite E. cbn [app]. now rewrite IH.
  - exact IH.
Qed.


End ReaderFacts.

(** ** The documents *)

(** C10.  On every ready day [generate_daily_summary] returns a document.
    Every document it returns has the fields [date], [total_activities],
    [active_duration_hours], [analysis], [raw_activities] and [generated_at],
    in this order, and [raw_activities] holds the list the reader returned,
    which is the list of the records of the lines that decode.  A document
    returned by [prepare_ai_summary_data] has the fields [date],
    [productivity_metrics], [behavior_patterns], [insights] and
    [recommendations_needed] only: it has no [raw_activities] field, and the
    two nested objects hold the metric and pattern fields only. *)
Theorem summary_holds_raw_activities
        (json_loads : string -> result pyval) (strip : string -> string)
        (fromisoformat : string -> option datetime)
        (date now : string) (log : log_file) (activities : list pyval) :
  load_daily_activities json_loads strip log = Ok activities ->
  (summary_ready fromisoformat activities = true ->
   exists doc,
     generate_daily_summary_of json_loads strip fromisoformat log date now = Ok doc)
  /\ (forall doc,
         generate_daily_summary_of json_loads strip fromisoformat log date now = Ok doc ->
         doc_keys doc = [KStr "date"; KStr "total_activities"; KStr "active_duration_hours";
                         KStr "analysis"; KStr "raw_activities"; KStr "generated_at"]
         /\ lookup doc "raw_activities" = Some (VList activities)
         /\ activities
            = match log with
              | Lines lines => records json_loads strip lines
              | _ => []
              end
         /\ result_field (analyze_daily_patterns fromisoformat activities) "insights"
            = lookup2 doc "analysis" "insights")
  /\ (forall ai,
         prepare_ai_summary_data_of json_loads strip fromisoformat log date now = Ok ai ->
         doc_keys ai = [KStr "date"; KStr "productivity_metrics"; KStr "behavior_patterns";
                        KStr "insights"; KStr "recommendations_needed"]
         /\ lookup ai "raw_activities" = None
         /\ option_map doc_keys (lookup ai "productivity_metrics")
            = Some [KStr "total_work_minutes"; KStr "break_compliance_rate";
                    KStr "deep_work_sessions"; KStr "total_breaks_taken";
                    KStr "total_breaks_suggested"]
         /\ option_map doc_keys (lookup ai "behavior_patterns")
            = Some [KStr "commands_used"; KStr "pause_resume_events";
                    KStr "break_reschedules"; KStr "preferred_break_type";
                    KStr "peak_activity_hours"]).
Proof.
  intro Hl. unfold generate_daily_summary_of, prepare_ai_summary_data_of.
  rewrite Hl. cbn [bind].
  split; [apply summary_total|]. split.
  - intros doc H. apply summary_shape in H as (analysis & x & Ha & _ & ->).
    split; [reflexivity|]. split; [reflexivity|]. split.
    + now apply load_ok in Hl.
    + rewrite Ha. reflexivity.
  - intros ai H. unfold prepare_ai_summary_data in H. bind_inv H.
    repeat split; reflexivity.
Qed.

Lemma summary_holds_raw_activities_witness :
  exists doc,
    generate_daily_summary_of json_loads_sample strip_ascii fromisoformat_std
      (Lines ["{}"; "{"; " {} "]) "2024-01-01" "2024-01-02T00:00:00" = Ok doc
    /\ lookup doc "raw_activities" = Some (VList [VDict []; VDict []]).
Proof.
  destruct (summary_holds_raw_activities json_loads_sample strip_ascii fromisoformat_std
              "2024-01-01" "2024-01-02T00:00:00" (Lines ["{}"; "{"; " {} "])
              [VDict []; VDict []])
    as (Htot & Hdoc & _); [vm_compute; reflexivity|].
  destruct Htot as [doc Hd]; [vm_compute; reflexivity|].
  exists doc. split; [exact Hd|].
  now destruct (Hdoc doc Hd) as (_ & -> & _).
Defined.
(** ** The counters of the analysis *)

Lemma has_type_other (a b : string) (e : pyval) :
  has_type a e = true -> a <> b -> has_type b e = false.
Proof. unfold has_type. apply is_str_other. Qed.

(** An event feeds at most one of the six counters. *)
Lemma counted_once (e : pyval) :
  b2z (has_type "break_shown" e) + b2z (has_type "break_completed" e)
  + b2z (is_deep_work e) + b2z (has_type "command_received" e)
  + b2z (has_type "pause_toggled" e) + b2z (has_type "break_rescheduled" e) <= 1.
Proof.
  unfold is_deep_work.
  destruct (has_type "break_shown" e) eqn:E1.
  { rewrite !(has_type_other _ _ _ E1) by discriminate. cbn. lia. }
  destruct (has_type "break_completed" e) eqn:E2.
  { rewrite !(has_type_other _ _ _ E2) by discriminate. cbn. lia. }
  destruct (has_type "session_started" e) eqn:E3.
  { rewrite !(has_type_other _ _ _ E3) by discriminate. cbn [andb b2z].
    destruct (is_str "deep_work" _); cbn; lia. }
  cbn [andb].
  destruct (has_type "command_received" e) eqn:E4.
  { rewrite !(has_type_other _ _ _ E4) by discriminate. cbn. lia. }
  destruct (has_type "pause_toggled" e) eqn:E5.
  { rewrite !(has_type_other _ _ _ E5) by discriminate. cbn. lia. }
  destruct (has_type "break_rescheduled" e); cbn; lia.
Qed.

Lemma counted_once_all (evs : list pyval) :
  count_events "break_shown" evs + count_events "break_completed" evs
  + count_where is_deep_work evs + count_events "command_received" evs
  + count_events "pause_toggled" evs + count_events "break_rescheduled" evs
  <= Z.of_nat (List.length evs).
Proof.
  unfold count_events. induction evs as [|e evs IH].
  - unfold count_where. cbn. lia.
  - rewrite !count_where_cons. pose proof (counted_once e).
    cbn [List.length]. lia.
Qed.

(** The tally that the loop leaves, in terms of the events. *)
Lemma loop_counts (fromisoformat : string -> option datetime) (evs : list pyval) (t : tally) :
  fold_result (process fromisoformat) evs init_tally = Ok t ->
  break_count t = count_events "break_shown" evs
  /\ break_completed_count t = count_events "break_completed" evs
  /\ deep_work_sessions t = count_where is_deep_work evs
  /\ commands_used t = count_events "command_received" evs
  /\ pause_events t = count_events "pause_toggled" evs
  /\ reschedule_count t = count_events "break_rescheduled" evs.
Proof.
  intro H. apply (loop_fields _ _ _ _ init_tally_shape) in H.
  destruct H as (F1 & F2 & F3 & F4 & F5 & F6 & _ & _).
  cbn [init_tally break_count break_completed_count deep_work_sessions commands_used
       pause_events reschedule_count] in *.
  repeat split; lia.
Qed.

(** X1.  Whenever the analysis returns, [total_breaks],
    [deep_work_sessions], [commands_used] and [pause_events] are the numbers
    of [break_shown] events, of [session_started] events whose session type
    is [deep_work], of [command_received] events and of [pause_toggled]
    events; an event is counted by at most one of the six counters, so that
    the six together never exceed the number of records. *)
Theorem analysis_counters (fromisoformat : string -> option datetime)
        (evs : list pyval) (doc : pyval) :
  analyze_daily_patterns fromisoformat evs = Ok doc ->
  lookup doc "total_breaks" = Some (VInt (count_events "break_shown" evs))
  /\ lookup doc "deep_work_sessions" = Some (VInt (count_where is_deep_work evs))
  /\ lookup doc "commands_used" = Some (VInt (count_events "command_received" evs))
  /\ lookup doc "pause_events" = Some (VInt (count_events "pause_toggled" evs))
  /\ count_events "break_shown" evs + count_events "break_completed" evs
     + count_where is_deep_work evs + count_events "command_received" evs
     + count_events "pause_toggled" evs + count_events "break_rescheduled" evs
     <= Z.of_nat (List.length evs).
Proof.
  intro H. split; [|split; [|split; [|split]]]; try apply counted_once_all;
    destruct evs as [|e evs];
    try (injection H as <-; reflexivity);
    apply analyze_cons in H as (v & t & x & _ & Ht & _ & ->);
    apply loop_counts in Ht as (F1 & F2 & F3 & F4 & F5 & F6);
    cbn [lookup dict_get assoc_get key_eqb String.eqb Ascii.eqb Bool.eqb];
    congruence.
Qed.

Lemma analysis_counters_witness :
  exists doc,
    analyze_daily_patterns fromisoformat_std
      [ev "break_shown"; ev "pause_toggled"; ev "command_received"; ev "other"] = Ok doc
    /\ lookup doc "total_breaks" = Some (VInt 1)
    /\ lookup doc "pause_events" = Some (VInt 1).
Proof.
  destruct (analyze_daily_patterns fromisoformat_std
              [ev "break_shown"; ev "pause_toggled"; ev "command_received"; ev "other"])
    as [doc|e] eqn:E; [|vm_compute in E; discriminate E].
  exists doc. split; [reflexivity|].
  destruct (analysis_counters _ _ _ E) as (H1 & _ & _ & H4 & _).
  rewrite H1, H4. split; vm_compute; reflexivity.
Defined.

(** ** The break types *)

Lemma known_break_count (evs : list pyval) :
  count_where (shows_break "eye_care") evs + count_where (shows_break "custom_message") evs
  = count_where known_break evs
  /\ count_where known_break evs <= count_events "break_shown" evs
  /\ (count_where known_break evs = count_events "break_shown" evs
      <-> forall e, In e evs -> has_type "break_shown" e = true -> known_break e = true).
Proof.
  unfold count_events. induction evs as [|e evs (IH1 & IH2 & IH3)].
  - unfold count_where. cbn. repeat split; try lia; intros _ e' [].
  - rewrite !count_where_cons.
    assert (He : b2z (shows_break "eye_care" e) + b2z (shows_break "custom_message" e)
                 = b2z (known_break e)
                 /\ b2z (known_break e) <= b2z (has_type "break_shown" e)
                 /\ (b2z (known_break e) = b2z (has_type "break_shown" e)
                     <-> (has_type "break_shown" e = true -> known_break e = true))).
    { unfold known_break, shows_break.
      destruct (has_type "break_shown" e); cbn [andb orb b2z].
      - destruct (is_str "eye_care" _) eqn:E1.
        + rewrite (is_str_other _ "custom_message" _ E1) by discriminate.
          cbn. repeat split; try lia; auto.
        + destruct (is_str "custom_message" _); cbn; repeat split; try lia; auto;
            intro H; try discriminate; specialize (H eq_refl); discriminate.
      - repeat split; try lia; intros; discriminate. }
    destruct He as (E1 & E2 & E3).
    pose proof (count_where_nonneg known_break evs).
    split; [lia|]. split; [lia|]. split.
    + intros Heq e' [<-|Hin].
      * apply E3. lia.
      * apply IH3; [lia|exact Hin].
    + intro Hall.
      assert (A : b2z (known_break e) = b2z (has_type "break_shown" e)).
      { apply E3. apply Hall. now left. }
      assert (B : count_where known_break evs = count_where (has_type "break_shown") evs).
      { apply IH3. intros e' Hin. apply Hall. now right. }
      lia.
Qed.

(** X2.  The [break_types] map of the analysis of a non-empty day has the
    two keys [eye_care] and [custom_message] and no other, whatever break
    types the log holds.  Their counts are the numbers of [break_shown]
    events of these types; they add up to at most [total_breaks], with
    equality exactly when every shown break is of one of the two types. *)
Theorem break_types_partition (fromisoformat : string -> option datetime)
        (e : pyval) (evs : list pyval) (doc : pyval) :
  analyze_daily_patterns fromisoformat (e :: evs) = Ok doc ->
  lookup doc "break_types"
  = Some (types_dict [("eye_care", count_where (shows_break "eye_care") (e :: evs));
                      ("custom_message",
                       count_where (shows_break "custom_message") (e :: evs))])
  /\ lookup doc "total_breaks" = Some (VInt (count_events "break_shown" (e :: evs)))
  /\ count_where (shows_break "eye_care") (e :: evs)
     + count_where (shows_break "custom_message") (e :: evs)
     <= count_events "break_shown" (e :: evs)
  /\ (count_where (shows_break "eye_care") (e :: evs)
      + count_where (shows_break "custom_message") (e :: evs)
      = count_events "break_shown" (e :: evs)
      <-> forall x, In x (e :: evs) -> has_type "break_shown" x = true ->
                    known_break x = true).
Proof.
  intro H. apply analyze_cons in H as (v & t & x & _ & Ht & _ & ->).
  pose proof (loop_types _ _ _ Ht) as Hbt.
  apply loop_counts in Ht as (F1 & _).
  destruct (known_break_count (e :: evs)) as (K1 & K2 & K3).
  cbn [lookup dict_get assoc_get key_eqb String.eqb Ascii.eqb Bool.eqb].
  rewrite Hbt, F1, K1. repeat split; try assumption; apply K3.
Qed.

Lemma break_types_partition_witness :
  exists doc,
    analyze_daily_patterns fromisoformat_std
      [shown "eye_care"; shown "stretch"; shown "custom_message"; shown "eye_care"] = Ok doc
    /\ lookup doc "break_types"
       = Some (types_dict [("eye_care", 2); ("custom_message", 1)])
    /\ lookup doc "total_breaks" = Some (VInt 4).
Proof.
  destruct (analyze_daily_patterns fromisoformat_std
              [shown "eye_care"; shown "stretch"; shown "custom_message"; shown "eye_care"])
    as [doc|e] eqn:E; [|vm_compute in E; discriminate E].
  exists doc. split; [reflexivity|].
  destruct (break_types_partition _ _ _ _ E) as (H1 & H2 & _).
  rewrite H1, H2. split; vm_compute; reflexivity.
Defined.

(** ** The work minutes *)

Lemma dict_mem_get {A : Type} (d : list (key * A)) (k : key) :
  dict_mem d k = true -> exists v, dict_get d k = Some v.
Proof.
  unfold dict_mem. destruct (dict_get d k) as [v|]; [eauto|discriminate].
Qed.

(** X3.  [total_work_minutes] is read from the last record of the day only:
    it is the [total_work_minutes_today] of that record's [system_state],
    taken as it stands, and 0 when the last record has no [system_state] or
    no such entry.  The snapshots of the earlier records play no part. *)
Theorem work_minutes_from_last_record (fromisoformat : string -> option datetime)
        (evs : list pyval) (e : pyval) (doc : pyval) :
  analyze_daily_patterns fromisoformat (evs ++ [e]) = Ok doc ->
  lookup doc "total_work_minutes" = Some (work_minutes_snapshot e).
Proof.
  intro H. destruct (evs ++ [e]) as [|a l] eqn:E.
  { symmetry in E. now apply app_cons_not_nil in E. }
  apply analyze_cons in H as (v & t & x & Hv & _ & _ & ->).
  apply final_work_minutes_value in Hv. rewrite <- E, last_last in Hv. subst v.
  reflexivity.
Qed.

Lemma work_minutes_from_last_record_witness :
  exists doc,
    analyze_daily_patterns fromisoformat_std
      ([VDict [(KStr "system_state", VDict [(KStr "total_work_minutes_today", VInt 300)])]]
       ++ [VDict [(KStr "system_state", VDict [(KStr "total_work_minutes_today", VInt 45)])]])
    = Ok doc
    /\ lookup doc "total_work_minutes" = Some (VInt 45).
Proof.
  destruct (analyze_daily_patterns fromisoformat_std
      ([VDict [(KStr "system_state", VDict [(KStr "total_work_minutes_today", VInt 300)])]]
       ++ [VDict [(KStr "system_state", VDict [(KStr "total_work_minutes_today", VInt 45)])]]))
    as [doc|e] eqn:E; [|vm_compute in E; discriminate E].
  exists doc. split; [reflexivity|].
  rewrite (work_minutes_from_last_record _ _ _ _ E). vm_compute. reflexivity.
Defined.

(** ** The thresholds of the insight rules *)

Lemma single_in {A : Type} (b : bool) (m x : A) :
  In x (if b then [m] else []) <-> b = true /\ x = m.
Proof.
  destruct b; cbn [In]; split.
  - intros [<-|[]]. now split.
  - intros [_ ->]. now left.
  - contradiction.
  - intros [H _]. discriminate.
Qed.

Lemma compliance_in (x : num) (m : string) :
  In m (if num_ltb x (NInt 50) then [low_compliance_msg]
        else if num_ltb (NInt 90) x then [high_compliance_msg] else [])
  <-> (num_ltb x (NInt 50) = true /\ m = low_compliance_msg)
      \/ (num_ltb x (NInt 50) = false /\ num_ltb (NInt 90) x = true
          /\ m = high_compliance_msg).
Proof.
  destruct (num_ltb x (NInt 50)); [|destruct (num_ltb (NInt 90) x)]; cbn [In]; split.
  - intros [<-|[]]. left. now split.
  - intros [[_ ->]|(H & _)]; [now left|discriminate].
  - intros [<-|[]]. right. now repeat split.
  - intros [[H _]|(_ & _ & ->)]; [discriminate|now left].
  - contradiction.
  - intros [[H _]|(_ & H & _)]; discriminate.
Qed.

Lemma peak_in (t : tally) (m : string) :
  In m (match peak_hours_of t with
        | [] => []
        | peak_hours => [peak_hours_msg peak_hours]
        end)
  -> exists p, m = peak_hours_msg p.
Proof.
  destruct (peak_hours_of t) as [|a l]; cbn [In]; [contradiction|].
  intros [<-|[]]. eexists. reflexivity.
Qed.

(** Membership in the insight list, rule by rule. *)
Lemma insights_in (t : tally) (x : num) (m : string) :
  In m (insights_of t x)
  <-> ((num_ltb x (NInt 50) = true /\ m = low_compliance_msg)
       \/ (num_ltb x (NInt 50) = false /\ num_ltb (NInt 90) x = true
           /\ m = high_compliance_msg))
      \/ ((0 <? deep_work_sessions t) = true /\ m = deep_work_msg (deep_work_sessions t))
      \/ (num_ltb (mul (NInt (break_count t)) (NFloat float_0_3))
                  (NInt (reschedule_count t)) = true /\ m = reschedule_msg)
      \/ ((3 <? pause_events t) = true /\ m = pause_msg)
      \/ ((5 <? commands_used t) = true /\ m = commands_msg)
      \/ In m (match peak_hours_of t with
               | [] => []
               | peak_hours => [peak_hours_msg peak_hours]
               end).
Proof.
  unfold insights_of. rewrite !in_app_iff, compliance_in, !single_in. reflexivity.
Qed.

(** The insights of a returned analysis are those of the tally of the day. *)
Lemma analysis_insights (fromisoformat : string -> option datetime)
      (evs : list pyval) (doc : pyval) :
  analyze_daily_patterns fromisoformat evs = Ok doc ->
  evs = [] /\ lookup doc "insights" = Some (VList [])
  \/ exists t x,
       evs <> []
       /\ fold_result (process fromisoformat) evs init_tally = Ok t
       /\ compliance_of t = Ok x
       /\ lookup doc "insights" = Some (VList (map VStr (insights_of t x))).
Proof.
  intro H. destruct evs as [|e evs].
  - left. injection H as <-. split; reflexivity.
  - right. apply analyze_cons in H as (v & t & x & _ & Ht & Hx & ->).
    exists t, x. repeat split; try assumption. discriminate.
Qed.

(** X4.  The thresholds of three insight rules, in terms of the events: the
    deep-work insight, which names the number of deep-work sessions, is
    emitted exactly when there is at least one such session; the pause
    warning exactly when there are more than 3 [pause_toggled] events; the
    voice-command insight exactly when there are more than 5
    [command_received] events. *)
Theorem insight_thresholds (fromisoformat : string -> option datetime)
        (evs : list pyval) (doc : pyval) :
  analyze_daily_patterns fromisoformat evs = Ok doc ->
  exists insights : list string,
    lookup doc "insights" = Some (VList (map VStr insights))
    /\ (In (deep_work_msg (count_where is_deep_work evs)) insights
        <-> 0 < count_where is_deep_work evs)
    /\ (In pause_msg insights <-> 3 < count_events "pause_toggled" evs)
    /\ (In commands_msg insights <-> 5 < count_events "command_received" evs).
Proof.
  intro H. destruct (analysis_insights _ _ _ H) as [[-> Hl]|(t & x & _ & Ht & _ & Hl)].
  - exists []. split; [exact Hl|].
    repeat split; try contradiction; unfold count_events, count_where; cbn; lia.
  - exists (insights_of t x). split; [exact Hl|].
    apply loop_counts in Ht as (_ & _ & F3 & F4 & F5 & _).
    rewrite <- F3, <- F4, <- F5, !insights_in.
    repeat split.
    + intros [[[_ E]|(_ & _ & E)]|[[E _]|[[_ E]|[[_ E]|[[_ E]|E]]]]];
        try discriminate E.
      * now apply Z.ltb_lt.
      * apply peak_in in E as [p E]. discriminate E.
    + intro L. right. left. split; [now apply Z.ltb_lt|reflexivity].
    + intros [[[_ E]|(_ & _ & E)]|[[_ E]|[[_ E]|[[E _]|[[_ E]|E]]]]];
        try discriminate E.
      * now apply Z.ltb_lt.
      * apply peak_in in E as [p E]. discriminate E.
    + intro L. right. right. right. left. split; [now apply Z.ltb_lt|reflexivity].
    + intros [[[_ E]|(_ & _ & E)]|[[_ E]|[[_ E]|[[_ E]|[[E _]|E]]]]];
        try discriminate E.
      * now apply Z.ltb_lt.
      * apply peak_in in E as [p E]. discriminate E.
    + intro L. right. right. right. right. left. split; [now apply Z.ltb_lt|reflexivity].
Qed.

Lemma insight_thresholds_witness :
  exists doc insights,
    analyze_daily_patterns fromisoformat_std
      [ev "pause_toggled"; ev "pause_toggled"; ev "pause_toggled"; ev "pause_toggled"]
    = Ok doc
    /\ lookup doc "insights" = Some (VList (map VStr insights))
    /\ In pause_msg insights.
Proof.
  destruct (analyze_daily_patterns fromisoformat_std
      [ev "pause_toggled"; ev "pause_toggled"; ev "pause_toggled"; ev "pause_toggled"])
    as [doc|e] eqn:E; [|vm_compute in E; discriminate E].
  destruct (insight_thresholds _ _ _ E) as (insights & Hl & _ & Hp & _).
  exists doc, insights. split; [reflexivity|]. split; [exact Hl|].
  apply Hp. vm_compute. reflexivity.
Defined.

(** ** The compliance insights *)

Lemma low_in (t : tally) (x : num) :
  In low_compliance_msg (insights_of t x) <-> num_ltb x (NInt 50) = true.
Proof.
  rewrite insights_in. split.
  - intros [[[E _]|(_ & _ & E)]|[[_ E]|[[_ E]|[[_ E]|[[_ E]|E]]]]];
      try discriminate E; [exact E|].
    apply peak_in in E as [p E]. discriminate E.
  - intro E. left. left. now split.
Qed.

Lemma high_in (t : tally) (x : num) :
  In high_compliance_msg (insights_of t x)
  <-> num_ltb x (NInt 50) = false /\ num_ltb (NInt 90) x = true.
Proof.
  rewrite insights_in. split.
  - intros [[[_ E]|(E1 & E2 & _)]|[[_ E]|[[_ E]|[[_ E]|[[_ E]|E]]]]];
      try discriminate E; [now split|].
    apply peak_in in E as [p E]. discriminate E.
  - intros [E1 E2]. left. right. now repeat split.
Qed.

Lemma num_ltb_lt (a b : num) : num_ltb a b = true <-> (to_Q a < to_Q b)%Q.
Proof.
  unfold num_ltb. rewrite negb_true_iff. split.
  - intro H. destruct (Qlt_le_dec (to_Q a) (to_Q b)) as [L|L]; [exact L|].
    apply Qle_bool_iff in L. congruence.
  - intro L. destruct (Qle_bool (to_Q b) (to_Q a)) eqn:E; [|reflexivity].
    apply Qle_bool_iff in E. lra.
Qed.

Lemma num_ltb_ge (a b : num) : num_ltb a b = false <-> (to_Q b <= to_Q a)%Q.
Proof.
  unfold num_ltb. rewrite negb_false_iff. apply Qle_bool_iff.
Qed.

(** The compliance percentage of [c] completed out of [t] shown breaks, as
    the analyzer computes it: [c / t * 100] in binary64. *)
Lemma compliance_float (tl : tally) (x : num) :
  0 < break_count tl ->
  compliance_of tl = Ok x ->
  x = NFloat (fl (fl (inject_Z (break_completed_count tl) / inject_Z (break_count tl)) * 100)).
Proof.
  intros Ht H. unfold compliance_of in H.
  apply Z.ltb_lt in Ht. rewrite Ht in H. apply Z.ltb_lt in Ht.
  rewrite truediv_small_ok in H by lia.
  cbn [bind mul to_float] in H. rewrite fl_100 in H. now injection H as <-.
Qed.

Lemma fl_half : (fl (1 # 2) == 1 # 2)%Q.
Proof. vm_compute. reflexivity. Qed.

Lemma fl_50 : (fl 50 == 50)%Q.
Proof. vm_compute. reflexivity. Qed.

Lemma fl_below_half : (fl (1099511627775 # 2199023255552) == 1099511627775 # 2199023255552)%Q.
Proof. vm_compute. reflexivity. Qed.

Lemma fl_below_50 : (fl ((1099511627775 # 2199023255552) * 100) < 50)%Q.
Proof. vm_compute. reflexivity. Qed.

Lemma fl_nine_tenths : (fl (fl (9 # 10) * 100) <= 90)%Q.
Proof. vm_compute. discriminate. Qed.

Lemma fl_above_nine_tenths :
  (90 < fl (fl ((9 # 10) + (1 # 17592186044416)) * 100))%Q.
Proof. vm_compute. reflexivity. Qed.

(** Below one half: with fewer than [2^40] breaks shown, the float
    percentage is below 50 exactly when [2 * c < t]. *)
Lemma low_exact (c t : Z) :
  0 <= c -> 0 < t < 2 ^ 40 ->
  (fl (fl (inject_Z c / inject_Z t) * 100) < 50)%Q <-> 2 * c < t.
Proof.
  intros Hc [Ht0 Ht].
  assert (Htq : (0 < inject_Z t)%Q).
  { change 0%Q with (inject_Z 0). now rewrite <- Zlt_Qlt. }
  assert (Htq' : (inject_Z t < 1099511627776)%Q).
  { change 1099511627776%Q with (inject_Z (2 ^ 40)). now rewrite <- Zlt_Qlt. }
  assert (Hcq : (0 <= inject_Z c)%Q).
  { change 0%Q with (inject_Z 0). now rewrite <- Zle_Qle. }
  set (q := (inject_Z c / inject_Z t)%Q).
  assert (Hq0 : (0 <= q)%Q).
  { apply Qle_shift_div_l; [exact Htq|]. lra. }
  pose proof (fl_nonneg q Hq0) as Ha0.
  split.
  - intro H. destruct (Z_lt_le_dec (2 * c) t) as [L|L]; [exact L|exfalso].
    rewrite Zle_Qle, inject_Z_mult in L. change (inject_Z 2) with 2%Q in L.
    assert (Hq : ((1 # 2) <= q)%Q).
    { apply Qle_shift_div_l; [exact Htq|]. lra. }
    pose proof (fl_ge_float q (1 # 2) ltac:(lra) Hq fl_half) as Ha.
    assert (Hx : (50 <= fl (fl q * 100))%Q).
    { apply fl_ge_float; [lra|lra|exact fl_50]. }
    lra.
  - intro L. assert (L' : 2 * c + 1 <= t) by lia.
    rewrite Zle_Qle, inject_Z_plus, inject_Z_mult in L'.
    change (inject_Z 2) with 2%Q in L'. change (inject_Z 1) with 1%Q in L'.
    assert (Hq : (q <= 1099511627775 # 2199023255552)%Q).
    { apply Qle_shift_div_r; [exact Htq|]. lra. }
    pose proof (fl_le_float q _ Hq0 Hq fl_below_half) as Ha.
    assert (Hx : (fl (fl q * 100) <= fl ((1099511627775 # 2199023255552) * 100))%Q).
    { apply fl_mono; lra. }
    pose proof fl_below_50. lra.
Qed.

(** Above nine tenths: with fewer than [2^40] breaks shown, the float
    percentage is above 90 exactly when [9 * t < 10 * c]. *)
Lemma high_exact (c t : Z) :
  0 <= c -> 0 < t < 2 ^ 40 ->
  (90 < fl (fl (inject_Z c / inject_Z t) * 100))%Q <-> 9 * t < 10 * c.
Proof.
  intros Hc [Ht0 Ht].
  assert (Htq : (0 < inject_Z t)%Q).
  { change 0%Q with (inject_Z 0). now rewrite <- Zlt_Qlt. }
  assert (Htq' : (inject_Z t < 1099511627776)%Q).
  { change 1099511627776%Q with (inject_Z (2 ^ 40)). now rewrite <- Zlt_Qlt. }
  assert (Hcq : (0 <= inject_Z c)%Q).
  { change 0%Q with (inject_Z 0). now rewrite <- Zle_Qle. }
  set (q := (inject_Z c / inject_Z t)%Q).
  assert (Hq0 : (0 <= q)%Q).
  { apply Qle_shift_div_l; [exact Htq|]. lra. }
  pose proof (fl_nonneg q Hq0) as Ha0.
  split.
  - intro H. destruct (Z_lt_le_dec (9 * t) (10 * c)) as [L|L]; [exact L|exfalso].
    rewrite Zle_Qle, !inject_Z_mult in L.
    change (inject_Z 10) with 10%Q in L. change (inject_Z 9) with 9%Q in L.
    assert (Hq : (q <= 9 # 10)%Q).
    { apply Qle_shift_div_r; [exact Htq|]. lra. }
    pose proof (fl_mono q (9 # 10) Hq0 Hq) as Ha.
    assert (Hx : (fl (fl q * 100) <= fl (fl (9 # 10) * 100))%Q).
    { apply fl_mono; lra. }
    pose proof fl_nine_tenths. lra.
  - intro L. assert (L' : 9 * t + 1 <= 10 * c) by lia.
    rewrite Zle_Qle, inject_Z_plus, !inject_Z_mult in L'.
    change (inject_Z 10) with 10%Q in L'. change (inject_Z 9) with 9%Q in L'.
    change (inject_Z 1) with 1%Q in L'.
    assert (Hq : ((9 # 10) + (1 # 17592186044416) <= q)%Q).
    { apply Qle_shift_div_l; [exact Htq|]. lra. }
    assert (HL0 : (0 <= (9 # 10) + (1 # 17592186044416))%Q) by lra.
    pose proof (fl_mono _ q HL0 Hq) as Ha.
    assert (Ha1 : (0 <= fl ((9 # 10) + (1 # 17592186044416)))%Q).
    { apply fl_nonneg. lra. }
    assert (Hx : (fl (fl ((9 # 10) + (1 # 17592186044416)) * 100) <= fl (fl q * 100))%Q).
    { apply fl_mono; lra. }
    pose proof fl_above_nine_tenths. lra.
Qed.

(** X5.  The two compliance insights, in terms of the events.  They are
    never emitted together.  On a non-empty day without any [break_shown]
    event the low-compliance warning is emitted.  With fewer than [2^40]
    breaks shown, the low-compliance warning is emitted exactly when fewer
    than half of the shown breaks were completed, and the
    excellent-compliance insight exactly when more than nine tenths were:
    the float computation decides the exact comparisons. *)
Theorem compliance_insights (fromisoformat : string -> option datetime)
        (evs : list pyval) (doc : pyval) :
  analyze_daily_patterns fromisoformat evs = Ok doc ->
  exists insights : list string,
    lookup doc "insights" = Some (VList (map VStr insights))
    /\ ~ (In low_compliance_msg insights /\ In high_compliance_msg insights)
    /\ (evs <> [] -> count_events "break_shown" evs = 0 ->
        In low_compliance_msg insights)
    /\ (0 < count_events "break_shown" evs < 2 ^ 40 ->
        (In low_compliance_msg insights
         <-> 2 * count_events "break_completed" evs < count_events "break_shown" evs)
        /\ (In high_compliance_msg insights
            <-> 9 * count_events "break_shown" evs
                < 10 * count_events "break_completed" evs)).
Proof.
  intro H. destruct (analysis_insights _ _ _ H) as [[-> Hl]|(t & x & _ & Ht & Hx & Hl)].
  - exists []. split; [exact Hl|]. split; [intros [[] _]|].
    split; [intros Hne; now contradiction Hne|].
    unfold count_events, count_where. cbn. lia.
  - exists (insights_of t x). split; [exact Hl|].
    apply loop_counts in Ht as (F1 & F2 & _).
    rewrite low_in, high_in. rewrite <- F1, <- F2.
    split; [intros [E1 [E2 _]]; congruence|]. split.
    + intros _ Hz. unfold compliance_of in Hx. rewrite Hz in Hx.
      injection Hx as <-. reflexivity.
    + intros [Ht0 Ht40].
      pose proof (count_where_nonneg (has_type "break_completed") evs) as Hc.
      fold (count_events "break_completed" evs) in Hc. rewrite <- F2 in Hc.
      rewrite (compliance_float t x Ht0 Hx).
      rewrite num_ltb_ge, !num_ltb_lt. cbn [to_Q].
      change (inject_Z 50) with 50%Q. change (inject_Z 90) with 90%Q.
      pose proof (low_exact _ _ Hc (conj Ht0 Ht40)) as Lo.
      pose proof (high_exact _ _ Hc (conj Ht0 Ht40)) as Hi.
      split; [exact Lo|]. split.
      * intros [_ G]. now apply Hi.
      * intro G. split; [|now apply Hi].
        destruct (Qlt_le_dec
                    (fl (fl (inject_Z (break_completed_count t) / inject_Z (break_count t))
                         * 100)) 50) as [L|L]; [|exact L].
        apply Lo in L. lia.
Qed.

Lemma compliance_insights_witness :
  exists doc insights,
    analyze_daily_patterns fromisoformat_std
      [ev "break_shown"; ev "break_shown"; ev "break_shown"; ev "break_completed"] = Ok doc
    /\ lookup doc "insights" = Some (VList (map VStr insights))
    /\ In low_compliance_msg insights.
Proof.
  destruct (analyze_daily_patterns fromisoformat_std
      [ev "break_shown"; ev "break_shown"; ev "break_shown"; ev "break_completed"])
    as [doc|e] eqn:E; [|vm_compute in E; discriminate E].
  destruct (compliance_insights _ _ _ E) as (insights & Hl & _ & _ & Hx).
  exists doc, insights. split; [reflexivity|]. split; [exact Hl|].
  apply Hx; vm_compute; [split; reflexivity|reflexivity].
Defined.

(** ** The hourly histogram as a partition of the events *)

Lemma assoc_set_total (h : list (Z * Z)) (k v : Z) :
  total (map snd (assoc_set Z.eqb h k v)) = total (map snd h) + v - get0 h k.
Proof.
  unfold total, get0. induction h as [|[k0 v0] h IH]; cbn [assoc_set assoc_get map snd fold_right].
  - lia.
  - destruct (k0 =? k); cbn [map snd fold_right]; lia.
Qed.

Lemma assoc_set_nodup (h : list (Z * Z)) (k v : Z) :
  NoDup (map fst h) -> NoDup (map fst (assoc_set Z.eqb h k v)).
Proof.
  intro H. rewrite assoc_set_keys.
  destruct (assoc_get Z.eqb h k) eqn:E; [exact H|].
  apply assoc_get_in in E.
  apply NoDup_app; [exact H|repeat constructor; intros []|].
  intros x Hx [<-|[]]. contradiction.
Qed.

Section Partition.
Variable fromisoformat : string -> option datetime.

Lemma histogram_invariant (evs : list pyval) (h0 : list (Z * Z)) :
  NoDup (map fst h0) ->
  NoDup (map fst (histogram fromisoformat evs h0))
  /\ total (map snd (histogram fromisoformat evs h0))
     = total (map snd h0) + count_where (has_hour fromisoformat) evs.
Proof.
  unfold histogram. revert h0. induction evs as [|e evs IH]; intros h0 H; cbn [fold_left].
  - split; [exact H|]. unfold count_where. cbn. lia.
  - rewrite count_where_cons.
    assert (Hstep : NoDup (map fst (hourly_after fromisoformat h0 e))
                    /\ total (map snd (hourly_after fromisoformat h0 e))
                       = total (map snd h0) + b2z (has_hour fromisoformat e)).
    { unfold hourly_after, has_hour. destruct (hour_of fromisoformat e) as [hr|].
      - unfold bump_hour. split; [now apply assoc_set_nodup|].
        rewrite assoc_set_total. unfold get0. cbn [b2z]. lia.
      - split; [exact H|]. cbn [b2z]. lia. }
    destruct Hstep as [S1 S2]. destruct (IH _ S1) as [I1 I2].
    split; [exact I1|]. rewrite I2, S2. lia.
Qed.
End Partition.

(** X6.  The [hourly_activity] map of a returned analysis has one entry per
    hour at which some record has a timestamp that parses; the count stored
    for an hour is the number of such records at that hour, and the counts
    add up to the number of records whose timestamp parses: each of them is
    counted once, at its own hour, and the records without a parseable
    timestamp are counted nowhere. *)
Theorem hourly_activity_partition (fromisoformat : string -> option datetime)
        (evs : list pyval) (doc : pyval) :
  analyze_daily_patterns fromisoformat evs = Ok doc ->
  exists h : list (Z * Z),
    lookup doc "hourly_activity" = Some (hours_dict h)
    /\ NoDup (map fst h)
    /\ (forall hr, get0 h hr = count_where (at_hour fromisoformat hr) evs)
    /\ total (map snd h) = count_where (has_hour fromisoformat) evs
    /\ count_where (has_hour fromisoformat) evs <= Z.of_nat (List.length evs).
Proof.
  intro H. exists (histogram fromisoformat evs []).
  destruct (histogram_invariant fromisoformat evs [] (NoDup_nil _)) as [N S].
  split; [|split; [exact N|split; [|split; [exact S|]]]].
  - destruct evs as [|e evs]; [injection H as <-; reflexivity|].
    apply analyze_cons in H as (v & t & x & _ & Ht & _ & ->).
    apply loop_histogram in Ht. rewrite <- Ht. reflexivity.
  - intro hr. rewrite histogram_get0. unfold get0. cbn [assoc_get]. lia.
  - unfold count_where. rewrite <- Nat2Z.inj_le. apply filter_length_le.
Qed.

Lemma hourly_activity_partition_witness :
  exists doc h,
    analyze_daily_patterns fromisoformat_std
      [ev_at "2024-01-15T09:10:00" "a"; ev_at "no time" "b"; ev_at "2024-01-15T09:50:00Z" "c";
       ev_at "2024-01-15T14:00:00" "d"] = Ok doc
    /\ lookup doc "hourly_activity" = Some (hours_dict h)
    /\ total (map snd h) = 3.
Proof.
  destruct (analyze_daily_patterns fromisoformat_std
      [ev_at "2024-01-15T09:10:00" "a"; ev_at "no time" "b"; ev_at "2024-01-15T09:50:00Z" "c";
       ev_at "2024-01-15T14:00:00" "d"])
    as [doc|e] eqn:E; [|vm_compute in E; discriminate E].
  destruct (hourly_activity_partition _ _ _ E) as (h & Hl & _ & _ & Hs & _).
  exists doc, h. split; [reflexivity|]. split; [exact Hl|].
  rewrite Hs. vm_compute. reflexivity.
Defined.

(** ** The exceptions of the analyzer *)

Section Failures.
Variable fromisoformat : string -> option datetime.

Lemma process_raises (t : tally) (a : pyval) (e : exn) :
  process fromisoformat t a = Raise e -> e = AttributeError \/ e = TypeError.
Proof.
  destruct a as [| | | | | |d]; try (intros [= <-]; now left).
  unfold process. cbn [py_get bind]. rewrite hourly_caught. cbn [bind].
  set (ed := match dict_get d (KStr "event_data") with Some x => x | None => VDict [] end).
  repeat match goal with
         | |- (if ?b then _ else _) = Raise _ -> _ => destruct b
         | |- Ok _ = Raise _ -> _ => discriminate
         end.
  - destruct ed as [| | | | | |d']; try (intros [= <-]; now left).
    cbn [py_get bind].
    destruct (match dict_get d' (KStr "break_type") with Some x => x | None => VStr "unknown" end);
      cbn [count_break_type bind]; try discriminate; intros [= <-]; now right.
  - destruct ed as [| | | | | |d']; try (intros [= <-]; now left).
    cbn [py_get bind]. destruct (is_str "deep_work" _); discriminate.
Qed.

Lemma process_object (t : tally) (a : pyval) :
  is_object a = false -> process fromisoformat t a = Raise AttributeError.
Proof. destruct a; try reflexivity. discriminate. Qed.

Lemma loop_raises (evs : list pyval) (t : tally) (e : exn) :
  fold_result (process fromisoformat) evs t = Raise e -> e = AttributeError \/ e = TypeError.
Proof.
  revert t. induction evs as [|a evs IH]; intros t H; [discriminate|].
  cbn [fold_result] in H. destruct (process fromisoformat t a) as [t1|e1] eqn:E1.
  - cbn [bind] in H. now apply IH in H.
  - injection H as <-. now apply process_raises in E1.
Qed.

Lemma loop_object (evs : list pyval) (t : tally) (r : pyval) :
  In r evs -> is_object r = false ->
  exists e, fold_result (process fromisoformat) evs t = Raise e.
Proof.
  revert t. induction evs as [|a evs IH]; intros t Hin Hr; [contradiction|].
  cbn [fold_result]. destruct Hin as [->|Hin].
  - rewrite process_object by exact Hr. eexists. reflexivity.
  - destruct (process fromisoformat t a) as [t1|e1]; cbn [bind].
    + now apply IH.
    + eexists. reflexivity.
Qed.

Lemma final_work_minutes_raises (l : list pyval) (e : exn) :
  final_work_minutes_of l = Raise e -> e = AttributeError \/ e = TypeError.
Proof.
  unfold final_work_minutes_of.
  destruct (last l VNone) as [| | | |s|l0|d]; cbn [py_contains bind];
    try (intros [= <-]; now right).
  - destruct (is_substring _ _); [intros [= <-]; now right | discriminate].
  - destruct (existsb _ _); [intros [= <-]; now right | discriminate].
  - destruct (dict_mem d (KStr "system_state")) eqn:M; [|discriminate].
    apply dict_mem_get in M as [ss M]. cbn [py_getitem]. rewrite M. cbn [bind].
    destruct ss; cbn [py_get]; try discriminate; intros [= <-]; now left.
Qed.
Lemma analyze_raises (evs : list pyval) (e : exn) :
  analyze_daily_patterns fromisoformat evs = Raise e -> e = AttributeError \/ e = TypeError.
Proof.
  destruct evs as [|a evs]; [discriminate|].
  unfold analyze_daily_patterns.
  destruct (final_work_minutes_of (a :: evs)) as [v|e0] eqn:Ev; cbn [bind].
  2:{ intros [= <-]. now apply final_work_minutes_raises in Ev. }
  destruct (fold_result (process fromisoformat) (a :: evs) init_tally) as [t|e1] eqn:Et;
    cbn [bind].
  2:{ intros [= <-]. now apply loop_raises in Et. }
  destruct (compliance_total t) as [x ->]. discriminate.
Qed.

Lemma analyze_object (evs : list pyval) (r : pyval) :
  In r evs -> is_object r = false ->
  exists e, analyze_daily_patterns fromisoformat evs = Raise e.
Proof.
  intros Hin Hr. destruct evs as [|a evs]; [contradiction|].
  unfold analyze_daily_patterns.
  destruct (final_work_minutes_of (a :: evs)) as [v|e0]; cbn [bind];
    [|eexists; reflexivity].
  destruct (loop_object _ init_tally r Hin Hr) as [e ->]. cbn [bind].
  eexists. reflexivity.
Qed.
End Failures.

(** ** Lines that do not decode *)




(** X7.  The analyzer raises nothing but [AttributeError] and [TypeError]:
    never [KeyError], [ValueError] or [ZeroDivisionError], whatever the
    records hold; a timestamp that does not parse and a day without shown
    breaks are handled.  It does raise whenever one of the records is not a
    JSON object. *)
Theorem analysis_failures (fromisoformat : string -> option datetime) (evs : list pyval) :
  (forall e, analyze_daily_patterns fromisoformat evs = Raise e ->
             e = AttributeError \/ e = TypeError)
  /\ (forall r, In r evs -> is_object r = false ->
                exists e, analyze_daily_patterns fromisoformat evs = Raise e).
Proof.
  split; [apply analyze_raises | apply analyze_object].
Qed.

Lemma analysis_failures_witness :
  analyze_daily_patterns fromisoformat_std [ev "break_shown"; VList [VInt 1; VInt 2]]
  = Raise AttributeError.
Proof.
  destruct (analysis_failures fromisoformat_std [ev "break_shown"; VList [VInt 1; VInt 2]])
    as [H1 H2].
  destruct (H2 (VList [VInt 1; VInt 2])) as [e He]; [right; now left|reflexivity|].
  rewrite He. destruct (H1 e He) as [->| ->]; [reflexivity|].
  vm_compute in He. discriminate He.
Defined.

(** ** The reader, line by line *)

Lemma first_escaping_app (json_loads : string -> result pyval) (strip : string -> string)
      (l1 l2 : list string) :
  first_escaping json_loads strip (l1 ++ l2)
  = match first_escaping json_loads strip l1 with
    | Some e => Some e
    | None => first_escaping json_loads strip l2
    end.
Proof.
  induction l1 as [|l l1 IH]; cbn [app first_escaping]; [reflexivity|].
  destruct (escaping json_loads strip l); [reflexivity|exact IH].
Qed.

Lemma first_escaping_in (json_loads : string -> result pyval) (strip : string -> string)
      (lines : list string) (e : exn) :
  first_escaping json_loads strip lines = Some e ->
  exists line,
    In line lines /\ json_loads (strip line) = Raise e /\ e <> JSONDecodeError.
Proof.
  induction lines as [|l lines IH]; cbn [first_escaping]; [discriminate|].
  destruct (escaping json_loads strip l) as [e'|] eqn:E.
  - intros [= ->]. exists l. split; [now left|].
    unfold escaping in E. destruct (String.eqb (strip l) ""); [discriminate|].
    destruct (json_loads (strip l)) as [v|e0]; [discriminate|].
    destruct (exn_eqb e0 JSONDecodeError) eqn:Ee; [discriminate|].
    injection E as ->. split; [reflexivity|]. intros ->. discriminate Ee.
  - intro H. destruct (IH H) as (line & Hin & Hr). exists line. split; [now right|exact Hr].
Qed.

(** X8.  The reader decodes each line on its own: the records of a log are
    those of its first part followed by those of the rest, in line order,
    and the reading fails where that of the first part or, after it, that of
    the rest fails; there are at most as many records as lines; and a log
    file that is missing or cannot be read gives the records of the empty
    log. *)
Theorem log_lines_independent (json_loads : string -> result pyval)
        (strip : string -> string) (l1 l2 : list string) :
  load_daily_activities json_loads strip (Lines (l1 ++ l2))
  = (r1 <- load_daily_activities json_loads strip (Lines l1) ;;
     r2 <- load_daily_activities json_loads strip (Lines l2) ;;
     Ok (r1 ++ r2))
  /\ (forall r1, load_daily_activities json_loads strip (Lines l1) = Ok r1 ->
                 (List.length r1 <= List.length l1)%nat)
  /\ load_daily_activities json_loads strip Missing
     = load_daily_activities json_loads strip (Lines [])
  /\ load_daily_activities json_loads strip Unreadable
     = load_daily_activities json_loads strip (Lines [])
  /\ load_daily_activities json_loads strip (Lines []) = Ok [].
Proof.
  rewrite !load_lines, first_escaping_app. split.
  { destruct (first_escaping json_loads strip l1); cbn [bind]; [reflexivity|].
    destruct (first_escaping json_loads strip l2); cbn [bind]; [reflexivity|].
    unfold records. now rewrite flat_map_app. }
  split; [|repeat split; reflexivity].
  intros r1 H. destruct (first_escaping json_loads strip l1); [discriminate|].
  injection H as <-. unfold records.
  induction l1 as [|l l1 IH]; cbn [flat_map List.length]; [lia|].
  rewrite length_app. destruct (decoded json_loads strip l); cbn [List.length]; lia.
Qed.

Lemma log_lines_independent_witness :
  load_daily_activities json_loads_sample strip_ascii (Lines (["{}"; "{"] ++ ["5"]))
  = Ok ([VDict []] ++ [VInt 5])
  /\ (List.length [VDict []] <= List.length ["{}"; "{"])%nat.
Proof.
  destruct (log_lines_independent json_loads_sample strip_ascii ["{}"; "{"] ["5"])
    as (H1 & H2 & _).
  split; [rewrite H1; vm_compute; reflexivity|].
  apply H2. vm_compute. reflexivity.
Defined.

(** ** The exceptions of the summary *)

Lemma py_lt_raises (a b : pyval) (e : exn) : py_lt a b = Raise e -> e = TypeError.
Proof.
  revert a b e. fix IH 1. intros a b e.
  destruct a as [| | | | |l|d]; destruct b as [| | | | |m|d'];
    try (cbn; intros [= <-]; reflexivity); try (cbn; discriminate).
  cbn [py_lt]. revert m. induction l as [|x l IHl]; intros [|y m]; try discriminate.
  destruct (py_eq x y); [apply IHl|apply IH].
Qed.

Lemma py_lt_kind (a b : pyval) (r : bool) : py_lt a b = Ok r -> is_text a = is_text b.
Proof.
  destruct a; destruct b; cbn [py_lt num_of is_text]; try discriminate; reflexivity.
Qed.

Section ExtremumFacts.
Context {A : Type} (keyf : A -> result pyval) (better : pyval -> pyval -> result bool).
Variables (P Q : exn -> Prop).
Hypothesis keyf_raises : forall x e, keyf x = Raise e -> P e.
Hypothesis better_raises : forall a b e, better a b = Raise e -> Q e.
Hypothesis better_kind : forall a b r, better a b = Ok r -> is_text a = is_text b.

Lemma extremum_from_raises (cur : A) (kcur : pyval) (rest : list A) (e : exn) :
  extremum_from keyf better cur kcur rest = Raise e -> P e \/ Q e.
Proof.
  revert cur kcur. induction rest as [|x rest IH]; intros cur kcur H; [discriminate|].
  cbn [extremum_from] in H.
  destruct (keyf x) as [kx|e1] eqn:Ek; cbn [bind] in H.
  2:{ injection H as <-. left. eapply keyf_raises, Ek. }
  destruct (better kx kcur) as [b|e2] eqn:Eb; cbn [bind] in H.
  2:{ injection H as <-. right. eapply better_raises, Eb. }
  destruct b; eapply IH, H.
Qed.

Lemma extremum_raises (l : list A) (e : exn) :
  l <> [] -> extremum keyf better l = Raise e -> P e \/ Q e.
Proof.
  destruct l as [|x rest]; [contradiction|]. intros _ H. cbn [extremum] in H.
  destruct (keyf x) as [kx|e1] eqn:Ek; cbn [bind] in H.
  - eapply extremum_from_raises, H.
  - injection H as <-. left. eapply keyf_raises, Ek.
Qed.

(** When the scan returns, every key was computed, all keys are of one kind,
    strings or not, and the result is one of the items. *)
Lemma extremum_from_kind (cur : A) (kcur : pyval) (rest : list A) (r : A) :
  keyf cur = Ok kcur ->
  extremum_from keyf better cur kcur rest = Ok r ->
  (exists kr, keyf r = Ok kr /\ is_text kr = is_text kcur)
  /\ forall x, In x rest -> exists k, keyf x = Ok k /\ is_text k = is_text kcur.
Proof.
  revert cur kcur. induction rest as [|x rest IH]; intros cur kcur Hc H.
  - injection H as <-. split; [eauto|intros x []].
  - cbn [extremum_from] in H.
    apply bind_ok in H as (kx & Ek & H). apply bind_ok in H as (b & Eb & H).
    pose proof (better_kind _ _ _ Eb) as K.
    assert (G : (exists kr, keyf r = Ok kr /\ is_text kr = is_text kcur)
                /\ forall y, In y rest -> exists k, keyf y = Ok k /\ is_text k = is_text kcur).
    { destruct b.
      - destruct (IH _ _ Ek H) as [(kr & E1 & E2) G2]. split.
        + exists kr. split; [exact E1|congruence].
        + intros y Hy. destruct (G2 y Hy) as (k & E3 & E4). exists k. split; congruence.
      - apply (IH _ _ Hc H). }
    destruct G as [G1 G2]. split; [exact G1|].
    intros y [<-|Hy]; [eauto|now apply G2].
Qed.

Lemma extremum_kind (l : list A) (r : A) :
  extremum keyf better l = Ok r ->
  exists kr, keyf r = Ok kr
             /\ forall x, In x l -> exists k, keyf x = Ok k /\ is_text k = is_text kr.
Proof.
  destruct l as [|x rest]; [discriminate|]. cbn [extremum]. intro H.
  apply bind_ok in H as (kx & Ek & H).
  destruct (extremum_from_kind _ _ _ _ Ek H) as [(kr & E1 & E2) G].
  exists kr. split; [exact E1|].
  intros y [<-|Hy].
  - exists kx. split; congruence.
  - destruct (G y Hy) as (k & E3 & E4). exists k. split; congruence.
Qed.
End ExtremumFacts.

Lemma timestamp_key_raises (x : pyval) (e : exn) :
  timestamp_key x = Raise e -> e = AttributeError.
Proof. destruct x; cbn; try discriminate; now intros [= <-]. Qed.

Lemma py_gt_raises (a b : pyval) (e : exn) : py_gt a b = Raise e -> e = TypeError.
Proof. apply py_lt_raises. Qed.

Lemma py_gt_kind (a b : pyval) (r : bool) : py_gt a b = Ok r -> is_text a = is_text b.
Proof. intro H. symmetry. now apply py_lt_kind in H. Qed.

Section SummaryFailures.
Variable fromisoformat : string -> option datetime.

Lemma timestamp_of_raises (a : pyval) (e : exn) :
  timestamp_of fromisoformat a = Raise e ->
  e = KeyError \/ e = ValueError \/ e = AttributeError \/ e = TypeError.
Proof.
  unfold timestamp_of. destruct (py_getitem a "timestamp") as [ts|e1] eqn:E; cbn [bind].
  - intro H. apply parse_timestamp_raises in H. tauto.
  - intros [= <-]. destruct a; cbn [py_getitem] in E; try (injection E as <-; tauto).
    destruct (dict_get d (KStr "timestamp")); [discriminate|]. injection E as <-. tauto.
Qed.

Lemma hours_between_raises (d1 d2 : datetime) (e : exn) :
  hours_between d1 d2 = Raise e -> e = TypeError.
Proof.
  destruct (hours_between_cases d1 d2) as [[x ->]| ->]; [discriminate|].
  now intros [= <-].
Qed.

Lemma duration_raises (first last : pyval) (e : exn) :
  catching [ValueError; KeyError]
    (start_time <- timestamp_of fromisoformat first ;;
     end_time <- timestamp_of fromisoformat last ;;
     delta <- dt_sub end_time start_time ;;
     secs <- total_seconds delta ;;
     truediv secs (NInt 3600))
    (NInt 0) = Raise e ->
  e = AttributeError \/ e = TypeError.
Proof.
  destruct (timestamp_of fromisoformat first) as [d1|e1] eqn:E1; cbn [bind].
  2:{ apply timestamp_of_raises in E1.
      destruct E1 as [->|[->|[->| ->]]]; cbn; try discriminate; intros [= <-]; tauto. }
  destruct (timestamp_of fromisoformat last) as [d2|e2] eqn:E2; cbn [bind].
  2:{ apply timestamp_of_raises in E2.
      destruct E2 as [->|[->|[->| ->]]]; cbn; try discriminate; intros [= <-]; tauto. }
  change (delta <- dt_sub d2 d1 ;; secs <- total_seconds delta ;; truediv secs (NInt 3600))
    with (hours_between d1 d2).
  destruct (hours_between d1 d2) as [x|e3] eqn:E3; [discriminate|].
  apply hours_between_raises in E3. subst e3. cbn. intros [= <-]. tauto.
Qed.

Lemma active_duration_raises (evs : list pyval) (e : exn) :
  active_duration_of fromisoformat evs = Raise e -> e = AttributeError \/ e = TypeError.
Proof.
  destruct evs as [|a evs]; [discriminate|]. unfold active_duration_of.
  destruct (py_min_by timestamp_key (a :: evs)) as [first|e1] eqn:E1; cbn [bind].
  2:{ intros [= <-]. unfold py_min_by in E1.
      apply (extremum_raises _ _ _ _ timestamp_key_raises py_lt_raises) in E1;
        [exact E1|discriminate]. }
  destruct (py_max_by timestamp_key (a :: evs)) as [last|e2] eqn:E2; cbn [bind].
  2:{ intros [= <-]. unfold py_max_by in E2.
      apply (extremum_raises _ _ _ _ timestamp_key_raises py_gt_raises) in E2;
        [exact E2|discriminate]. }
  apply duration_raises.
Qed.

(** A record whose timestamp is not a string makes the scan for the first
    event fail or return a record whose timestamp is not a string. *)
Lemma min_untyped (evs : list pyval) (r first : pyval) :
  In r evs -> timestamp_typed r = false ->
  py_min_by timestamp_key evs = Ok first ->
  timestamp_of fromisoformat first = Raise AttributeError.
Proof.
  intros Hin Hr H. unfold py_min_by in H.
  apply (extremum_kind _ _ py_lt_kind) in H as (kr & Ek & Hall).
  destruct (Hall r Hin) as (k & E1 & E2).
  assert (Hk : is_text k = false).
  { destruct r; try discriminate E1. cbn [timestamp_key py_get] in E1.
    cbn [timestamp_typed] in Hr. injection E1 as <-.
    destruct (dict_get d (KStr "timestamp")) as [ts|]; [|discriminate].
    destruct ts; try reflexivity. discriminate. }
  rewrite Hk in E2.
  destruct first; try discriminate Ek. cbn [timestamp_key py_get] in Ek. injection Ek as <-.
  unfold timestamp_of. cbn [py_getitem].
  destruct (dict_get d (KStr "timestamp")) as [ts|]; [|discriminate].
  cbn [bind]. destruct ts; try reflexivity. discriminate.
Qed.

Lemma active_duration_untyped (evs : list pyval) (r : pyval) :
  In r evs -> timestamp_typed r = false ->
  exists e, active_duration_of fromisoformat evs = Raise e.
Proof.
  intros Hin Hr. destruct evs as [|a evs]; [contradiction|]. unfold active_duration_of.
  destruct (py_min_by timestamp_key (a :: evs)) as [first|e1] eqn:E1; cbn [bind];
    [|eexists; reflexivity].
  destruct (py_max_by timestamp_key (a :: evs)) as [last|e2] eqn:E2; cbn [bind];
    [|eexists; reflexivity].
  rewrite (min_untyped _ _ _ Hin Hr E1). cbn. eexists. reflexivity.
Qed.
End SummaryFailures.

Lemma summary_raises (fromisoformat : string -> option datetime)
      (date now : string) (evs : list pyval) (e : exn) :
  generate_daily_summary fromisoformat date evs now = Raise e ->
  e = AttributeError \/ e = TypeError.
Proof.
  intro H. unfold generate_daily_summary in H.
  destruct (analyze_daily_patterns fromisoformat evs) as [analysis|e1] eqn:E1;
    cbn [bind] in H.
  2:{ injection H as <-. now apply analyze_raises in E1. }
  destruct (active_duration_of fromisoformat evs) as [x|e2] eqn:E2; cbn [bind] in H;
    [discriminate|].
  injection H as <-. now apply active_duration_raises in E2.
Qed.

Lemma summary_untyped (fromisoformat : string -> option datetime)
      (date now : string) (evs : list pyval) (r : pyval) :
  In r evs -> timestamp_typed r = false ->
  exists e, generate_daily_summary fromisoformat date evs now = Raise e.
Proof.
  intros Hin Hr. unfold generate_daily_summary.
  destruct (analyze_daily_patterns fromisoformat evs) as [analysis|e1]; cbn [bind];
    [|eexists; reflexivity].
  destruct (active_duration_untyped fromisoformat evs r Hin Hr) as [e ->].
  eexists. reflexivity.
Qed.

(** What the reader raises. *)
Lemma load_raises (json_loads : string -> result pyval) (strip : string -> string)
      (log : log_file) (e : exn) :
  load_daily_activities json_loads strip log = Raise e ->
  (exists lines, log = Undecodable lines /\ e = UnicodeDecodeError)
  \/ exists line,
       In line (lines_of log) /\ json_loads (strip line) = Raise e /\ e <> JSONDecodeError.
Proof.
  destruct log as [| |lines|lines]; try discriminate.
  - rewrite load_lines. destruct (first_escaping json_loads strip lines) as [e'|] eqn:E;
      [|discriminate].
    intros [= ->]. right. now apply first_escaping_in in E.
  - rewrite load_undecodable.
    destruct (first_escaping json_loads strip lines) as [e'|] eqn:E; intros [= <-].
    + right. now apply first_escaping_in in E.
    + left. now exists lines.
Qed.

(** X9.  [generate_daily_summary], the call of the reader included, raises
    nothing but [AttributeError], [TypeError] and what the reader raises:
    [UnicodeDecodeError] for a log that is not UTF-8, or the exception other
    than [JSONDecodeError] that [json.loads] raised on a line.  A timestamp
    that is missing or does not parse never makes it fail.  It does fail
    whenever some record carries a timestamp that is not a string, although
    the analyzer itself returns on such a record, and whenever the log is not
    UTF-8. *)
Theorem summary_failures (json_loads : string -> result pyval) (strip : string -> string)
        (fromisoformat : string -> option datetime) (date now : string) (log : log_file) :
  (forall e,
      generate_daily_summary_of json_loads strip fromisoformat log date now = Raise e ->
      (e = AttributeError \/ e = TypeError)
      \/ (load_daily_activities json_loads strip log = Raise e
          /\ ((exists lines, log = Undecodable lines /\ e = UnicodeDecodeError)
              \/ exists line,
                   In line (lines_of log) /\ json_loads (strip line) = Raise e
                   /\ e <> JSONDecodeError)))
  /\ (forall activities e,
         load_daily_activities json_loads strip log = Ok activities ->
         generate_daily_summary_of json_loads strip fromisoformat log date now = Raise e ->
         e = AttributeError \/ e = TypeError)
  /\ (forall activities r,
         load_daily_activities json_loads strip log = Ok activities ->
         In r activities -> timestamp_typed r = false ->
         exists e,
           generate_daily_summary_of json_loads strip fromisoformat log date now = Raise e)
  /\ (forall activities,
         load_daily_activities json_loads strip log = Ok activities ->
         forallb well_typed_event activities = true ->
         exists doc, analyze_daily_patterns fromisoformat activities = Ok doc)
  /\ (forall lines,
         log = Undecodable lines ->
         exists e,
           generate_daily_summary_of json_loads strip fromisoformat log date now = Raise e
           /\ (decodable json_loads strip lines = true -> e = UnicodeDecodeError)).
Proof.
  unfold generate_daily_summary_of. split; [|split; [|split; [|split]]].
  - intros e H.
    destruct (load_daily_activities json_loads strip log) as [activities|e0] eqn:El;
      cbn [bind] in H.
    + left. now apply summary_raises in H.
    + injection H as <-. right. split; [reflexivity|]. now apply load_raises in El.
  - intros activities e Hl H. rewrite Hl in H. cbn [bind] in H.
    now apply summary_raises in H.
  - intros activities r Hl Hin Hr. rewrite Hl. cbn [bind]. now apply (summary_untyped _ _ _ _ r).
  - intros activities _. apply analyze_total.
  - intros lines ->. rewrite load_undecodable. unfold decodable.
    destruct (first_escaping json_loads strip lines) as [e|]; cbn [bind];
      eexists; (split; [reflexivity|]); [discriminate|reflexivity].
Qed.

Lemma summary_failures_witness :
  (exists doc,
      analyze_daily_patterns fromisoformat_std
        [VDict [(KStr "timestamp", VInt 1700000000); (KStr "event_type", VStr "break_shown")]]
      = Ok doc)
  /\ generate_daily_summary_of
       (fun _ => Ok (VDict [(KStr "timestamp", VInt 1700000000);
                            (KStr "event_type", VStr "break_shown")]))
       strip_ascii fromisoformat_std (Lines ["x"]) "2024-01-15" "2024-01-16T08:00:00"
     = Raise AttributeError.
Proof.
  destruct (summary_failures
              (fun _ => Ok (VDict [(KStr "timestamp", VInt 1700000000);
                                   (KStr "event_type", VStr "break_shown")]))
              strip_ascii fromisoformat_std "2024-01-15" "2024-01-16T08:00:00" (Lines ["x"]))
    as (_ & H1 & H2 & H3 & _).
  split; [apply (H3 _ eq_refl); reflexivity|].
  destruct (H2 _ _ eq_refl (or_introl eq_refl) eq_refl) as [e He].
  rewrite He. destruct (H1 _ e eq_refl He) as [->| ->]; [reflexivity|].
  vm_compute in He. discriminate He.
Defined.

(** ** Naive and aware timestamps *)

Lemma ltb_total (a b : string) :
  String.ltb a b = false -> String.ltb b a = false -> a = b.
Proof.
  unfold String.ltb. rewrite (String.compare_antisym a b).
  destruct (String.compare b a) eqn:E; cbn [CompOpp]; intros H1 H2;
    try discriminate H1; try discriminate H2.
  symmetry. now apply String.compare_eq_iff.
Qed.

Lemma parsed_same (fromisoformat : string -> option datetime) (a b : pyval) (d : datetime) :
  fromisoformat "" = None ->
  timestamp_typed a = true -> timestamp_typed b = true ->
  raw_timestamp a = raw_timestamp b ->
  parsed_timestamp fromisoformat b = Some d ->
  parsed_timestamp fromisoformat a = Some d.
Proof.
  intros Hempty Ha Hb Hraw Hp.
  destruct a as [| | | | | |da]; try discriminate. destruct b as [| | | | | |db]; try discriminate.
  unfold raw_timestamp, parsed_timestamp, lookup in *. cbn [timestamp_typed] in Ha, Hb.
  destruct (dict_get db (KStr "timestamp")) as [tb|]; [|discriminate].
  destruct tb; try discriminate.
  destruct (dict_get da (KStr "timestamp")) as [ta|].
  - destruct ta; try discriminate. now subst.
  - subst s. cbn [replace_Z] in Hp. congruence.
Qed.

(** X10.  When the record with the smallest raw timestamp string has a
    naive timestamp and the one with the largest an aware timestamp, or the
    other way round, [generate_daily_summary] raises [TypeError]: the
    subtraction of the two is outside the [try] block's handlers. *)
Theorem mixed_awareness_fails (fromisoformat : string -> option datetime)
        (date now : string) (evs : list pyval) (first last : pyval) (d1 d2 : datetime) :
  fromisoformat "" = None ->
  forallb well_typed_event evs = true ->
  forallb timestamp_typed evs = true ->
  In first evs -> In last evs ->
  (forall y, In y evs -> String.ltb (raw_timestamp y) (raw_timestamp first) = false) ->
  (forall y, In y evs -> String.ltb (raw_timestamp last) (raw_timestamp y) = false) ->
  parsed_timestamp fromisoformat first = Some d1 ->
  parsed_timestamp fromisoformat last = Some d2 ->
  is_aware d1 <> is_aware d2 ->
  generate_daily_summary fromisoformat date evs now = Raise TypeError.
Proof.
  intros Hempty Hwt Hty Hf Hl Hmin Hmax P1 P2 Haw.
  assert (Hne : evs <> []) by (destruct evs; [contradiction|discriminate]).
  destruct (active_duration_typed fromisoformat evs Hne Hty)
    as (f' & l' & Hf' & Hl' & Hmin' & Hmax' & Hd).
  assert (Q1 : parsed_timestamp fromisoformat f' = Some d1).
  { apply (parsed_same fromisoformat f' first d1 Hempty); try assumption.
    - now apply (typed_in evs).
    - now apply (typed_in evs).
    - apply ltb_total; [now apply Hmin | now apply Hmin']. }
  assert (Q2 : parsed_timestamp fromisoformat l' = Some d2).
  { apply (parsed_same fromisoformat l' last d2 Hempty); try assumption.
    - now apply (typed_in evs).
    - now apply (typed_in evs).
    - apply ltb_total; [now apply Hmax' | now apply Hmax]. }
  unfold generate_daily_summary.
  destruct (analyze_total fromisoformat evs Hwt) as [analysis ->]. cbn [bind].
  rewrite Hd. unfold duration_between. rewrite Q1, Q2.
  unfold hours_between, dt_sub, is_aware in *.
  destruct (utcoffset d1), (utcoffset d2); try reflexivity; now contradiction Haw.
Qed.

Lemma mixed_awareness_fails_witness :
  generate_daily_summary fromisoformat_std "2024-01-15"
    [ev_at "2024-01-15T09:00:00" "break_shown"; ev_at "2024-01-15T10:00:00Z" "break_completed"]
    "2024-01-16T08:00:00"
  = Raise TypeError.
Proof.
  eapply (mixed_awareness_fails fromisoformat_std "2024-01-15" "2024-01-16T08:00:00"
            [ev_at "2024-01-15T09:00:00" "break_shown";
             ev_at "2024-01-15T10:00:00Z" "break_completed"]
            (ev_at "2024-01-15T09:00:00" "break_shown")
            (ev_at "2024-01-15T10:00:00Z" "break_completed")
            (mk_datetime 2024 1 15 9 0 0 0 None)
            (mk_datetime 2024 1 15 10 0 0 0 (Some 0))).
  - reflexivity.
  - reflexivity.
  - reflexivity.
  - now left.
  - right. now left.
  - intros y [<-|[<-|[]]]; vm_compute; reflexivity.
  - intros y [<-|[<-|[]]]; vm_compute; reflexivity.
  - vm_compute. reflexivity.
  - vm_compute. reflexivity.
  - discriminate.
Defined.

(** ** The AI projection *)

Section Projection.
Variable fromisoformat : string -> option datetime.

(** The projection of a non-empty day, once the summary is there. *)
Lemma ai_projection_cons (date now : string) (e : pyval) (evs : list pyval) (summary : pyval) :
  generate_daily_summary fromisoformat date (e :: evs) now = Ok summary ->
  exists v t x,
    final_work_minutes_of (e :: evs) = Ok v
    /\ fold_result (process fromisoformat) (e :: evs) init_tally = Ok t
    /\ compliance_of t = Ok x
    /\ prepare_ai_summary_data fromisoformat date (e :: evs) now
       = Ok (VDict
          [(KStr "date", VStr date);
           (KStr "productivity_metrics",
            VDict [(KStr "total_work_minutes", v);
                   (KStr "break_compliance_rate", of_num (round1 x));
                   (KStr "deep_work_sessions", VInt (deep_work_sessions t));
                   (KStr "total_breaks_taken", VInt (break_completed_count t));
                   (KStr "total_breaks_suggested", VInt (break_count t))]);
           (KStr "behavior_patterns",
            VDict [(KStr "commands_used", VInt (commands_used t));
                   (KStr "pause_resume_events", VInt (pause_events t));
                   (KStr "break_reschedules", VInt (reschedule_count t));
                   (KStr "preferred_break_type",
                    VStr (preferred_of_counts
                            (count_where (shows_break "eye_care") (e :: evs))
                            (count_where (shows_break "custom_message") (e :: evs))));
                   (KStr "peak_activity_hours",
                    VList (map VInt (map fst (hourly_activity t))))]);
           (KStr "insights", VList (map VStr (insights_of t x)));
           (KStr "recommendations_needed", VList recommendations_needed)]).
Proof.
  intro H. unfold prepare_ai_summary_data. rewrite H. cbn [bind].
  apply summary_shape in H as (analysis & dur & Ha & _ & ->).
  apply analyze_cons in Ha as (v & t & x & Hv & Ht & Hx & ->).
  exists v, t, x. repeat split; try assumption.
  cbn [py_getitem dict_get assoc_get key_eqb String.eqb Ascii.eqb Bool.eqb bind].
  rewrite (loop_types _ _ _ Ht), preferred_of_types.
  cbn [bind hours_dict dict_of]. rewrite !map_map. reflexivity.
Qed.
End Projection.

(** X11.  On a day that has records and whose summary can be computed, the
    AI projection returns, and it returns on no day without records.  In the
    document it returns, the counters are those of the events;
    [total_breaks_taken] is the number of completed breaks and
    [total_breaks_suggested] the number of shown breaks; and
    [peak_activity_hours] lists every hour at which a record has a parseable
    timestamp, in the order in which the hours first occur in the log: all
    active hours, not the three busiest ones. *)
Theorem ai_projection_fields (fromisoformat : string -> option datetime)
        (date now : string) (evs : list pyval) :
  (summary_ready fromisoformat evs = true -> evs <> [] ->
   exists doc, prepare_ai_summary_data fromisoformat date evs now = Ok doc)
  /\ forall doc,
       prepare_ai_summary_data fromisoformat date evs now = Ok doc ->
       evs <> []
       /\ lookup doc "date" = Some (VStr date)
       /\ lookup2 doc "productivity_metrics" "total_work_minutes"
          = Some (work_minutes_snapshot (last evs VNone))
       /\ lookup2 doc "productivity_metrics" "deep_work_sessions"
          = Some (VInt (count_where is_deep_work evs))
       /\ lookup2 doc "productivity_metrics" "total_breaks_taken"
          = Some (VInt (count_events "break_completed" evs))
       /\ lookup2 doc "productivity_metrics" "total_breaks_suggested"
          = Some (VInt (count_events "break_shown" evs))
       /\ lookup2 doc "behavior_patterns" "commands_used"
          = Some (VInt (count_events "command_received" evs))
       /\ lookup2 doc "behavior_patterns" "pause_resume_events"
          = Some (VInt (count_events "pause_toggled" evs))
       /\ lookup2 doc "behavior_patterns" "break_reschedules"
          = Some (VInt (count_events "break_rescheduled" evs))
       /\ lookup2 doc "behavior_patterns" "peak_activity_hours"
          = Some (VList (map VInt (first_seen (hours fromisoformat evs))))
       /\ lookup doc "recommendations_needed" = Some (VList recommendations_needed).
Proof.
  split.
  - intros Hr Hne. destruct evs as [|e evs]; [contradiction|].
    destruct (summary_total fromisoformat date now _ Hr) as [summary Hs].
    destruct (ai_projection_cons fromisoformat _ _ _ _ _ Hs) as (v & t & x & _ & _ & _ & ->).
    eexists. reflexivity.
  - intros doc H. destruct evs as [|e evs].
    { vm_compute in H. discriminate H. }
    split; [discriminate|].
    destruct (generate_daily_summary fromisoformat date (e :: evs) now) as [summary|err] eqn:Hs.
    2:{ unfold prepare_ai_summary_data in H. rewrite Hs in H. discriminate H. }
    destruct (ai_projection_cons fromisoformat _ _ _ _ _ Hs) as (v & t & x & Hv & Ht & _ & E).
    rewrite E in H. injection H as <-.
    apply final_work_minutes_value in Hv.
    pose proof (loop_histogram _ _ _ Ht) as Hh.
    apply loop_counts in Ht as (F1 & F2 & F3 & F4 & F5 & F6).
    rewrite Hh, histogram_keys.
    unfold lookup2.
    cbn [lookup dict_get assoc_get key_eqb String.eqb Ascii.eqb Bool.eqb].
    repeat split; congruence.
Qed.

Lemma ai_projection_fields_witness :
  exists doc,
    prepare_ai_summary_data fromisoformat_std "2024-01-15"
      [ev_at "2024-01-15T14:05:00" "break_shown"; ev_at "2024-01-15T09:30:00" "break_completed";
       ev_at "2024-01-15T14:45:00" "command_received"] "2024-01-16T08:00:00" = Ok doc
    /\ lookup2 doc "behavior_patterns" "peak_activity_hours" = Some (VList [VInt 14; VInt 9]).
Proof.
  destruct (ai_projection_fields fromisoformat_std "2024-01-15" "2024-01-16T08:00:00"
      [ev_at "2024-01-15T14:05:00" "break_shown"; ev_at "2024-01-15T09:30:00" "break_completed";
       ev_at "2024-01-15T14:45:00" "command_received"]) as [H1 H2].
  destruct H1 as [doc Hd]; [vm_compute; reflexivity|discriminate|].
  exists doc. split; [exact Hd|].
  destruct (H2 doc Hd) as (_ & _ & _ & _ & _ & _ & _ & _ & _ & Hp & _).
  rewrite Hp. vm_compute. reflexivity.
Defined.

(** ** The dashboard document, field by field *)

Lemma max2_int (a b : Z) : of_num (max2 (NInt a) (NInt b)) = VInt (Z.max a b).
Proof.
  unfold max2, num_ltb, Qle_bool. cbn [to_Q inject_Z Qnum Qden].
  rewrite !Z.mul_1_r.
  destruct (Z.leb_spec b a); cbn [negb of_num]; f_equal; lia.
Qed.

(** X12.  In every document the dashboard returns, the empty day included,
    the metric fields are the event counts ([breaks_completed] and
    [break_reschedules] are read with a default, so that the day without
    records shows 0); the goal of the breaks ring is the number of shown
    breaks and at least 1; each ring shows the percentage of the score of
    the same name; and [ai_summary] is the text handed in. *)
Theorem dashboard_fields (fromisoformat : string -> option datetime)
        (date now ai_summary : string) (evs : list pyval) (doc : pyval) :
  get_dashboard_data fromisoformat date evs now ai_summary = Ok doc ->
  lookup doc "date" = Some (VStr date)
  /\ lookup doc "ai_summary" = Some (VStr ai_summary)
  /\ lookup2 doc "metrics" "total_breaks" = Some (VInt (count_events "break_shown" evs))
  /\ lookup2 doc "metrics" "breaks_completed"
     = Some (VInt (count_events "break_completed" evs))
  /\ lookup2 doc "metrics" "deep_work_sessions" = Some (VInt (count_where is_deep_work evs))
  /\ lookup2 doc "metrics" "commands_used"
     = Some (VInt (count_events "command_received" evs))
  /\ lookup2 doc "metrics" "pause_events" = Some (VInt (count_events "pause_toggled" evs))
  /\ lookup2 doc "behavior_patterns" "break_reschedules"
     = Some (VInt (count_events "break_rescheduled" evs))
  /\ lookup3 doc "rings" "breaks" "current"
     = Some (VInt (count_events "break_completed" evs))
  /\ lookup3 doc "rings" "breaks" "goal"
     = Some (VInt (Z.max 1 (count_events "break_shown" evs)))
  /\ lookup3 doc "rings" "work" "percentage" = lookup2 doc "scores" "work_score"
  /\ lookup3 doc "rings" "breaks" "percentage" = lookup2 doc "scores" "break_score"
  /\ lookup3 doc "rings" "focus" "percentage" = lookup2 doc "scores" "focus_score"
  /\ lookup3 doc "rings" "work" "current" = lookup2 doc "metrics" "work_minutes".
Proof.
  intro H. unfold get_dashboard_data in H.
  apply bind_ok in H as (analysis & Ha & H).
  destruct evs as [|e evs].
  - injection Ha as <-.
    cbn [py_get dict_get assoc_get key_eqb String.eqb Ascii.eqb Bool.eqb bind] in H.
    bind_inv H. injection E4 as <-.
    repeat split; reflexivity.
  - apply analyze_cons in Ha as (v & t & x & _ & Ht & _ & ->).
    cbn [py_get dict_get assoc_get key_eqb String.eqb Ascii.eqb Bool.eqb bind] in H.
    apply loop_counts in Ht as (F1 & F2 & F3 & F4 & F5 & F6).
    bind_inv H.
    cbn [as_num] in *.
    repeat match goal with
           | E : Ok _ = Ok _ |- _ => injection E as <-
           end.
    unfold lookup3, lookup2.
    cbn [lookup dict_get assoc_get key_eqb String.eqb Ascii.eqb Bool.eqb].
    rewrite max2_int.
    repeat split; congruence.
Qed.

Lemma dashboard_fields_witness :
  exists doc,
    get_dashboard_data fromisoformat_std "2024-01-15" [] "2024-01-15T18:00:00" "" = Ok doc
    /\ lookup2 doc "metrics" "breaks_completed" = Some (VInt 0)
    /\ lookup3 doc "rings" "breaks" "goal" = Some (VInt 1).
Proof.
  destruct (get_dashboard_data fromisoformat_std "2024-01-15" [] "2024-01-15T18:00:00" "")
    as [doc|e] eqn:E; [|vm_compute in E; discriminate E].
  exists doc. split; [reflexivity|].
  destruct (dashboard_fields _ _ _ _ _ _ E) as (_ & _ & _ & H4 & _ & _ & _ & _ & _ & H10 & _).
  rewrite H4, H10. split; vm_compute; reflexivity.
Defined.

(** ** Where the scores saturate *)

Lemma fl_one : (fl 1 == 1)%Q.
Proof. vm_compute. reflexivity. Qed.

Lemma fl_100q : (fl 100 == 100)%Q.
Proof. vm_compute. reflexivity. Qed.

Lemma fl_below_100 : (fl (fl (479 # 480) * 100) < 100)%Q.
Proof. vm_compute. reflexivity. Qed.

(** The work score before the cap: at least 100 from 480 minutes on, below
    100 before. *)
Lemma work_percent (wm : Z) :
  0 <= wm ->
  (480 <= wm -> (100 <= fl (fl (inject_Z wm / inject_Z 480) * 100))%Q)
  /\ (wm < 480 -> (fl (fl (inject_Z wm / inject_Z 480) * 100) < 100)%Q).
Proof.
  intro H0.
  assert (Hq0 : (0 <= inject_Z wm)%Q).
  { change 0%Q with (inject_Z 0). now rewrite <- Zle_Qle. }
  change (inject_Z 480) with 480%Q.
  set (q := (inject_Z wm / 480)%Q).
  assert (Hq : (0 <= q)%Q).
  { apply Qle_shift_div_l; [reflexivity|]. lra. }
  pose proof (fl_nonneg q Hq) as Ha.
  split; intro H.
  - rewrite Zle_Qle in H. change (inject_Z 480) with 480%Q in H.
    assert (Hq1 : (1 <= q)%Q).
    { apply Qle_shift_div_l; [reflexivity|]. lra. }
    pose proof (fl_ge_float q 1 ltac:(lra) Hq1 fl_one) as Ha1.
    apply fl_ge_float; [lra|lra|exact fl_100q].
  - assert (H' : wm <= 479) by lia.
    rewrite Zle_Qle in H'. change (inject_Z 479) with 479%Q in H'.
    assert (Hq1 : (q <= 479 # 480)%Q).
    { apply Qle_shift_div_r; [reflexivity|]. lra. }
    pose proof (fl_mono q (479 # 480) Hq Hq1) as Ha1.
    assert (Hx : (fl (fl q * 100) <= fl (fl (479 # 480) * 100))%Q).
    { apply fl_mono; lra. }
    pose proof fl_below_100. lra.
Qed.

Lemma min2_100_int (k : Z) : min2 (NInt 100) (NInt k) = NInt (Z.min 100 k).
Proof.
  unfold min2, num_ltb, Qle_bool. cbn [to_Q inject_Z Qnum Qden].
  rewrite !Z.mul_1_r.
  destruct (Z.leb_spec 100 k); cbn [negb]; f_equal; lia.
Qed.

(** X13.  For an analysis with an int [wm >= 0] of work minutes, [dw >= 0]
    deep-work sessions and a break compliance of the size of a float: as
    long as [wm] is below 480 times the overflow threshold the score block
    returns, the work score is the int 100 from 480 minutes on and the
    float [wm / 480 * 100], which is below 100, before; the focus score is
    [25 * dw] capped at 100, which it reaches with 4 sessions; and the break
    score is the break compliance.  From that bound on, [wm / 480] raises
    [OverflowError]. *)
Theorem scores_saturate (analysis bcv : pyval) (wm dw : Z) (bc : num) :
  lookup analysis "total_work_minutes" = Some (VInt wm) ->
  lookup analysis "break_compliance" = Some bcv ->
  lookup analysis "deep_work_sessions" = Some (VInt dw) ->
  as_num bcv = Ok bc ->
  0 <= wm -> 0 <= dw -> (Qabs (to_Q bc) <= float_max)%Q ->
  (wm < 480 * overflow_threshold ->
   exists sc,
     scores_of analysis = Ok sc
     /\ work_score sc
        = (if 480 <=? wm then NInt 100
           else NFloat (fl (fl (inject_Z wm / inject_Z 480) * 100)))
     /\ (wm < 480 -> (to_Q (work_score sc) < 100)%Q)
     /\ focus_score sc = NInt (Z.min 100 (25 * dw))
     /\ break_score sc = bc)
  /\ (480 * overflow_threshold <= wm -> scores_of analysis = Raise OverflowError).
Proof.
  intros L1 L2 L3 N2 H0 Hdw Hbc.
  assert (Hq480 : has_quotient (NInt wm) 480 = (wm <? 480 * overflow_threshold)).
  { rewrite has_quotient_int by lia. now rewrite Z.abs_eq. }
  split.
  - intro Hlt. apply Z.ltb_lt in Hlt. rewrite Hlt in Hq480.
    destruct (scores_total analysis (VInt wm) bcv (VInt dw) (NInt wm) bc (NInt dw)
                L1 L2 L3 eq_refl N2 eq_refl Hq480) as (q & Hq & Hsc).
    rewrite (truediv_const (NInt wm) 480) in Hq
      by (try discriminate; try reflexivity; exact Hq480).
    injection Hq as <-. cbn [mul to_float] in Hsc.
    destruct Hsc as (o & _ & Hsc).
    { apply sum_has_quotient; [|lia].
      apply has_quotient_bounded; [lia|]. change (inject_Z 1) with 1%Q. lra. }
    eexists. split; [exact Hsc|]. cbn [work_score focus_score break_score].
    rewrite fl_100.
    destruct (work_percent wm H0) as [Hge Hlt'].
    assert (Hw : min2 (NInt 100) (NFloat (fl (fl (inject_Z wm / inject_Z 480) * 100)))
                 = (if 480 <=? wm then NInt 100
                    else NFloat (fl (fl (inject_Z wm / inject_Z 480) * 100)))).
    { unfold min2. destruct (Z.leb_spec 480 wm) as [L|L].
      - assert (E : num_ltb (NFloat (fl (fl (inject_Z wm / inject_Z 480) * 100))) (NInt 100)
                    = false).
        { apply num_ltb_ge. cbn [to_Q]. now apply Hge. }
        now rewrite E.
      - assert (E : num_ltb (NFloat (fl (fl (inject_Z wm / inject_Z 480) * 100))) (NInt 100)
                    = true).
        { apply num_ltb_lt. cbn [to_Q]. now apply Hlt'. }
        now rewrite E. }
    rewrite Hw. repeat split.
    + intro L. destruct (Z.leb_spec 480 wm); [lia|]. cbn [to_Q]. now apply Hlt'.
    + rewrite min2_100_int. do 2 f_equal. lia.
  - intro Hge. apply Z.ltb_ge in Hge. rewrite Hge in Hq480.
    destruct analysis; try discriminate. cbn [lookup] in L1, L2, L3.
    unfold scores_of. cbn [py_get]. rewrite L1, L2, L3. cbn [bind as_num].
    now rewrite (truediv_const_overflow (NInt wm) 480) by (try discriminate; exact Hq480).
Qed.

Lemma scores_saturate_witness :
  exists sc,
    scores_of (VDict [(KStr "total_work_minutes", VInt 600);
                      (KStr "break_compliance", VFloat 50);
                      (KStr "deep_work_sessions", VInt 5)]) = Ok sc
    /\ work_score sc = NInt 100 /\ focus_score sc = NInt 100.
Proof.
  destruct (scores_saturate
              (VDict [(KStr "total_work_minutes", VInt 600);
                      (KStr "break_compliance", VFloat 50);
                      (KStr "deep_work_sessions", VInt 5)])
              (VFloat 50) 600 5 (NFloat 50) eq_refl eq_refl eq_refl eq_refl)
    as [H _]; [lia|lia|vm_compute; discriminate|].
  destruct H as (sc & Hsc & Hw & _ & Hf & _); [vm_compute; reflexivity|].
  exists sc. split; [exact Hsc|]. split; [exact Hw|exact Hf].
Defined.

(** ** The command line of [daily_summary.py] *)

Lemma minus_days_valid (d k : Z) :
  Z.abs k <= 999999999 -> 1 <= d - k <= max_ordinal -> minus_days d k = Done (d - k).
Proof.
  intros Hk [H1 H2]. unfold minus_days.
  apply Z.leb_le in Hk, H1, H2. now rewrite Hk, H1, H2.
Qed.

Lemma py_range_in (n i : Z) : In i (py_range n) <-> 0 <= i < n.
Proof.
  unfold py_range. rewrite in_map_iff. split.
  - intros (k & <- & Hk). apply in_seq in Hk. lia.
  - intros [H0 Hn]. exists (Z.to_nat i). split; [lia|]. apply in_seq. lia.
Qed.

Lemma py_range_length (n : Z) : 0 <= n -> Z.of_nat (List.length (py_range n)) = n.
Proof. intro H. unfold py_range. rewrite length_map, length_seq. lia. Qed.

Lemma py_range_nonpos (n : Z) : n <= 0 -> py_range n = [].
Proof.
  intro H. unfold py_range. replace (Z.to_nat n) with 0%nat by lia. reflexivity.
Qed.

Section MainFacts.
Variable json_loads : string -> result pyval.
Variable strip : string -> string.
Variable fromisoformat : string -> option datetime.
Variable logs : Z -> log_file.
Variable strftime : Z -> string.
Variable clock : Z -> string.

Local Abbreviation summary_of := (summary_for json_loads strip fromisoformat logs strftime clock).
Local Abbreviation loop := (summaries_from json_loads strip fromisoformat logs strftime clock).

(** When every day of the range has a summary, the loop collects them in the
    order of the range. *)
Lemma loop_done (ai_format : bool) (target_date : Z) (range : list Z) (acc : list pyval) :
  (forall i, In i range -> Z.abs i <= 999999999 /\ 1 <= target_date - i <= max_ordinal) ->
  (forall i, In i range -> exists s, summary_of ai_format (target_date - i) = Ok s) ->
  exists l,
    loop ai_format target_date range acc = Done (acc ++ l)
    /\ map Ok l = map (fun i => summary_of ai_format (target_date - i)) range.
Proof.
  revert acc. induction range as [|i range IH]; intros acc Hv Hs.
  - exists []. split; [now rewrite app_nil_r|reflexivity].
  - cbn [summaries_from].
    destruct (Hv i (or_introl eq_refl)) as [Hi Hr].
    rewrite (minus_days_valid _ _ Hi Hr). cbn [obind'].
    destruct (Hs i (or_introl eq_refl)) as [s Es]. rewrite Es. cbn [lift obind'].
    destruct (IH (acc ++ [s])) as (l & El & Em).
    + intros j Hj. apply Hv. now right.
    + intros j Hj. apply Hs. now right.
    + exists (s :: l). split.
      * rewrite El, <- app_assoc. reflexivity.
      * cbn [map]. now rewrite Es, Em.
Qed.

(** When the summary of some day of the range raises, the loop fails. *)
Lemma loop_fail (ai_format : bool) (target_date : Z) (range : list Z) (acc : list pyval)
      (i : Z) (e : exn) :
  In i range -> summary_of ai_format (target_date - i) = Raise e ->
  (forall j, In j range -> Z.abs j <= 999999999 /\ 1 <= target_date - j <= max_ordinal) ->
  exists f, loop ai_format target_date range acc = Fail f.
Proof.
  revert acc. induction range as [|j range IH]; intros acc Hin He Hv; [contradiction|].
  cbn [summaries_from].
  destruct (Hv j (or_introl eq_refl)) as [Hj Hr].
  rewrite (minus_days_valid _ _ Hj Hr). cbn [obind'].
  destruct (summary_of ai_format (target_date - j)) as [s|e'] eqn:Es; cbn [lift obind'].
  - destruct Hin as [->|Hin]; [congruence|].
    apply IH; [exact Hin|exact He|]. intros k Hk. apply Hv. now right.
  - eexists. reflexivity.
Qed.

Lemma range_valid (target_date days i : Z) :
  days <= target_date <= max_ordinal -> In i (py_range days) ->
  Z.abs i <= 999999999 /\ 1 <= target_date - i <= max_ordinal.
Proof.
  unfold max_ordinal. intros H Hin. apply py_range_in in Hin. lia.
Qed.
End MainFacts.

(** X14.  The two edge cases of [--days].  With [--days 1] the result of
    [main] is the summary of the target day itself, not wrapped, and [main]
    fails exactly when that summary raises.  With [--days 0] or a negative
    number no day is summarised and the result is nevertheless a multi-day
    document, with an empty [days] list and a [date_range] that starts
    [1 - days] days after the target date. *)
Theorem main_days_edge_cases
        (json_loads : string -> result pyval) (strip : string -> string)
        (fromisoformat : string -> option datetime)
        (logs : Z -> log_file) (strftime : Z -> string) (clock : Z -> string)
        (ai_format : bool) (target_date : Z) :
  1 <= target_date <= max_ordinal ->
  main_result json_loads strip fromisoformat logs strftime clock ai_format target_date 1
  = lift (summary_for json_loads strip fromisoformat logs strftime clock ai_format target_date)
  /\ forall days,
       days <= 0 -> target_date + 1 - days <= max_ordinal ->
       main_result json_loads strip fromisoformat logs strftime clock ai_format target_date days
       = Done (VDict [(KStr "multi_day_summary", VBool true);
                      (KStr "date_range",
                       VStr (strftime (target_date + 1 - days) ++ " to "
                             ++ strftime target_date));
                      (KStr "days", VList [])]).
Proof.
  intros [H1 H2]. split.
  - unfold main_result. change (py_range 1) with [0]. cbn [summaries_from].
    rewrite (minus_days_valid target_date 0) by (unfold max_ordinal in *; lia).
    cbn [obind']. rewrite Z.sub_0_r.
    destruct (summary_for _ _ _ _ _ _ _ _) as [s|e]; reflexivity.
  - intros days Hd Hm. unfold main_result. rewrite (py_range_nonpos days Hd).
    cbn [summaries_from obind'].
    rewrite (minus_days_valid target_date (days - 1)) by (unfold max_ordinal in *; lia).
    cbn [obind']. replace (target_date - (days - 1)) with (target_date + 1 - days) by lia.
    reflexivity.
Qed.

Lemma main_days_edge_cases_witness :
  main_result json_loads_sample strip_ascii fromisoformat_std
    (fun _ => Missing) (fun d => str_of_Z d) (fun _ => "now") false 738000 0
  = Done (VDict [(KStr "multi_day_summary", VBool true);
                 (KStr "date_range", VStr "738001 to 738000");
                 (KStr "days", VList [])]).
Proof.
  destruct (main_days_edge_cases json_loads_sample strip_ascii fromisoformat_std
              (fun _ => Missing) (fun d => str_of_Z d) (fun _ => "now") false 738000)
    as [_ H]; [unfold max_ordinal; lia|].
  rewrite (H 0) by (unfold max_ordinal; lia). vm_compute. reflexivity.
Defined.

(** X15.  With [--days n] for [n >= 2], when the summary of each of the [n]
    days can be computed the result is a document with the fields
    [multi_day_summary], [date_range] and [days]; [days] holds the [n]
    summaries, the target day first and then backwards in time, and
    [date_range] runs from the oldest day to the target day.  When the
    summary of one of the days raises, [main] fails: there is no partial
    result. *)
Theorem main_multi_day
        (json_loads : string -> result pyval) (strip : string -> string)
        (fromisoformat : string -> option datetime)
        (logs : Z -> log_file) (strftime : Z -> string) (clock : Z -> string)
        (ai_format : bool) (target_date days : Z) :
  2 <= days -> days <= target_date <= max_ordinal ->
  ((forall i, 0 <= i < days ->
      exists s, summary_for json_loads strip fromisoformat logs strftime clock ai_format
                  (target_date - i) = Ok s) ->
   exists l,
     main_result json_loads strip fromisoformat logs strftime clock ai_format target_date days
     = Done (VDict [(KStr "multi_day_summary", VBool true);
                    (KStr "date_range",
                     VStr (strftime (target_date - (days - 1)) ++ " to "
                           ++ strftime target_date));
                    (KStr "days", VList l)])
     /\ Z.of_nat (List.length l) = days
     /\ map Ok l
        = map (fun i => summary_for json_loads strip fromisoformat logs strftime clock
                          ai_format (target_date - i)) (py_range days))
  /\ (forall i e,
         0 <= i < days ->
         summary_for json_loads strip fromisoformat logs strftime clock ai_format
           (target_date - i) = Raise e ->
         exists f,
           main_result json_loads strip fromisoformat logs strftime clock ai_format
             target_date days = Fail f).
Proof.
  intros Hd Ht. split.
  - intro Hall.
    destruct (loop_done json_loads strip fromisoformat logs strftime clock ai_format
                target_date (py_range days) []) as (l & El & Em).
    + intros i Hi. now apply (range_valid target_date days).
    + intros i Hi. apply Hall. now apply py_range_in.
    + assert (Hlen : Z.of_nat (List.length l) = days).
      { rewrite <- (length_map Ok l), Em, length_map. apply py_range_length. lia. }
      exists l. split; [|split; [exact Hlen|exact Em]].
      unfold main_result. rewrite El. cbn [app obind'].
      rewrite (minus_days_valid target_date (days - 1)) by (unfold max_ordinal in *; lia).
      cbn [obind'].
      destruct l as [|a [|b l]]; cbn [List.length] in Hlen; try lia. reflexivity.
  - intros i e Hi He.
    destruct (loop_fail json_loads strip fromisoformat logs strftime clock ai_format
                target_date (py_range days) [] i e) as [f Ef].
    + now apply py_range_in.
    + exact He.
    + intros j Hj. now apply (range_valid target_date days).
    + exists f. unfold main_result. rewrite Ef. reflexivity.
Qed.

Lemma main_multi_day_witness :
  exists l,
    main_result json_loads_sample strip_ascii fromisoformat_std
      (fun _ => Missing) (fun d => str_of_Z d) (fun _ => "now") false 738000 2
    = Done (VDict [(KStr "multi_day_summary", VBool true);
                   (KStr "date_range", VStr "737999 to 738000");
                   (KStr "days", VList l)])
    /\ Z.of_nat (List.length l) = 2.
Proof.
  destruct (main_multi_day json_loads_sample strip_ascii fromisoformat_std
              (fun _ => Missing) (fun d => str_of_Z d) (fun _ => "now") false 738000 2)
    as [H _]; [lia|unfold max_ordinal; lia|].
  destruct H as (l & El & Hlen & _).
  - intros i Hi.
    destruct (summary_for json_loads_sample strip_ascii fromisoformat_std
                (fun _ => Missing) (fun d => str_of_Z d) (fun _ => "now") false (738000 - i))
      as [s|e] eqn:E; [eexists; reflexivity|].
    unfold summary_for in E. vm_compute in E. discriminate E.
  - exists l. split; [|exact Hlen]. rewrite El. vm_compute. reflexivity.
Defined.

Lemma prepare_empty (fromisoformat : string -> option datetime) (date now : string) :
  prepare_ai_summary_data fromisoformat date [] now = Raise KeyError.
Proof. reflexivity. Qed.

(** X16.  With [--ai-format], [main] fails whenever one of the days it is
    asked for has no record (no log file, an unreadable one, or no line that
    decodes); for a single day the failure is the [KeyError] of the AI
    projection.  Without [--ai-format] the same single day gives a summary. *)
Theorem main_ai_format_empty_day
        (json_loads : string -> result pyval) (strip : string -> string)
        (fromisoformat : string -> option datetime)
        (logs : Z -> log_file) (strftime : Z -> string) (clock : Z -> string)
        (target_date days i : Z) :
  1 <= days -> days <= target_date <= max_ordinal ->
  0 <= i < days ->
  load_daily_activities json_loads strip (logs (target_date - i)) = Ok [] ->
  (exists f,
      main_result json_loads strip fromisoformat logs strftime clock true target_date days
      = Fail f)
  /\ (days = 1 ->
      main_result json_loads strip fromisoformat logs strftime clock true target_date days
      = Fail (Py KeyError)
      /\ exists doc,
           main_result json_loads strip fromisoformat logs strftime clock false
             target_date days = Done doc).
Proof.
  intros Hd Ht Hi Hempty.
  assert (He : summary_for json_loads strip fromisoformat logs strftime clock true
                 (target_date - i) = Raise KeyError).
  { unfold summary_for, prepare_ai_summary_data_of. rewrite Hempty. apply prepare_empty. }
  split.
  - destruct (loop_fail json_loads strip fromisoformat logs strftime clock true
                target_date (py_range days) [] i KeyError) as [f Ef].
    + now apply py_range_in.
    + exact He.
    + intros j Hj. now apply (range_valid target_date days).
    + exists f. unfold main_result. rewrite Ef. reflexivity.
  - intros ->. assert (i = 0) by lia. subst i. rewrite Z.sub_0_r in *.
    unfold main_result. change (py_range 1) with [0]. cbn [summaries_from].
    rewrite (minus_days_valid target_date 0) by (unfold max_ordinal in *; lia).
    cbn [obind']. rewrite Z.sub_0_r. rewrite He. split; [reflexivity|].
    unfold summary_for, generate_daily_summary_of. rewrite Hempty. eexists. reflexivity.
Qed.

Lemma main_ai_format_empty_day_witness :
  main_result json_loads_sample strip_ascii fromisoformat_std
    (fun _ => Missing) (fun d => str_of_Z d) (fun _ => "now") true 738000 1
  = Fail (Py KeyError).
Proof.
  destruct (main_ai_format_empty_day json_loads_sample strip_ascii fromisoformat_std
              (fun _ => Missing) (fun d => str_of_Z d) (fun _ => "now") 738000 1 0)
    as [_ H]; [lia|unfold max_ordinal; lia|lia|reflexivity|].
  destruct (H eq_refl) as [E _]. exact E.
Defined.

(** ** Dictionaries *)

Lemma key_eqb_eq (a b : key) : key_eqb a b = true <-> a = b.
Proof.
  destruct a as [s|x], b as [t|y]; cbn [key_eqb]; split; intro H; try discriminate.
  - apply String.eqb_eq in H. now subst.
  - injection H as ->. apply String.eqb_refl.
  - apply Z.eqb_eq in H. now subst.
  - injection H as ->. apply Z.eqb_refl.
Qed.

Lemma key_eqb_refl (a : key) : key_eqb a a = true.
Proof. now apply key_eqb_eq. Qed.

Lemma key_eqb_neq (a b : key) : a <> b -> key_eqb a b = false.
Proof.
  intro H. destruct (key_eqb a b) eqn:E; [|reflexivity]. apply key_eqb_eq in E. contradiction.
Qed.

(** Lookup after an assignment. *)
Lemma dict_get_set {A : Type} (d : list (key * A)) (k k' : key) (v : A) :
  dict_get (assoc_set key_eqb d k v) k'
  = if key_eqb k k' then Some v else dict_get d k'.
Proof.
  unfold dict_get. induction d as [|[k0 v0] d IH]; cbn [assoc_set assoc_get].
  - reflexivity.
  - destruct (key_eqb k0 k) eqn:E0; cbn [assoc_get].
    + apply key_eqb_eq in E0. subst k0. destruct (key_eqb k k'); reflexivity.
    + rewrite IH. destruct (key_eqb k0 k') eqn:E1; [|reflexivity].
      apply key_eqb_eq in E1. subst k0.
      destruct (key_eqb k k') eqn:E2; [|reflexivity].
      apply key_eqb_eq in E2. subst k'. rewrite key_eqb_refl in E0. discriminate.
Qed.

(** Assigning to a key that is not there appends the entry. *)
Lemma assoc_set_new {A : Type} (d : list (key * A)) (k : key) (v : A) :
  dict_get d k = None -> assoc_set key_eqb d k v = d ++ [(k, v)].
Proof.
  unfold dict_get. induction d as [|[k0 v0] d IH]; cbn [assoc_set assoc_get app]; intro H.
  - reflexivity.
  - destruct (key_eqb k0 k); [discriminate|]. now rewrite IH.
Qed.

Lemma dict_mem_false {A : Type} (d : list (key * A)) (k : key) :
  dict_mem d k = false <-> dict_get d k = None.
Proof.
  unfold dict_mem. destruct (dict_get d k); split; intro H; congruence.
Qed.

Lemma dict_get_app {A : Type} (d e : list (key * A)) (k : key) :
  dict_get (d ++ e) k = match dict_get d k with Some v => Some v | None => dict_get e k end.
Proof.
  unfold dict_get. induction d as [|[k0 v0] d IH]; cbn [app assoc_get]; [reflexivity|].
  destruct (key_eqb k0 k); [reflexivity|exact IH].
Qed.

(** ** Loading the configuration *)

Lemma merge_default_dict (c : list (key * pyval)) (k : string) (v : pyval) :
  merge_default (VDict c) (k, v)
  = Ok (VDict (if dict_mem c (KStr k) then c else c ++ [(KStr k, v)])).
Proof.
  unfold merge_default. cbn [fst snd py_contains bind].
  destruct (dict_mem c (KStr k)) eqn:E; [reflexivity|].
  cbn [py_setitem]. apply dict_mem_false in E. now rewrite (assoc_set_new c _ v E).
Qed.

Lemma merge_fold (items : list (string * pyval)) (c : list (key * pyval)) :
  fold_result merge_default items (VDict c) = Ok (VDict (merge_items items c)).
Proof.
  revert c. induction items as [|[k v] items IH]; intro c; cbn [fold_result merge_items].
  - reflexivity.
  - rewrite merge_default_dict. cbn [bind]. apply IH.
Qed.

(** An entry that is there stays, with its value. *)
Lemma merge_keeps (items : list (string * pyval)) (c : list (key * pyval)) (k : key) (v : pyval) :
  dict_get c k = Some v -> dict_get (merge_items items c) k = Some v.
Proof.
  revert c. induction items as [|[k0 v0] items IH]; intros c H; cbn [merge_items].
  - exact H.
  - apply IH. destruct (dict_mem c (KStr k0)); [exact H|].
    rewrite dict_get_app, H. reflexivity.
Qed.

(** A setting that is missing gets its default. *)
Lemma merge_fills (items : list (string * pyval)) (c : list (key * pyval))
      (k : string) (v : pyval) :
  NoDup (map fst items) -> In (k, v) items -> dict_get c (KStr k) = None ->
  dict_get (merge_items items c) (KStr k) = Some v.
Proof.
  revert c. induction items as [|[k0 v0] items IH]; intros c Hnd Hin H; [contradiction|].
  cbn [map fst] in Hnd. inversion Hnd as [|? ? Hnot Hnd']; subst.
  cbn [merge_items]. destruct Hin as [E|Hin].
  - injection E as -> ->. apply merge_keeps.
    apply dict_mem_false in H. rewrite H. rewrite dict_get_app.
    apply dict_mem_false in H. rewrite H. unfold dict_get. cbn [assoc_get].
    now rewrite key_eqb_refl.
  - apply IH; [exact Hnd'|exact Hin|].
    assert (Hne : k0 <> k).
    { intros ->. apply Hnot. apply in_map_iff. exists (k, v). now split. }
    destruct (dict_mem c (KStr k0)); [exact H|].
    rewrite dict_get_app, H. unfold dict_get. cbn [assoc_get].
    rewrite key_eqb_neq; [reflexivity|]. intros [= E]. contradiction.
Qed.

(** Nothing but the missing settings is added, in the order of the defaults. *)
Lemma merge_keys (items : list (string * pyval)) (c : list (key * pyval)) :
  NoDup (map fst items) ->
  map fst (merge_items items c)
  = map fst c
    ++ map KStr (filter (fun k => negb (dict_mem c (KStr k))) (map fst items)).
Proof.
  revert c. induction items as [|[k0 v0] items IH]; intros c Hnd; cbn [merge_items map fst filter].
  - now rewrite app_nil_r.
  - inversion Hnd as [|? ? Hnot Hnd']; subst.
    rewrite (IH _ Hnd'). destruct (dict_mem c (KStr k0)) eqn:E; cbn [negb].
    + reflexivity.
    + rewrite map_app. cbn [map fst]. rewrite <- app_assoc. cbn [app map]. f_equal. f_equal.
      f_equal. apply filter_ext_in. intros k Hk. f_equal.
      unfold dict_mem. rewrite dict_get_app.
      destruct (dict_get c (KStr k)); [reflexivity|].
      unfold dict_get. cbn [assoc_get]. rewrite key_eqb_neq; [reflexivity|].
      intros [= ->]. contradiction.
Qed.

Lemma default_items_nodup : NoDup (map fst default_items).
Proof.
  cbn. repeat constructor; cbn; intuition discriminate.
Qed.

(** X17.  When the configuration file holds a JSON object, [_load_config]
    returns that object completed by the defaults and does not touch the
    file: every entry of the file is kept with its value and at its place,
    also an entry that is not one of the seven settings; each setting that
    the file lacks is added with its default value, after the entries of the
    file and in the order of the defaults; so the configuration returned has
    all seven settings. *)
Theorem load_config_merges (json_load : string -> result pyval)
        (json_dump : pyval -> string) (d : disk) (s : string) (c : list (key * pyval)) :
  file_text d = Some s -> can_read d = true -> json_load s = Ok (VDict c) ->
  exists c',
    load_config json_load json_dump d = (d, Ok (VDict c'))
    /\ (forall k v, dict_get c k = Some v -> dict_get c' k = Some v)
    /\ (forall k v, In (k, v) default_items -> dict_get c (KStr k) = None ->
                    dict_get c' (KStr k) = Some v)
    /\ map fst c'
       = map fst c
         ++ map KStr (filter (fun k => negb (dict_mem c (KStr k))) default_keys)
    /\ complete_config c' = true.
Proof.
  intros Hf Hr Hj. exists (merge_items default_items c).
  unfold load_config. rewrite Hf, Hr, Hj. cbn [bind]. rewrite merge_fold. cbn [catching].
  split; [reflexivity|]. split; [intros k v; apply merge_keeps|].
  split; [intros k v; apply merge_fills, default_items_nodup|].
  split; [apply merge_keys, default_items_nodup|].
  unfold complete_config. apply forallb_forall. intros k Hk.
  unfold default_keys in Hk. apply in_map_iff in Hk as ([k' v] & <- & Hin). cbn [fst].
  unfold dict_mem. destruct (dict_get c (KStr k')) as [w|] eqn:E.
  - now rewrite (merge_keeps _ _ _ _ E).
  - now rewrite (merge_fills _ _ _ _ default_items_nodup Hin E).
Qed.

Lemma load_config_merges_witness :
  exists c',
    load_config json_loads_sample (fun _ => "{}") (mk_disk (Some "{}") true false)
    = (mk_disk (Some "{}") true false, Ok (VDict c'))
    /\ complete_config c' = true.
Proof.
  destruct (load_config_merges json_loads_sample (fun _ => "{}")
              (mk_disk (Some "{}") true false) "{}" [] eq_refl eq_refl eq_refl)
    as (c' & E & _ & _ & _ & Hc).
  exists c'. split; [exact E|exact Hc].
Defined.

(** The merge changes nothing in a configuration that has all settings. *)
Lemma merge_complete (items : list (string * pyval)) (c : list (key * pyval)) :
  forallb (fun k => dict_mem c (KStr k)) (map fst items) = true -> merge_items items c = c.
Proof.
  induction items as [|[k v] items IH]; cbn [map fst forallb merge_items]; intro H.
  - reflexivity.
  - apply andb_prop in H as [Hk Hr]. rewrite Hk. now apply IH.
Qed.

Lemma load_complete (json_load : string -> result pyval) (json_dump : pyval -> string)
      (d : disk) (s : string) (c : list (key * pyval)) :
  file_text d = Some s -> can_read d = true -> json_load s = Ok (VDict c) ->
  complete_config c = true ->
  load_config json_load json_dump d = (d, Ok (VDict c)).
Proof.
  intros Hf Hr Hj Hc. unfold load_config. rewrite Hf, Hr, Hj. cbn [bind].
  rewrite merge_fold. cbn [catching]. now rewrite (merge_complete _ _ Hc).
Qed.

Lemma merge_default_scalar (v : pyval) (item : string * pyval) :
  is_object v = false ->
  merge_default v item = Ok v \/ merge_default v item = Raise TypeError.
Proof.
  intro Hv. unfold merge_default.
  destruct v as [| | | |s|l|c]; cbn [py_contains bind]; try (now right); try discriminate.
  - destruct (is_substring (fst item) s); cbn [py_setitem]; [now left|now right].
  - destruct (existsb (is_str (fst item)) l); cbn [py_setitem]; [now left|now right].
Qed.

Lemma merge_scalar (v : pyval) (items : list (string * pyval)) :
  is_object v = false ->
  fold_result merge_default items v = Ok v
  \/ fold_result merge_default items v = Raise TypeError.
Proof.
  intro Hv. induction items as [|item items IH]; cbn [fold_result]; [now left|].
  destruct (merge_default_scalar v item Hv) as [-> | ->]; cbn [bind]; [exact IH|now right].
Qed.

(** X18.  The other cases of [_load_config].  Without a file it returns the
    defaults and writes them, when the file can be written.  With a file
    that cannot be opened, or whose text is not JSON, it returns the defaults
    and leaves the file as it is.  Any other exception of [json.load] is not
    caught: a file that is not UTF-8 makes [_load_config] raise
    [UnicodeDecodeError].  With a file that holds JSON other than an object
    it never falls back to the defaults: it raises [TypeError] or, for a
    list or a string that holds the seven names, returns that value.  Once
    the defaults are on the disk and decode to themselves, loading again
    returns them and writes nothing. *)
Theorem load_config_fallbacks (json_load : string -> result pyval)
        (json_dump : pyval -> string) (d : disk) :
  (file_text d = None ->
   load_config json_load json_dump d = (save_config json_dump d default_config, Ok default_config)
   /\ (can_write d = true ->
       file_text (save_config json_dump d default_config) = Some (json_dump default_config)
       /\ (json_load (json_dump default_config) = Ok default_config ->
           load_config json_load json_dump (save_config json_dump d default_config)
           = (save_config json_dump d default_config, Ok default_config)))
   /\ (can_write d = false -> save_config json_dump d default_config = d))
  /\ (forall s, file_text d = Some s ->
                can_read d = false \/ json_load s = Raise JSONDecodeError ->
                load_config json_load json_dump d = (d, Ok default_config))
  /\ (forall s e, file_text d = Some s -> can_read d = true -> json_load s = Raise e ->
                  e <> JSONDecodeError ->
                  load_config json_load json_dump d = (d, Raise e))
  /\ (forall s, file_text d = Some s -> can_read d = true ->
                json_load s = Raise UnicodeDecodeError ->
                load_config json_load json_dump d = (d, Raise UnicodeDecodeError))
  /\ (forall s v, file_text d = Some s -> can_read d = true -> json_load s = Ok v ->
                  is_object v = false ->
                  load_config json_load json_dump d = (d, Ok v)
                  \/ load_config json_load json_dump d = (d, Raise TypeError)).
Proof.
  assert (Hraise : forall s e, file_text d = Some s -> can_read d = true ->
                               json_load s = Raise e -> e <> JSONDecodeError ->
                               load_config json_load json_dump d = (d, Raise e)).
  { intros s e Hf Hr Hj He. unfold load_config. rewrite Hf, Hr, Hj. cbn [bind catching].
    unfold is_instance. cbn [existsb].
    destruct e; try reflexivity. now contradiction He. }
  split; [|split; [|split; [|split]]].
  - intro Hf. unfold load_config at 1. rewrite Hf. split; [reflexivity|]. split.
    + intro Hw. unfold save_config. rewrite Hw, Hf. cbn [file_text]. split; [reflexivity|].
      intro Hj. apply (load_complete _ _ _ (json_dump default_config) _); try reflexivity.
      exact Hj.
    + intro Hw. unfold save_config. now rewrite Hw.
  - intros s Hf [Hr|Hj]; unfold load_config; rewrite Hf.
    + now rewrite Hr.
    + rewrite Hj. now destruct (can_read d).
  - exact Hraise.
  - intros s Hf Hr Hj. apply (Hraise s); try assumption. discriminate.
  - intros s v Hf Hr Hj Hv. unfold load_config. rewrite Hf, Hr, Hj. cbn [bind].
    destruct (merge_scalar v default_items Hv) as [-> | ->]; [now left|now right].
Qed.

Lemma load_config_fallbacks_witness :
  load_config json_loads_sample (fun _ => "{}") (mk_disk (Some "{") true true)
  = (mk_disk (Some "{") true true, Ok default_config)
  /\ load_config (fun _ => Raise UnicodeDecodeError) (fun _ => "{}")
       (mk_disk (Some "{}") true true)
     = (mk_disk (Some "{}") true true, Raise UnicodeDecodeError).
Proof.
  split.
  - destruct (load_config_fallbacks json_loads_sample (fun _ => "{}")
                (mk_disk (Some "{") true true)) as (_ & H & _).
    apply (H "{" eq_refl). right. reflexivity.
  - destruct (load_config_fallbacks (fun _ => Raise UnicodeDecodeError) (fun _ => "{}")
                (mk_disk (Some "{}") true true)) as (_ & _ & _ & H & _).
    apply (H "{}"); reflexivity.
Defined.

(** ** Setting a value *)

Lemma complete_set (c : list (key * pyval)) (k : string) (v : pyval) :
  complete_config c = true -> complete_config (assoc_set key_eqb c (KStr k) v) = true.
Proof.
  unfold complete_config. rewrite !forallb_forall. intros H x Hx.
  specialize (H x Hx). unfold dict_mem in *. rewrite dict_get_set.
  destruct (key_eqb (KStr k) (KStr x)); [reflexivity|exact H].
Qed.

(** X19.  [AIConfig.set] on a configuration that is an object: a [get] of
    the same key then returns the value set, whatever default is passed; a
    [get] of any other key returns what it returned before; when the file
    can be written it holds the new configuration afterwards, and a
    configuration with all seven settings is then loaded again unchanged by
    the next [AIConfig()], provided its JSON text decodes to it; when the
    file cannot be written, [set] changes the configuration in memory only
    and reports nothing.  On a configuration that is not an object [set]
    raises [TypeError]. *)
Theorem config_set_get (json_load : string -> result pyval) (json_dump : pyval -> string)
        (d : disk) (c : list (key * pyval)) (k : string) (value : pyval) :
  exists c',
    config_set json_dump d (VDict c) k value
    = Ok (save_config json_dump d (VDict c'), VDict c')
    /\ (forall default, config_get (VDict c') k default = Ok value)
    /\ (forall k' default, k' <> k ->
                           config_get (VDict c') k' default = config_get (VDict c) k' default)
    /\ (can_write d = true ->
        file_text (save_config json_dump d (VDict c')) = Some (json_dump (VDict c'))
        /\ (complete_config c = true ->
            can_read (save_config json_dump d (VDict c')) = true ->
            json_load (json_dump (VDict c')) = Ok (VDict c') ->
            load_config json_load json_dump (save_config json_dump d (VDict c'))
            = (save_config json_dump d (VDict c'), Ok (VDict c'))))
    /\ (can_write d = false -> save_config json_dump d (VDict c') = d)
    /\ (forall v, is_object v = false -> config_set json_dump d v k value = Raise TypeError).
Proof.
  exists (assoc_set key_eqb c (KStr k) value).
  split; [reflexivity|]. split; [|split; [|split; [|split]]].
  - intro default. unfold config_get. cbn [py_get]. rewrite dict_get_set.
    now rewrite key_eqb_refl.
  - intros k' default Hne. unfold config_get. cbn [py_get]. rewrite dict_get_set.
    rewrite key_eqb_neq; [reflexivity|]. intros [= E]. now subst.
  - intro Hw.
    assert (Hf : file_text (save_config json_dump d (VDict (assoc_set key_eqb c (KStr k) value)))
                 = Some (json_dump (VDict (assoc_set key_eqb c (KStr k) value)))).
    { unfold save_config. now rewrite Hw. }
    split; [exact Hf|]. intros Hc Hr Hj.
    apply (load_complete _ _ _ _ _ Hf Hr Hj). now apply complete_set.
  - intro Hw. unfold save_config. now rewrite Hw.
  - intros v Hv. destruct v; try reflexivity. discriminate.
Qed.

Lemma config_set_get_witness :
  exists d' c',
    config_set (fun _ => "{}") (mk_disk None false true) default_config "provider" (VStr "local")
    = Ok (d', VDict c')
    /\ config_get (VDict c') "provider" VNone = Ok (VStr "local")
    /\ file_text d' = Some "{}".
Proof.
  destruct (config_set_get json_loads_sample (fun _ => "{}") (mk_disk None false true)
              (map (fun kv => (KStr (fst kv), snd kv)) default_items) "provider" (VStr "local"))
    as (c' & E & G & _ & W & _).
  exists (save_config (fun _ => "{}") (mk_disk None false true) (VDict c')), c'.
  split; [exact E|]. split; [apply G|]. now apply W.
Defined.

(** ** The guards of the generator *)

Section Guards.
Variable json_loads : string -> result pyval.
Variable json_dumps : pyval -> string.
Variable repr_other : pyval -> string.
Variable characters : string -> list string.

Lemma require_api_key_missing (c : list (key * pyval)) (msg : string) :
  truthy (match dict_get c (KStr "api_key") with Some v => v | None => VNone end) = false ->
  require_api_key (VDict c) msg = Fail (ValueErrorMsg msg).
Proof.
  intro H. unfold require_api_key, config_get. cbn [py_get lift obind']. now rewrite H.
Qed.
End Guards.

Lemma is_api_provider_cases (p : string) :
  is_api_provider p = true -> p = "openai" \/ p = "anthropic" \/ p = "gemini".
Proof.
  unfold is_api_provider. intro H.
  apply orb_prop in H as [H|H]; [apply orb_prop in H as [H|H]|];
    apply String.eqb_eq in H; tauto.
Qed.

(** X20.  What [generate_summary] and the constructor of the generator
    refuse, whatever the HTTP exchange would give.  For each of the providers
    [openai], [anthropic] and [gemini], a configuration without an API key
    (none, an empty one, or another false value) fails with the [ValueError]
    that names the provider, and so does a configuration without [provider]
    entry, for which [gemini] stands.  A provider that is none of the four
    known ones fails with the [ValueError] that shows it.  Without [httpx]
    the constructor raises [ImportError] for the three API providers and
    accepts [local]. *)
Theorem generator_guards
        (json_loads : string -> result pyval) (json_dumps : pyval -> string)
        (repr_other : pyval -> string) (characters : string -> list string)
        (send : request -> reply) (c : list (key * pyval)) (activity_data : pyval) :
  (forall p, is_api_provider p = true ->
             dict_get c (KStr "provider") = Some (VStr p) ->
             truthy (setting c "api_key") = false ->
             generate_summary json_loads json_dumps repr_other characters send
               (VDict c) activity_data
             = Fail (ValueErrorMsg (provider_name p ++ " API key not configured")))
  /\ (dict_get c (KStr "provider") = None ->
      truthy (setting c "api_key") = false ->
      generate_summary json_loads json_dumps repr_other characters send
        (VDict c) activity_data
      = Fail (ValueErrorMsg "Google Gemini API key not configured"))
  /\ (forall v, dict_get c (KStr "provider") = Some v ->
                (forall p, In p ["openai"; "anthropic"; "gemini"; "local"] ->
                           py_eq v (VStr p) = false) ->
                generate_summary json_loads json_dumps repr_other characters send
                  (VDict c) activity_data
                = Fail (ValueErrorMsg ("Unsupported AI provider: " ++ py_str repr_other v)))
  /\ (forall p, is_api_provider p = true ->
                dict_get c (KStr "provider") = Some (VStr p) ->
                generator_init false (VDict c) = Fail (ImportErrorMsg httpx_missing_msg))
  /\ (dict_get c (KStr "provider") = Some (VStr "local") ->
      generator_init false (VDict c) = Done tt).
Proof.
  split; [|split; [|split; [|split]]].
  - intros p Hp Hc Hk. unfold generate_summary, config_get. cbn [py_get]. rewrite Hc.
    cbn [lift obind'].
    destruct (is_api_provider_cases p Hp) as [->|[->| ->]]; cbn [py_eq];
      repeat match goal with
             | |- context [String.eqb ?a ?b] =>
                 let r := eval vm_compute in (String.eqb a b) in
                 change (String.eqb a b) with r
             end; cbv iota.
    + unfold generate_openai_summary, openai_request.
      rewrite (require_api_key_missing c _ Hk). reflexivity.
    + unfold generate_anthropic_summary, anthropic_request.
      rewrite (require_api_key_missing c _ Hk). reflexivity.
    + unfold generate_gemini_summary, gemini_request.
      rewrite (require_api_key_missing c _ Hk). reflexivity.
  - intros Hc Hk. unfold generate_summary, config_get. cbn [py_get]. rewrite Hc.
    cbn [lift obind' py_eq].
    repeat match goal with
           | |- context [String.eqb ?a ?b] =>
               let r := eval vm_compute in (String.eqb a b) in
               change (String.eqb a b) with r
           end; cbv iota.
    unfold generate_gemini_summary, gemini_request.
    rewrite (require_api_key_missing c _ Hk). reflexivity.
  - intros v Hc Hv. unfold generate_summary, config_get. cbn [py_get]. rewrite Hc.
    cbn [lift obind'].
    rewrite (Hv "openai"), (Hv "anthropic"), (Hv "gemini"), (Hv "local");
      cbn [In]; tauto.
  - intros p Hp Hc. unfold generator_init, config_get. cbn [py_get]. rewrite Hc.
    cbn [lift obind' existsb py_eq num_of].
    destruct (is_api_provider_cases p Hp) as [->|[->| ->]]; reflexivity.
  - intro Hc. unfold generator_init, config_get. cbn [py_get]. rewrite Hc. reflexivity.
Qed.

Lemma generator_guards_witness :
  generate_summary json_loads_sample (fun _ => "") (fun _ => "") (fun _ => [])
    (fun _ => NoResponse "") default_config (VDict [])
  = Fail (ValueErrorMsg "Google Gemini API key not configured").
Proof.
  destruct (generator_guards json_loads_sample (fun _ => "") (fun _ => "") (fun _ => [])
              (fun _ => NoResponse "")
              (map (fun kv => (KStr (fst kv), snd kv)) default_items) (VDict []))
    as (H & _).
  apply (H "gemini"); reflexivity.
Defined.

(** ** The endpoint *)

Lemma complete_get (c : list (key * pyval)) (k : string) :
  complete_config c = true -> In k default_keys ->
  dict_get c (KStr k) = Some (setting c k).
Proof.
  unfold complete_config, setting. rewrite forallb_forall. intros H Hk.
  specialize (H k Hk). unfold dict_mem in H.
  destruct (dict_get c (KStr k)); [reflexivity|discriminate].
Qed.

(** What [_load_config] returns, when it returns an object. *)
Lemma loaded_object (json_load : string -> result pyval) (json_dump : pyval -> string)
      (d d' : disk) (c : list (key * pyval)) :
  load_config json_load json_dump d = (d', Ok (VDict c)) ->
  VDict c = default_config
  \/ exists s c0, file_text d = Some s /\ can_read d = true
                  /\ json_load s = Ok (VDict c0) /\ c = merge_items default_items c0.
Proof.
  unfold load_config. destruct (file_text d) as [s|] eqn:Hf.
  2:{ intros [= _ <-]. now left. }
  destruct (can_read d) eqn:Hr.
  2:{ intros [= _ <-]. now left. }
  destruct (json_load s) as [v|e] eqn:Hj; cbn [bind].
  2:{ cbn [catching]. destruct (existsb (is_instance e) [JSONDecodeError]);
        [intros [= _ <-]; now left|discriminate]. }
  destruct v as [| | | | | |c0].
  1-6: match goal with
       | |- (_, catching _ (fold_result merge_default default_items ?v) _) = _ -> _ =>
           destruct (merge_scalar v default_items eq_refl) as [E|E]; rewrite E;
           cbn [catching existsb]; try (cbn; congruence); congruence
       end.
  rewrite merge_fold. cbn [catching]. intros [= _ <-]. right. exists s, c0. now repeat split.
Qed.

Lemma loaded_complete (json_load : string -> result pyval) (json_dump : pyval -> string)
      (d d' : disk) (c : list (key * pyval)) :
  load_config json_load json_dump d = (d', Ok (VDict c)) -> complete_config c = true.
Proof.
  intro H. apply loaded_object in H as [E|(s & c0 & _ & _ & _ & ->)].
  - injection E as ->. reflexivity.
  - unfold complete_config. apply forallb_forall. intros k Hk.
    unfold default_keys in Hk. apply in_map_iff in Hk as ([k' v] & <- & Hin). cbn [fst].
    unfold dict_mem. destruct (dict_get c0 (KStr k')) as [w|] eqn:E.
    + now rewrite (merge_keeps _ _ _ _ E).
    + now rewrite (merge_fills _ _ _ _ default_items_nodup Hin E).
Qed.

(** X21.  For a configuration that [AIConfig] has loaded, the [base_url]
    entry is always there, so that the endpoints written in the generator
    ([https://api.openai.com/v1] and the like) are never used: the URL of
    the request is the configured [base_url] followed by the path of the
    provider.  Unless the file holds an object with a [base_url] entry, that
    value is the empty string of the defaults, and the URL is the bare path,
    without scheme or host. *)
Theorem endpoint_from_config
        (json_load : string -> result pyval) (json_dump json_dumps : pyval -> string)
        (repr_other : pyval -> string)
        (d d' : disk) (c : list (key * pyval)) (activity_data : pyval) :
  load_config json_load json_dump d = (d', Ok (VDict c)) ->
  (forall default, config_get (VDict c) "base_url" default = Ok (setting c "base_url"))
  /\ (forall req, openai_request json_dumps repr_other (VDict c) activity_data = Done req ->
                  url req = (py_str repr_other (setting c "base_url") ++ "/chat/completions")%string)
  /\ (forall req, anthropic_request json_dumps repr_other (VDict c) activity_data = Done req ->
                  url req = (py_str repr_other (setting c "base_url") ++ "/v1/messages")%string)
  /\ (forall req, gemini_request json_dumps repr_other (VDict c) activity_data = Done req ->
                  url req
                  = (py_str repr_other (setting c "base_url") ++ "/v1beta/models/"
                     ++ py_str repr_other (setting c "model") ++ ":generateContent?key="
                     ++ py_str repr_other (setting c "api_key"))%string)
  /\ ((forall s c0 b, file_text d = Some s -> can_read d = true ->
                      json_load s = Ok (VDict c0) ->
                      dict_get c0 (KStr "base_url") <> Some b) ->
      setting c "base_url" = VStr "").
Proof.
  intro H. pose proof (loaded_complete _ _ _ _ _ H) as Hc.
  assert (Hb : dict_get c (KStr "base_url") = Some (setting c "base_url")).
  { apply complete_get; [exact Hc|]. cbn. tauto. }
  assert (Hm : dict_get c (KStr "model") = Some (setting c "model")).
  { apply complete_get; [exact Hc|]. cbn. tauto. }
  assert (Hk : dict_get c (KStr "api_key") = Some (setting c "api_key")).
  { apply complete_get; [exact Hc|]. cbn. tauto. }
  split; [|split; [|split; [|split]]].
  - intro default. unfold config_get. cbn [py_get]. now rewrite Hb.
  - intros req R. unfold openai_request, require_api_key, config_get in R.
    cbn [py_get lift obind'] in R. rewrite Hb in R.
    destruct (truthy _); [|discriminate R]. cbn [obind'] in R. injection R as <-. reflexivity.
  - intros req R. unfold anthropic_request, require_api_key, config_get in R.
    cbn [py_get lift obind'] in R. rewrite Hb in R.
    destruct (truthy _); [|discriminate R]. cbn [obind'] in R. injection R as <-. reflexivity.
  - intros req R. unfold gemini_request, require_api_key, config_get in R.
    cbn [py_get lift obind'] in R. rewrite Hb, Hm, Hk in R.
    destruct (truthy _); [|discriminate R]. cbn [obind'] in R. injection R as <-. reflexivity.
  - intro Hno. apply loaded_object in H as [E|(s & c0 & Hf & Hr & Hj & ->)].
    + injection E as ->. reflexivity.
    + unfold setting.
      destruct (dict_get c0 (KStr "base_url")) as [b|] eqn:E0.
      * exfalso. exact (Hno s c0 b Hf Hr Hj E0).
      * rewrite (merge_fills default_items c0 "base_url" (VStr "") default_items_nodup);
          [reflexivity| |exact E0].
        cbn. tauto.
Qed.

Lemma endpoint_from_config_witness :
  exists req,
    gemini_request (fun _ => "") (fun _ => "")
      (VDict (merge_items default_items [(KStr "api_key", VStr "K")])) (VDict []) = Done req
    /\ url req = "/v1beta/models/gemini-1.5-flash:generateContent?key=K".
Proof.
  destruct (gemini_request (fun _ => "") (fun _ => "")
              (VDict (merge_items default_items [(KStr "api_key", VStr "K")])) (VDict []))
    as [req|f] eqn:R; [|vm_compute in R; discriminate R].
  exists req. split; [reflexivity|].
  destruct (endpoint_from_config
              (fun _ => Ok (VDict [(KStr "api_key", VStr "K")])) (fun _ => "") (fun _ => "")
              (fun _ => "") (mk_disk (Some "") true false) (mk_disk (Some "") true false)
              (merge_items default_items [(KStr "api_key", VStr "K")]) (VDict []) eq_refl)
    as (_ & _ & _ & G & _).
  rewrite (G req R). vm_compute. reflexivity.
Defined.

(** ** The replies of the API *)

Section Replies.
Variable json_loads : string -> result pyval.
Variable json_dumps : pyval -> string.
Variable repr_other : pyval -> string.
Variable characters : string -> list string.
Variable send : request -> reply.

Lemma require_api_key_present (c : list (key * pyval)) (msg : string) :
  truthy (setting c "api_key") = true ->
  require_api_key (VDict c) msg = Done (setting c "api_key").
Proof.
  intro H. unfold require_api_key, config_get. cbn [py_get lift obind'].
  unfold setting in H. now rewrite H.
Qed.

(** With an API key, the request of each provider is built. *)
Lemma requests_done (c : list (key * pyval)) (activity_data : pyval) :
  truthy (setting c "api_key") = true ->
  (exists req, openai_request json_dumps repr_other (VDict c) activity_data = Done req)
  /\ (exists req, anthropic_request json_dumps repr_other (VDict c) activity_data = Done req)
  /\ (exists req, gemini_request json_dumps repr_other (VDict c) activity_data = Done req).
Proof.
  intro H. unfold openai_request, anthropic_request, gemini_request.
  rewrite !(require_api_key_present c _ H). unfold config_get. cbn [py_get lift obind'].
  repeat split; eexists; reflexivity.
Qed.

Lemma dispatch (c : list (key * pyval)) (activity_data : pyval) (p : string) :
  is_api_provider p = true ->
  dict_get c (KStr "provider") = Some (VStr p) ->
  generate_summary json_loads json_dumps repr_other characters send (VDict c) activity_data
  = if String.eqb p "openai"
    then generate_openai_summary json_loads json_dumps repr_other send (VDict c) activity_data
    else if String.eqb p "anthropic"
    then generate_anthropic_summary json_loads json_dumps repr_other send (VDict c)
           activity_data
    else generate_gemini_summary json_loads json_dumps repr_other send (VDict c) activity_data.
Proof.
  intros Hp Hc. unfold generate_summary, config_get. cbn [py_get]. rewrite Hc.
  cbn [lift obind'].
  destruct (is_api_provider_cases p Hp) as [->|[->| ->]]; reflexivity.
Qed.
End Replies.

(** X22.  How the answer of the API becomes the summary, for the three API
    providers with an API key configured.  An exception of the HTTP client
    is passed on.  A status code other than 200 fails with the provider's
    "API error" message, which shows the code and the body; the body is not
    decoded.  With status 200, a body that is not JSON fails; for OpenAI the
    summary is the [content] of the [message] of the first choice, for
    Anthropic the [text] of the first content block, for Gemini the [text] of
    the first part of the [content] of the first candidate; and Gemini's
    answer without candidates fails with "No response generated from Gemini
    API". *)
Theorem api_replies
        (json_loads : string -> result pyval) (json_dumps : pyval -> string)
        (repr_other : pyval -> string) (characters : string -> list string)
        (send : request -> reply) (c : list (key * pyval)) (activity_data : pyval)
        (p : string) :
  is_api_provider p = true ->
  dict_get c (KStr "provider") = Some (VStr p) ->
  truthy (setting c "api_key") = true ->
  (forall msg, (forall req, send req = NoResponse msg) ->
               generate_summary json_loads json_dumps repr_other characters send
                 (VDict c) activity_data = Fail (HttpError msg))
  /\ (forall status body,
         (forall req, send req = Response status body) ->
         (status <> 200 ->
          generate_summary json_loads json_dumps repr_other characters send
            (VDict c) activity_data
          = Fail (ExceptionMsg (api_label p ++ " API error: " ++ str_of_Z status
                                ++ " - " ++ body)))
         /\ (forall e,
                status = 200 -> json_loads body = Raise e ->
                generate_summary json_loads json_dumps repr_other characters send
                  (VDict c) activity_data = Fail (Py e))
         /\ (forall result text,
                status = 200 -> json_loads body = Ok result ->
                (p = "openai" ->
                 (exists choice rest,
                     lookup result "choices" = Some (VList (choice :: rest))
                     /\ lookup2 choice "message" "content" = Some text) ->
                 generate_summary json_loads json_dumps repr_other characters send
                   (VDict c) activity_data = Done text)
                /\ (p = "anthropic" ->
                    (exists block rest,
                        lookup result "content" = Some (VList (block :: rest))
                        /\ lookup block "text" = Some text) ->
                    generate_summary json_loads json_dumps repr_other characters send
                      (VDict c) activity_data = Done text)
                /\ (p = "gemini" ->
                    (exists candidate rest part rest',
                        lookup result "candidates" = Some (VList (candidate :: rest))
                        /\ lookup2 candidate "content" "parts" = Some (VList (part :: rest'))
                        /\ lookup part "text" = Some text) ->
                    generate_summary json_loads json_dumps repr_other characters send
                      (VDict c) activity_data = Done text)
                /\ (p = "gemini" -> is_object result = true ->
                    lookup result "candidates" = None
                    \/ lookup result "candidates" = Some (VList []) ->
                    generate_summary json_loads json_dumps repr_other characters send
                      (VDict c) activity_data
                    = Fail (ExceptionMsg "No response generated from Gemini API")))).
Proof.
  intros Hp Hc Hk.
  rewrite (dispatch json_loads json_dumps repr_other characters send c activity_data p Hp Hc).
  destruct (requests_done json_dumps repr_other c activity_data Hk)
    as ((r1 & R1) & (r2 & R2) & (r3 & R3)).
  unfold generate_openai_summary, generate_anthropic_summary, generate_gemini_summary.
  rewrite R1, R2, R3. cbn [obind']. unfold exchange.
  split.
  - intros msg Hs. rewrite !Hs.
    destruct (is_api_provider_cases p Hp) as [->|[->| ->]]; reflexivity.
  - intros status body Hs. rewrite !Hs. split; [|split].
    + intro Hne. apply Z.eqb_neq in Hne. rewrite Hne. cbn [negb obind'].
      destruct (is_api_provider_cases p Hp) as [->|[->| ->]]; reflexivity.
    + intros e -> Hj. cbn [Z.eqb Pos.eqb negb]. rewrite Hj. cbn [lift obind'].
      destruct (is_api_provider_cases p Hp) as [->|[->| ->]]; reflexivity.
    + intros result text -> Hj. cbn [Z.eqb Pos.eqb negb]. rewrite Hj. cbn [lift obind'].
      split; [|split; [|split]].
      * intros -> (choice & rest & L1 & L2). cbn [String.eqb Ascii.eqb Bool.eqb].
        destruct result; try discriminate L1. cbn [lookup] in L1.
        cbn [py_getitem]. rewrite L1. cbn [lift obind' index0].
        unfold lookup2 in L2. destruct choice; try discriminate L2. cbn [lookup] in L2.
        cbn [py_getitem].
        destruct (dict_get d0 (KStr "message")) as [m|]; [|discriminate L2].
        cbn [lift obind']. destruct m; try discriminate L2. cbn [lookup] in L2.
        cbn [py_getitem]. now rewrite L2.
      * intros -> (block & rest & L1 & L2). cbn [String.eqb Ascii.eqb Bool.eqb].
        destruct result; try discriminate L1. cbn [lookup] in L1.
        cbn [py_getitem]. rewrite L1. cbn [lift obind' index0].
        destruct block; try discriminate L2. cbn [lookup] in L2.
        cbn [py_getitem]. now rewrite L2.
      * intros -> (candidate & rest & part & rest' & L1 & L2 & L3).
        cbn [String.eqb Ascii.eqb Bool.eqb].
        destruct result; try discriminate L1. cbn [lookup] in L1.
        cbn [py_contains py_getitem]. unfold dict_mem. rewrite L1.
        cbn [lift obind' negb truthy index0].
        unfold lookup2 in L2. destruct candidate; try discriminate L2. cbn [lookup] in L2.
        cbn [py_getitem].
        destruct (dict_get d0 (KStr "content")) as [m|]; [|discriminate L2].
        cbn [lift obind']. destruct m; try discriminate L2. cbn [lookup] in L2.
        cbn [py_getitem]. rewrite L2. cbn [lift obind' index0].
        destruct part; try discriminate L3. cbn [lookup] in L3.
        cbn [py_getitem]. now rewrite L3.
      * intros -> Ho L. cbn [String.eqb Ascii.eqb Bool.eqb].
        destruct result; try discriminate Ho. cbn [lookup] in L.
        cbn [py_contains py_getitem]. unfold dict_mem.
        destruct L as [L|L]; rewrite L; reflexivity.
Qed.

Lemma api_replies_witness :
  generate_summary json_loads_sample (fun _ => "") (fun _ => "") (fun _ => [])
    (fun _ => Response 500 "oops")
    (VDict [(KStr "provider", VStr "openai"); (KStr "api_key", VStr "K")]) (VDict [])
  = Fail (ExceptionMsg "OpenAI API error: 500 - oops").
Proof.
  destruct (api_replies json_loads_sample (fun _ => "") (fun _ => "") (fun _ => [])
              (fun _ => Response 500 "oops")
              [(KStr "provider", VStr "openai"); (KStr "api_key", VStr "K")] (VDict [])
              "openai" eq_refl eq_refl eq_refl) as [_ H].
  destruct (H 500 "oops" (fun _ => eq_refl)) as [H1 _].
  rewrite H1 by discriminate. vm_compute. reflexivity.
Defined.

(** ** The local summary *)

Lemma append_assoc (a b c : string) : ((a ++ b) ++ c = a ++ (b ++ c))%string.
Proof.
  induction a as [|x a IH]; [reflexivity|].
  change (String x ((a ++ b) ++ c) = String x (a ++ (b ++ c)))%string. now rewrite IH.
Qed.

Lemma append_nil_r (s : string) : (s ++ "")%string = s.
Proof.
  induction s as [|x s IH]; [reflexivity|].
  change (String x (s ++ "") = String x s)%string. now rewrite IH.
Qed.

Lemma fold_lines (repr_other : pyval -> string) (l : list string) (s : string) :
  fold_left (fun s insight => (s ++ "- " ++ py_str repr_other insight ++ newline)%string)
            (map VStr l) s
  = (s ++ concat_text (map insight_line l))%string.
Proof.
  revert s. induction l as [|m l IH]; intro s; cbn [map fold_left concat_text fold_right].
  - now rewrite append_nil_r.
  - rewrite IH. cbn [py_str]. unfold insight_line at 2.
    rewrite !append_assoc. reflexivity.
Qed.

Lemma py_gt_num (n : num) (k : Z) : exists b, py_gt (of_num n) (VInt k) = Ok b.
Proof. destruct n; cbn; eexists; reflexivity. Qed.

Lemma firstn_map {A B : Type} (f : A -> B) (n : nat) (l : list A) :
  firstn n (map f l) = map f (firstn n l).
Proof.
  revert l. induction n as [|n IH]; intros [|a l]; cbn; try reflexivity. now rewrite IH.
Qed.

(** X23.  With the provider [local], a summary is generated for every
    document that [prepare_ai_summary_data] returns, without [httpx], API key
    or HTTP exchange.  The text starts with the heading that names the date,
    and between the headings "Key Insights" and "Recommendations" it holds
    one line for each of the first three insights of the analysis, in their
    order, and nothing else. *)
Theorem local_summary_total
        (json_loads : string -> result pyval) (json_dumps : pyval -> string)
        (repr_other : pyval -> string) (characters : string -> list string)
        (send : request -> reply) (fromisoformat : string -> option datetime)
        (httpx_available : bool) (c : list (key * pyval))
        (date now : string) (evs : list pyval) (activity_data : pyval) :
  prepare_ai_summary_data fromisoformat date evs now = Ok activity_data ->
  dict_get c (KStr "provider") = Some (VStr "local") ->
  exists (text head tail : string) (insights : list string),
    generator_init httpx_available (VDict c) = Done tt
    /\ generate_summary json_loads json_dumps repr_other characters send
         (VDict c) activity_data = Done (VStr text)
    /\ lookup activity_data "insights" = Some (VList (map VStr insights))
    /\ text = ("# Daily Summary for " ++ date ++ head
               ++ "## Key Insights" ++ newline
               ++ concat_text (map insight_line (firstn 3 insights))
               ++ newline ++ "## Recommendations" ++ tail)%string.
Proof.
  intros H Hc.
  destruct evs as [|e evs]; [vm_compute in H; discriminate H|].
  destruct (generate_daily_summary fromisoformat date (e :: evs) now) as [summary|err] eqn:Hs.
  2:{ unfold prepare_ai_summary_data in H. rewrite Hs in H. discriminate H. }
  destruct (ai_projection_cons fromisoformat _ _ _ _ _ Hs) as (v & t & x & _ & _ & _ & E).
  rewrite E in H. injection H as <-.
  assert (Hinit : generator_init httpx_available (VDict c) = Done tt).
  { unfold generator_init, config_get. cbn [py_get]. rewrite Hc.
    destruct httpx_available; reflexivity. }
  unfold generate_summary, config_get. cbn [py_get]. rewrite Hc.
  cbn [lift obind' py_eq String.eqb Ascii.eqb Bool.eqb].
  unfold generate_local_summary.
  cbn [py_get dict_get assoc_get key_eqb String.eqb Ascii.eqb Bool.eqb bind].
  destruct (py_gt_num (NInt (deep_work_sessions t)) 0) as [b1 E1].
  cbn [of_num] in E1. rewrite E1. cbn [bind first_three].
  destruct (py_gt_num (round1 x) 80) as [b2 E2]. rewrite E2. cbn [bind].
  destruct (py_gt_num (NInt (commands_used t)) 2) as [b3 E3].
  cbn [of_num] in E3. rewrite E3. cbn [bind lift obind'].
  rewrite firstn_map, fold_lines.
  eexists.
  exists (newline ++ newline ++ "## Overview" ++ newline
          ++ "Today you worked for " ++ py_str repr_other v ++ " minutes with a "
          ++ py_str repr_other (of_num (round1 x)) ++ "% break compliance rate. " ++ newline
          ++ (if b1
              then "You completed " ++ py_str repr_other (VInt (deep_work_sessions t))
                   ++ " deep work session(s) - great for focused productivity!"
              else "Consider using deep work sessions for better focus.") ++ newline
          ++ newline)%string.
  exists (newline
          ++ "- " ++ (if b2
                      then "Excellent break compliance! Keep it up!"
                      else "Try to improve break compliance for better eye health")
          ++ newline
          ++ "- " ++ (if b3
                      then "You're making good use of Restly's features"
                      else "Explore Restly's voice commands for easier control")
          ++ newline
          ++ "- Take regular 20-second breaks to look at something 20 feet away (20-20-20 rule)"
          ++ newline
          ++ newline
          ++ "*This summary was generated locally. For more detailed AI analysis, configure an API key.*"
          ++ newline)%string.
  exists (insights_of t x).
  split; [exact Hinit|]. split; [reflexivity|]. split; [reflexivity|].
  cbn [py_str]. rewrite !append_assoc. reflexivity.
Qed.

Lemma local_summary_total_witness :
  exists data text,
    prepare_ai_summary_data fromisoformat_std "2024-01-15" [ev "break_shown"] "now" = Ok data
    /\ generate_summary json_loads_sample (fun _ => "") (fun _ => "") (fun _ => [])
         (fun _ => NoResponse "") (VDict [(KStr "provider", VStr "local")]) data
       = Done (VStr text).
Proof.
  destruct (prepare_ai_summary_data fromisoformat_std "2024-01-15" [ev "break_shown"] "now")
    as [data|e] eqn:E; [|vm_compute in E; discriminate E].
  destruct (local_summary_total json_loads_sample (fun _ => "") (fun _ => "") (fun _ => [])
              (fun _ => NoResponse "") fromisoformat_std false
              [(KStr "provider", VStr "local")] "2024-01-15" "now" [ev "break_shown"] data
              E eq_refl) as (text & _ & _ & _ & _ & G & _).
  exists data, text. split; [reflexivity|exact G].
Defined.

(** ** The dashboard and the summary script *)

Section EndToEnd.
Variable json_loads : string -> result pyval.
Variable json_dump : pyval -> string.
Variable json_dumps : pyval -> string.
Variable repr_other : pyval -> string.
Variable characters : string -> list string.
Variable send : request -> reply.
Variable fromisoformat : string -> option datetime.

(** With the provider [local] the generator is built and returns a text for
    every document of the AI projection. *)
Lemma local_summary_done (httpx_available : bool) (c : list (key * pyval))
      (date now : string) (evs : list pyval) (activity_data : pyval) :
  prepare_ai_summary_data fromisoformat date evs now = Ok activity_data ->
  dict_get c (KStr "provider") = Some (VStr "local") ->
  generator_init httpx_available (VDict c) = Done tt
  /\ exists text,
       generate_summary json_loads json_dumps repr_other characters send
         (VDict c) activity_data = Done (VStr text).
Proof.
  intros H Hc. split.
  { unfold generator_init, config_get. cbn [py_get]. rewrite Hc.
    destruct httpx_available; reflexivity. }
  destruct evs as [|e evs]; [vm_compute in H; discriminate H|].
  destruct (generate_daily_summary fromisoformat date (e :: evs) now) as [summary|err] eqn:Hs.
  2:{ unfold prepare_ai_summary_data in H. rewrite Hs in H. discriminate H. }
  destruct (ai_projection_cons fromisoformat _ _ _ _ _ Hs) as (v & t & x & _ & _ & _ & E).
  rewrite E in H. injection H as <-.
  unfold generate_summary, config_get. cbn [py_get]. rewrite Hc.
  cbn [lift obind' py_eq String.eqb Ascii.eqb Bool.eqb].
  unfold generate_local_summary.
  cbn [py_get dict_get assoc_get key_eqb String.eqb Ascii.eqb Bool.eqb bind].
  destruct (py_gt_num (NInt (deep_work_sessions t)) 0) as [b1 E1].
  cbn [of_num] in E1. rewrite E1. cbn [bind first_three].
  destruct (py_gt_num (round1 x) 80) as [b2 E2]. rewrite E2. cbn [bind].
  destruct (py_gt_num (NInt (commands_used t)) 2) as [b3 E3].
  cbn [of_num] in E3. rewrite E3. cbn [bind lift obind'].
  eexists. reflexivity.
Qed.

(** Without an API key the default provider fails, with or without [httpx]. *)
Lemma default_config_fails (httpx_available : bool) (activity_data : pyval) :
  exists f,
    (_ <<- generator_init httpx_available default_config ;;
     generate_summary json_loads json_dumps repr_other characters send
       default_config activity_data) = Fail f.
Proof.
  destruct httpx_available; eexists; reflexivity.
Qed.
End EndToEnd.

(** X24.  What the dashboard shows when the process it starts is the summary
    script.  On a day without records the script exits with code 1, has
    printed nothing and has not touched the configuration; so it does on a
    fresh installation, where no configuration file exists, after which the
    file holds the defaults (when it can be written).  With the provider
    [local] and a day whose AI projection returns, it exits with code 0 and
    has printed the summary followed by a newline.  The dashboard's
    [ai_summary] is the standard output for exit code 0 and empty for any
    other exit code, for which [/api/summary] answers with the error text of
    the standard error stream. *)
Theorem dashboard_ai_summary
        (json_loads : string -> result pyval) (json_dump json_dumps : pyval -> string)
        (repr_other : pyval -> string) (characters : string -> list string)
        (send : request -> reply) (fromisoformat : string -> option datetime)
        (httpx_available : bool) (d : disk) (date now : string) :
  ai_main json_loads json_dump json_dumps repr_other characters send fromisoformat
    httpx_available d date [] now = (d, (1, ""))
  /\ (forall evs activity_data,
         file_text d = None ->
         prepare_ai_summary_data fromisoformat date evs now = Ok activity_data ->
         ai_main json_loads json_dump json_dumps repr_other characters send fromisoformat
           httpx_available d date evs now
         = (save_config json_dump d default_config, (1, "")))
  /\ (forall evs activity_data d' c,
         prepare_ai_summary_data fromisoformat date evs now = Ok activity_data ->
         load_config json_loads json_dump d = (d', Ok (VDict c)) ->
         dict_get c (KStr "provider") = Some (VStr "local") ->
         exists text,
           ai_main json_loads json_dump json_dumps repr_other characters send fromisoformat
             httpx_available d date evs now
           = (d', (0, (text ++ newline)%string))
           /\ forall stderr,
                ai_summary_of true (Completed 0 (text ++ newline) stderr)
                = (text ++ newline)%string)
  /\ (forall returncode stdout stderr,
         returncode <> 0 ->
         ai_summary_of true (Completed returncode stdout stderr) = ""
         /\ api_summary_body (Completed returncode stdout stderr)
            = VDict [(KStr "error", VStr stderr)])
  /\ (forall run, ai_summary_of false run = "").
Proof.
  split; [reflexivity|]. split; [|split; [|split]].
  - intros evs data Hf Hp. unfold ai_main, generate_ai_summary_for_date. rewrite Hp.
    unfold load_config. rewrite Hf.
    destruct (default_config_fails json_loads json_dumps repr_other characters send
                httpx_available data) as [f ->].
    reflexivity.
  - intros evs data d' c Hp Hl Hc. unfold ai_main, generate_ai_summary_for_date.
    rewrite Hp, Hl.
    destruct (local_summary_done json_loads json_dumps repr_other characters send
                fromisoformat httpx_available c date now evs data Hp Hc) as [-> [text ->]].
    exists text. cbn [obind' py_str]. split; [reflexivity|]. intro stderr. reflexivity.
  - intros rc out err Hne. apply Z.eqb_neq in Hne.
    unfold ai_summary_of, api_summary_body. now rewrite Hne.
  - intro run. reflexivity.
Qed.

Lemma dashboard_ai_summary_witness :
  ai_main json_loads_sample (fun _ => "{}") (fun _ => "") (fun _ => "") (fun _ => [])
    (fun _ => NoResponse "") fromisoformat_std true (mk_disk None false true)
    "2024-01-15" [ev "break_shown"] "now"
  = (mk_disk (Some "{}") true true, (1, "")).
Proof.
  destruct (prepare_ai_summary_data fromisoformat_std "2024-01-15" [ev "break_shown"] "now")
    as [data|e] eqn:E; [|vm_compute in E; discriminate E].
  destruct (dashboard_ai_summary json_loads_sample (fun _ => "{}") (fun _ => "") (fun _ => "")
              (fun _ => []) (fun _ => NoResponse "") fromisoformat_std true
              (mk_disk None false true) "2024-01-15" "now") as (_ & H & _).
  rewrite (H [ev "break_shown"] data eq_refl E). reflexivity.
Defined.

(** ** The setup scripts *)

Lemma prompts_differ : gemini_system_prompt <> default_system_prompt.
Proof.
  intro H. apply (f_equal String.length) in H. vm_compute in H. discriminate H.
Qed.

(** X25.  [setup_gemini_api_key] writes nothing and returns [False] for a
    blank answer, and also when the file cannot be written.  Otherwise it
    returns [True] and the file holds a configuration of its own, whatever
    the file held before: provider [gemini], the stripped answer as API key,
    an empty [base_url], and a system prompt that is not the default one of
    [AIConfig].  That configuration has all seven settings, so [AIConfig]
    loads it as it is (when its JSON text decodes to it), and the Gemini
    request built from it goes to the bare path
    [/v1beta/models/gemini-1.5-flash:generateContent?key=...]. *)
Theorem setup_gemini_writes
        (json_loads : string -> result pyval) (json_dump json_dumps : pyval -> string)
        (repr_other : pyval -> string) (strip : string -> string)
        (d : disk) (answer : string) :
  (strip answer = "" -> setup_gemini_api_key json_dump strip d answer = (d, false))
  /\ (can_write d = false -> setup_gemini_api_key json_dump strip d answer = (d, false))
  /\ (strip answer <> "" -> can_write d = true ->
      exists d',
        setup_gemini_api_key json_dump strip d answer = (d', true)
        /\ file_text d' = Some (json_dump (gemini_config (strip answer)))
        /\ (json_loads (json_dump (gemini_config (strip answer)))
            = Ok (gemini_config (strip answer)) ->
            load_config json_loads json_dump d' = (d', Ok (gemini_config (strip answer))))
        /\ lookup (gemini_config (strip answer)) "api_key" = Some (VStr (strip answer))
        /\ lookup (gemini_config (strip answer)) "provider" = Some (VStr "gemini")
        /\ lookup (gemini_config (strip answer)) "system_prompt"
           = Some (VStr gemini_system_prompt)
        /\ gemini_system_prompt <> default_system_prompt
        /\ forall activity_data,
             exists req,
               gemini_request json_dumps repr_other (gemini_config (strip answer))
                 activity_data = Done req
               /\ url req
                  = ("/v1beta/models/gemini-1.5-flash:generateContent?key="
                     ++ strip answer)%string).
Proof.
  unfold setup_gemini_api_key. split; [|split].
  - intro H. apply String.eqb_eq in H. now rewrite H.
  - intro H. rewrite H. now destruct (String.eqb (strip answer) "").
  - intros Hne Hw. apply String.eqb_neq in Hne. rewrite Hne, Hw.
    eexists. split; [reflexivity|]. split; [reflexivity|].
    split; [|split; [reflexivity|split; [reflexivity|split; [reflexivity|split]]]].
    + intro Hj. apply (load_complete _ _ _ (json_dump (gemini_config (strip answer))) _);
        try reflexivity. exact Hj.
    + exact prompts_differ.
    + intro data. unfold gemini_request, require_api_key, config_get.
      cbn [gemini_config dict_of_items map fst snd py_get dict_get assoc_get key_eqb
           String.eqb Ascii.eqb Bool.eqb lift obind' truthy].
      rewrite Hne. cbn [negb obind']. eexists. split; reflexivity.
Qed.

Lemma setup_gemini_writes_witness :
  exists d',
    setup_gemini_api_key (fun _ => "{}") strip_ascii (mk_disk None false true) " K1 " = (d', true)
    /\ lookup (gemini_config (strip_ascii " K1 ")) "api_key" = Some (VStr "K1").
Proof.
  destruct (setup_gemini_writes json_loads_sample (fun _ => "{}") (fun _ => "") (fun _ => "")
              strip_ascii (mk_disk None false true) " K1 ") as (_ & _ & H).
  destruct H as (d' & E & _ & _ & K & _); [vm_compute; discriminate|reflexivity|].
  exists d'. split; [exact E|]. rewrite K. vm_compute. reflexivity.
Defined.

(** X26.  [setup_ai_config] on a configuration that loads as an object.  The
    provider stored is the one chosen by "1", "2" or "3", and [local] for
    every other answer.  For [local] nothing else is changed.  For the other
    providers the API key stored is the stripped second answer, which may be
    empty, and the model is the stripped third answer or, when that is
    blank, the default model of the provider; every other entry is kept.
    When the file can be written it holds the resulting configuration
    afterwards; when it cannot, the configuration on the disk is unchanged,
    and the function returns all the same. *)
Theorem setup_ai_config_result
        (json_loads : string -> result pyval) (json_dump : pyval -> string)
        (strip : string -> string)
        (d d0 : disk) (c : list (key * pyval)) (choice key_answer model_answer : string) :
  load_config json_loads json_dump d = (d0, Ok (VDict c)) ->
  exists d' c',
    setup_ai_config json_loads json_dump strip d choice key_answer model_answer
    = (d', Ok (VDict c'))
    /\ dict_get c' (KStr "provider") = Some (VStr (provider_of_choice (strip choice)))
    /\ (provider_of_choice (strip choice) = "local"
        <-> ~ In (strip choice) ["1"; "2"; "3"])
    /\ (provider_of_choice (strip choice) = "local" ->
        forall k, k <> KStr "provider" -> dict_get c' k = dict_get c k)
    /\ (provider_of_choice (strip choice) <> "local" ->
        dict_get c' (KStr "api_key") = Some (VStr (strip key_answer))
        /\ dict_get c' (KStr "model")
           = Some (VStr (if String.eqb (strip model_answer) ""
                         then default_model (provider_of_choice (strip choice))
                         else strip model_answer))
        /\ forall k, k <> KStr "provider" -> k <> KStr "api_key" -> k <> KStr "model" ->
                     dict_get c' k = dict_get c k)
    /\ (can_write d0 = true -> file_text d' = Some (json_dump (VDict c')))
    /\ (can_write d0 = false -> d' = d0).
Proof.
  intro Hl. unfold setup_ai_config. rewrite Hl. unfold config_set. cbn [py_setitem bind].
  set (provider := provider_of_choice (strip choice)).
  set (c1 := assoc_set key_eqb c (KStr "provider") (VStr provider)).
  assert (Hchoice : provider = "local" <-> ~ In (strip choice) ["1"; "2"; "3"]).
  { unfold provider, provider_of_choice. cbn [In].
    destruct (String.eqb_spec (strip choice) "1") as [->|N1]; [split; [discriminate|tauto]|].
    destruct (String.eqb_spec (strip choice) "2") as [->|N2]; [split; [discriminate|tauto]|].
    destruct (String.eqb_spec (strip choice) "3") as [->|N3]; [split; [discriminate|tauto]|].
    split; [|reflexivity]. intros _ [E|[E|[E|[]]]]; congruence. }
  assert (Hsave : forall dd cc,
             (can_write dd = true ->
              file_text (save_config json_dump dd (VDict cc)) = Some (json_dump (VDict cc))
              /\ can_write (save_config json_dump dd (VDict cc)) = true)
             /\ (can_write dd = false -> save_config json_dump dd (VDict cc) = dd)).
  { intros dd cc. unfold save_config. destruct (can_write dd); split; intro H;
      try discriminate; [split; reflexivity|reflexivity]. }
  destruct (String.eqb_spec provider "local") as [Eloc|Nloc].
  - exists (save_config json_dump d0 (VDict c1)), c1. split; [reflexivity|].
    split; [unfold c1; rewrite dict_get_set; now rewrite key_eqb_refl|].
    split; [exact Hchoice|]. split; [|split; [|split]].
    + intros _ k Hk. unfold c1. rewrite dict_get_set. now rewrite key_eqb_neq by congruence.
    + intro N. contradiction.
    + intro Hw. now apply (Hsave d0 c1).
    + intro Hw. now apply (Hsave d0 c1).
  - set (c2 := assoc_set key_eqb c1 (KStr "api_key") (VStr (strip key_answer))).
    set (model := if String.eqb (strip model_answer) ""
                  then default_model provider else strip model_answer).
    set (c3 := assoc_set key_eqb c2 (KStr "model") (VStr model)).
    set (d1 := save_config json_dump d0 (VDict c1)).
    set (d2 := save_config json_dump d1 (VDict c2)).
    exists (save_config json_dump d2 (VDict c3)), c3. split; [reflexivity|].
    split.
    { unfold c3, c2, c1. rewrite !dict_get_set. cbn [key_eqb String.eqb Ascii.eqb Bool.eqb].
      reflexivity. }
    split; [exact Hchoice|]. split; [intro E; contradiction|]. split; [|split].
    + intros _. split; [|split].
      * unfold c3, c2. rewrite !dict_get_set. cbn [key_eqb String.eqb Ascii.eqb Bool.eqb].
        reflexivity.
      * unfold c3. rewrite dict_get_set. now rewrite key_eqb_refl.
      * intros k K1 K2 K3. unfold c3, c2, c1. rewrite !dict_get_set.
        now rewrite !key_eqb_neq by congruence.
    + intro Hw.
      assert (W1 : can_write d1 = true) by (now apply (Hsave d0 c1)).
      assert (W2 : can_write d2 = true) by (now apply (Hsave d1 c2)).
      now apply (Hsave d2 c3).
    + intro Hw.
      assert (E1 : d1 = d0) by (now apply (Hsave d0 c1)).
      assert (E2 : d2 = d0).
      { unfold d2. rewrite E1. now apply (Hsave d0 c2). }
      rewrite E2. now apply (Hsave d0 c3).
Qed.

Lemma setup_ai_config_result_witness :
  exists d' c',
    setup_ai_config json_loads_sample (fun _ => "{}") strip_ascii (mk_disk None false true)
      " 7 " "" "" = (d', Ok (VDict c'))
    /\ dict_get c' (KStr "provider") = Some (VStr "local").
Proof.
  destruct (setup_ai_config_result json_loads_sample (fun _ => "{}") strip_ascii
              (mk_disk None false true) (mk_disk (Some "{}") true true)
              (map (fun kv => (KStr (fst kv), snd kv)) default_items) " 7 " "" "" eq_refl)
    as (d' & c' & E & P & _).
  exists d', c'. split; [exact E|]. rewrite P. vm_compute. reflexivity.
Defined.

(** ** The bars of the hourly chart *)

Lemma fold_max_ge (l : list Z) (a : Z) :
  a <= fold_left Z.max l a /\ forall x, In x l -> x <= fold_left Z.max l a.
Proof.
  revert a. induction l as [|y l IH]; intro a; cbn [fold_left].
  - split; [lia|intros x []].
  - destruct (IH (Z.max a y)) as [H1 H2]. split; [lia|].
    intros x [<-|Hx]; [lia|now apply H2].
Qed.

Lemma fl_20 : (fl 20 == 20)%Q.
Proof. vm_compute. reflexivity. Qed.

Lemma fl_fifth : (fl (fl (1 # 5) * 100) == 20)%Q.
Proof. vm_compute. reflexivity. Qed.

(** [Math.max(20, p)] *)
Lemma max2_20 (p : Q) :
  (p <= 20 -> to_Q (max2 (NInt 20) (NFloat p)) == 20)%Q
  /\ (20 <= p -> to_Q (max2 (NInt 20) (NFloat p)) == p)%Q.
Proof.
  unfold max2. destruct (num_ltb (NInt 20) (NFloat p)) eqn:E.
  - apply num_ltb_lt in E. cbn [to_Q] in *. change (inject_Z 20) with 20%Q in E.
    split; intro H; lra.
  - apply num_ltb_ge in E. cbn [to_Q] in *. change (inject_Z 20) with 20%Q in *.
    split; intro H; lra.
Qed.

(** The percentage [fl (fl q * 100)] grows with [q]. *)
Lemma percent_mono (q q' : Q) :
  (0 <= q)%Q -> (q <= q')%Q -> (fl (fl q * 100) <= fl (fl q' * 100))%Q.
Proof.
  intros H0 Hle. pose proof (fl_nonneg q H0) as Ha.
  pose proof (fl_mono q q' H0 Hle) as Hm.
  apply fl_mono; [|lra]. apply Qmult_le_0_compat; [exact Ha|discriminate].
Qed.

(** X27.  The height of a bar of the hourly chart: 5 percent for an hour
    without activity; otherwise the percentage that the count of the hour is
    of the largest count of the day, computed in binary64 and so within the
    relative error [2 ^ -51] of the exact one, but not less than 20 percent.
    So the height lies between 20 and 100 percent, it is 100 percent for the
    busiest hour and 20 percent for an hour with at most a fifth of the
    largest count, and a larger count never gives a lower bar. *)
Theorem bar_heights (counts : list Z) (count : Z) :
  (count <= 0 -> bar_height counts count = NInt 5)
  /\ (0 < count -> In count counts ->
      (20 <= to_Q (bar_height counts count))%Q
      /\ (to_Q (bar_height counts count) <= 100)%Q
      /\ (count = max_count counts -> (to_Q (bar_height counts count) == 100)%Q)
      /\ (5 * count <= max_count counts -> (to_Q (bar_height counts count) == 20)%Q)
      /\ (max_count counts <= 5 * count ->
          (Qabs (to_Q (bar_height counts count)
                 - 100 * (inject_Z count / inject_Z (max_count counts)))
           <= 100 * (inject_Z count / inject_Z (max_count counts))
              * (4 * unit_roundoff))%Q)
      /\ (forall count',
             count <= count' ->
             (to_Q (bar_height counts count) <= to_Q (bar_height counts count'))%Q)).
Proof.
  unfold bar_height. split.
  - intro H. destruct (Z.ltb_spec 0 count); [lia|reflexivity].
  - intros Hpos Hin. destruct (Z.ltb_spec 0 count); [|lia].
    destruct (fold_max_ge counts 1) as [M1 M2]. fold (max_count counts) in M1, M2.
    specialize (M2 count Hin). set (m := max_count counts) in *.
    assert (Hm : (0 < inject_Z m)%Q).
    { change 0%Q with (inject_Z 0). rewrite <- Zlt_Qlt. lia. }
    assert (Hc : (0 < inject_Z count)%Q).
    { change 0%Q with (inject_Z 0). now rewrite <- Zlt_Qlt. }
    pose proof M2 as M2'. rewrite Zle_Qle in M2.
    set (q := (inject_Z count / inject_Z m)%Q).
    assert (Hq0 : (0 <= q)%Q).
    { apply Qle_shift_div_l; [exact Hm|]. lra. }
    assert (Hq1 : (q <= 1)%Q).
    { apply Qle_shift_div_r; [exact Hm|]. lra. }
    pose proof (fl_nonneg q Hq0) as Ha0.
    pose proof (fl_le_float q 1 Hq0 Hq1 fl_one) as Ha1.
    assert (Hx : (fl (fl q * 100) <= 100)%Q).
    { apply fl_le_float; [|lra|exact fl_100q].
      apply Qmult_le_0_compat; [exact Ha0|discriminate]. }
    destruct (max2_20 (fl (fl q * 100))) as [Hlow Hhigh].
    assert (H20 : (20 <= to_Q (max2 (NInt 20) (NFloat (fl (fl q * 100)))))%Q).
    { destruct (Qlt_le_dec (fl (fl q * 100)) 20) as [L|L].
      - rewrite Hlow by lra. lra.
      - rewrite Hhigh by exact L. exact L. }
    assert (H100 : (to_Q (max2 (NInt 20) (NFloat (fl (fl q * 100)))) <= 100)%Q).
    { destruct (Qlt_le_dec (fl (fl q * 100)) 20) as [L|L].
      - rewrite Hlow by lra. lra.
      - rewrite Hhigh by exact L. exact Hx. }
    split; [exact H20|]. split; [exact H100|].
    split; [|split; [|split]].
    + intro Heq.
      assert (Hq1' : (1 <= q)%Q).
      { apply Qle_shift_div_l; [exact Hm|]. rewrite Heq. fold m. lra. }
      assert (Hp : (100 <= fl (fl q * 100))%Q).
      { pose proof (fl_ge_float q 1 ltac:(lra) Hq1' fl_one) as Hb.
        apply fl_ge_float; [lra|lra|exact fl_100q]. }
      rewrite Hhigh by lra. lra.
    + intro H5. apply Hlow. rewrite <- fl_fifth. apply percent_mono; [exact Hq0|].
      apply Qle_shift_div_r; [exact Hm|].
      assert (H5' : (inject_Z (5 * count) <= inject_Z m)%Q) by (now rewrite <- Zle_Qle).
      rewrite inject_Z_mult in H5'. change (inject_Z 5) with 5%Q in H5'. lra.
    + intro H5.
      assert (Hq5 : ((1 # 5) <= q)%Q).
      { apply Qle_shift_div_l; [exact Hm|].
        assert (H5' : (inject_Z m <= inject_Z (5 * count))%Q) by (now rewrite <- Zle_Qle).
        rewrite inject_Z_mult in H5'. change (inject_Z 5) with 5%Q in H5'. lra. }
      assert (Hp : (20 <= fl (fl q * 100))%Q).
      { rewrite <- fl_fifth. apply percent_mono; [discriminate|exact Hq5]. }
      rewrite (Hhigh Hp).
      destruct (percent_error q Hq0) as [PL PU].
      apply Qabs_Qle_condition. unfold unit_roundoff in *.
      generalize dependent (fl (fl q * 100)). intros. split; lra.
    + intros count' Hle. destruct (Z.ltb_spec 0 count'); [|lia].
      assert (Hqq : (q <= inject_Z count' / inject_Z m)%Q).
      { unfold q. apply Qmult_le_compat_r.
        - now rewrite <- Zle_Qle.
        - apply Qlt_le_weak, Qinv_lt_0_compat, Hm. }
      pose proof (percent_mono q _ Hq0 Hqq) as Hmono.
      destruct (max2_20 (fl (fl (inject_Z count' / inject_Z m) * 100))) as [Hlow' Hhigh'].
      destruct (Qlt_le_dec (fl (fl (inject_Z count' / inject_Z m) * 100)) 20) as [L|L].
      * rewrite Hlow' by lra. rewrite Hlow by lra. lra.
      * rewrite Hhigh' by exact L.
        destruct (Qlt_le_dec (fl (fl q * 100)) 20) as [L2|L2].
        -- rewrite Hlow by lra. exact L.
        -- rewrite Hhigh by exact L2. exact Hmono.
Qed.

Lemma bar_heights_witness :
  (to_Q (bar_height [0; 3; 5; 4]%Z 5%Z) == 100)%Q.
Proof.
  destruct (bar_heights [0; 3; 5; 4] 5) as [_ H].
  destruct H as (_ & _ & H & _); [lia|cbn; tauto|].
  apply H. reflexivity.
Defined.
